(** * MAT costing calculator: the costing and quantity-derivation engine

    A shallow embedding of the calculation code of the Streamlit costing
    application (array designs, unit-cost resolvers, category calculators,
    labour aggregation, order scenarios) and the properties its
    specification states about it.

    Modelling conventions.

    - Numbers.  Python [float] and [int] arithmetic is modelled by exact
      rational arithmetic ([Qc], canonical rationals); a division whose
      divisor is zero raises [ZeroDivisionError] as in Python.  Where the
      code takes an integer from a float quotient, product or sum
      ([math.ceil], [//], [int()]), the rounding to the nearest float
      decides that integer and is modelled too ([Float64]).  NaN, the
      infinities and the [OverflowError] of a number beyond the range of
      a float are outside the model: the statements that depend on it say
      which numbers are within range.
    - Records.  Designs, catalog items and process steps are the
      dictionaries that [yaml.safe_load] produces: finite maps from field
      names to YAML scalars ([pyval]).
    - Exceptions.  A call either returns a value or raises ([res]);
      [try]/[except] is [try_except].
    - Text conversions.  What [float(s)], [int(s)] and [str(x)] do on
      text and on floats is a parameter of the development ([PyText]).
    - Pages.  A page either stops with a message shown to the operator
      or carries on to its figures ([page]). *)

From Stdlib Require Import QArith Qcanon Qround Qabs ZArith Lia String Ascii.
From stdpp Require Import gmap strings list fin_maps numbers pretty.

Open Scope Qc_scope.

(** ** The Python fragment the code relies on *)

Module Py.

Inductive exn :=
| TypeError | ValueError | AttributeError | KeyError | IndexError
| ZeroDivisionError.

Inductive res (A : Type) :=
| Ok (a : A)
| Raise (e : exn).
Arguments Ok {A} a.
Arguments Raise {A} e.

#[global] Instance res_bind : MBind res :=
  fun A B f m => match m with Ok a => f a | Raise e => Raise e end.
#[global] Instance res_ret : MRet res := fun A a => Ok a.
#[global] Instance res_fmap : FMap res :=
  fun A B f m => match m with Ok a => Ok (f a) | Raise e => Raise e end.

Definition raises {A} (r : res A) : bool :=
  match r with Ok _ => false | Raise _ => true end.

(** [except Exception:] and the bare [except:] *)
Definition any_exception (e : exn) : bool := true.

(** [except (TypeError, ValueError):] *)
Definition type_or_value_error (e : exn) : bool :=
  match e with TypeError | ValueError => true | _ => false end.

Definition try_except {A} (body : res A) (caught : exn -> bool)
    (handler : res A) : res A :=
  match body with
  | Ok a => Ok a
  | Raise e => if caught e then handler else Raise e
  end.

(** YAML scalars. *)
Inductive pyval :=
| PNone
| PBool (b : bool)
| PInt (z : Z)
| PFloat (q : Qc)
| PStr (s : string).

Abbreviation pydict := (gmap string pyval).

(** Decimal literals of the source, as rationals. *)
Definition qc (q : Q) : Qc := Q2Qc q.
Definition of_Z (z : Z) : Qc := Q2Qc (inject_Z z).

(** Conversions between text and numbers, left to the interpreter. *)
Class PyText := {
  str_to_float : string -> option Qc;   (* float(s); None: ValueError *)
  str_to_int : string -> option Z;      (* int(s); None: ValueError *)
  float_repr : Qc -> string             (* str(x) for a float x *)
}.

Definition upper_ascii (c : ascii) : ascii :=
  let n := nat_of_ascii c in
  if (andb (97 <=? n) (n <=? 122))%nat then ascii_of_nat (n - 32) else c.
Definition lower_ascii (c : ascii) : ascii :=
  let n := nat_of_ascii c in
  if (andb (65 <=? n) (n <=? 90))%nat then ascii_of_nat (n + 32) else c.

Fixpoint map_string (f : ascii -> ascii) (s : string) : string :=
  match s with
  | EmptyString => EmptyString
  | String c s' => String (f c) (map_string f s')
  end.

(** [s.upper()], [s.lower()] on ASCII text *)
Definition upper (s : string) : string := map_string upper_ascii s.
Definition lower (s : string) : string := map_string lower_ascii s.

(** [d.get(k)] and [d.get(k, dflt)] *)
Definition get (d : pydict) (k : string) : pyval := default PNone (d !! k).
Definition get_or (d : pydict) (k : string) (dflt : pyval) : pyval :=
  default dflt (d !! k).

(** [d[k]] *)
Definition item (d : pydict) (k : string) : res pyval :=
  match d !! k with Some v => Ok v | None => Raise KeyError end.

(** [k in d] *)
Definition has_key (d : pydict) (k : string) : bool :=
  bool_decide (is_Some (d !! k)).

(** truth value of a scalar, of a dict, of a list *)
Definition truthy (v : pyval) : bool :=
  match v with
  | PNone => false
  | PBool b => b
  | PInt z => negb (z =? 0)%Z
  | PFloat q => negb (bool_decide (q = 0))
  | PStr s => negb (bool_decide (s = ""%string))
  end.
Definition dict_truthy (d : pydict) : bool := negb (bool_decide (d = ∅)).
Definition nonempty {A} (l : list A) : bool :=
  match l with [] => false | _ => true end.

(** [math.ceil] and [int()] on a number *)
Definition ceil (x : Qc) : Z := Qceiling (this x).
Definition trunc (x : Qc) : Z :=
  Z.quot (Qnum (this x)) (Zpos (Qden (this x))).

(** [a / b] *)
Definition pdiv (a b : Qc) : res Qc :=
  if decide (b = 0) then Raise ZeroDivisionError else Ok (a / b).

(** [abs(x)] *)
Definition pabs (x : Qc) : Qc := if decide (x < 0) then - x else x.

(** numeric value of a scalar, where Python compares across int, float
    and bool *)
Definition num_of (v : pyval) : option Qc :=
  match v with
  | PBool b => Some (if b then 1 else 0)
  | PInt z => Some (of_Z z)
  | PFloat q => Some q
  | _ => None
  end.

(** [a == b] *)
Definition py_eq (a b : pyval) : bool :=
  match num_of a, num_of b with
  | Some x, Some y => bool_decide (x = y)
  | None, None =>
      match a, b with
      | PNone, PNone => true
      | PStr s, PStr t => bool_decide (s = t)
      | _, _ => false
      end
  | _, _ => false
  end.

(** [l[i]] for a non-negative index *)
Definition index {A} (l : list A) (i : nat) : res A :=
  match l !! i with Some a => Ok a | None => Raise IndexError end.

Section Text.
Context `{PyText}.

(** [float(v)] *)
Definition py_float (v : pyval) : res Qc :=
  match v with
  | PNone => Raise TypeError
  | PBool b => Ok (if b then 1 else 0)
  | PInt z => Ok (of_Z z)
  | PFloat q => Ok q
  | PStr s =>
      match str_to_float s with
      | Some q => Ok q
      | None => Raise ValueError
      end
  end.

(** [int(v)] *)
Definition py_int (v : pyval) : res Z :=
  match v with
  | PNone => Raise TypeError
  | PBool b => Ok (if b then 1 else 0)%Z
  | PInt z => Ok z
  | PFloat q => Ok (trunc q)
  | PStr s =>
      match str_to_int s with
      | Some z => Ok z
      | None => Raise ValueError
      end
  end.

(** [str(v)] *)
Definition py_str (v : pyval) : string :=
  match v with
  | PNone => "None"
  | PBool true => "True"
  | PBool false => "False"
  | PInt z => pretty z
  | PFloat q => float_repr q
  | PStr s => s
  end.

(** [(v or dflt).upper()] and [(v or dflt).lower()], [dflt] a literal *)
Definition or_upper (v : pyval) (dflt : string) : res string :=
  if truthy v then
    match v with PStr s => Ok (upper s) | _ => Raise AttributeError end
  else Ok (upper dflt).
Definition or_lower (v : pyval) (dflt : string) : res string :=
  if truthy v then
    match v with PStr s => Ok (lower s) | _ => Raise AttributeError end
  else Ok (lower dflt).
End Text.

(** What a page shows when it stops early. *)
Inductive level := Warning | Error | Info.

Inductive page (A : Type) :=
| Stop (l : level) (msg : string)
| Shown (a : A).
Arguments Stop {A} l msg.
Arguments Shown {A} a.

End Py.
Export Py.

(** ** Floats

    A Python [float] is an IEEE 754 binary64 number: zero, or [m * 2^e]
    for integers [m] and [e] with [|m| < 2^53] and [-1074 <= e <= 971].
    An arithmetic operation on floats returns the float nearest to the
    exact result and, of two nearest, the one with the even [m]. *)

Module Float64.

(** [floor(log2 x)] of a positive rational *)
Definition ilog2 (x : Q) : Z :=
  let k := (Z.log2 (Qnum x) - Z.log2 (Zpos (Qden x)))%Z in
  if Qle_bool (2 ^ k) x then k else (k - 1)%Z.

(** The integer nearest to [x], the even one of two nearest. *)
Definition nearest_even (x : Q) : Z :=
  let f := Qfloor x in
  match (x - inject_Z f ?= 1 # 2)%Q with
  | Lt => f
  | Gt => (f + 1)%Z
  | Eq => if Z.even f then f else (f + 1)%Z
  end.

(** The exponent [e] of the floats around [x]: 53 binary digits from the
    leading one of [x], and not below the exponent of the least floats. *)
Definition exponent (x : Q) : Z := Z.max (ilog2 (Qabs x) - 52) (-1074).

(** The float nearest to [x]. *)
Definition round (x : Qc) : Qc :=
  if decide (x = 0) then 0
  else
    let e := exponent (this x) in
    Q2Qc (inject_Z (nearest_even (this x / 2 ^ e)) * 2 ^ e).



(** The float that a decimal of the source, of a file or of a widget
    stands for. *)
Definition literal (q : Q) : Qc := round (Q2Qc q).

(** [float(z)], also where an [int] meets a [float] in an operation *)
Definition of_int (z : Z) : Qc := round (Q2Qc (inject_Z z)).

(** [a + b], [a * b], [a / b] on floats *)
Definition add (a b : Qc) : Qc := round (a + b).
Definition mul (a b : Qc) : Qc := round (a * b).
Definition div (a b : Qc) : res Qc :=
  if decide (b = 0) then Raise ZeroDivisionError else Ok (round (a / b)).

(** [a // b] on floats: the floor of the exact quotient, as a float.
    (Python computes it from the exact remainder; below 2^51 the result
    is that integer.) *)
Definition floor_div (a b : Qc) : res Qc :=
  if decide (b = 0) then Raise ZeroDivisionError
  else Ok (round (Q2Qc (inject_Z (Qfloor (this (a / b)))))).

End Float64.

(** ** pages/array_designs.py *)

Module ArrayDesigns.

Definition CELL_AREA_CM2 : Qc := qc 20.0.
Definition CELL_AREA_M2 : Qc := CELL_AREA_CM2 / qc 10000.0.
Definition IRRADIANCE_AM15 : Qc := qc 1000.0.
Definition IRRADIANCE_AM0 : Qc := qc 1366.0.

Record power := {
  P_cell_AM15_W : Qc;
  P_array_AM15_W : Qc;
  P_cell_AM0_W : Qc;
  P_array_AM0_W : Qc
}.

Section Text.
Context `{PyText}.

Definition compute_power_for_design (design : pydict) : res power :=
  num_cells ← py_float (get_or design "num_cells" (PInt 0));
  eff15_pct ← py_float (get_or design "eff_am15_percent" (PFloat 0));
  eff0_pct ← py_float (get_or design "eff_am0_percent" (PFloat 0));
  let eff15 := eff15_pct / qc 100.0 in
  let eff0 := eff0_pct / qc 100.0 in
  let p_cell_15 := eff15 * IRRADIANCE_AM15 * CELL_AREA_M2 in
  let p_array_15 := p_cell_15 * num_cells in
  let p_cell_0 := eff0 * IRRADIANCE_AM0 * CELL_AREA_M2 in
  let p_array_0 := p_cell_0 * num_cells in
  Ok {| P_cell_AM15_W := p_cell_15;
        P_array_AM15_W := p_array_15;
        P_cell_AM0_W := p_cell_0;
        P_array_AM0_W := p_array_0 |}.
End Text.

(** The pages' selection
    [power["P_array_AM15_W"] if illumination == "AM1.5" else power["P_array_AM0_W"]] *)
Definition array_power_for (illumination : string) (p : power) : Qc :=
  if decide (illumination = "AM1.5"%string) then P_array_AM15_W p
  else P_array_AM0_W p.

End ArrayDesigns.


(** ** Control flow shared by the resolvers *)

Module Flow.

(** The outcome of a [try] body that either leaves the function with a
    [return] or falls through to the code after the [try]. *)
Inductive flow (A : Type) :=
| Return (r : Qc)
| Next (a : A).
Arguments Return {A} r.
Arguments Next {A} a.

(** [try: body  except caught: return on_exn] followed by [k]. *)
Definition try_then {A} (body : res (flow A)) (caught : exn -> bool)
    (on_exn : Qc) (k : A -> res Qc) : res Qc :=
  match body with
  | Ok (Return r) => Ok r
  | Ok (Next a) => k a
  | Raise e => if caught e then Ok on_exn else Raise e
  end.

(** [v is None] *)
Definition is_none (v : pyval) : bool :=
  match v with PNone => true | _ => false end.

End Flow.
Export Flow.

(** ** Data handed to the pages: catalog, designs, session *)

Module Data.

(** [load_materials()]: category name to the ordered list of items;
    [materials.get(category, [])] *)
Abbreviation materials_db := (gmap string (list pydict)).

Definition category (materials : materials_db) (name : string)
    : list pydict :=
  default [] (materials !! name).

(** [next((d for d in designs if d["name"] == selected_name), None)] *)
Fixpoint find_design (designs : list pydict) (selected_name : pyval)
    : res (option pydict) :=
  match designs with
  | [] => Ok None
  | d :: rest =>
      n ← item d "name";
      if py_eq n selected_name then Ok (Some d)
      else find_design rest selected_name
  end.

(** The per-category selections that the cost pages keep in
    [st.session_state]. *)
Record silver_state := {
  top_tab_silver_index : nat;
  top_tab_length_mm : Qc
}.

Record diodes_state := {
  bypass_diode_index : nat;
  bypass_silver_index : nat;
  bypass_tab_length_mm : Qc;
  bypass_tab_width_mm : Qc;
  bypass_yield_percent : Qc;
  blocking_diode_index : nat;
  blocking_yield_percent : Qc
}.

Record lamination_state := {
  layer_indices : list nat;
  layer_waste_mm : list Qc;
  liner_index : nat
}.

Record tapes_state := {
  perimeter_tape_idx : nat;
  other_tape_idx : nat;
  other_length_mm : Qc
}.

Record misc_state := {
  epoxy_index : nat;
  epoxy_per_diode_ml : Qc
}.

Record packaging_state := {
  frame_idx : nat;
  board_idx : nat;
  box_idx : nat;
  arrays_per_box : Z
}.

Record session := {
  selected_array_design : option pyval;
  selected_illumination : option string;
  cost_silver_state : option silver_state;
  cost_diodes_state : option diodes_state;
  cost_lamination_state : option lamination_state;
  cost_tapes_state : option tapes_state;
  cost_misc_state : option misc_state;
  cost_packaging_state : option packaging_state
}.

(** The defaults written in the source next to each
    [st.session_state.get]. *)
Definition default_silver_state : silver_state :=
  {| top_tab_silver_index := 0; top_tab_length_mm := qc 5.0 |}.

Definition default_diodes_state : diodes_state :=
  {| bypass_diode_index := 0;
     bypass_silver_index := 0;
     bypass_tab_length_mm := qc 5.0;
     bypass_tab_width_mm := qc 1.5;
     bypass_yield_percent := qc 80;
     blocking_diode_index := 0;
     blocking_yield_percent := qc 90 |}.

Definition default_lamination_state : lamination_state :=
  {| layer_indices := [0; 0; 0]%nat;
     layer_waste_mm := [qc 0.0; qc 0.0; qc 0.0];
     liner_index := 0 |}.

Definition default_tapes_state : tapes_state :=
  {| perimeter_tape_idx := 0; other_tape_idx := 0; other_length_mm := qc 0.0 |}.

Definition default_misc_state : misc_state :=
  {| epoxy_index := 0; epoxy_per_diode_ml := qc 0.0 |}.

Definition default_packaging_state : packaging_state :=
  {| frame_idx := 0; board_idx := 0; box_idx := 0; arrays_per_box := 4 |}.

(** [st.session_state.get("selected_illumination", "AM1.5")] *)
Definition illumination_of (s : session) : string :=
  default "AM1.5"%string (selected_illumination s).

(** [items[min(idx, len(items) - 1)]] *)
Definition clamped {A} (items : list A) (idx : nat) : res A :=
  index items (Nat.min idx (length items - 1)).

End Data.
Export Data.

(** ** pages/cost_silver.py *)

Module CostSilver.
Section Text.
Context `{PyText}.

Definition get_silver_cost_per_mm (silver_item : pydict)
    (exchange_rate : Qc) : res Qc :=
  try_then
    (price_per_g ← py_float (get_or silver_item "price_per_g" (PInt 0));
     currency ← or_upper (get_or silver_item "price_currency" (PStr "USD")) "USD";
     width_mm ← py_float (get_or silver_item "width_mm" (PInt 0));
     thickness_mm ← py_float (get_or silver_item "thickness_mm" (PInt 0));
     density ← py_float (get_or silver_item "density_g_cm3" (PInt 0));
     Ok (Next (price_per_g, currency, width_mm, thickness_mm, density)))
    any_exception 0
    (fun '(price_per_g, currency, width_mm, thickness_mm, density) =>
       if bool_decide (width_mm <= 0) || bool_decide (thickness_mm <= 0)
          || bool_decide (density <= 0)
       then Ok 0
       else
         let price_gbp :=
           if decide (currency = "USD"%string)
           then price_per_g * exchange_rate else price_per_g in
         let width_cm := width_mm / qc 10 in
         let thickness_cm := thickness_mm / qc 10 in
         let length_cm := qc 0.1 in
         let volume_cm3 := width_cm * thickness_cm * length_cm in
         let grams := volume_cm3 * density in
         Ok (grams * price_gbp)).

End Text.
End CostSilver.

(** ** pages/cost_diodes.py: helpers *)

Module CostDiodes.
Section Text.
Context `{PyText}.

Definition get_silver_cost_per_mm (silver_item : pydict)
    (exchange_rate_gbp_per_usd : Qc) (override_width_mm : option Qc)
    : res Qc :=
  try_then
    (price_per_g ← py_float (get_or silver_item "price_per_g" (PInt 0));
     currency ← or_upper (get_or silver_item "price_currency" (PStr "USD")) "USD";
     width_mm ←
       match override_width_mm with
       | Some w => Ok w
       | None => py_float (get_or silver_item "width_mm" (PInt 0))
       end;
     thickness_mm ← py_float (get_or silver_item "thickness_mm" (PInt 0));
     density_g_cm3 ← py_float (get_or silver_item "density_g_cm3" (PInt 0));
     Ok (Next (price_per_g, currency, width_mm, thickness_mm, density_g_cm3)))
    any_exception 0
    (fun '(price_per_g, currency, width_mm, thickness_mm, density_g_cm3) =>
       if bool_decide (width_mm <= 0) || bool_decide (thickness_mm <= 0)
          || bool_decide (density_g_cm3 <= 0)
       then Ok 0
       else
         let price_per_g_gbp :=
           if decide (currency = "USD"%string)
           then price_per_g * exchange_rate_gbp_per_usd else price_per_g in
         let width_cm := width_mm / qc 10.0 in
         let thickness_cm := thickness_mm / qc 10.0 in
         let length_cm := qc 0.1 in
         let volume_cm3_per_mm := width_cm * thickness_cm * length_cm in
         let grams_per_mm := volume_cm3_per_mm * density_g_cm3 in
         Ok (grams_per_mm * price_per_g_gbp)).

Definition get_diode_price_gbp (diode_item : pydict)
    (exchange_rate_gbp_per_usd : Qc) : res Qc :=
  currency ← or_upper (get_or diode_item "currency" (PStr "USD")) "USD";
  try_except
    (if decide (currency = "USD"%string) then
       let unit_cost_usd := get_or diode_item "unit_cost_usd" PNone in
       if is_none unit_cost_usd then Ok 0
       else c ← py_float unit_cost_usd; Ok (c * exchange_rate_gbp_per_usd)
     else
       let unit_cost_gbp := get_or diode_item "unit_cost_gbp" PNone in
       if is_none unit_cost_gbp then Ok 0
       else py_float unit_cost_gbp)
    type_or_value_error (Ok 0).

Definition get_weld_cost_per_weld (weld_item : pydict)
    (exchange_rate_gbp_per_usd : Qc) : res Qc :=
  currency ← or_upper (get_or weld_item "currency" (PStr "USD")) "USD";
  try_then
    (num_welds ← py_float (get_or weld_item "num_welds" (PInt 0));
     Ok (Next num_welds))
    type_or_value_error 0
    (fun num_welds =>
       if bool_decide (num_welds <= 0) then Ok 0
       else
         try_then
           (if decide (currency = "USD"%string) then
              let unit_cost_usd := get_or weld_item "unit_cost_usd" PNone in
              if is_none unit_cost_usd then Ok (Return 0)
              else c ← py_float unit_cost_usd;
                   Ok (Next (c * exchange_rate_gbp_per_usd))
            else
              let unit_cost_gbp := get_or weld_item "unit_cost_gbp" PNone in
              if is_none unit_cost_gbp then Ok (Return 0)
              else c ← py_float unit_cost_gbp; Ok (Next c))
           type_or_value_error 0
           (fun total_cost_gbp => pdiv total_cost_gbp num_welds)).

Definition find_material_by_id (items : list pydict) (mat_id : pyval)
    : option pydict :=
  if negb (truthy mat_id) then None
  else
    List.find
      (fun item =>
         bool_decide (py_str (get_or item "id" (PStr "")) = py_str mat_id))
      items.

(** What the operator picks in the page's widgets. *)
Record diodes_choice := {
  chosen_bypass_diode : nat;
  chosen_bypass_silver : nat;
  chosen_tab_length_mm : Qc;
  chosen_tab_width_mm : Qc;
  chosen_bypass_yield_percent : Z;
  chosen_blocking_diode : nat;
  chosen_blocking_yield_percent : Z
}.

Record bypass_figures := {
  silver_cost_per_bypass_diode : Qc;
  weld_cost_per_bypass_diode : Qc;
  raw_cost_per_bypass_diode : Qc;
  effective_cost_per_bypass_diode : Qc;
  total_bypass_cost : Qc
}.

(** The bypass-diode arithmetic of the page, from the resolved unit
    costs on. *)
Definition bypass_diodes (price_bypass_gbp cost_per_mm_bypass_tab
    cost_per_weld_al cost_per_weld_au tab_length_mm bypass_yield : Qc)
    (num_cells : Z) : res bypass_figures :=
  let tabs_per_bypass_diode := 2 in
  let total_tab_length_per_diode_mm := tabs_per_bypass_diode * tab_length_mm in
  let silver_cost_per_bypass_diode :=
    cost_per_mm_bypass_tab * total_tab_length_per_diode_mm in
  let weld_cost_per_bypass_diode := cost_per_weld_al + cost_per_weld_au in
  let raw_cost_per_bypass_diode :=
    price_bypass_gbp + silver_cost_per_bypass_diode
    + weld_cost_per_bypass_diode in
  effective_cost_per_bypass_diode ←
    (if bool_decide (0 < bypass_yield)
     then pdiv raw_cost_per_bypass_diode bypass_yield
     else Ok 0);
  Ok {| silver_cost_per_bypass_diode := silver_cost_per_bypass_diode;
        weld_cost_per_bypass_diode := weld_cost_per_bypass_diode;
        raw_cost_per_bypass_diode := raw_cost_per_bypass_diode;
        effective_cost_per_bypass_diode := effective_cost_per_bypass_diode;
        total_bypass_cost :=
          effective_cost_per_bypass_diode * of_Z num_cells |}.

Record blocking_figures := {
  silver_cost_per_blocking_diode : Qc;
  weld_cost_per_blocking_diode : Qc;
  raw_cost_per_blocking_diode : Qc;
  effective_cost_per_blocking_diode : Qc;
  total_blocking_cost : Qc
}.

(** The blocking-diode arithmetic of the page, from the resolved unit
    costs on. *)
Definition blocking_diodes (price_blocking_gbp cost_per_mm_blocking_tab
    cost_per_weld_bl block_len1_mm block_len2_mm blocking_yield : Qc)
    : res blocking_figures :=
  let num_blocking_diodes := 2 in
  let total_blocking_tab_length_per_diode_mm := block_len1_mm + block_len2_mm in
  let silver_cost_per_blocking_diode :=
    cost_per_mm_blocking_tab * total_blocking_tab_length_per_diode_mm in
  let welds_per_blocking_diode := 2 in
  let weld_cost_per_blocking_diode :=
    welds_per_blocking_diode * cost_per_weld_bl in
  let raw_cost_per_blocking_diode :=
    price_blocking_gbp + silver_cost_per_blocking_diode
    + weld_cost_per_blocking_diode in
  effective_cost_per_blocking_diode ←
    (if bool_decide (0 < blocking_yield)
     then pdiv raw_cost_per_blocking_diode blocking_yield
     else Ok 0);
  Ok {| silver_cost_per_blocking_diode := silver_cost_per_blocking_diode;
        weld_cost_per_blocking_diode := weld_cost_per_blocking_diode;
        raw_cost_per_blocking_diode := raw_cost_per_blocking_diode;
        effective_cost_per_blocking_diode :=
          effective_cost_per_blocking_diode;
        total_blocking_cost :=
          effective_cost_per_blocking_diode * num_blocking_diodes |}.

Record diodes_figures := {
  bypass : bypass_figures;
  blocking : blocking_figures;
  total_diode_cost : Qc;
  cost_per_watt : option Qc
}.

(** The page.  When it stops at the missing blocking-tab silver, the
    bypass figures have already been written to the screen; [Stop] keeps
    the message only. *)
Definition render (s : session) (exchange_rate : Qc)
    (designs : list pydict) (materials : materials_db)
    (ui : diodes_choice) : res (page diodes_figures) :=
  match selected_array_design s with
  | None =>
      Ok (Stop Warning
            "Please choose an array design on the **Home** page first.")
  | Some selected_name =>
  let illumination := illumination_of s in
  design ← find_design designs selected_name;
  match design with
  | None =>
      Ok (Stop Error
            "Selected array design not found. Please re-select on Home page.")
  | Some design =>
  power ← ArrayDesigns.compute_power_for_design design;
  let array_power := ArrayDesigns.array_power_for illumination power in
  num_cells ← py_int (get_or design "num_cells" (PInt 0));
  if bool_decide (num_cells <= 0)%Z then
    Ok (Stop Error "Array design has invalid number of cells.")
  else
  let diode_items := category materials "Diodes" in
  let silver_items := category materials "Silver Ribbon" in
  let weld_items := category materials "Weld heads" in
  if negb (nonempty diode_items) then
    Ok (Stop Error
          "No diode materials found. Add some under Materials → Diodes.")
  else if negb (nonempty silver_items) then
    Ok (Stop Error
          "No silver ribbon materials found. Add some under Materials → Silver Ribbon.")
  else if negb (nonempty weld_items) then
    Ok (Stop Error
          "No weld head materials found. Add some under Materials → Weld heads.")
  else
  match find_material_by_id weld_items (PStr "Weld_Head_Al"),
        find_material_by_id weld_items (PStr "Weld_Head_Au"),
        find_material_by_id weld_items (PStr "Weld_Head_BL") with
  | Some weld_head_al, Some weld_head_au, Some weld_head_bl =>
      cost_per_weld_al ← get_weld_cost_per_weld weld_head_al exchange_rate;
      cost_per_weld_au ← get_weld_cost_per_weld weld_head_au exchange_rate;
      cost_per_weld_bl ← get_weld_cost_per_weld weld_head_bl exchange_rate;
      (* bypass diodes *)
      let bypass_idx := chosen_bypass_diode ui in
      bypass_diode_item ← index diode_items bypass_idx;
      price_bypass_gbp ← get_diode_price_gbp bypass_diode_item exchange_rate;
      let bypass_silver_idx := chosen_bypass_silver ui in
      bypass_silver_item ← index silver_items bypass_silver_idx;
      let tab_length_mm := chosen_tab_length_mm ui in
      let tab_width_mm := chosen_tab_width_mm ui in
      let bypass_yield_percent := chosen_bypass_yield_percent ui in
      let bypass_yield := of_Z bypass_yield_percent / qc 100.0 in
      cost_per_mm_bypass_tab ←
        get_silver_cost_per_mm bypass_silver_item exchange_rate
          (Some tab_width_mm);
      bypass ←
        bypass_diodes price_bypass_gbp cost_per_mm_bypass_tab
          cost_per_weld_al cost_per_weld_au tab_length_mm bypass_yield
          num_cells;
      (* blocking diodes *)
      let blocking_idx := chosen_blocking_diode ui in
      blocking_diode_item ← index diode_items blocking_idx;
      price_blocking_gbp ←
        get_diode_price_gbp blocking_diode_item exchange_rate;
      let block_silver_id := get_or design "blocking_tab_silver_id" (PStr "") in
      block_silver_width ←
        py_float (get_or design "blocking_tab_width_mm" (PFloat 0));
      block_len1_mm ←
        py_float (get_or design "blocking_tab_length1_mm" (PFloat 0));
      block_len2_mm ←
        py_float (get_or design "blocking_tab_length2_mm" (PFloat 0));
      match find_material_by_id silver_items block_silver_id with
      | None =>
          Ok (Stop Error
                "Blocking tab silver material not found in Silver Ribbon materials. Check `blocking_tab_silver_id` in the array design.")
      | Some blocking_silver_item =>
          let blocking_yield_percent := chosen_blocking_yield_percent ui in
          let blocking_yield := of_Z blocking_yield_percent / qc 100.0 in
          cost_per_mm_blocking_tab ←
            get_silver_cost_per_mm blocking_silver_item exchange_rate
              (Some block_silver_width);
          blocking ←
            blocking_diodes price_blocking_gbp cost_per_mm_blocking_tab
              cost_per_weld_bl block_len1_mm block_len2_mm blocking_yield;
          let total_diode_cost :=
            total_bypass_cost bypass + total_blocking_cost blocking in
          cost_per_watt ←
            (if bool_decide (0 < array_power)
             then Some <$> pdiv total_diode_cost array_power
             else Ok None);
          Ok (Shown
                {| bypass := bypass;
                   blocking := blocking;
                   total_diode_cost := total_diode_cost;
                   cost_per_watt := cost_per_watt |})
      end
  | _, _, _ =>
      Ok (Stop Error
            "One or more required weld heads (Weld_Head_Al, Weld_Head_Au, Weld_Head_BL) are missing from Materials → Weld heads.")
  end
  end
  end.

End Text.
End CostDiodes.

(** ** pages/cost_weld_heads.py: helpers and weld counts *)

Module CostWeldHeads.
Section Text.
Context `{PyText}.

Definition find_material_by_id (items : list pydict) (mat_id : pyval)
    : option pydict :=
  List.find
    (fun item =>
       bool_decide (py_str (get_or item "id" (PStr "")) = py_str mat_id))
    items.

(** [weld_item] is [None] when the head was not found in the catalog. *)
Definition get_weld_cost_per_weld (weld_item : option pydict)
    (exchange_rate_gbp_per_usd : Qc) : res Qc :=
  match weld_item with
  | None => Ok 0
  | Some weld_item =>
      try_then
        (currency ← or_upper (get_or weld_item "currency" (PStr "USD")) "USD";
         num_welds ← py_float (get_or weld_item "num_welds" (PInt 0));
         Ok (Next (currency, num_welds)))
        any_exception 0
        (fun '(currency, num_welds) =>
           if bool_decide (num_welds <= 0) then Ok 0
           else if decide (currency = "USD"%string) then
             let unit_cost_usd := get_or weld_item "unit_cost_usd" PNone in
             if is_none unit_cost_usd then Ok 0
             else
               c ← py_float unit_cost_usd;
               let unit_cost_gbp := c * exchange_rate_gbp_per_usd in
               pdiv unit_cost_gbp num_welds
           else
             unit_cost_gbp ← py_float (get_or weld_item "unit_cost_gbp" (PInt 0));
             pdiv unit_cost_gbp num_welds)
  end.

End Text.

(** Weld counts per array, by location (Ag head) and by head. *)
Record weld_counts := {
  top_tab_welds : Z;
  negative_end_welds : Z;
  positive_end_welds : Z;
  bypass_diode_welds : Z;
  ag_welds_per_array : Z;
  al_welds_per_array : Z;
  au_welds_per_array : Z;
  bl_welds_per_array : Z
}.

Definition weld_counts_per_array (cells : Z) : weld_counts :=
  let top_tabs := (2 * (cells - 1))%Z in
  let top_tab_welds := (top_tabs * 4)%Z in
  let negative_end_welds := 8%Z in
  let positive_end_welds := 4%Z in
  let bypass_diode_welds := (cells * 2)%Z in
  let ag_welds_per_array :=
    (top_tab_welds + negative_end_welds + positive_end_welds
     + bypass_diode_welds)%Z in
  let bypass_diodes_per_array := cells in
  let blocking_diodes_per_array := 2%Z in
  {| top_tab_welds := top_tab_welds;
     negative_end_welds := negative_end_welds;
     positive_end_welds := positive_end_welds;
     bypass_diode_welds := bypass_diode_welds;
     ag_welds_per_array := ag_welds_per_array;
     al_welds_per_array := bypass_diodes_per_array;
     au_welds_per_array := bypass_diodes_per_array;
     bl_welds_per_array := (2 * blocking_diodes_per_array)%Z |}.

Record weld_heads_figures := {
  counts : weld_counts;
  cost_al_per_array : Qc;
  cost_au_per_array : Qc;
  cost_bl_per_array : Qc;
  cost_ag_per_array : Qc;
  total_welds_all_heads : Z;
  total_cost_all_heads : Qc;
  cost_per_watt_all : option Qc
}.

Section Page.
Context `{PyText}.

Definition render (s : session) (exchange_rate : Qc)
    (designs : list pydict) (materials : materials_db)
    : res (page weld_heads_figures) :=
  match selected_array_design s with
  | None =>
      Ok (Stop Warning "Please choose an array design on the Home page first.")
  | Some selected_name =>
  let illumination := illumination_of s in
  design ← find_design designs selected_name;
  match design with
  | None => Ok (Stop Error "Selected array design not found.")
  | Some design =>
  let weld_items := category materials "Weld heads" in
  if negb (nonempty weld_items) then
    Ok (Stop Error
          "No weld head materials found. Add some under Materials → Weld heads.")
  else
  let weld_head_ag := find_material_by_id weld_items (PStr "Weld_Head_Ag") in
  let weld_head_al := find_material_by_id weld_items (PStr "Weld_Head_Al") in
  let weld_head_au := find_material_by_id weld_items (PStr "Weld_Head_Au") in
  let weld_head_bl := find_material_by_id weld_items (PStr "Weld_Head_BL") in
  match weld_head_ag with
  | None => Ok (Stop Error "Weld_Head_Ag not found in Weld heads materials.")
  | Some _ =>
  cost_per_weld_ag ← get_weld_cost_per_weld weld_head_ag exchange_rate;
  cost_per_weld_al ← get_weld_cost_per_weld weld_head_al exchange_rate;
  cost_per_weld_au ← get_weld_cost_per_weld weld_head_au exchange_rate;
  cost_per_weld_bl ← get_weld_cost_per_weld weld_head_bl exchange_rate;
  power ← ArrayDesigns.compute_power_for_design design;
  let array_power := ArrayDesigns.array_power_for illumination power in
  cells ← py_int (get_or design "num_cells" (PInt 0));
  if bool_decide (cells <= 0)%Z then
    Ok (Stop Error "Array design has invalid number of cells.")
  else
  let c := weld_counts_per_array cells in
  let total_al_welds := al_welds_per_array c in
  let total_au_welds := au_welds_per_array c in
  let total_bl_welds := bl_welds_per_array c in
  let total_ag_welds := ag_welds_per_array c in
  let total_welds_all_heads :=
    (total_al_welds + total_au_welds + total_bl_welds + total_ag_welds)%Z in
  let cost_al_per_array := of_Z total_al_welds * cost_per_weld_al in
  let cost_au_per_array := of_Z total_au_welds * cost_per_weld_au in
  let cost_bl_per_array := of_Z total_bl_welds * cost_per_weld_bl in
  let cost_ag_per_array := of_Z total_ag_welds * cost_per_weld_ag in
  let total_cost_all_heads :=
    cost_al_per_array + cost_au_per_array + cost_bl_per_array
    + cost_ag_per_array in
  cost_per_watt_all ←
    (if bool_decide (0 < array_power)
     then Some <$> pdiv total_cost_all_heads array_power
     else Ok None);
  Ok (Shown
        {| counts := c;
           cost_al_per_array := cost_al_per_array;
           cost_au_per_array := cost_au_per_array;
           cost_bl_per_array := cost_bl_per_array;
           cost_ag_per_array := cost_ag_per_array;
           total_welds_all_heads := total_welds_all_heads;
           total_cost_all_heads := total_cost_all_heads;
           cost_per_watt_all := cost_per_watt_all |})
  end
  end
  end.

End Page.

End CostWeldHeads.

(** ** pages/cost_lamination.py and pages/cost_tapes.py: helpers *)

Module CostLamination.
Section Text.
Context `{PyText}.

Definition get_lamination_cost_per_m (item : pydict)
    (exchange_rate_gbp_per_usd : Qc) : res Qc :=
  try_then
    (length_value ← py_float (get_or item "roll_length_value" (PFloat 0));
     length_unit ← or_lower (get_or item "roll_length_unit" (PStr "m")) "m";
     Ok (Next (length_value, length_unit)))
    any_exception 0
    (fun '(length_value, length_unit) =>
       if bool_decide (length_value <= 0) then Ok 0
       else
         let roll_length_m :=
           if bool_decide (length_unit ∈ ["ft"; "foot"; "feet"]%string)
           then length_value * qc 0.3048 else length_value in
         let roll_cost_gbp := get_or item "roll_cost_gbp" PNone in
         let roll_cost_usd := get_or item "roll_cost_usd" PNone in
         if negb (is_none roll_cost_gbp) then
           try_except (c ← py_float roll_cost_gbp; pdiv c roll_length_m)
             any_exception (Ok 0)
         else if negb (is_none roll_cost_usd) then
           try_except
             (c ← py_float roll_cost_usd;
              pdiv (c * exchange_rate_gbp_per_usd) roll_length_m)
             any_exception (Ok 0)
         else Ok 0).

End Text.
End CostLamination.

Module CostTapes.
Section Text.
Context `{PyText}.

Definition get_tape_cost_per_m (item : pydict)
    (exchange_rate_gbp_per_usd : Qc) : res Qc :=
  try_then
    (length_value ← py_float (get_or item "roll_length_value" (PFloat 0));
     length_unit ← or_lower (get_or item "roll_length_unit" (PStr "m")) "m";
     Ok (Next (length_value, length_unit)))
    any_exception 0
    (fun '(length_value, length_unit) =>
       if bool_decide (length_value <= 0) then Ok 0
       else
         let roll_length_m :=
           if bool_decide (length_unit ∈ ["ft"; "foot"; "feet"]%string)
           then length_value * qc 0.3048 else length_value in
         let roll_cost_gbp := get_or item "roll_cost_gbp" PNone in
         let roll_cost_usd := get_or item "roll_cost_usd" PNone in
         if negb (is_none roll_cost_gbp) then
           try_except (c ← py_float roll_cost_gbp; pdiv c roll_length_m)
             any_exception (Ok 0)
         else if negb (is_none roll_cost_usd) then
           try_except
             (c ← py_float roll_cost_usd;
              pdiv (c * exchange_rate_gbp_per_usd) roll_length_m)
             any_exception (Ok 0)
         else Ok 0).

End Text.
End CostTapes.

(** ** pages/cost_misc.py: helpers *)

Module CostMisc.
Section Text.
Context `{PyText}.

(** [if k in item: try: return float(item[k]) except (TypeError,
    ValueError): pass]: [Some r] when the function returns [r] here. *)
Definition precomputed (item : pydict) (k : string) : option (res Qc) :=
  if has_key item k then
    match (v ← Py.item item k; py_float v) with
    | Ok q => Some (Ok q)
    | Raise e => if type_or_value_error e then None else Some (Raise e)
    end
  else None.

Definition get_kapton_cost_per_disk (item : pydict)
    (exchange_rate_gbp_per_usd : Qc) : res Qc :=
  match precomputed item "cost_per_disk_gbp" with
  | Some r => r
  | None =>
      let disks := get_or item "disks_per_roll" PNone in
      if negb (truthy disks) then Ok 0
      else
        try_then (d ← py_float disks; Ok (Next d)) type_or_value_error 0
          (fun disks =>
             if bool_decide (disks <= 0) then Ok 0
             else
               let total_cost_gbp := get_or item "total_cost_gbp" PNone in
               if negb (is_none total_cost_gbp) then
                 try_except (c ← py_float total_cost_gbp; pdiv c disks)
                   type_or_value_error (Ok 0)
               else
                 let roll_cost_usd := get_or item "roll_cost_usd" PNone in
                 currency ← or_upper (get_or item "currency" (PStr "USD")) "USD";
                 if negb (is_none roll_cost_usd)
                    && bool_decide (currency = "USD"%string)
                 then
                   try_except
                     (c ← py_float roll_cost_usd;
                      let total_cost_gbp := c * exchange_rate_gbp_per_usd in
                      pdiv total_cost_gbp disks)
                     type_or_value_error (Ok 0)
                 else Ok 0)
  end.

Definition get_epoxy_cost_per_ml (item : pydict)
    (exchange_rate_gbp_per_usd : Qc) : res Qc :=
  match precomputed item "cost_per_ml_gbp" with
  | Some r => r
  | None =>
      let volume_ml := get_or item "volume_ml" PNone in
      if negb (truthy volume_ml) then Ok 0
      else
        try_then (v ← py_float volume_ml; Ok (Next v)) type_or_value_error 0
          (fun volume_ml =>
             if bool_decide (volume_ml <= 0) then Ok 0
             else
               let total_cost_gbp := get_or item "total_cost_gbp" PNone in
               if negb (is_none total_cost_gbp) then
                 try_except (c ← py_float total_cost_gbp; pdiv c volume_ml)
                   type_or_value_error (Ok 0)
               else
                 let total_cost_usd := get_or item "total_cost_usd" PNone in
                 currency ← or_upper (get_or item "currency" (PStr "GBP")) "GBP";
                 if negb (is_none total_cost_usd)
                    && bool_decide (currency = "USD"%string)
                 then
                   try_except
                     (c ← py_float total_cost_usd;
                      let total_cost_gbp := c * exchange_rate_gbp_per_usd in
                      pdiv total_cost_gbp volume_ml)
                     type_or_value_error (Ok 0)
                 else Ok 0)
  end.

End Text.
End CostMisc.

(** ** pages/cost_packaging.py: helpers *)

Module CostPackaging.
Section Text.
Context `{PyText}.

Definition get_unit_cost_gbp (item : pydict)
    (exchange_rate_gbp_per_usd : Qc) : res Qc :=
  currency ← or_upper (get_or item "currency" (PStr "GBP")) "GBP";
  if has_key item "unit_cost_gbp" && negb (is_none (get item "unit_cost_gbp"))
  then
    try_except (py_float (get item "unit_cost_gbp"))
      type_or_value_error (Ok 0)
  else if has_key item "unit_cost_usd"
          && negb (is_none (get item "unit_cost_usd"))
          && bool_decide (currency = "USD"%string)
  then
    try_except
      (c ← py_float (get item "unit_cost_usd");
       Ok (c * exchange_rate_gbp_per_usd))
      type_or_value_error (Ok 0)
  else Ok 0.

Definition get_foam_cost_per_piece (item : pydict)
    (exchange_rate_gbp_per_usd : Qc) : res Qc :=
  let num_pieces := get_or item "num_pieces" PNone in
  if negb (truthy num_pieces) then Ok 0
  else
    try_then (n ← py_float num_pieces; Ok (Next n)) type_or_value_error 0
      (fun num_pieces =>
         if bool_decide (num_pieces <= 0) then Ok 0
         else
           currency ← or_upper (get_or item "currency" (PStr "GBP")) "GBP";
           let total_cost_gbp := get_or item "total_cost_gbp" PNone in
           if negb (is_none total_cost_gbp) then
             try_except (c ← py_float total_cost_gbp; pdiv c num_pieces)
               type_or_value_error (Ok 0)
           else
             let total_cost_usd := get_or item "total_cost_usd" PNone in
             if negb (is_none total_cost_usd)
                && bool_decide (currency = "USD"%string)
             then
               try_except
                 (c ← py_float total_cost_usd;
                  pdiv (c * exchange_rate_gbp_per_usd) num_pieces)
                 type_or_value_error (Ok 0)
             else Ok 0).

(** The items of one packaging type:
    [[it for it in packaging_items if str(it.get("type", "")).lower() == t]] *)
Definition of_type (packaging_items : list pydict) (t : string)
    : list pydict :=
  List.filter
    (fun it => bool_decide (lower (py_str (get_or it "type" (PStr ""))) = t))
    packaging_items.

(** [try: th = float(f.get("thickness_mm", 0.0))
    except (TypeError, ValueError): th = 0.0] *)
Definition foam_thickness (f : pydict) : res Qc :=
  try_except (py_float (get_or f "thickness_mm" (PFloat 0)))
    type_or_value_error (Ok 0).

(** The loop that separates the 3 mm and the 25 mm foam; a later match
    overwrites an earlier one. *)
Fixpoint select_foams (foams : list pydict)
    (foam_3mm foam_25mm : option pydict)
    : res (option pydict * option pydict) :=
  match foams with
  | [] => Ok (foam_3mm, foam_25mm)
  | f :: rest =>
      th ← foam_thickness f;
      if bool_decide (pabs (th - qc 3.0) < qc 0.001)
      then select_foams rest (Some f) foam_25mm
      else if bool_decide (pabs (th - qc 25.0) < qc 0.001)
      then select_foams rest foam_3mm (Some f)
      else select_foams rest foam_3mm foam_25mm
  end.

(** What the operator picks in the page's widgets: an entry of each
    select box (by position) and the number of arrays per box. *)
Record packaging_choice := {
  chosen_frame : nat;
  chosen_board : nat;
  chosen_box : nat;
  chosen_arrays_per_box : Z
}.

Record packaging_figures := {
  frame_cost : Qc;
  board_cost : Qc;
  box_cost : Qc;
  foam_25_pieces : Z;
  foam_3_pieces : Z;
  foam_25_cost_box : Qc;
  foam_3_cost_box : Qc;
  total_foam_cost_box : Qc;
  frame_board_per_array : Qc;
  shared_per_array : Qc;
  total_packaging_per_array : Qc;
  cost_per_watt : option Qc
}.

Definition render (s : session) (exchange_rate : Qc)
    (designs : list pydict) (materials : materials_db)
    (ui : packaging_choice) : res (page packaging_figures) :=
  match selected_array_design s with
  | None =>
      Ok (Stop Warning "Please choose an array design on the Home page first.")
  | Some selected_name =>
  let illumination := illumination_of s in
  design ← find_design designs selected_name;
  match design with
  | None => Ok (Stop Error "Selected array design not found.")
  | Some design =>
  let packaging_items := category materials "Packaging" in
  if negb (nonempty packaging_items) then
    Ok (Stop Error
          "No Packaging materials found. Add some under Materials → Packaging.")
  else
  power ← ArrayDesigns.compute_power_for_design design;
  let array_power := ArrayDesigns.array_power_for illumination power in
  let frames := of_type packaging_items "frame" in
  let boards := of_type packaging_items "shipping board" in
  let foams := of_type packaging_items "foam" in
  let boxes := of_type packaging_items "box" in
  if negb (nonempty frames) then
    Ok (Stop Error "No frames found in Packaging (type 'Frame').")
  else if negb (nonempty boards) then
    Ok (Stop Error
          "No shipping boards found in Packaging (type 'Shipping board').")
  else if negb (nonempty foams) then
    Ok (Stop Error "No foam items found in Packaging (type 'Foam').")
  else if negb (nonempty boxes) then
    Ok (Stop Error "No box items found in Packaging (type 'Box').")
  else
  '(foam_3mm, foam_25mm) ← select_foams foams None None;
  match foam_3mm, foam_25mm with
  | Some foam_3mm, Some foam_25mm =>
      let frame_idx := chosen_frame ui in
      frame_item ← index frames frame_idx;
      frame_cost ← get_unit_cost_gbp frame_item exchange_rate;
      let board_idx := chosen_board ui in
      board_item ← index boards board_idx;
      board_cost ← get_unit_cost_gbp board_item exchange_rate;
      let box_idx := chosen_box ui in
      box_item ← index boxes box_idx;
      box_cost ← get_unit_cost_gbp box_item exchange_rate;
      let arrays_per_box := chosen_arrays_per_box ui in
      let foam_25_pieces := 2%Z in
      let foam_3_pieces := Z.max (arrays_per_box - 1) 0 in
      foam_25_cost_per_piece ← get_foam_cost_per_piece foam_25mm exchange_rate;
      foam_3_cost_per_piece ← get_foam_cost_per_piece foam_3mm exchange_rate;
      let foam_25_cost_box := foam_25_cost_per_piece * of_Z foam_25_pieces in
      let foam_3_cost_box := foam_3_cost_per_piece * of_Z foam_3_pieces in
      let total_foam_cost_box := foam_25_cost_box + foam_3_cost_box in
      let frame_board_per_array := frame_cost + board_cost in
      let shared_per_box := box_cost + total_foam_cost_box in
      shared_per_array ← pdiv shared_per_box (of_Z arrays_per_box);
      let total_packaging_per_array :=
        frame_board_per_array + shared_per_array in
      cost_per_watt ←
        (if bool_decide (0 < array_power)
         then Some <$> pdiv total_packaging_per_array array_power
         else Ok None);
      Ok (Shown
            {| frame_cost := frame_cost;
               board_cost := board_cost;
               box_cost := box_cost;
               foam_25_pieces := foam_25_pieces;
               foam_3_pieces := foam_3_pieces;
               foam_25_cost_box := foam_25_cost_box;
               foam_3_cost_box := foam_3_cost_box;
               total_foam_cost_box := total_foam_cost_box;
               frame_board_per_array := frame_board_per_array;
               shared_per_array := shared_per_array;
               total_packaging_per_array := total_packaging_per_array;
               cost_per_watt := cost_per_watt |})
  | _, _ =>
      Ok (Stop Error
            "Expected both 3mm and 25mm foam in Packaging (type 'Foam' with thickness_mm 3.0 and 25.0).")
  end
  end
  end.

End Text.
End CostPackaging.

(** ** pages/cost_summary.py *)

Module CostSummary.
Section Text.
Context `{PyText}.

(** *** Shared helper functions (copied from individual pages)

    Apart from the default currency of [get_weld_cost_per_weld], the
    copies differ from the originals only in the names of their
    arguments and in a [float()] around the exchange rate, which is a
    number already. *)

Definition get_silver_cost_per_mm (silver_item : pydict) (exchange_rate : Qc)
    (override_width_mm : option Qc) : res Qc :=
  CostDiodes.get_silver_cost_per_mm silver_item exchange_rate
    override_width_mm.

Definition get_diode_price_gbp (diode_item : pydict) (exchange_rate : Qc)
    : res Qc :=
  CostDiodes.get_diode_price_gbp diode_item exchange_rate.

Definition get_weld_cost_per_weld (weld_item : pydict) (exchange_rate : Qc)
    : res Qc :=
  currency ← or_upper (get_or weld_item "currency" (PStr "GBP")) "GBP";
  try_then
    (num_welds ← py_float (get_or weld_item "num_welds" (PInt 0));
     Ok (Next num_welds))
    type_or_value_error 0
    (fun num_welds =>
       if bool_decide (num_welds <= 0) then Ok 0
       else
         try_then
           (if decide (currency = "USD"%string) then
              let unit_cost_usd := get_or weld_item "unit_cost_usd" PNone in
              if is_none unit_cost_usd then Ok (Return 0)
              else c ← py_float unit_cost_usd; Ok (Next (c * exchange_rate))
            else
              let unit_cost_gbp := get_or weld_item "unit_cost_gbp" PNone in
              if is_none unit_cost_gbp then Ok (Return 0)
              else c ← py_float unit_cost_gbp; Ok (Next c))
           type_or_value_error 0
           (fun total_cost_gbp => pdiv total_cost_gbp num_welds)).

Definition find_material_by_id (items : list pydict) (mat_id : pyval)
    : option pydict :=
  CostDiodes.find_material_by_id items mat_id.

Definition get_lamination_cost_per_m (item : pydict) (exchange_rate : Qc)
    : res Qc :=
  CostLamination.get_lamination_cost_per_m item exchange_rate.

Definition get_tape_cost_per_m (item : pydict) (exchange_rate : Qc)
    : res Qc :=
  CostTapes.get_tape_cost_per_m item exchange_rate.

Definition get_kapton_cost_per_disk (item : pydict) (exchange_rate : Qc)
    : res Qc :=
  CostMisc.get_kapton_cost_per_disk item exchange_rate.

Definition get_epoxy_cost_per_ml (item : pydict) (exchange_rate : Qc)
    : res Qc :=
  CostMisc.get_epoxy_cost_per_ml item exchange_rate.

Definition get_unit_cost_gbp (item : pydict) (exchange_rate : Qc) : res Qc :=
  CostPackaging.get_unit_cost_gbp item exchange_rate.

Definition get_foam_cost_per_piece (item : pydict) (exchange_rate : Qc)
    : res Qc :=
  CostPackaging.get_foam_cost_per_piece item exchange_rate.

(** *** Common geometry for length-based things *)

Definition base_length_mm (design : pydict) (num_cells : Z) : res Qc :=
  cell_h ← py_float (get_or design "cell_height_mm" (PFloat 0));
  gap ← py_float (get_or design "gap_between_cells_mm" (PFloat 0));
  pos_gap ← py_float (get_or design "positive_end_gap_mm" (PFloat 0));
  neg_gap ← py_float (get_or design "negative_end_gap_mm" (PFloat 0));
  Ok (cell_h * of_Z num_cells
      + gap * of_Z (Z.max (num_cells - 1) 0)
      + pos_gap
      + neg_gap).

(** [perimeter_length_mm = 2 * base_length_mm + 140.0] *)
Definition perimeter_length_mm (base_length_mm : Qc) : Qc :=
  2 * base_length_mm + qc 140.0.

(** *** 1) Silver *)

Definition silver_section (s : session) (design : pydict)
    (materials : materials_db) (num_cells : Z) (exchange_rate : Qc)
    : res Qc :=
  let silver_items := category materials "Silver Ribbon" in
  if nonempty silver_items then
    let silver_state := default default_silver_state (cost_silver_state s) in
    top_tab_item ← clamped silver_items (top_tab_silver_index silver_state);
    let tab_length_mm := top_tab_length_mm silver_state in
    let top_tabs_count := (2 * (num_cells - 1))%Z in
    let total_mm_tab := of_Z top_tabs_count * tab_length_mm in
    cost_per_mm_tab ← get_silver_cost_per_mm top_tab_item exchange_rate None;
    let cost_top_tabs := total_mm_tab * cost_per_mm_tab in
    (* negative end bars (2 bars) *)
    let neg_end_id := get_or design "negative_end_silver_id" (PStr "") in
    neg_end_len ← py_float (get_or design "negative_end_length_mm" (PFloat 0));
    cost_neg_end ←
      match find_material_by_id silver_items neg_end_id with
      | Some neg_end_item =>
          if dict_truthy neg_end_item then
            let total_mm_end := neg_end_len * 2 in
            cost_per_mm_end ←
              get_silver_cost_per_mm neg_end_item exchange_rate None;
            Ok (total_mm_end * cost_per_mm_end)
          else Ok 0
      | None => Ok 0
      end;
    (* negative bar (1 bar) *)
    let neg_bar_id := get_or design "negative_bar_silver_id" (PStr "") in
    neg_bar_len ← py_float (get_or design "negative_bar_length_mm" (PFloat 0));
    cost_neg_bar ←
      match find_material_by_id silver_items neg_bar_id with
      | Some neg_bar_item =>
          if dict_truthy neg_bar_item then
            cost_per_mm_bar ←
              get_silver_cost_per_mm neg_bar_item exchange_rate None;
            Ok (neg_bar_len * cost_per_mm_bar)
          else Ok 0
      | None => Ok 0
      end;
    Ok (cost_top_tabs + cost_neg_end + cost_neg_bar)
  else Ok 0.

(** *** 2) Diodes (bypass + blocking) *)

Record bypass_figures := {
  silver_cost_bypass : Qc;
  weld_cost_bypass : Qc;
  raw_cost_bypass : Qc;
  eff_cost_bypass : Qc;
  total_bypass_cost : Qc
}.

Definition bypass_diodes (price_bypass cost_per_mm_bypass cost_per_weld_al
    cost_per_weld_au tab_len bypass_yield : Qc) (num_cells : Z)
    : res bypass_figures :=
  let tabs_per_bypass := 2 in
  let total_tab_len_mm := tabs_per_bypass * tab_len in
  let silver_cost_bypass := cost_per_mm_bypass * total_tab_len_mm in
  let weld_cost_bypass := cost_per_weld_al + cost_per_weld_au in
  let raw_cost_bypass := price_bypass + silver_cost_bypass + weld_cost_bypass in
  eff_cost_bypass ←
    (if bool_decide (0 < bypass_yield) then pdiv raw_cost_bypass bypass_yield
     else Ok 0);
  Ok {| silver_cost_bypass := silver_cost_bypass;
        weld_cost_bypass := weld_cost_bypass;
        raw_cost_bypass := raw_cost_bypass;
        eff_cost_bypass := eff_cost_bypass;
        total_bypass_cost := eff_cost_bypass * of_Z num_cells |}.

Definition blocking_diodes (price_blocking cost_per_mm_block cost_per_weld_bl
    block_len1 block_len2 blocking_yield : Qc) : res Qc :=
  let total_block_tab_len_mm := block_len1 + block_len2 in
  let silver_cost_block := cost_per_mm_block * total_block_tab_len_mm in
  let weld_cost_block := 2 * cost_per_weld_bl in
  let raw_cost_block := price_blocking + silver_cost_block + weld_cost_block in
  eff_cost_block ←
    (if bool_decide (0 < blocking_yield)
     then pdiv raw_cost_block blocking_yield
     else Ok 0);
  Ok (eff_cost_block * 2).

Definition diodes_section (s : session) (design : pydict)
    (materials : materials_db) (num_cells : Z) (exchange_rate : Qc)
    : res Qc :=
  let silver_items := category materials "Silver Ribbon" in
  let diodes_items := category materials "Diodes" in
  let weld_items := category materials "Weld heads" in
  if nonempty diodes_items && nonempty weld_items then
    let diodes_state := default default_diodes_state (cost_diodes_state s) in
    let weld_head_al := find_material_by_id weld_items (PStr "Weld_Head_Al") in
    let weld_head_au := find_material_by_id weld_items (PStr "Weld_Head_Au") in
    let weld_head_bl := find_material_by_id weld_items (PStr "Weld_Head_BL") in
    match weld_head_al, weld_head_au, weld_head_bl with
    | Some al, Some au, Some bl =>
        if dict_truthy al && dict_truthy au && dict_truthy bl
           && nonempty silver_items
        then
          cost_per_weld_al ← get_weld_cost_per_weld al exchange_rate;
          cost_per_weld_au ← get_weld_cost_per_weld au exchange_rate;
          cost_per_weld_bl ← get_weld_cost_per_weld bl exchange_rate;
          (* bypass diodes *)
          bypass_diode_item ←
            clamped diodes_items (bypass_diode_index diodes_state);
          price_bypass ← get_diode_price_gbp bypass_diode_item exchange_rate;
          bypass_silver_item ←
            clamped silver_items (bypass_silver_index diodes_state);
          let tab_len := bypass_tab_length_mm diodes_state in
          let tab_width := bypass_tab_width_mm diodes_state in
          let bypass_yield := bypass_yield_percent diodes_state / qc 100.0 in
          cost_per_mm_bypass ←
            get_silver_cost_per_mm bypass_silver_item exchange_rate
              (Some tab_width);
          bypass ←
            bypass_diodes price_bypass cost_per_mm_bypass cost_per_weld_al
              cost_per_weld_au tab_len bypass_yield num_cells;
          let total_bypass_cost := total_bypass_cost bypass in
          (* blocking diodes *)
          blocking_diode_item ←
            clamped diodes_items (blocking_diode_index diodes_state);
          price_blocking ←
            get_diode_price_gbp blocking_diode_item exchange_rate;
          let block_silver_id :=
            get_or design "blocking_tab_silver_id" (PStr "") in
          block_silver_width ←
            py_float (get_or design "blocking_tab_width_mm" (PFloat 0));
          block_len1 ←
            py_float (get_or design "blocking_tab_length1_mm" (PFloat 0));
          block_len2 ←
            py_float (get_or design "blocking_tab_length2_mm" (PFloat 0));
          let blocking_yield :=
            blocking_yield_percent diodes_state / qc 100.0 in
          let blocking_silver_item :=
            find_material_by_id silver_items block_silver_id in
          total_blocking_cost ←
            match blocking_silver_item with
            | Some item =>
                if dict_truthy item then
                  cost_per_mm_block ←
                    get_silver_cost_per_mm item exchange_rate
                      (Some block_silver_width);
                  blocking_diodes price_blocking cost_per_mm_block
                    cost_per_weld_bl block_len1 block_len2 blocking_yield
                else Ok 0
            | None => Ok 0
            end;
          Ok (total_bypass_cost + total_blocking_cost)
        else Ok 0
    | _, _, _ => Ok 0
    end
  else Ok 0.

(** *** 3) Weld heads (Ag head for array welds only) *)

Record ag_welds := {
  top_tab_welds : Z;
  neg_end_welds : Z;
  pos_end_welds : Z;
  bypass_array_welds : Z;
  total_welds : Z
}.

Definition ag_weld_counts (num_cells : Z) : ag_welds :=
  let top_tabs_count := (2 * (num_cells - 1))%Z in
  let top_tab_welds := (top_tabs_count * 4)%Z in
  let neg_end_welds := 8%Z in
  let pos_end_welds := 4%Z in
  let bypass_array_welds := (num_cells * 4)%Z in
  {| top_tab_welds := top_tab_welds;
     neg_end_welds := neg_end_welds;
     pos_end_welds := pos_end_welds;
     bypass_array_welds := bypass_array_welds;
     total_welds :=
       (top_tab_welds + neg_end_welds + pos_end_welds
        + bypass_array_welds)%Z |}.

Definition weld_heads_section (materials : materials_db) (num_cells : Z)
    (exchange_rate : Qc) : res Qc :=
  let weld_items := category materials "Weld heads" in
  if nonempty weld_items then
    match find_material_by_id weld_items (PStr "Weld_Head_Ag") with
    | Some weld_head_ag =>
        if dict_truthy weld_head_ag then
          cost_per_weld_ag ← get_weld_cost_per_weld weld_head_ag exchange_rate;
          Ok (of_Z (total_welds (ag_weld_counts num_cells)) * cost_per_weld_ag)
        else Ok 0
    | None => Ok 0
    end
  else Ok 0.

(** *** 4) Lamination (3 layers + welding liner) *)

(** One turn of [for i in range(3)]: the cost of stack layer [i]. *)
Definition stack_layer_cost (lam_items : list pydict)
    (lam_state : lamination_state) (base_length_mm exchange_rate : Qc)
    (i : nat) : res Qc :=
  layer_index ← index (layer_indices lam_state) i;
  item ← clamped lam_items layer_index;
  waste_mm ← index (layer_waste_mm lam_state) i;
  let total_len_mm := base_length_mm + waste_mm in
  let total_len_m := total_len_mm / qc 1000.0 in
  cost_per_m ← get_lamination_cost_per_m item exchange_rate;
  Ok (cost_per_m * total_len_m).

Definition lamination_section (s : session) (materials : materials_db)
    (base_length_mm exchange_rate : Qc) : res Qc :=
  let lam_items := category materials "Lamination" in
  if nonempty lam_items then
    let lam_state :=
      default default_lamination_state (cost_lamination_state s) in
    let base_length_m := base_length_mm / qc 1000.0 in
    c0 ← stack_layer_cost lam_items lam_state base_length_mm exchange_rate 0;
    c1 ← stack_layer_cost lam_items lam_state base_length_mm exchange_rate 1;
    c2 ← stack_layer_cost lam_items lam_state base_length_mm exchange_rate 2;
    let stack_cost := 0 + c0 + c1 + c2 in
    liner_item ← clamped lam_items (liner_index lam_state);
    let liner_len_m := base_length_m in
    liner_cost_per_m ← get_lamination_cost_per_m liner_item exchange_rate;
    let liner_cost := liner_cost_per_m * liner_len_m in
    Ok (stack_cost + liner_cost)
  else Ok 0.

(** *** 5) Tapes *)

Definition tapes_section (s : session) (materials : materials_db)
    (base_length_mm exchange_rate : Qc) : res Qc :=
  let tapes_items := category materials "Tapes" in
  if nonempty tapes_items then
    let tapes_state := default default_tapes_state (cost_tapes_state s) in
    let perimeter_length_mm := perimeter_length_mm base_length_mm in
    let perimeter_length_m := perimeter_length_mm / qc 1000.0 in
    perim_item ← clamped tapes_items (perimeter_tape_idx tapes_state);
    cost_per_m_perim ← get_tape_cost_per_m perim_item exchange_rate;
    let cost_perimeter := cost_per_m_perim * perimeter_length_m in
    other_item ← clamped tapes_items (other_tape_idx tapes_state);
    let other_len_mm := other_length_mm tapes_state in
    let other_len_m := other_len_mm / qc 1000.0 in
    cost_per_m_other ← get_tape_cost_per_m other_item exchange_rate;
    let cost_other := cost_per_m_other * other_len_m in
    Ok (cost_perimeter + cost_other)
  else Ok 0.

(** *** 6) Misc (Kapton + Epoxy) *)

(** The first item whose id is [Kapton_Insulation] or whose type is
    kapton. *)
Definition find_kapton (misc_items : list pydict) : option pydict :=
  List.find
    (fun it =>
       bool_decide (py_str (get_or it "id" (PStr "")) = "Kapton_Insulation"%string)
       || bool_decide (lower (py_str (get_or it "type" (PStr ""))) = "kapton"%string))
    misc_items.

Definition misc_section (s : session) (materials : materials_db)
    (num_cells : Z) (exchange_rate : Qc) : res Qc :=
  let misc_items := category materials "Misc" in
  if nonempty misc_items then
    let misc_state := default default_misc_state (cost_misc_state s) in
    kapton_cost ←
      match find_kapton misc_items with
      | Some kapton_item =>
          if dict_truthy kapton_item then
            let disks_per_array := num_cells in
            cost_per_disk ← get_kapton_cost_per_disk kapton_item exchange_rate;
            Ok (cost_per_disk * of_Z disks_per_array)
          else Ok 0
      | None => Ok 0
      end;
    let epoxy_items := CostPackaging.of_type misc_items "epoxy" in
    epoxy_cost ←
      (if nonempty epoxy_items then
         epoxy_item ← clamped epoxy_items (epoxy_index misc_state);
         let per_diode_ml := epoxy_per_diode_ml misc_state in
         let num_diodes_for_epoxy := 2 in
         let total_epoxy_ml := per_diode_ml * num_diodes_for_epoxy in
         cost_per_ml ← get_epoxy_cost_per_ml epoxy_item exchange_rate;
         Ok (cost_per_ml * total_epoxy_ml)
       else Ok 0);
    Ok (kapton_cost + epoxy_cost)
  else Ok 0.

(** *** 7) Packaging *)

Definition packaging_section (s : session) (materials : materials_db)
    (exchange_rate : Qc) : res Qc :=
  let packaging_items := category materials "Packaging" in
  if nonempty packaging_items then
    let pack_state :=
      default default_packaging_state (cost_packaging_state s) in
    let frames := CostPackaging.of_type packaging_items "frame" in
    let boards := CostPackaging.of_type packaging_items "shipping board" in
    let foams := CostPackaging.of_type packaging_items "foam" in
    let boxes := CostPackaging.of_type packaging_items "box" in
    if nonempty frames && nonempty boards && nonempty foams && nonempty boxes
    then
      '(foam_3mm, foam_25mm) ← CostPackaging.select_foams foams None None;
      match foam_3mm, foam_25mm with
      | Some foam_3mm, Some foam_25mm =>
          if dict_truthy foam_3mm && dict_truthy foam_25mm then
            let arrays_per_box := arrays_per_box pack_state in
            frame_item ← clamped frames (frame_idx pack_state);
            board_item ← clamped boards (board_idx pack_state);
            box_item ← clamped boxes (box_idx pack_state);
            frame_cost ← get_unit_cost_gbp frame_item exchange_rate;
            board_cost ← get_unit_cost_gbp board_item exchange_rate;
            box_cost ← get_unit_cost_gbp box_item exchange_rate;
            foam_25_cost_piece ← get_foam_cost_per_piece foam_25mm exchange_rate;
            foam_3_cost_piece ← get_foam_cost_per_piece foam_3mm exchange_rate;
            let foam_25_pieces := 2%Z in
            let foam_3_pieces := Z.max (arrays_per_box - 1) 0 in
            let foam_25_cost_box := foam_25_cost_piece * of_Z foam_25_pieces in
            let foam_3_cost_box := foam_3_cost_piece * of_Z foam_3_pieces in
            let foam_cost_box := foam_25_cost_box + foam_3_cost_box in
            let frame_board_per_array := frame_cost + board_cost in
            let shared_per_box := box_cost + foam_cost_box in
            shared_per_array ← pdiv shared_per_box (of_Z arrays_per_box);
            Ok (frame_board_per_array + shared_per_array)
          else Ok 0
      | _, _ => Ok 0
      end
    else Ok 0
  else Ok 0.

(** *** The summary table *)

Record row := {
  Category : string;
  Cost_per_array : Qc;
  Cost_per_W : Qc
}.

(** [add_row(name, cost)] *)
Definition add_row (array_power : Qc) (name : string) (cost : Qc)
    : res row :=
  let cost_val := cost in
  cpw ← (if bool_decide (0 < array_power) then pdiv cost_val array_power
         else Ok 0);
  Ok {| Category := name; Cost_per_array := cost_val; Cost_per_W := cpw |}.

Record summary := {
  rows : list row;
  total_cost : Qc;
  total_cost_per_w : Qc
}.

(** [df["Cost per array"].sum()] *)
Definition column_sum (rs : list row) : Qc :=
  fold_left (fun acc r => acc + Cost_per_array r) rs 0.

Definition render (s : session) (exchange_rate : Qc)
    (designs : list pydict) (materials : materials_db)
    : res (page summary) :=
  match selected_array_design s with
  | None =>
      Ok (Stop Warning "Please choose an array design on the Home page first.")
  | Some selected_name =>
  let illumination := illumination_of s in
  design ← find_design designs selected_name;
  match design with
  | None => Ok (Stop Error "Selected array design not found.")
  | Some design =>
  power ← ArrayDesigns.compute_power_for_design design;
  let array_power := ArrayDesigns.array_power_for illumination power in
  num_cells ← py_int (get_or design "num_cells" (PInt 0));
  if bool_decide (num_cells <= 0)%Z then
    Ok (Stop Error "Array design has invalid number of cells.")
  else
  base_length_mm ← base_length_mm design num_cells;
  silver_cost_total ← silver_section s design materials num_cells exchange_rate;
  diodes_cost_total ← diodes_section s design materials num_cells exchange_rate;
  weld_heads_cost_total ← weld_heads_section materials num_cells exchange_rate;
  lamination_cost_total ←
    lamination_section s materials base_length_mm exchange_rate;
  tapes_cost_total ← tapes_section s materials base_length_mm exchange_rate;
  misc_cost_total ← misc_section s materials num_cells exchange_rate;
  packaging_cost_total ← packaging_section s materials exchange_rate;
  r1 ← add_row array_power "Silver" silver_cost_total;
  r2 ← add_row array_power "Diodes" diodes_cost_total;
  r3 ← add_row array_power "Weld heads" weld_heads_cost_total;
  r4 ← add_row array_power "Lamination" lamination_cost_total;
  r5 ← add_row array_power "Tapes" tapes_cost_total;
  r6 ← add_row array_power "Misc" misc_cost_total;
  r7 ← add_row array_power "Packaging" packaging_cost_total;
  let rows := [r1; r2; r3; r4; r5; r6; r7] in
  let total_cost := column_sum rows in
  total_cost_per_w ←
    (if bool_decide (0 < array_power) then pdiv total_cost array_power
     else Ok 0);
  Ok (Shown {| rows := rows;
               total_cost := total_cost;
               total_cost_per_w := total_cost_per_w |})
  end
  end.

End Text.
End CostSummary.

(** ** pages/home.py *)

Module Home.
Section Text.
Context `{PyText}.

(** [_compute_base_length_m(design, num_cells)]:
    [(base_length_mm, base_length_m)] for lamination and tape geometry *)
Definition _compute_base_length_m (design : pydict) (num_cells : Z)
    : res (Qc * Qc) :=
  cell_h ← py_float (get_or design "cell_height_mm" (PFloat 0));
  gap ← py_float (get_or design "gap_between_cells_mm" (PFloat 0));
  pos_gap ← py_float (get_or design "positive_end_gap_mm" (PFloat 0));
  neg_gap ← py_float (get_or design "negative_end_gap_mm" (PFloat 0));
  let base_length_mm :=
    cell_h * of_Z num_cells
    + gap * of_Z (Z.max (num_cells - 1) 0)
    + pos_gap
    + neg_gap in
  Ok (base_length_mm, base_length_mm / qc 1000.0).

End Text.

(** The weld table of [_render_material_requirements_expander]
    (section 2, weld counts by weld head type). *)
Record welds_row := {
  Weld_head : string;
  Per_array : Z;
  Total : Z
}.

Record weld_requirements := {
  top_tab_welds : Z;
  neg_end_welds : Z;
  pos_end_welds : Z;
  bypass_array_welds : Z;
  welds_ag_per_array : Z;
  welds_rows : list welds_row
}.

Definition weld_requirements_table (num_cells arrays_to_build : Z)
    : weld_requirements :=
  let welds_al_per_array := num_cells in
  let welds_au_per_array := num_cells in
  let welds_bl_per_array := (2 * 2)%Z in
  let top_tabs_count := (2 * (num_cells - 1))%Z in
  let top_tab_welds := (top_tabs_count * 4)%Z in
  let neg_end_welds := 8%Z in
  let pos_end_welds := 4%Z in
  let bypass_array_welds := (num_cells * 4)%Z in
  let welds_ag_per_array :=
    (top_tab_welds + neg_end_welds + pos_end_welds + bypass_array_welds)%Z in
  {| top_tab_welds := top_tab_welds;
     neg_end_welds := neg_end_welds;
     pos_end_welds := pos_end_welds;
     bypass_array_welds := bypass_array_welds;
     welds_ag_per_array := welds_ag_per_array;
     welds_rows :=
       [ {| Weld_head := "Al"; Per_array := welds_al_per_array;
            Total := (welds_al_per_array * arrays_to_build)%Z |};
         {| Weld_head := "Au"; Per_array := welds_au_per_array;
            Total := (welds_au_per_array * arrays_to_build)%Z |};
         {| Weld_head := "BL"; Per_array := welds_bl_per_array;
            Total := (welds_bl_per_array * arrays_to_build)%Z |};
         {| Weld_head := "Ag"; Per_array := welds_ag_per_array;
            Total := (welds_ag_per_array * arrays_to_build)%Z |} ] |}.

(** Scenario 1: power required.  [target_power] and [power_units] come
    from the page's inputs, [yield_frac] from the yield slider; they and
    [array_power] are floats, and the two quotients are the floats that
    [math.ceil] is given. *)
Definition target_power_watts (target_power : Qc) (power_units : string)
    : Qc :=
  if decide (power_units = "kW"%string) then target_power * qc 1000.0
  else target_power.

Record power_scenario := {
  arrays_required_good : Z;
  arrays_to_build : Z;
  expected_scrap : Z
}.

Definition power_requirement (array_power target_power_watts yield_frac : Qc)
    : res power_scenario :=
  if bool_decide (array_power <= 0) || bool_decide (target_power_watts <= 0)
  then
    Ok {| arrays_required_good := 0;
          arrays_to_build := 0;
          expected_scrap := 0 |}
  else
    arrays_required_good ←
      ceil <$> Float64.div target_power_watts array_power;
    arrays_to_build ←
      (if bool_decide (0 < yield_frac)
       then ceil <$> Float64.div (Float64.of_int arrays_required_good)
                       yield_frac
       else Ok arrays_required_good);
    let expected_scrap := Z.max (arrays_to_build - arrays_required_good) 0 in
    Ok {| arrays_required_good := arrays_required_good;
          arrays_to_build := arrays_to_build;
          expected_scrap := expected_scrap |}.

End Home.

(** ** labour_model.py *)

Module LabourModel.

Record OperatorProfile := {
  id : string;
  name : string;
  job_title : string;
  hourly_rate : Qc
}.

(** An entry of a list under the key [operators]: a mapping, which is what
    an operator slot is, or a scalar. *)
Inductive operator_entry :=
| Slot (slot : pydict)
| Entry (v : pyval).

(** What a step holds under the key [operators]: nothing, a scalar (the
    old schema stored the number of operators; a blank key is [None]), a
    list, or a mapping. *)
Inductive operators_value :=
| Absent
| Scalar (v : pyval)
| Slots (slots : list operator_entry)
| Mapping (d : pydict).

(** A process step of [process.yaml]: its scalar fields and, apart from
    them, what it holds under the key [operators]. *)
Record process_step := {
  fields : pydict;
  operators_field : operators_value
}.

(** The list under [operators], when the step holds a list there. *)
Definition operators (step : process_step) : option (list operator_entry) :=
  match operators_field step with
  | Slots slots => Some slots
  | _ => None
  end.

Record LabourStepResult := {
  step_id : pyval;
  step_name : pyval;
  timing_basis : string;
  quantity_source : string;
  units_per_array : Qc;
  time_per_unit_s : Qc;
  setup_time_s_per_array : Qc;
  total_step_seconds : Qc;
  operator_hours : Qc;
  cost : Qc;
  assigned_operators : list OperatorProfile;
  notes : pyval
}.

Record labour := {
  steps : list LabourStepResult;
  total_cost : Qc;
  total_hours : Qc
}.

(** [qty_map] *)
Definition qty_map (cells_per_string strings_per_array
    bypass_diodes_per_array blocking_diodes_per_array : Z)
    : gmap string Qc :=
  let cells_per_array := (cells_per_string * strings_per_array)%Z in
  <["array" := qc 1.0]>
  (<["cells" := of_Z cells_per_array]>
  (<["strings" := of_Z strings_per_array]>
  (<["bypass_diodes" := of_Z bypass_diodes_per_array]>
  (<["blocking_diodes" := of_Z blocking_diodes_per_array]> ∅)))).

(** [oid = op.get("operator_id")] and
    [if oid and oid in operator_profiles]: the profile that gets
    appended, if any.  The profiles are keyed by text. *)
Definition assigned_profile (operator_profiles : gmap string OperatorProfile)
    (op : pydict) : option OperatorProfile :=
  let oid := get op "operator_id" in
  if truthy oid then
    match oid with
    | PStr k => operator_profiles !! k
    | _ => None
    end
  else None.

(** [for op in step.get("operators", [])]: the entries the loop goes
    through.  A number, a boolean or [None] cannot be iterated; a text is
    gone through character by character and a mapping key by key, which
    are texts. *)
Definition iterate (ops : operators_value) : res (list operator_entry) :=
  match ops with
  | Absent => Ok []
  | Slots slots => Ok slots
  | Scalar (PStr s) =>
      Ok ((fun c => Entry (PStr (String c EmptyString)))
            <$> list_ascii_of_string s)
  | Scalar _ => Raise TypeError
  | Mapping d => Ok ((fun k => Entry (PStr k)) <$> (map_to_list d).*1)
  end.

(** The loop over the operators of a step, on [assigned_profiles]:
    [op.get] is an [AttributeError] on an entry that is no mapping. *)
Fixpoint assign (operator_profiles : gmap string OperatorProfile)
    (ops : list operator_entry) (assigned_profiles : list OperatorProfile)
    : res (list OperatorProfile) :=
  match ops with
  | [] => Ok assigned_profiles
  | Slot op :: rest =>
      assign operator_profiles rest
        match assigned_profile operator_profiles op with
        | Some profile => assigned_profiles ++ [profile]
        | None => assigned_profiles
        end
  | Entry _ :: _ => Raise AttributeError
  end.

(** [assigned_profiles], from [step.get("operators", [])] *)
Definition assigned_profiles
    (operator_profiles : gmap string OperatorProfile)
    (ops : operators_value) : res (list OperatorProfile) :=
  ops ← iterate ops;
  assign operator_profiles ops [].

(** [sum(op.hourly_rate * operator_hours for op in assigned_profiles)] *)
Definition step_cost_of (assigned_profiles : list OperatorProfile)
    (operator_hours : Qc) : Qc :=
  fold_left (fun acc op => acc + hourly_rate op * operator_hours)
    assigned_profiles 0.

Section Text.
Context `{PyText}.

(** The body of [for step in process_steps], up to the result it
    appends. *)
Definition labour_step (qty_map : gmap string Qc)
    (operator_profiles : gmap string OperatorProfile)
    (step : process_step) : res LabourStepResult :=
  let basis :=
    lower (py_str (get_or (fields step) "timing_basis" (PStr "per_array"))) in
  let quantity_source :=
    py_str (get_or (fields step) "quantity_source" (PStr "array")) in
  time_per_unit_s ←
    py_float (get_or (fields step) "time_per_unit_s" (PFloat 0));
  setup ← py_float (get_or (fields step) "setup_time_s_per_array" (PFloat 0));
  yield_fraction ← py_float (get_or (fields step) "yield_fraction" (PFloat 1));
  let yield_fraction :=
    if bool_decide (yield_fraction <= 0) then qc 1.0 else yield_fraction in
  '(units_per_array, total_seconds) ←
    (if decide (basis = "per_array"%string) then
       Ok (qc 1.0, time_per_unit_s + setup)
     else if decide (basis = "per_unit"%string) then
       let nominal_units := default (qc 0.0) (qty_map !! quantity_source) in
       effective_units ← pdiv nominal_units yield_fraction;
       Ok (nominal_units, effective_units * time_per_unit_s + setup)
     else
       Ok (qc 0.0, qc 0.0));
  let operator_hours := total_seconds / qc 3600.0 in
  assigned_profiles ← assigned_profiles operator_profiles
                        (operators_field step);
  let step_cost := step_cost_of assigned_profiles operator_hours in
  Ok {| step_id := get_or (fields step) "id" (PStr "");
        step_name := get_or (fields step) "name" (PStr "");
        timing_basis := basis;
        quantity_source := quantity_source;
        units_per_array := units_per_array;
        time_per_unit_s := time_per_unit_s;
        setup_time_s_per_array := setup;
        total_step_seconds := total_seconds;
        operator_hours := operator_hours;
        cost := step_cost;
        assigned_operators := assigned_profiles;
        notes := get_or (fields step) "notes" (PStr "") |}.

(** The loop, with its three accumulators. *)
Fixpoint labour_loop (qty_map : gmap string Qc)
    (operator_profiles : gmap string OperatorProfile)
    (process_steps : list process_step)
    (results : list LabourStepResult) (total_cost total_hours : Qc)
    : res labour :=
  match process_steps with
  | [] =>
      Ok {| steps := results;
            total_cost := total_cost;
            total_hours := total_hours |}
  | step :: rest =>
      r ← labour_step qty_map operator_profiles step;
      labour_loop qty_map operator_profiles rest
        (results ++ [r]) (total_cost + cost r) (total_hours + operator_hours r)
  end.

Definition calculate_labour (process_steps : list process_step)
    (operator_profiles : gmap string OperatorProfile)
    (cells_per_string strings_per_array bypass_diodes_per_array
     blocking_diodes_per_array : Z) : res labour :=
  labour_loop
    (qty_map cells_per_string strings_per_array bypass_diodes_per_array
       blocking_diodes_per_array)
    operator_profiles process_steps [] 0 0.

End Text.
End LabourModel.

(** ** A text interpreter for the worked examples

    Plain positional decimals: an optional sign, digits, an optional
    fractional part.  Exponents, digit separators, surrounding blanks,
    [inf] and [nan] are not read, and floats are printed positionally with
    at most seventeen decimals.  The theorems below hold for every
    [PyText]; this one only runs the worked examples. *)

Module PlainText.

Definition digit_of (c : ascii) : option N :=
  let n := N_of_ascii c in
  if ((48 <=? n) && (n <=? 57))%N then Some (n - 48)%N else None.

Fixpoint digits_value (s : string) (acc : N) : option N :=
  match s with
  | EmptyString => Some acc
  | String c s' =>
      match digit_of c with
      | Some d => digits_value s' (10 * acc + d)%N
      | None => None
      end
  end.

Definition numeral (s : string) : option N :=
  match s with
  | EmptyString => None
  | _ => digits_value s 0
  end.

Definition signed {A} (neg : A -> A) (p : string -> option A) (s : string)
    : option A :=
  match s with
  | String "-" s' => neg <$> p s'
  | String "+" s' => p s'
  | _ => p s
  end.

Fixpoint split_point (s : string) : string * option string :=
  match s with
  | EmptyString => (EmptyString, None)
  | String "." s' => (EmptyString, Some s')
  | String c s' => let '(i, f) := split_point s' in (String c i, f)
  end.

Definition numeral_or_zero (s : string) : option N :=
  match s with
  | EmptyString => Some 0%N
  | _ => numeral s
  end.

Definition decimal (s : string) : option Qc :=
  match split_point s with
  | (i, None) => (fun n => of_Z (Z.of_N n)) <$> numeral i
  | (EmptyString, Some EmptyString) => None
  | (i, Some f) =>
      n ← numeral_or_zero i;
      m ← numeral_or_zero f;
      Some (of_Z (Z.of_N n)
            + of_Z (Z.of_N m) / of_Z (10 ^ Z.of_nat (String.length f)))
  end.

Fixpoint fraction_digits (fuel : nat) (num den : N) : string :=
  match fuel with
  | O => EmptyString
  | S fuel' =>
      if (num =? 0)%N then EmptyString
      else
        String (ascii_of_N (48 + (10 * num) / den))
          (fraction_digits fuel' ((10 * num) mod den)%N den)
  end.

Definition positional (q : Qc) : string :=
  let n := Z.abs_N (Qnum (this q)) in
  let d := Npos (Qden (this q)) in
  let whole := (n / d)%N in
  let frac := fraction_digits 17 (n mod d)%N d in
  ((if bool_decide (q < 0) then "-" else "")
   +:+ pretty whole +:+ "."
   +:+ (match frac with EmptyString => "0" | _ => frac end))%string.

#[local] Instance plain_text : PyText := {|
  str_to_float := signed Qcopp decimal;
  str_to_int := signed Z.opp (fun s => Z.of_N <$> numeral s);
  float_repr := positional
|}.

End PlainText.

(** ** Worked examples: a design, a catalog, process steps *)

Module Examples.

Definition exchange_rate : Qc := qc 0.8.

Definition design_20 : pydict :=
  list_to_map
    [ ("name", PStr "MAT-20");
      ("num_cells", PInt 20);
      ("eff_am15_percent", PFloat (qc 30.0));
      ("eff_am0_percent", PFloat (qc 28.0));
      ("cell_height_mm", PFloat (qc 6.6));
      ("gap_between_cells_mm", PFloat (qc 1.0));
      ("positive_end_gap_mm", PFloat (qc 5.0));
      ("negative_end_gap_mm", PFloat (qc 5.0));
      ("blocking_tab_silver_id", PStr "Ag_2mm");
      ("blocking_tab_width_mm", PFloat (qc 2.0));
      ("blocking_tab_length1_mm", PFloat (qc 10.0));
      ("blocking_tab_length2_mm", PFloat (qc 12.0));
      ("negative_end_silver_id", PStr "Ag_2mm");
      ("negative_end_length_mm", PFloat (qc 30.0));
      ("negative_bar_silver_id", PStr "Ag_2mm");
      ("negative_bar_length_mm", PFloat (qc 40.0)) ]%string.

Definition silver_2mm : pydict :=
  list_to_map
    [ ("id", PStr "Ag_2mm");
      ("name", PStr "Silver ribbon 2 mm");
      ("width_mm", PInt 2);
      ("thickness_mm", PFloat (qc 0.0254));
      ("density_g_cm3", PFloat (qc 10.49));
      ("price_per_g", PFloat (qc 0.8));
      ("price_currency", PStr "USD") ]%string.

Definition diode : pydict :=
  list_to_map
    [ ("id", PStr "D1");
      ("name", PStr "Bypass diode");
      ("currency", PStr "GBP");
      ("unit_cost_gbp", PFloat (qc 0.10)) ]%string.

Definition weld_head (head_id : string) : pydict :=
  list_to_map
    [ ("id", PStr head_id);
      ("currency", PStr "GBP");
      ("unit_cost_gbp", PFloat (qc 50.0));
      ("num_welds", PInt 50000) ]%string.

(** Weld-head records on which the copies of [get_weld_cost_per_weld]
    part ways. *)
Definition weld_head_gbp_no_currency : pydict :=
  list_to_map
    [ ("id", PStr "Weld_Head_Ag");
      ("unit_cost_gbp", PFloat (qc 50.0));
      ("num_welds", PInt 1000) ]%string.

Definition weld_head_usd_no_currency : pydict :=
  list_to_map
    [ ("id", PStr "Weld_Head_Ag");
      ("unit_cost_usd", PFloat (qc 50.0));
      ("num_welds", PInt 1000) ]%string.

Definition weld_head_blank_cost : pydict :=
  list_to_map
    [ ("id", PStr "Weld_Head_Ag");
      ("currency", PStr "GBP");
      ("unit_cost_gbp", PNone);
      ("num_welds", PInt 1000) ]%string.



Definition silver_negative_price : pydict :=
  list_to_map
    [ ("id", PStr "Ag_neg");
      ("width_mm", PInt 2);
      ("thickness_mm", PFloat (qc 0.5));
      ("density_g_cm3", PInt 10);
      ("price_per_g", PFloat (qc (-1)));
      ("price_currency", PStr "GBP") ]%string.


(** A catalog with every role filled in, and the same catalog without
    the 25 mm foam. *)
Definition lamination_film : pydict :=
  list_to_map
    [ ("id", PStr "EVA");
      ("name", PStr "EVA film");
      ("roll_length_value", PInt 100);
      ("roll_length_unit", PStr "m");
      ("roll_cost_gbp", PFloat (qc 250.0)) ]%string.

Definition tape : pydict :=
  list_to_map
    [ ("id", PStr "T1");
      ("name", PStr "Perimeter tape");
      ("roll_length_value", PInt 50);
      ("roll_length_unit", PStr "m");
      ("roll_cost_gbp", PFloat (qc 10.0)) ]%string.

Definition kapton : pydict :=
  list_to_map
    [ ("id", PStr "Kapton_Insulation");
      ("type", PStr "Kapton");
      ("disks_per_roll", PInt 1000);
      ("total_cost_gbp", PFloat (qc 20.0)) ]%string.

Definition epoxy : pydict :=
  list_to_map
    [ ("id", PStr "E1");
      ("type", PStr "Epoxy");
      ("volume_ml", PInt 50);
      ("total_cost_gbp", PFloat (qc 25.0)) ]%string.

Definition packaging_unit (item_id item_type : string) (cost : Qc) : pydict :=
  list_to_map
    [ ("id", PStr item_id);
      ("type", PStr item_type);
      ("unit_cost_gbp", PFloat cost) ]%string.

Definition foam (item_id : string) (thickness_mm : Qc) : pydict :=
  list_to_map
    [ ("id", PStr item_id);
      ("type", PStr "Foam");
      ("thickness_mm", PFloat thickness_mm);
      ("total_cost_gbp", PFloat (qc 30.0));
      ("num_pieces", PInt 10) ]%string.

Definition packaging_complete : list pydict :=
  [ packaging_unit "FR1" "Frame" (qc 4.0);
    packaging_unit "SB1" "Shipping board" (qc 2.0);
    foam "F3" (qc 3.0);
    foam "F25" (qc 25.0);
    packaging_unit "BX1" "Box" (qc 8.0) ].

Definition packaging_without_25mm_foam : list pydict :=
  [ packaging_unit "FR1" "Frame" (qc 4.0);
    packaging_unit "SB1" "Shipping board" (qc 2.0);
    foam "F3" (qc 3.0);
    packaging_unit "BX1" "Box" (qc 8.0) ].

Definition materials (packaging : list pydict) : materials_db :=
  list_to_map
    [ ("Silver Ribbon", [silver_2mm]);
      ("Diodes", [diode]);
      ("Weld heads",
       [ weld_head "Weld_Head_Al"; weld_head "Weld_Head_Au";
         weld_head "Weld_Head_BL"; weld_head "Weld_Head_Ag" ]);
      ("Lamination", [lamination_film]);
      ("Tapes", [tape]);
      ("Misc", [kapton; epoxy]);
      ("Packaging", packaging) ]%string.

(** The session after the design was chosen on the Home page; no cost
    page has stored a selection yet. *)
Definition session_20 : session :=
  {| selected_array_design := Some (PStr "MAT-20");
     selected_illumination := Some "AM1.5"%string;
     cost_silver_state := None;
     cost_diodes_state := None;
     cost_lamination_state := None;
     cost_tapes_state := None;
     cost_misc_state := None;
     cost_packaging_state := None |}.

Definition power_20 : ArrayDesigns.power :=
  {| ArrayDesigns.P_cell_AM15_W := qc 0.6;
     ArrayDesigns.P_array_AM15_W := qc 12;
     ArrayDesigns.P_cell_AM0_W := qc 0.76496;
     ArrayDesigns.P_array_AM0_W := qc 15.2992 |}.

Definition packaging_first_choices : CostPackaging.packaging_choice :=
  {| CostPackaging.chosen_frame := 0;
     CostPackaging.chosen_board := 0;
     CostPackaging.chosen_box := 0;
     CostPackaging.chosen_arrays_per_box := 4 |}.

(** Operators and process steps.  The product has 20 cells per string and
    4 strings per array. *)
Definition operator_profiles : gmap string LabourModel.OperatorProfile :=
  list_to_map
    [ ("op1", {| LabourModel.id := "op1";
                 LabourModel.name := "Alex";
                 LabourModel.job_title := "Technician";
                 LabourModel.hourly_rate := qc 18.0 |});
      ("op2", {| LabourModel.id := "op2";
                 LabourModel.name := "Sam";
                 LabourModel.job_title := "Engineer";
                 LabourModel.hourly_rate := qc 24.0 |}) ]%string.

Definition slot (operator_id : pyval) : LabourModel.operator_entry :=
  LabourModel.Slot (list_to_map [ ("operator_id", operator_id) ]%string).

Definition step_tabbing : LabourModel.process_step :=
  {| LabourModel.fields :=
       list_to_map
         [ ("id", PStr "tabbing");
           ("name", PStr "Tabbing");
           ("timing_basis", PStr "per_unit");
           ("quantity_source", PStr "cells");
           ("time_per_unit_s", PFloat (qc 30.0));
           ("setup_time_s_per_array", PFloat (qc 120.0));
           ("yield_fraction", PFloat (qc 0.8)) ]%string;
     LabourModel.operators_field :=
       LabourModel.Slots [slot (PStr "op1"); slot PNone] |}.

Definition step_lamination : LabourModel.process_step :=
  {| LabourModel.fields :=
       list_to_map
         [ ("id", PStr "lamination");
           ("name", PStr "Lamination");
           ("timing_basis", PStr "per_array");
           ("time_per_unit_s", PInt 600);
           ("yield_fraction", PFloat (qc 1.0)) ]%string;
     LabourModel.operators_field :=
       LabourModel.Slots [slot (PStr "op1"); slot (PStr "op2")] |}.

Definition step_cell_test : LabourModel.process_step :=
  {| LabourModel.fields :=
       list_to_map
         [ ("id", PStr "cell_test");
           ("name", PStr "Cell test");
           ("timing_basis", PStr "cell");
           ("time_per_unit_s", PFloat (qc 45.0));
           ("yield_fraction", PInt 0) ]%string;
     LabourModel.operators_field := LabourModel.Slots [slot (PStr "op2")] |}.

Definition process_steps : list LabourModel.process_step :=
  [step_tabbing; step_lamination; step_cell_test].

(** A per-unit step with a negative yield fraction, and a step of an
    unknown basis whose time is still text. *)
Definition step_rework : LabourModel.process_step :=
  {| LabourModel.fields :=
       list_to_map
         [ ("id", PStr "rework");
           ("name", PStr "Rework");
           ("timing_basis", PStr "per_unit");
           ("quantity_source", PStr "cells");
           ("time_per_unit_s", PFloat (qc 30.0));
           ("setup_time_s_per_array", PFloat (qc 120.0));
           ("yield_fraction", PFloat (qc (-0.8))) ]%string;
     LabourModel.operators_field := LabourModel.Slots [slot (PStr "op1")] |}.

(** A step as the old schema stored it, with the number of its
    operators. *)
Definition step_bonding : LabourModel.process_step :=
  {| LabourModel.fields :=
       list_to_map
         [ ("id", PStr "bonding");
           ("name", PStr "Bonding");
           ("time_per_unit_s", PInt 600) ]%string;
     LabourModel.operators_field := LabourModel.Scalar (PInt 2) |}.

Definition step_inspection : LabourModel.process_step :=
  {| LabourModel.fields :=
       list_to_map
         [ ("id", PStr "inspection");
           ("name", PStr "Inspection");
           ("timing_basis", PStr "cell");
           ("time_per_unit_s", PStr "tbd") ]%string;
     LabourModel.operators_field := LabourModel.Slots [] |}.

End Examples.

(** ** Vocabulary of the specification

    Definitions that follow the words of the specification, to state its
    sentences against the code above. *)

Module Spec.

(** The sum of a list of amounts. *)
Definition Qc_sum (l : list Qc) : Qc := foldr Qcplus 0 l.

(** The yield fraction as used: clamped to 1 when it is not positive. *)
Definition effective_yield (y : Qc) : Qc :=
  if decide (y <= 0) then 1 else y.

(** The quantity a step scales with, for the quantity sources the
    specification lists. *)
Definition quantity_for_source (quantity_source : string)
    (cells_per_string strings_per_array bypass_diodes_per_array
     blocking_diodes_per_array : Z) : option Qc :=
  if decide (quantity_source = "array"%string) then Some 1
  else if decide (quantity_source = "cells"%string)
  then Some (of_Z (cells_per_string * strings_per_array))
  else if decide (quantity_source = "strings"%string)
  then Some (of_Z strings_per_array)
  else if decide (quantity_source = "bypass_diodes"%string)
  then Some (of_Z bypass_diodes_per_array)
  else if decide (quantity_source = "blocking_diodes"%string)
  then Some (of_Z blocking_diodes_per_array)
  else None.

(** A process step with its yield fraction set to [v]. *)
Definition with_yield (v : pyval) (step : LabourModel.process_step)
    : LabourModel.process_step :=
  {| LabourModel.fields := <["yield_fraction" := v]> (LabourModel.fields step);
     LabourModel.operators_field := LabourModel.operators_field step |}.

(** The operators assigned to a step: the profiles that the operator ids
    of its slots name, in the order of the slots.  A slot without an
    operator id, with an empty one or with one that names no profile
    assigns nobody. *)
Definition assigned
    (operator_profiles : gmap string LabourModel.OperatorProfile)
    (step : LabourModel.process_step) : list LabourModel.OperatorProfile :=
  entry ← default [] (LabourModel.operators step);
  match entry with
  | LabourModel.Slot slot =>
      match slot !! "operator_id"%string with
      | Some (PStr operator_id) =>
          if decide (operator_id = ""%string) then []
          else option_list (operator_profiles !! operator_id)
      | _ => []
      end
  | LabourModel.Entry _ => []
  end.

(** The operators of a step can be gone through slot by slot: the step
    holds no operators, a list of mappings, an empty text or an empty
    mapping. *)
Definition is_slot (entry : LabourModel.operator_entry) : bool :=
  match entry with
  | LabourModel.Slot _ => true
  | LabourModel.Entry _ => false
  end.

Definition usable_operators (step : LabourModel.process_step) : bool :=
  match LabourModel.operators_field step with
  | LabourModel.Absent => true
  | LabourModel.Slots slots => forallb is_slot slots
  | LabourModel.Scalar (PStr s) => bool_decide (s = ""%string)
  | LabourModel.Scalar _ => false
  | LabourModel.Mapping d => bool_decide (d = ∅)
  end.

(** The integers within the range of a float.  On a larger one [float()]
    raises [OverflowError], which is outside this embedding: an integer
    converts to the rational it is. *)
Definition float_range (z : Z) : bool :=
  (Z.abs z <? 2 ^ 1024 - 2 ^ 970)%Z.

Definition floatable (v : pyval) : bool :=
  match v with
  | PInt z => float_range z
  | _ => true
  end.


(** The same of the four counts [calculate_labour] converts. *)
Definition counts_in_range (cells_per_string strings_per_array
    bypass_diodes_per_array blocking_diodes_per_array : Z) : bool :=
  float_range (cells_per_string * strings_per_array)
  && float_range strings_per_array
  && float_range bypass_diodes_per_array
  && float_range blocking_diodes_per_array.

Section Text.
Context `{PyText}.

(** The timing basis and quantity source of a step, as the code reads
    them. *)
Definition step_basis (step : LabourModel.process_step) : string :=
  lower (py_str (get_or (LabourModel.fields step) "timing_basis"
                   (PStr "per_array"))).

Definition step_source (step : LabourModel.process_step) : string :=
  py_str (get_or (LabourModel.fields step) "quantity_source" (PStr "array")).

(** The three timing fields of a step are the numbers [t], [setup], [y]. *)
Definition step_numbers (step : LabourModel.process_step) (t setup y : Qc)
    : Prop :=
  py_float (get_or (LabourModel.fields step) "time_per_unit_s" (PFloat 0))
  = Ok t
  /\ py_float (get_or (LabourModel.fields step) "setup_time_s_per_array"
                 (PFloat 0)) = Ok setup
  /\ py_float (get_or (LabourModel.fields step) "yield_fraction" (PFloat 1))
     = Ok y.

(** None of the three is an integer beyond the range of a float. *)
Definition step_in_range (step : LabourModel.process_step) : bool :=
  floatable (get_or (LabourModel.fields step) "time_per_unit_s" (PFloat 0))
  && floatable
       (get_or (LabourModel.fields step) "setup_time_s_per_array" (PFloat 0))
  && floatable (get_or (LabourModel.fields step) "yield_fraction" (PFloat 1)).

(** A step the aggregation can cost: its timing fields are numbers that
    [float()] converts and its operators can be gone through. *)
Definition costable (step : LabourModel.process_step) : Prop :=
  (exists t setup y, step_numbers step t setup y)
  /\ step_in_range step = true
  /\ usable_operators step = true.

(** What the specification says of the result [r] of one step. *)
Definition step_result_ok
    (operator_profiles : gmap string LabourModel.OperatorProfile)
    (cells_per_string strings_per_array bypass_diodes_per_array
     blocking_diodes_per_array : Z)
    (step : LabourModel.process_step) (r : LabourModel.LabourStepResult)
    : Prop :=
  forall t setup y, step_numbers step t setup y ->
    (step_basis step = "per_unit"%string ->
     forall q,
       quantity_for_source (step_source step) cells_per_string
         strings_per_array bypass_diodes_per_array blocking_diodes_per_array
       = Some q ->
       LabourModel.total_step_seconds r = (q / effective_yield y) * t + setup)
    /\ (step_basis step = "per_array"%string ->
        LabourModel.total_step_seconds r = t + setup)
    /\ (step_basis step <> "per_unit"%string ->
        step_basis step <> "per_array"%string ->
        LabourModel.total_step_seconds r = 0
        /\ LabourModel.operator_hours r = 0
        /\ LabourModel.cost r = 0)
    /\ LabourModel.operator_hours r
       = LabourModel.total_step_seconds r / qc 3600
    /\ LabourModel.assigned_operators r = assigned operator_profiles step
    /\ LabourModel.cost r
       = (LabourModel.total_step_seconds r / qc 3600)
         * Qc_sum (LabourModel.hourly_rate
                     <$> LabourModel.assigned_operators r).

(** *** Catalog records and their required fields *)






















(** *** Catalog roles *)

(** No item of the list has the id [mat_id]. *)
Definition no_item_with_id (mat_id : string) (items : list pydict) : Prop :=
  Forall (fun item => py_str (get_or item "id" (PStr "")) <> mat_id) items.

(** No foam of the list is [t] mm thick, within the tolerance 1e-3. *)
Definition no_foam_at (t : Qc) (foams : list pydict) : Prop :=
  Forall
    (fun f =>
       exists th,
         CostPackaging.foam_thickness f = Ok th
         /\ ~ pabs (th - t) < qc 0.001)
    foams.

(** A packaging role is absent: no frame, no shipping board, no foam, no
    box (so also: no packaging item at all), or no foam at 3.0 mm or at
    25.0 mm. *)
Definition packaging_role_absent (materials : materials_db) : Prop :=
  let packaging_items := category materials "Packaging" in
  CostPackaging.of_type packaging_items "frame" = []
  \/ CostPackaging.of_type packaging_items "shipping board" = []
  \/ CostPackaging.of_type packaging_items "foam" = []
  \/ CostPackaging.of_type packaging_items "box" = []
  \/ no_foam_at (qc 3.0) (CostPackaging.of_type packaging_items "foam")
  \/ no_foam_at (qc 25.0) (CostPackaging.of_type packaging_items "foam").

(** The Ag weld head is absent (so also: no weld head at all). *)
Definition ag_head_absent (materials : materials_db) : Prop :=
  no_item_with_id "Weld_Head_Ag" (category materials "Weld heads").

(** A role of the diode calculation is absent: no diode item, no silver
    item, or one of the Al, Au and BL weld heads missing. *)
Definition diode_role_absent (materials : materials_db) : Prop :=
  category materials "Diodes" = []
  \/ category materials "Silver Ribbon" = []
  \/ no_item_with_id "Weld_Head_Al" (category materials "Weld heads")
  \/ no_item_with_id "Weld_Head_Au" (category materials "Weld heads")
  \/ no_item_with_id "Weld_Head_BL" (category materials "Weld heads").

(** The page stops with an error message. *)
Definition reports_error {A} (r : res (page A)) : Prop :=
  exists msg, r = Ok (Stop Error msg).

(** The setting in which a cost page gets to its catalog: a design is
    selected and found, its power is computed, it has [n > 0] cells. *)
Definition costing_ready (s : session) (designs : list pydict)
    (design : pydict) (p : ArrayDesigns.power) (n : Z) : Prop :=
  (exists selected_name,
     selected_array_design s = Some selected_name
     /\ find_design designs selected_name = Ok (Some design))
  /\ ArrayDesigns.compute_power_for_design design = Ok p
  /\ py_int (get_or design "num_cells" (PInt 0)) = Ok n
  /\ (0 < n)%Z.

(** A row of the summary table. *)
Definition summary_row (array_power : Qc) (name : string) (cost : Qc)
    : CostSummary.row :=
  {| CostSummary.Category := name;
     CostSummary.Cost_per_array := cost;
     CostSummary.Cost_per_W :=
       if decide (0 < array_power) then cost / array_power else 0 |}.

End Text.
End Spec.

(** * Further parts of the code

    The parts of the application around the calculations above: the
    loader of the process file and its schema upgrade, the Home page's
    labour snapshot, budget scenario and packaging quantities, the
    remaining cost pages with the selections they store for the Cost
    Summary, the catalog loader, and the helpers and entry forms of the
    Materials pages. *)

From Stdlib Require Import Lqa.

(** ** labour_model.py: [load_process_steps] *)

Module ProcessFile.
Import LabourModel.

(** The value under the key [operators], as [yaml.safe_load] returns
    it. *)
Abbreviation operators_value := LabourModel.operators_value (only parsing).
Abbreviation Absent := LabourModel.Absent (only parsing).
Abbreviation Scalar := LabourModel.Scalar (only parsing).
Abbreviation Slots := LabourModel.Slots (only parsing).
Abbreviation Mapping := LabourModel.Mapping (only parsing).

(** A step as [yaml.safe_load] returns it: its scalar fields and, apart
    from them, the value under [operators]. *)
Record stored_step := {
  stored_fields : pydict;
  stored_operators : operators_value
}.

(** [isinstance(ops, int)] holds of an [int] and of a [bool]; the number
    it stands for in [ops == 0] and in [range(ops)] *)
Definition int_value (v : pyval) : option Z :=
  match v with
  | PInt z => Some z
  | PBool b => Some (if b then 1 else 0)%Z
  | _ => None
  end.

(** [{"operator_id": None}] *)
Definition empty_slot : operator_entry :=
  Slot {[ "operator_id"%string := PNone ]}.

(** The two [operators] blocks of the loop body: the list the step ends
    up with, and whether they set [upgraded]. *)
Definition upgrade_operators (ops : operators_value)
    : list operator_entry * bool :=
  match ops with
  | Scalar v =>
      match int_value v with
      | Some ops =>
          (if (ops =? 0)%Z then []
           else replicate (Z.to_nat ops) empty_slot,
           true)
      | None => ([], true)
      end
  | Slots slots => (slots, false)
  | Absent | Mapping _ => ([], true)
  end.

(** [if k not in step: step[k] = v; upgraded = True] *)
Definition fill_in (k : string) (v : pyval) (st : pydict * bool)
    : pydict * bool :=
  if has_key st.1 k then st else (<[k := v]> st.1, true).

(** The rest of the loop body. *)
Definition upgrade_fields (step : pydict) (upgraded : bool)
    : pydict * bool :=
  let st := (step, upgraded) in
  let st := fill_in "timing_basis" (PStr "per_array") st in
  let st := fill_in "quantity_source" (PStr "array") st in
  let st := fill_in "yield_fraction" (PFloat (qc 1.0)) st in
  let st := fill_in "entry_mode" (PStr "per_unit") st in
  let st := fill_in "batch_units" (PFloat (qc 1.0)) st in
  let st := fill_in "batch_seconds" (PFloat (qc 0.0)) st in
  let st := fill_in "time_per_unit_s" (PFloat (qc 0.0)) st in
  let st := fill_in "setup_time_s_per_array" (PFloat (qc 0.0)) st in
  st.

(** [for step in steps], threading [upgraded]. *)
Fixpoint upgrade_steps (steps : list stored_step) (upgraded : bool)
    : list process_step * bool :=
  match steps with
  | [] => ([], upgraded)
  | step :: rest =>
      let '(slots, touched) := upgrade_operators (stored_operators step) in
      let '(step_fields, upgraded) :=
        upgrade_fields (stored_fields step) (upgraded || touched) in
      let '(rest, upgraded) := upgrade_steps rest upgraded in
      ({| fields := step_fields; operators_field := Slots slots |} :: rest,
       upgraded)
  end.

(** What [load_process_steps] returns, and what it hands to
    [save_process_steps], if anything. *)
Record loaded := {
  steps : list process_step;
  saved : option (list process_step)
}.

(** [load_process_steps], from the list under the key [process] of a file
    that exists. *)
Definition load_process_steps (steps : list stored_step) : loaded :=
  let '(steps, upgraded) := upgrade_steps steps false in
  {| steps := steps; saved := if upgraded then Some steps else None |}.

(** A step as it is read back after [save_process_steps] wrote it. *)
Definition stored (step : process_step) : stored_step :=
  {| stored_fields := fields step;
     stored_operators := operators_field step |}.

(** The fields of the upgraded schema with their defaults, and the steps
    that use it already. *)
Definition schema_defaults : pydict :=
  list_to_map
    [ ("timing_basis", PStr "per_array");
      ("quantity_source", PStr "array");
      ("yield_fraction", PFloat (qc 1.0));
      ("entry_mode", PStr "per_unit");
      ("batch_units", PFloat (qc 1.0));
      ("batch_seconds", PFloat (qc 0.0));
      ("time_per_unit_s", PFloat (qc 0.0));
      ("setup_time_s_per_array", PFloat (qc 0.0)) ]%string.

Definition up_to_date (step : stored_step) : Prop :=
  (exists slots, stored_operators step = Slots slots)
  /\ forall k, is_Some (schema_defaults !! k) ->
       is_Some (stored_fields step !! k).

End ProcessFile.

(** ** pages/home.py: labour per array *)

Module HomeLabour.
Import LabourModel.
Section Text.
Context `{PyText}.

(** [[op.get("operator_id") for op in step.get("operators", [])
     if isinstance(op, dict) and op.get("operator_id")]] *)
Definition op_ids (step : process_step) : res (list pyval) :=
  ops ← iterate (operators_field step);
  Ok (List.filter truthy
        (ops ≫= fun op =>
           match op with
           | Slot op => [get op "operator_id"]
           | Entry _ => []
           end)).

(** [for oid in op_ids]: the hourly rates of the profiles found, summed.
    The profiles are keyed by text. *)
Definition total_hourly_rate (operators : gmap string OperatorProfile)
    (op_ids : list pyval) : Qc :=
  fold_left
    (fun total_hourly_rate oid =>
       let op_profile :=
         match oid with PStr k => operators !! k | _ => None end in
       match op_profile with
       | None => total_hourly_rate
       | Some op_profile => total_hourly_rate + hourly_rate op_profile
       end)
    op_ids (qc 0.0).

(** The body of [for step in steps], on the two running totals. *)
Definition count_step (operators : gmap string OperatorProfile)
    (totals : Qc * Qc) (step : process_step) : res (Qc * Qc) :=
  let '(total_time_per_cell_s, total_cost_per_cell) := totals in
  let basis :=
    lower (py_str (get_or (fields step) "timing_basis" (PStr "cell"))) in
  if negb (bool_decide (basis ∈ ["cell"; "array"]%string)) then Ok totals
  else
    time_per_unit_s ←
      py_float (get_or (fields step) "time_per_unit_s" (PFloat 0));
    if bool_decide (time_per_unit_s <= 0) then Ok totals
    else
      op_ids ← op_ids step;
      let total_hourly_rate := total_hourly_rate operators op_ids in
      let total_time_per_cell_s := total_time_per_cell_s + time_per_unit_s in
      let total_cost_per_cell :=
        if bool_decide (0 < total_hourly_rate)
        then total_cost_per_cell
             + time_per_unit_s * total_hourly_rate / qc 3600.0
        else total_cost_per_cell in
      Ok (total_time_per_cell_s, total_cost_per_cell).

Fixpoint count_steps (operators : gmap string OperatorProfile)
    (steps : list process_step) (totals : Qc * Qc) : res (Qc * Qc) :=
  match steps with
  | [] => Ok totals
  | step :: rest =>
      totals ← count_step operators totals step;
      count_steps operators rest totals
  end.

(** [_compute_labour_per_array(num_cells)]:
    [(labour_time_per_array_s, labour_cost_per_array)].  [files] is what
    [load_process_steps()] and [load_operator_profiles()] return or
    raise. *)
Definition _compute_labour_per_array (num_cells : Z)
    (files : res (list process_step * gmap string OperatorProfile))
    : res (Qc * Qc) :=
  if bool_decide (num_cells <= 0)%Z then Ok (qc 0.0, qc 0.0)
  else
    match files with
    | Raise e => Ok (qc 0.0, qc 0.0)
    | Ok (steps, operators) =>
        '(total_time_per_cell_s, total_cost_per_cell) ←
          count_steps operators steps (qc 0.0, qc 0.0);
        let labour_time_per_array_s :=
          total_time_per_cell_s * of_Z num_cells in
        let labour_cost_per_array := total_cost_per_cell * of_Z num_cells in
        Ok (labour_time_per_array_s, labour_cost_per_array)
    end.

End Text.
End HomeLabour.

(** ** pages/home.py: order scenarios and packaging quantities *)

Module HomeOrders.

(** Scenario 1, cost impact: [materials_cost_per_array] is what the Cost
    Summary page left in the session, if it was visited. *)
Record cost_impact := {
  total_materials_cost : Qc;
  effective_cost_per_good : Qc
}.

Definition power_cost_impact (materials_cost_per_array : option Qc)
    (arrays_to_build arrays_required_good : Z) : res (option cost_impact) :=
  match materials_cost_per_array with
  | Some materials_cost_per_array =>
      if bool_decide (0 < materials_cost_per_array) then
        let total_materials_cost :=
          of_Z arrays_to_build * materials_cost_per_array in
        effective_cost_per_good ←
          (if bool_decide (0 < arrays_required_good)%Z
           then pdiv total_materials_cost (of_Z arrays_required_good)
           else Ok (qc 0.0));
        Ok (Some {| total_materials_cost := total_materials_cost;
                    effective_cost_per_good := effective_cost_per_good |})
      else Ok None
  | None => Ok None
  end.

(** Scenario 2: customer budget.  The budget, the costs and the yield
    are floats; the sum of the two costs, the floor division and the
    product that [int()] truncates are the float operations. *)
Record budget_result := {
  arrays_we_can_build : Z;
  good_arrays_expected : Z;
  total_power_watts : Qc;
  total_power_kW : Qc
}.

Definition budget_scenario (materials_cost_per_array : option Qc)
    (labour_cost_per_array budget : Qc) (budget_basis : string)
    (yield_frac array_power : Qc) : res budget_result :=
  let nothing :=
    {| arrays_we_can_build := 0;
       good_arrays_expected := 0;
       total_power_watts := qc 0.0;
       total_power_kW := qc 0.0 |} in
  match materials_cost_per_array with
  | None => Ok nothing
  | Some materials_cost_per_array =>
      if bool_decide (materials_cost_per_array <= 0) then Ok nothing
      else if bool_decide (budget <= 0) then Ok nothing
      else
        let cost_per_array_for_budget :=
          if decide (budget_basis = "Materials"%string)
          then Some materials_cost_per_array
          else if bool_decide (labour_cost_per_array <= 0) then None
          else Some (Float64.add materials_cost_per_array
                       labour_cost_per_array) in
        match cost_per_array_for_budget with
        | Some cost_per_array_for_budget =>
            if bool_decide (0 < cost_per_array_for_budget) then
              whole ← Float64.floor_div budget cost_per_array_for_budget;
              let arrays_we_can_build := trunc whole in
              let good_arrays_expected :=
                trunc (Float64.mul (Float64.of_int arrays_we_can_build)
                         yield_frac) in
              let total_power_watts :=
                of_Z good_arrays_expected * array_power in
              let total_power_kW := total_power_watts / qc 1000.0 in
              Ok {| arrays_we_can_build := arrays_we_can_build;
                    good_arrays_expected := good_arrays_expected;
                    total_power_watts := total_power_watts;
                    total_power_kW := total_power_kW |}
            else Ok nothing
        | None => Ok nothing
        end
  end.

(** Section 6 of [_render_material_requirements_expander]: packaging
    quantities for [arrays_to_build] arrays.  A row of the table is the
    catalog item its label names and the quantity. *)
Record pack_rows := {
  frames_needed : pydict * Z;
  boards_needed : pydict * Z;
  boxes_needed : pydict * Z;
  foam_25_total : pydict * Z;
  foam_3_total : pydict * Z
}.

Section Text.
Context `{PyText}.

Definition packaging_requirements (s : session) (materials : materials_db)
    (arrays_to_build : Z) : res (page pack_rows) :=
  let packaging_items := category materials "Packaging" in
  if nonempty packaging_items then
    let pack_state :=
      default default_packaging_state (cost_packaging_state s) in
    let frames := CostPackaging.of_type packaging_items "frame" in
    let boards := CostPackaging.of_type packaging_items "shipping board" in
    let foams := CostPackaging.of_type packaging_items "foam" in
    let boxes := CostPackaging.of_type packaging_items "box" in
    if nonempty frames && nonempty boards && nonempty foams && nonempty boxes
    then
      '(foam_3mm, foam_25mm) ← CostPackaging.select_foams foams None None;
      match foam_3mm, foam_25mm with
      | Some foam_3mm, Some foam_25mm =>
          if dict_truthy foam_3mm && dict_truthy foam_25mm then
            let arrays_per_box := arrays_per_box pack_state in
            frame_item ← clamped frames (frame_idx pack_state);
            board_item ← clamped boards (board_idx pack_state);
            box_item ← clamped boxes (box_idx pack_state);
            let frames_needed := arrays_to_build in
            let boards_needed := arrays_to_build in
            boxes_needed ←
              (if bool_decide (0 < arrays_per_box)%Z
               then ceil <$> pdiv (of_Z arrays_to_build) (of_Z arrays_per_box)
               else Ok 0%Z);
            let foam_25_pieces_per_box := 2%Z in
            let foam_3_pieces_per_box := Z.max (arrays_per_box - 1) 0 in
            let foam_25_total := (boxes_needed * foam_25_pieces_per_box)%Z in
            let foam_3_total := (boxes_needed * foam_3_pieces_per_box)%Z in
            Ok (Shown
                  {| frames_needed := (frame_item, frames_needed);
                     boards_needed := (board_item, boards_needed);
                     boxes_needed := (box_item, boxes_needed);
                     foam_25_total := (foam_25mm, foam_25_total);
                     foam_3_total := (foam_3mm, foam_3_total) |})
          else
            Ok (Stop Info
                  "Foam pieces not fully configured (need both 3 mm and 25 mm types).")
      | _, _ =>
          Ok (Stop Info
                "Foam pieces not fully configured (need both 3 mm and 25 mm types).")
      end
    else
      Ok (Stop Info
            "Frames/boards/foams/boxes not fully configured for packaging.")
  else Ok (Stop Info "No packaging materials found in the database.").

End Text.
End HomeOrders.

(** ** The selections a cost page leaves in [st.session_state] *)

Module Session.

Definition with_silver (s : session) (state : silver_state) : session :=
  {| selected_array_design := selected_array_design s;
     selected_illumination := selected_illumination s;
     cost_silver_state := Some state;
     cost_diodes_state := cost_diodes_state s;
     cost_lamination_state := cost_lamination_state s;
     cost_tapes_state := cost_tapes_state s;
     cost_misc_state := cost_misc_state s;
     cost_packaging_state := cost_packaging_state s |}.

Definition with_diodes (s : session) (state : diodes_state) : session :=
  {| selected_array_design := selected_array_design s;
     selected_illumination := selected_illumination s;
     cost_silver_state := cost_silver_state s;
     cost_diodes_state := Some state;
     cost_lamination_state := cost_lamination_state s;
     cost_tapes_state := cost_tapes_state s;
     cost_misc_state := cost_misc_state s;
     cost_packaging_state := cost_packaging_state s |}.

Definition with_lamination (s : session) (state : lamination_state)
    : session :=
  {| selected_array_design := selected_array_design s;
     selected_illumination := selected_illumination s;
     cost_silver_state := cost_silver_state s;
     cost_diodes_state := cost_diodes_state s;
     cost_lamination_state := Some state;
     cost_tapes_state := cost_tapes_state s;
     cost_misc_state := cost_misc_state s;
     cost_packaging_state := cost_packaging_state s |}.

Definition with_tapes (s : session) (state : tapes_state) : session :=
  {| selected_array_design := selected_array_design s;
     selected_illumination := selected_illumination s;
     cost_silver_state := cost_silver_state s;
     cost_diodes_state := cost_diodes_state s;
     cost_lamination_state := cost_lamination_state s;
     cost_tapes_state := Some state;
     cost_misc_state := cost_misc_state s;
     cost_packaging_state := cost_packaging_state s |}.

Definition with_misc (s : session) (state : misc_state) : session :=
  {| selected_array_design := selected_array_design s;
     selected_illumination := selected_illumination s;
     cost_silver_state := cost_silver_state s;
     cost_diodes_state := cost_diodes_state s;
     cost_lamination_state := cost_lamination_state s;
     cost_tapes_state := cost_tapes_state s;
     cost_misc_state := Some state;
     cost_packaging_state := cost_packaging_state s |}.

Definition with_packaging (s : session) (state : packaging_state)
    : session :=
  {| selected_array_design := selected_array_design s;
     selected_illumination := selected_illumination s;
     cost_silver_state := cost_silver_state s;
     cost_diodes_state := cost_diodes_state s;
     cost_lamination_state := cost_lamination_state s;
     cost_tapes_state := cost_tapes_state s;
     cost_misc_state := cost_misc_state s;
     cost_packaging_state := Some state |}.

(** pages/cost_packaging.py: [state["frame_idx"] = frame_idx], ...,
    [state["arrays_per_box"] = arrays_per_box], all four written by the
    time the page shows its total. *)
Definition after_cost_packaging (ui : CostPackaging.packaging_choice)
    : packaging_state :=
  {| frame_idx := CostPackaging.chosen_frame ui;
     board_idx := CostPackaging.chosen_board ui;
     box_idx := CostPackaging.chosen_box ui;
     arrays_per_box := CostPackaging.chosen_arrays_per_box ui |}.

(** pages/cost_diodes.py: the seven entries of [cost_diodes_state], all
    written by the time the page shows its total. *)
Definition after_cost_diodes (ui : CostDiodes.diodes_choice) : diodes_state :=
  {| bypass_diode_index := CostDiodes.chosen_bypass_diode ui;
     bypass_silver_index := CostDiodes.chosen_bypass_silver ui;
     bypass_tab_length_mm := CostDiodes.chosen_tab_length_mm ui;
     bypass_tab_width_mm := CostDiodes.chosen_tab_width_mm ui;
     bypass_yield_percent := of_Z (CostDiodes.chosen_bypass_yield_percent ui);
     blocking_diode_index := CostDiodes.chosen_blocking_diode ui;
     blocking_yield_percent :=
       of_Z (CostDiodes.chosen_blocking_yield_percent ui) |}.

End Session.

(** [max(a, b)]: [b] when it is greater, [a] otherwise *)
Definition py_max (a b : Qc) : Qc := if decide (a < b) then b else a.

(** ** pages/cost_misc.py: the page *)

Module CostMiscPage.

(** What the operator picks in the page's widgets. *)
Record misc_choice := {
  chosen_epoxy : nat;
  chosen_epoxy_per_diode_ml : Qc
}.

(** The page's figures, the error messages it showed on its way (it
    carries on after them), and the state it leaves in the session. *)
Record misc_figures := {
  kapton_cost_total : Qc;
  epoxy_total_cost : Qc;
  total_misc_cost : Qc;
  cost_per_watt : option Qc;
  errors : list string;
  state : misc_state
}.

Section Text.
Context `{PyText}.

(** [for it in misc_items: if ...: kapton_item = it; break] *)
Definition find_kapton (misc_items : list pydict) : option pydict :=
  List.find
    (fun it =>
       bool_decide (py_str (get_or it "id" (PStr "")) = "Kapton_Insulation"%string)
       || bool_decide (lower (py_str (get_or it "type" (PStr ""))) = "kapton"%string))
    misc_items.

Definition render (s : session) (exchange_rate : Qc)
    (designs : list pydict) (materials : materials_db)
    (ui : misc_choice) : res (page misc_figures) :=
  match selected_array_design s with
  | None =>
      Ok (Stop Warning "Please choose an array design on the Home page first.")
  | Some selected_name =>
  let illumination := illumination_of s in
  design ← find_design designs selected_name;
  match design with
  | None => Ok (Stop Error "Selected array design not found.")
  | Some design =>
  let misc_items := category materials "Misc" in
  if negb (nonempty misc_items) then
    Ok (Stop Error
          "No Misc materials found. Add Kapton and Epoxy in Materials → Misc.")
  else
  power ← ArrayDesigns.compute_power_for_design design;
  let array_power := ArrayDesigns.array_power_for illumination power in
  num_cells ← py_int (get_or design "num_cells" (PInt 0));
  if bool_decide (num_cells <= 0)%Z then
    Ok (Stop Error "Array design has invalid number of cells.")
  else
  let state := default default_misc_state (cost_misc_state s) in
  (* Kapton insulation *)
  '(kapton_cost_total, kapton_errors) ←
    match find_kapton misc_items with
    | None =>
        Ok (qc 0.0,
            ["Kapton insulation material not found in Misc. Expected id 'Kapton_Insulation' or type 'Kapton'."%string])
    | Some kapton_item =>
        let disks_per_array := num_cells in
        cost_per_disk ←
          CostMisc.get_kapton_cost_per_disk kapton_item exchange_rate;
        Ok (cost_per_disk * of_Z disks_per_array, [])
    end;
  (* Epoxy *)
  let epoxy_items := CostPackaging.of_type misc_items "epoxy" in
  '(epoxy_total_cost, epoxy_errors, state) ←
    (if negb (nonempty epoxy_items) then
       Ok (qc 0.0, ["No epoxy items found in Misc (type 'Epoxy')."%string],
           state)
     else
       let epoxy_idx := chosen_epoxy ui in
       epoxy_item ← index epoxy_items epoxy_idx;
       let amount_per_diode_ml := chosen_epoxy_per_diode_ml ui in
       let state :=
         {| epoxy_index := epoxy_idx;
            epoxy_per_diode_ml := amount_per_diode_ml |} in
       let num_diodes_for_epoxy := 2 in
       let total_epoxy_ml := amount_per_diode_ml * num_diodes_for_epoxy in
       cost_per_ml ← CostMisc.get_epoxy_cost_per_ml epoxy_item exchange_rate;
       Ok (cost_per_ml * total_epoxy_ml, [], state));
  let total_misc_cost := kapton_cost_total + epoxy_total_cost in
  cost_per_watt ←
    (if bool_decide (0 < array_power)
     then Some <$> pdiv total_misc_cost array_power
     else Ok None);
  Ok (Shown
        {| kapton_cost_total := kapton_cost_total;
           epoxy_total_cost := epoxy_total_cost;
           total_misc_cost := total_misc_cost;
           cost_per_watt := cost_per_watt;
           errors := kapton_errors ++ epoxy_errors;
           state := state |})
  end
  end.

End Text.
End CostMiscPage.

(** ** pages/cost_tapes.py: the page *)

Module CostTapesPage.

Record tapes_choice := {
  chosen_perimeter_tape : nat;
  chosen_other_tape : nat;
  chosen_other_length_mm : Qc
}.

Record tapes_figures := {
  base_length_mm : Qc;
  perimeter_length_mm : Qc;
  cost_perimeter : Qc;
  cost_other : Qc;
  total_tape_cost : Qc;
  cost_per_watt : option Qc;
  state : tapes_state
}.

Section Text.
Context `{PyText}.

Definition render (s : session) (exchange_rate : Qc)
    (designs : list pydict) (materials : materials_db)
    (ui : tapes_choice) : res (page tapes_figures) :=
  match selected_array_design s with
  | None =>
      Ok (Stop Warning "Please choose an array design on the Home page first.")
  | Some selected =>
  let illumination := illumination_of s in
  design ← find_design designs selected;
  match design with
  | None => Ok (Stop Error "Selected array design not found.")
  | Some design =>
  let tape_items := category materials "Tapes" in
  if negb (nonempty tape_items) then
    Ok (Stop Error "No tape materials found. Add some under Materials → Tapes.")
  else
  power ← ArrayDesigns.compute_power_for_design design;
  let array_power := ArrayDesigns.array_power_for illumination power in
  (* geometry *)
  num_cells ← (v ← item design "num_cells"; py_float v);
  cell_h ← (v ← item design "cell_height_mm"; py_float v);
  gap ← (v ← item design "gap_between_cells_mm"; py_float v);
  pos_gap ← (v ← item design "positive_end_gap_mm"; py_float v);
  neg_gap ← (v ← item design "negative_end_gap_mm"; py_float v);
  let base_length_mm :=
    cell_h * num_cells + gap * py_max (num_cells - 1) 0 + pos_gap + neg_gap in
  let perimeter_length_mm := 2 * base_length_mm + qc 140.0 in
  let perimeter_length_m := perimeter_length_mm / qc 1000.0 in
  (* perimeter taping *)
  let perim_idx := chosen_perimeter_tape ui in
  perim_item ← index tape_items perim_idx;
  cost_per_m_perim ← CostTapes.get_tape_cost_per_m perim_item exchange_rate;
  let cost_perimeter := cost_per_m_perim * perimeter_length_m in
  (* other taping *)
  let other_idx := chosen_other_tape ui in
  other_item ← index tape_items other_idx;
  let other_length_mm := chosen_other_length_mm ui in
  let other_length_m := other_length_mm / qc 1000.0 in
  cost_per_m_other ← CostTapes.get_tape_cost_per_m other_item exchange_rate;
  let cost_other := cost_per_m_other * other_length_m in
  let total_tape_cost := cost_perimeter + cost_other in
  cost_per_watt ←
    (if bool_decide (0 < array_power)
     then Some <$> pdiv total_tape_cost array_power
     else Ok None);
  Ok (Shown
        {| base_length_mm := base_length_mm;
           perimeter_length_mm := perimeter_length_mm;
           cost_perimeter := cost_perimeter;
           cost_other := cost_other;
           total_tape_cost := total_tape_cost;
           cost_per_watt := cost_per_watt;
           state :=
             {| perimeter_tape_idx := perim_idx;
                other_tape_idx := other_idx;
                other_length_mm := other_length_mm |} |})
  end
  end.

End Text.
End CostTapesPage.

(** ** pages/cost_lamination.py: the page *)

Module CostLaminationPage.

(** What the operator picks: a material and a waste length for each of
    the three layers (by layer index), and the liner material. *)
Record lamination_choice := {
  chosen_layer : nat -> nat;
  chosen_waste_mm : nat -> Qc;
  chosen_liner : nat
}.

Record layer_figures := {
  total_length_m : Qc;
  waste_pct : Qc;
  cost_layer : Qc
}.

Record lamination_figures := {
  base_length_mm : Qc;
  layers : list layer_figures;
  liner_cost : Qc;
  total_lam_cost : Qc;
  total_lam_length_m : Qc;
  cost_per_watt : option Qc;
  state : lamination_state
}.

Section Text.
Context `{PyText}.

(** One turn of [for layer_idx in range(3)]: the layer's figures and the
    state with the layer's two entries written. *)
Definition layer (lam_items : list pydict) (exchange_rate base_length_mm : Qc)
    (ui : lamination_choice) (state : lamination_state) (layer_idx : nat)
    : res (layer_figures * lamination_state) :=
  current_index ← index (layer_indices state) layer_idx;
  let sel_idx := chosen_layer ui layer_idx in
  let state :=
    {| layer_indices := <[layer_idx := sel_idx]> (layer_indices state);
       layer_waste_mm := layer_waste_mm state;
       liner_index := liner_index state |} in
  layer_item ← index lam_items sel_idx;
  default_waste ← index (layer_waste_mm state) layer_idx;
  let waste_mm := chosen_waste_mm ui layer_idx in
  let state :=
    {| layer_indices := layer_indices state;
       layer_waste_mm := <[layer_idx := waste_mm]> (layer_waste_mm state);
       liner_index := liner_index state |} in
  let total_length_mm := base_length_mm + waste_mm in
  let total_length_m := total_length_mm / qc 1000.0 in
  waste_pct ←
    (if bool_decide (0 < total_length_mm)
     then (fun q => q * qc 100.0) <$> pdiv waste_mm total_length_mm
     else Ok (qc 0.0));
  cost_per_m ←
    CostLamination.get_lamination_cost_per_m layer_item exchange_rate;
  let cost_layer := cost_per_m * total_length_m in
  Ok ({| total_length_m := total_length_m;
         waste_pct := waste_pct;
         cost_layer := cost_layer |}, state).

Definition render (s : session) (exchange_rate : Qc)
    (designs : list pydict) (materials : materials_db)
    (ui : lamination_choice) : res (page lamination_figures) :=
  match selected_array_design s with
  | None =>
      Ok (Stop Warning
            "Please choose an array design on the **Home** page first.")
  | Some selected_name =>
  let illumination := illumination_of s in
  design ← find_design designs selected_name;
  match design with
  | None => Ok (Stop Error "Selected array design not found.")
  | Some design =>
  let lam_items := category materials "Lamination" in
  if negb (nonempty lam_items) then
    Ok (Stop Error
          "No lamination materials found. Add some under Materials → Lamination.")
  else
  power ← ArrayDesigns.compute_power_for_design design;
  let array_power := ArrayDesigns.array_power_for illumination power in
  (* base lamination length *)
  num_cells ← py_float (get_or design "num_cells" (PInt 0));
  cell_h ← py_float (get_or design "cell_height_mm" (PFloat 0));
  gap ← py_float (get_or design "gap_between_cells_mm" (PFloat 0));
  pos_gap ← py_float (get_or design "positive_end_gap_mm" (PFloat 0));
  neg_gap ← py_float (get_or design "negative_end_gap_mm" (PFloat 0));
  if bool_decide (num_cells <= 0) then
    Ok (Stop Error "Array design has invalid number of cells.")
  else
  let base_length_mm :=
    cell_h * num_cells + gap * py_max (num_cells - 1) 0 + pos_gap + neg_gap in
  let base_length_m := base_length_mm / qc 1000.0 in
  let state :=
    default default_lamination_state (cost_lamination_state s) in
  (* lamination stack, 3 layers *)
  '(layer_0, state) ← layer lam_items exchange_rate base_length_mm ui state 0;
  '(layer_1, state) ← layer lam_items exchange_rate base_length_mm ui state 1;
  '(layer_2, state) ← layer lam_items exchange_rate base_length_mm ui state 2;
  let total_stack_cost :=
    qc 0.0 + cost_layer layer_0 + cost_layer layer_1 + cost_layer layer_2 in
  let total_stack_length_m :=
    qc 0.0 + total_length_m layer_0 + total_length_m layer_1
    + total_length_m layer_2 in
  (* welding liner *)
  let liner_idx := chosen_liner ui in
  let state :=
    {| layer_indices := layer_indices state;
       layer_waste_mm := layer_waste_mm state;
       liner_index := liner_idx |} in
  liner_item ← index lam_items liner_idx;
  let liner_length_m := base_length_m in
  liner_cost_per_m ←
    CostLamination.get_lamination_cost_per_m liner_item exchange_rate;
  let liner_cost := liner_cost_per_m * liner_length_m in
  let total_lam_cost := total_stack_cost + liner_cost in
  let total_lam_length_m := total_stack_length_m + liner_length_m in
  cost_per_watt ←
    (if bool_decide (0 < array_power)
     then Some <$> pdiv total_lam_cost array_power
     else Ok None);
  Ok (Shown
        {| base_length_mm := base_length_mm;
           layers := [layer_0; layer_1; layer_2];
           liner_cost := liner_cost;
           total_lam_cost := total_lam_cost;
           total_lam_length_m := total_lam_length_m;
           cost_per_watt := cost_per_watt;
           state := state |})
  end
  end.

End Text.
End CostLaminationPage.

(** ** pages/array_designs.py: the silver selection of the design forms *)

Module ArrayDesignsPage.
Section Text.
Context `{PyText}.

(** [_find_silver_index_by_id(silver_items, silver_id)]: the position of
    the first item whose id reads as [silver_id] does; 0 when the list is
    empty or has no such item. *)
Definition _find_silver_index_by_id (silver_items : list pydict)
    (silver_id : pyval) : nat :=
  if negb (nonempty silver_items) then 0%nat
  else
    match
      list_find
        (fun item => py_str (get_or item "id" (PStr "")) = py_str silver_id)
        silver_items
    with
    | Some (i, _) => i
    | None => 0%nat
    end.

End Text.
End ArrayDesignsPage.

(** ** pages/materials_*.py: the derived costs and the forms that add
    items to the catalog *)

Module Materials.

(** The options of the select boxes of the forms. *)
Inductive currency_option := USD | GBP.
Definition currency_name (c : currency_option) : string :=
  match c with USD => "USD" | GBP => "GBP" end.

Inductive length_unit_option := Metres | Feet.
Definition length_unit_text (u : length_unit_option) : string :=
  match u with Metres => "m" | Feet => "ft" end.

(** What a submitted form does: it shows an error and saves nothing, or it
    appends an item to its category and saves the catalog. *)
Inductive submission :=
| Rejected (msg : string)
| Saved (item : pydict).

(** The price in pounds of a cost entered in a currency of the forms. *)
Definition in_gbp (currency : currency_option) (cost rate : Qc) : Qc :=
  match currency with
  | USD => cost * rate
  | GBP => cost
  end.

Definition FT_TO_M : Qc := qc 0.3048.
Definition SILVER_DENSITY_DEFAULT : Qc := qc 10.49.

Section Text.
Context `{PyText}.

(** materials_weld_heads.py *)
Definition compute_cost_per_weld_gbp (item : pydict)
    (exchange_rate_gbp_per_usd : Qc) : res Qc :=
  try_then
    (num_welds ← py_float (get_or item "num_welds" (PInt 0));
     Ok (Next num_welds))
    type_or_value_error 0
    (fun num_welds =>
       if bool_decide (num_welds <= 0) then Ok 0
       else
         currency ← or_upper (get_or item "currency" (PStr "USD")) "USD";
         let unit_cost_usd := get_or item "unit_cost_usd" PNone in
         let unit_cost_gbp := get_or item "unit_cost_gbp" PNone in
         try_then
           (if decide (currency = "USD"%string) then
              if is_none unit_cost_usd then Ok (Return 0)
              else c ← py_float unit_cost_usd;
                   Ok (Next (c * exchange_rate_gbp_per_usd))
            else
              if is_none unit_cost_gbp then Ok (Return 0)
              else c ← py_float unit_cost_gbp; Ok (Next c))
           type_or_value_error 0
           (fun price_gbp =>
              if bool_decide (price_gbp <= 0) then Ok 0
              else pdiv price_gbp num_welds)).

(** materials_lamination.py and, word for word, materials_tapes.py *)
Definition compute_cost_per_m_gbp (item : pydict)
    (exchange_rate_gbp_per_usd : Qc) : res Qc :=
  try_then
    (length_value ← py_float (get_or item "roll_length_value" (PFloat 0));
     Ok (Next length_value))
    type_or_value_error 0
    (fun length_value =>
       if bool_decide (length_value <= 0) then Ok 0
       else
         unit ← or_lower (get_or item "roll_length_unit" (PStr "m")) "m";
         currency ←
           or_upper (get_or item "roll_currency" (PStr "USD")) "USD";
         let length_m :=
           if decide (unit = "ft"%string) then length_value * FT_TO_M
           else length_value in
         if bool_decide (length_m <= 0) then Ok 0
         else
           let roll_cost_usd := get_or item "roll_cost_usd" PNone in
           let roll_cost_gbp := get_or item "roll_cost_gbp" PNone in
           try_then
             (if decide (currency = "USD"%string) then
                if is_none roll_cost_usd then Ok (Return 0)
                else c ← py_float roll_cost_usd;
                     Ok (Next (c * exchange_rate_gbp_per_usd))
              else
                if is_none roll_cost_gbp then Ok (Return 0)
                else c ← py_float roll_cost_gbp; Ok (Next c))
             type_or_value_error 0
             (fun cost_gbp =>
                if bool_decide (cost_gbp <= 0) then Ok 0
                else pdiv cost_gbp length_m)).

(** materials_misc.py *)
Definition compute_kapton_cost_per_disk_gbp (item : pydict)
    (exchange_rate_gbp_per_usd : Qc) : res Qc :=
  try_then
    (disks ← py_float (get_or item "disks_per_roll" (PInt 0));
     Ok (Next disks))
    type_or_value_error 0
    (fun disks =>
       if bool_decide (disks <= 0) then Ok 0
       else
         currency ← or_upper (get_or item "currency" (PStr "USD")) "USD";
         try_then
           (if decide (currency = "USD"%string) then
              let roll_cost_usd := get_or item "roll_cost_usd" PNone in
              if is_none roll_cost_usd then Ok (Return 0)
              else c ← py_float roll_cost_usd;
                   Ok (Next (c * exchange_rate_gbp_per_usd))
            else
              c ← py_float (get_or item "roll_cost_gbp" (PFloat 0));
              Ok (Next c))
           type_or_value_error 0
           (fun roll_cost_gbp =>
              if bool_decide (roll_cost_gbp <= 0) then Ok 0
              else pdiv roll_cost_gbp disks)).

(** materials_misc.py *)
Definition compute_epoxy_cost_per_ml_gbp (item : pydict)
    (exchange_rate_gbp_per_usd : Qc) : res Qc :=
  try_then
    (volume_ml ← py_float (get_or item "volume_ml" (PInt 0));
     Ok (Next volume_ml))
    type_or_value_error 0
    (fun volume_ml =>
       if bool_decide (volume_ml <= 0) then Ok 0
       else
         currency ← or_upper (get_or item "currency" (PStr "USD")) "USD";
         try_then
           (if decide (currency = "USD"%string) then
              let total_cost_usd := get_or item "total_cost_usd" PNone in
              if is_none total_cost_usd then Ok (Return 0)
              else c ← py_float total_cost_usd;
                   Ok (Next (c * exchange_rate_gbp_per_usd))
            else
              c ← py_float (get_or item "total_cost_gbp" (PFloat 0));
              Ok (Next c))
           type_or_value_error 0
           (fun total_cost_gbp =>
              if bool_decide (total_cost_gbp <= 0) then Ok 0
              else pdiv total_cost_gbp volume_ml)).

(** materials_packaging.py *)
Definition _get_foam_cost_per_piece_gbp (item : pydict)
    (exchange_rate_gbp_per_usd : Qc) : res Qc :=
  try_then
    (num_pieces ← py_float (get_or item "num_pieces" (PInt 0));
     Ok (Next num_pieces))
    type_or_value_error 0
    (fun num_pieces =>
       if bool_decide (num_pieces <= 0) then Ok 0
       else
         currency ← or_upper (get_or item "currency" (PStr "USD")) "USD";
         try_then
           (if decide (currency = "USD"%string) then
              let total_cost_usd := get_or item "total_cost_usd" PNone in
              if is_none total_cost_usd then Ok (Return 0)
              else c ← py_float total_cost_usd;
                   Ok (Next (c * exchange_rate_gbp_per_usd))
            else
              c ← py_float (get_or item "total_cost_gbp" (PFloat 0));
              Ok (Next c))
           type_or_value_error 0
           (fun total_cost_gbp =>
              if bool_decide (total_cost_gbp <= 0) then Ok 0
              else pdiv total_cost_gbp num_pieces)).

(** materials_packaging.py *)
Definition _get_unit_price_gbp (item : pydict)
    (exchange_rate_gbp_per_usd : Qc) : res Qc :=
  currency ← or_upper (get_or item "currency" (PStr "USD")) "USD";
  try_except
    (if decide (currency = "USD"%string) then
       let unit_cost_usd := get_or item "unit_cost_usd" PNone in
       if is_none unit_cost_usd then Ok 0
       else c ← py_float unit_cost_usd; Ok (c * exchange_rate_gbp_per_usd)
     else
       let unit_cost_gbp := get_or item "unit_cost_gbp" PNone in
       if is_none unit_cost_gbp then Ok 0
       else py_float unit_cost_gbp)
    type_or_value_error (Ok 0).

(** materials_silver.py *)
Definition compute_cost_per_mm_gbp (item : pydict)
    (exchange_rate_gbp_per_usd : Qc) : res Qc :=
  try_then
    (width_mm ← py_float (get_or item "width_mm" (PFloat 0));
     thickness_mm ← py_float (get_or item "thickness_mm" (PFloat 0));
     density ←
       py_float (get_or item "density_g_cm3" (PFloat SILVER_DENSITY_DEFAULT));
     price_per_g ← py_float (get_or item "price_per_g" (PFloat 0));
     Ok (Next (width_mm, thickness_mm, density, price_per_g)))
    type_or_value_error 0
    (fun '(width_mm, thickness_mm, density, price_per_g) =>
       if bool_decide (width_mm <= 0) || bool_decide (thickness_mm <= 0)
          || bool_decide (density <= 0) || bool_decide (price_per_g <= 0)
       then Ok 0
       else
         currency ←
           or_upper (get_or item "price_currency" (PStr "USD")) "USD";
         let price_per_g_gbp :=
           if decide (currency = "USD"%string)
           then price_per_g * exchange_rate_gbp_per_usd else price_per_g in
         let mass_per_mm := density * width_mm * thickness_mm / qc 1000.0 in
         let cost_per_mm_gbp := mass_per_mm * price_per_g_gbp in
         Ok cost_per_mm_gbp).

End Text.

(** The forms.  [strip] is [str.strip], left to the interpreter. *)
Section Forms.
Variable strip : string -> string.

(** [if notes.strip(): item["notes"] = notes.strip()] *)
Definition with_notes (notes : string) (item : pydict) : pydict :=
  if bool_decide (strip notes = ""%string) then item
  else <["notes" := PStr (strip notes)]> item.

(** [if currency == "USD": item[usd] = float(cost)
     else: item[gbp] = float(cost)] *)
Definition with_cost (usd gbp : string) (currency : currency_option)
    (cost : Qc) (item : pydict) : pydict :=
  if bool_decide (currency_name currency = "USD"%string)
  then <[usd := PFloat cost]> item
  else <[gbp := PFloat cost]> item.

(** materials_weld_heads.py, form [add_weld_head_item] *)
Definition add_weld_head (new_id new_name : string) (unit_price : Qc)
    (currency : currency_option) (num_welds : Z) (new_notes : string)
    : submission :=
  if bool_decide (strip new_id = ""%string) then
    Rejected "Please provide an ID / Code."
  else if bool_decide (strip new_name = ""%string) then
    Rejected "Please provide a Name / Description."
  else if bool_decide (unit_price <= 0) then
    Rejected "Unit price must be > 0."
  else if bool_decide (num_welds <= 0)%Z then
    Rejected "Number of welds must be > 0."
  else
    let item : pydict :=
      list_to_map
        [ ("id", PStr (strip new_id));
          ("name", PStr (strip new_name));
          ("currency", PStr (currency_name currency));
          ("num_welds", PInt num_welds) ]%string in
    let item := with_cost "unit_cost_usd" "unit_cost_gbp" currency unit_price
                  item in
    Saved (with_notes new_notes item).

(** materials_diodes.py, form [add_diode_item] *)
Definition add_diode (new_id new_name : string) (unit_price : Qc)
    (currency : currency_option) (new_notes : string) : submission :=
  if bool_decide (strip new_id = ""%string) then
    Rejected "Please provide an ID / Code."
  else if bool_decide (strip new_name = ""%string) then
    Rejected "Please provide a Name / Description."
  else if bool_decide (unit_price <= 0) then
    Rejected "Unit price must be > 0."
  else
    let item : pydict :=
      list_to_map
        [ ("id", PStr (strip new_id));
          ("name", PStr (strip new_name));
          ("unit_cost_usd",
           if bool_decide (currency_name currency = "USD"%string)
           then PFloat unit_price else PNone);
          ("unit_cost_gbp",
           if bool_decide (currency_name currency = "GBP"%string)
           then PFloat unit_price else PNone);
          ("currency", PStr (currency_name currency)) ]%string in
    Saved (with_notes new_notes item).

(** materials_lamination.py, form [add_lamination_item] *)
Definition add_lamination (new_id new_name : string) (roll_length_value : Qc)
    (roll_length_unit : length_unit_option) (roll_cost : Qc)
    (roll_currency : currency_option) (new_notes : string) : submission :=
  if bool_decide (strip new_id = ""%string) then
    Rejected "Please provide an ID / Code."
  else if bool_decide (strip new_name = ""%string) then
    Rejected "Please provide a Name / Description."
  else if bool_decide (roll_length_value <= 0) then
    Rejected "Roll length must be > 0."
  else if bool_decide (roll_cost <= 0) then
    Rejected "Roll cost must be > 0."
  else
    let item : pydict :=
      list_to_map
        [ ("id", PStr (strip new_id));
          ("name", PStr (strip new_name));
          ("roll_length_value", PFloat roll_length_value);
          ("roll_length_unit", PStr (length_unit_text roll_length_unit));
          ("roll_currency", PStr (currency_name roll_currency)) ]%string in
    let item := with_cost "roll_cost_usd" "roll_cost_gbp" roll_currency
                  roll_cost item in
    Saved (with_notes new_notes item).

(** materials_tapes.py, form [add_tape_item] *)
Definition add_tape (new_id new_name : string) (width_mm : Qc)
    (roll_length_value : Qc) (roll_length_unit : length_unit_option)
    (roll_cost : Qc) (roll_currency : currency_option) (new_notes : string)
    : submission :=
  if bool_decide (strip new_id = ""%string) then
    Rejected "Please provide an ID / Code."
  else if bool_decide (strip new_name = ""%string) then
    Rejected "Please provide a Name / Description."
  else if bool_decide (width_mm <= 0) then
    Rejected "Width must be > 0."
  else if bool_decide (roll_length_value <= 0) then
    Rejected "Roll length must be > 0."
  else if bool_decide (roll_cost <= 0) then
    Rejected "Roll cost must be > 0."
  else
    let item : pydict :=
      list_to_map
        [ ("id", PStr (strip new_id));
          ("name", PStr (strip new_name));
          ("width_mm", PFloat width_mm);
          ("roll_length_value", PFloat roll_length_value);
          ("roll_length_unit", PStr (length_unit_text roll_length_unit));
          ("roll_currency", PStr (currency_name roll_currency)) ]%string in
    let item := with_cost "roll_cost_usd" "roll_cost_gbp" roll_currency
                  roll_cost item in
    Saved (with_notes new_notes item).

(** materials_misc.py, form [add_kapton_item] *)
Definition add_kapton (new_id new_name : string) (roll_cost : Qc)
    (currency : currency_option) (disks_per_roll : Z) (notes : string)
    : submission :=
  if bool_decide (strip new_id = ""%string) then Rejected "ID required."
  else if bool_decide (strip new_name = ""%string) then
    Rejected "Name required."
  else if bool_decide (roll_cost <= 0) then
    Rejected "Roll cost must be > 0."
  else if bool_decide (disks_per_roll <= 0)%Z then
    Rejected "Disks per roll must be > 0."
  else
    let item : pydict :=
      list_to_map
        [ ("id", PStr (strip new_id));
          ("name", PStr (strip new_name));
          ("type", PStr "Kapton");
          ("currency", PStr (currency_name currency));
          ("disks_per_roll", PInt disks_per_roll) ]%string in
    let item := with_cost "roll_cost_usd" "roll_cost_gbp" currency roll_cost
                  item in
    Saved (with_notes notes item).

(** materials_misc.py, form [add_epoxy_item] *)
Definition add_epoxy (new_id new_name : string) (total_cost : Qc)
    (currency : currency_option) (volume_ml : Qc) (notes : string)
    : submission :=
  if bool_decide (strip new_id = ""%string) then Rejected "ID required."
  else if bool_decide (strip new_name = ""%string) then
    Rejected "Name required."
  else if bool_decide (total_cost <= 0) then
    Rejected "Total cost must be > 0."
  else if bool_decide (volume_ml <= 0) then
    Rejected "Volume must be > 0."
  else
    let item : pydict :=
      list_to_map
        [ ("id", PStr (strip new_id));
          ("name", PStr (strip new_name));
          ("type", PStr "Epoxy");
          ("currency", PStr (currency_name currency));
          ("volume_ml", PFloat volume_ml) ]%string in
    let item := with_cost "total_cost_usd" "total_cost_gbp" currency
                  total_cost item in
    Saved (with_notes notes item).

(** materials_packaging.py, form [add_frame_item] *)
Definition add_frame (new_id new_name : string) (unit_price : Qc)
    (currency : currency_option) (notes : string) : submission :=
  if bool_decide (strip new_id = ""%string) then Rejected "ID required."
  else if bool_decide (strip new_name = ""%string) then
    Rejected "Name required."
  else if bool_decide (unit_price <= 0) then
    Rejected "Unit price must be > 0."
  else
    let item : pydict :=
      list_to_map
        [ ("id", PStr (strip new_id));
          ("name", PStr (strip new_name));
          ("type", PStr "Frame");
          ("currency", PStr (currency_name currency)) ]%string in
    let item := with_cost "unit_cost_usd" "unit_cost_gbp" currency unit_price
                  item in
    Saved (with_notes notes item).

(** materials_packaging.py, form [add_board_item] *)
Definition add_board (new_id new_name : string) (unit_price : Qc)
    (currency : currency_option) (notes : string) : submission :=
  if bool_decide (strip new_id = ""%string) then Rejected "ID required."
  else if bool_decide (strip new_name = ""%string) then
    Rejected "Name required."
  else if bool_decide (unit_price <= 0) then
    Rejected "Unit price must be > 0."
  else
    let item : pydict :=
      list_to_map
        [ ("id", PStr (strip new_id));
          ("name", PStr (strip new_name));
          ("type", PStr "Shipping board");
          ("currency", PStr (currency_name currency)) ]%string in
    let item := with_cost "unit_cost_usd" "unit_cost_gbp" currency unit_price
                  item in
    Saved (with_notes notes item).

(** materials_packaging.py, form [add_box_item] *)
Definition add_box (new_id new_name : string) (diameter_mm unit_price : Qc)
    (currency : currency_option) (notes : string) : submission :=
  if bool_decide (strip new_id = ""%string) then Rejected "ID required."
  else if bool_decide (strip new_name = ""%string) then
    Rejected "Name required."
  else if bool_decide (diameter_mm <= 0) then
    Rejected "Diameter must be > 0."
  else if bool_decide (unit_price <= 0) then
    Rejected "Unit price must be > 0."
  else
    let item : pydict :=
      list_to_map
        [ ("id", PStr (strip new_id));
          ("name", PStr (strip new_name));
          ("type", PStr "Box");
          ("diameter_mm", PFloat diameter_mm);
          ("currency", PStr (currency_name currency)) ]%string in
    let item := with_cost "unit_cost_usd" "unit_cost_gbp" currency unit_price
                  item in
    Saved (with_notes notes item).

(** materials_packaging.py, form [add_foam_item] *)
Definition add_foam (new_id new_name : string) (thickness_mm : Qc)
    (num_pieces : Z) (total_cost : Qc) (currency : currency_option)
    (notes : string) : submission :=
  if bool_decide (strip new_id = ""%string) then Rejected "ID required."
  else if bool_decide (strip new_name = ""%string) then
    Rejected "Name required."
  else if bool_decide (thickness_mm <= 0) then
    Rejected "Thickness must be > 0."
  else if bool_decide (num_pieces <= 0)%Z then
    Rejected "Number of pieces must be > 0."
  else if bool_decide (total_cost <= 0) then
    Rejected "Total cost must be > 0."
  else
    let item : pydict :=
      list_to_map
        [ ("id", PStr (strip new_id));
          ("name", PStr (strip new_name));
          ("type", PStr "Foam");
          ("thickness_mm", PFloat thickness_mm);
          ("num_pieces", PInt num_pieces);
          ("currency", PStr (currency_name currency)) ]%string in
    let item := with_cost "total_cost_usd" "total_cost_gbp" currency
                  total_cost item in
    Saved (with_notes notes item).

(** materials_silver.py, form [add_silver_item] *)
Definition add_silver (new_id new_name : string)
    (width_mm thickness_mm density_g_cm3 price_per_g : Qc)
    (price_currency : currency_option) (new_notes : string) : submission :=
  if bool_decide (strip new_id = ""%string) then
    Rejected "Please provide an ID / Code."
  else if bool_decide (strip new_name = ""%string) then
    Rejected "Please provide a Name / Description."
  else if bool_decide (width_mm <= 0) || bool_decide (thickness_mm <= 0)
          || bool_decide (density_g_cm3 <= 0) then
    Rejected "Width, thickness and density must be > 0."
  else if bool_decide (price_per_g <= 0) then
    Rejected "Price per gram must be > 0."
  else
    let item : pydict :=
      list_to_map
        [ ("id", PStr (strip new_id));
          ("name", PStr (strip new_name));
          ("width_mm", PFloat width_mm);
          ("thickness_mm", PFloat thickness_mm);
          ("density_g_cm3", PFloat density_g_cm3);
          ("price_per_g", PFloat price_per_g);
          ("price_currency", PStr (currency_name price_currency)) ]%string in
    Saved (with_notes new_notes item).

End Forms.

(** [str.strip()] on ASCII text: white space is removed at both ends. *)
Definition is_space (c : ascii) : bool :=
  let n := nat_of_ascii c in
  ((9 <=? n) && (n <=? 13) || (28 <=? n) && (n <=? 32))%nat.

Fixpoint lstrip (s : string) : string :=
  match s with
  | EmptyString => EmptyString
  | String c rest => if is_space c then lstrip rest else s
  end.

Fixpoint rstrip (s : string) : string :=
  match s with
  | EmptyString => EmptyString
  | String c rest =>
      match rstrip rest with
      | EmptyString => if is_space c then EmptyString else String c EmptyString
      | kept => String c kept
      end
  end.

Definition ascii_strip (s : string) : string := rstrip (lstrip s).

End Materials.

(** ** model.py: the product configuration *)

Module Model.

(** [Product], for a configuration whose fields are numbers. *)
Record Product := {
  name : string;
  cells_per_string : Z;
  strings_per_array : Z;
  exchange_rate_gbp_per_usd : Qc;
  cell_height_mm : Qc;
  gap_between_cells_mm : Qc;
  positive_end_gap_mm : Qc;
  negative_end_gap_mm : Qc
}.

(** [get_default_product()] *)
Definition get_default_product : Product :=
  {| name := "Default MAT Array";
     cells_per_string := 20;
     strings_per_array := 4;
     exchange_rate_gbp_per_usd := qc 0.8;
     cell_height_mm := qc 6.6;
     gap_between_cells_mm := qc 1.0;
     positive_end_gap_mm := qc 5.0;
     negative_end_gap_mm := qc 5.0 |}.

Definition cells_per_array (self : Product) : Z :=
  cells_per_string self * strings_per_array self.

Definition total_string_length_mm (self : Product) : Qc :=
  let n := Z.max (cells_per_string self) 0 in
  let gaps := Z.max (n - 1) 0 in
  positive_end_gap_mm self
  + negative_end_gap_mm self
  + of_Z n * cell_height_mm self
  + of_Z gaps * gap_between_cells_mm self.

End Model.

(** * Properties *)

(** ** Arithmetic of the model *)

(** Closed rational equations are decided by evaluation. *)
Ltac qc_eval := apply Qc_is_canon; vm_compute; reflexivity.

(** Closed equations between results that carry rationals: evaluate, then
    compare the rationals by their reduced fractions. *)
Ltac qc_fields :=
  first [ reflexivity
        | apply Qc_is_canon; reflexivity
        | progress f_equal; qc_fields ].
Ltac run := vm_compute; qc_fields.

Lemma ceil_bounds (x : Qc) :
  (inject_Z (ceil x - 1) < this x)%Q /\ (this x <= inject_Z (ceil x))%Q.
Proof. split; [apply Qceiling_lt | apply Qle_ceiling]. Qed.

Lemma cell_area_m2 : ArrayDesigns.CELL_AREA_M2 = qc 0.002.
Proof. qc_eval. Qed.

Lemma pdiv_nonzero (a b : Qc) : b <> 0 -> pdiv a b = Ok (a / b).
Proof.
  intros Hb. unfold pdiv.
  destruct (decide (b = 0)); [contradiction | reflexivity].
Qed.

Lemma pdiv_pos (a b : Qc) : 0 < b -> pdiv a b = Ok (a / b).
Proof.
  intros Hb. apply pdiv_nonzero. intros ->. exact (Qclt_not_eq _ _ Hb eq_refl).
Qed.

Section Geometry_and_power.
Context `{PyText}.

(** C4.  For a design whose cell count and efficiencies are numbers,
    [compute_power_for_design] returns, for each illumination, the cell
    power [(efficiency_percent / 100) * irradiance * 0.002] with
    irradiance 1000 W/m^2 under AM1.5 and 1366 W/m^2 under AM0, and the
    array power is exactly the cell power times the number of cells; the
    pages' selection by illumination picks the matching array power. *)
Theorem compute_power_for_design_formula (design : pydict) (n e15 e0 : Qc) :
  py_float (get_or design "num_cells" (PInt 0)) = Ok n ->
  py_float (get_or design "eff_am15_percent" (PFloat 0)) = Ok e15 ->
  py_float (get_or design "eff_am0_percent" (PFloat 0)) = Ok e0 ->
  exists p,
    ArrayDesigns.compute_power_for_design design = Ok p
    /\ ArrayDesigns.P_cell_AM15_W p = (e15 / qc 100) * qc 1000 * qc 0.002
    /\ ArrayDesigns.P_cell_AM0_W p = (e0 / qc 100) * qc 1366 * qc 0.002
    /\ ArrayDesigns.P_array_AM15_W p = ArrayDesigns.P_cell_AM15_W p * n
    /\ ArrayDesigns.P_array_AM0_W p = ArrayDesigns.P_cell_AM0_W p * n
    /\ ArrayDesigns.array_power_for "AM1.5" p
       = ArrayDesigns.P_cell_AM15_W p * n
    /\ ArrayDesigns.array_power_for "AM0" p
       = ArrayDesigns.P_cell_AM0_W p * n.
Proof.
  intros Hn H15 H0.
  unfold ArrayDesigns.compute_power_for_design.
  rewrite Hn, H15, H0. cbn [mbind res_bind].
  eexists. split; [reflexivity |].
  cbn [ArrayDesigns.P_cell_AM15_W ArrayDesigns.P_cell_AM0_W
       ArrayDesigns.P_array_AM15_W ArrayDesigns.P_array_AM0_W].
  rewrite cell_area_m2.
  repeat split; reflexivity.
Qed.

End Geometry_and_power.

Section Base_length.
Context `{PyText}.

(** C5 (amended).  For a design whose four geometry fields are numbers,
    the base length computed by the Cost Summary page and by the Home page
    is [positive_end_gap + negative_end_gap + num_cells * cell_height
     + max(num_cells - 1, 0) * gap], and the perimeter length is
    [2 * base_length + 140]; with 20 cells of height 6.6, gap 1.0 and end
    gaps 5.0 and 5.0 the base length is 161.0 mm and the perimeter
    462.0 mm. *)
Theorem base_length_and_perimeter (design : pydict) (num_cells : Z)
    (cell_h gap pos_gap neg_gap : Qc) :
  py_float (get_or design "cell_height_mm" (PFloat 0)) = Ok cell_h ->
  py_float (get_or design "gap_between_cells_mm" (PFloat 0)) = Ok gap ->
  py_float (get_or design "positive_end_gap_mm" (PFloat 0)) = Ok pos_gap ->
  py_float (get_or design "negative_end_gap_mm" (PFloat 0)) = Ok neg_gap ->
  let base :=
    pos_gap + neg_gap + of_Z num_cells * cell_h
    + of_Z (Z.max (num_cells - 1) 0) * gap in
  CostSummary.base_length_mm design num_cells = Ok base
  /\ Home._compute_base_length_m design num_cells = Ok (base, base / qc 1000)
  /\ CostSummary.perimeter_length_mm base = 2 * base + qc 140
  /\ (num_cells = 20%Z -> cell_h = qc 6.6 -> gap = qc 1.0 ->
      pos_gap = qc 5.0 -> neg_gap = qc 5.0 ->
      base = qc 161.0 /\ CostSummary.perimeter_length_mm base = qc 462.0).
Proof.
  intros Hh Hg Hp Hn base.
  assert (Hbase :
    cell_h * of_Z num_cells + gap * of_Z (Z.max (num_cells - 1) 0)
    + pos_gap + neg_gap = base) by (unfold base; ring).
  split; [| split; [| split]].
  - unfold CostSummary.base_length_mm.
    rewrite Hh, Hg, Hp, Hn. cbn [mbind res_bind]. by rewrite Hbase.
  - unfold Home._compute_base_length_m.
    rewrite Hh, Hg, Hp, Hn. cbn [mbind res_bind]. by rewrite Hbase.
  - reflexivity.
  - unfold base. intros -> -> -> -> ->. split; qc_eval.
Qed.

End Base_length.



(** The rounding of the quotients decides the figures.  With 12 W
    arrays, a 684 W target and the slider at 0.57, 57 good arrays are
    required and 101 are built, not 100: 0.57 is a float just below
    57/100, and the float nearest to 57 divided by it is just above 100.
    With three good arrays required and the slider at 0.6, five are
    built, not six: the quotient is just above 5 and the float nearest
    to it is 5. *)
Example power_requirement_rounding :
  Home.power_requirement (qc 12) (qc 684) (Float64.literal 0.57)
  = Ok {| Home.arrays_required_good := 57;
          Home.arrays_to_build := 101;
          Home.expected_scrap := 44 |}
  /\ Float64.literal 0.57 < qc 0.57
  /\ qc 100 < Float64.round (qc 57 / Float64.literal 0.57)
  /\ Home.power_requirement (qc 12) (qc 36) (Float64.literal 0.6)
     = Ok {| Home.arrays_required_good := 3;
             Home.arrays_to_build := 5;
             Home.expected_scrap := 2 |}
  /\ qc 5 < qc 3 / Float64.literal 0.6
  /\ Float64.round (qc 3 / Float64.literal 0.6) = qc 5.
Proof.
  repeat split;
    first [ vm_compute; reflexivity
          | apply Qc_is_canon; vm_compute; reflexivity ].
Qed.

(** A run of C4 on the example design: 20 cells at 30 % (AM1.5) and 28 %
    (AM0) give 0.6 W and 0.76496 W per cell, 12 W and 15.2992 W per
    array. *)
Lemma compute_power_for_design_formula_witness :
  exists p,
    @ArrayDesigns.compute_power_for_design PlainText.plain_text
      Examples.design_20 = Ok p
    /\ ArrayDesigns.P_cell_AM15_W p = qc 0.6
    /\ ArrayDesigns.P_cell_AM0_W p = qc 0.76496
    /\ ArrayDesigns.array_power_for "AM1.5" p = qc 12
    /\ ArrayDesigns.array_power_for "AM0" p = qc 15.2992.
Proof.
  destruct (@compute_power_for_design_formula PlainText.plain_text
              Examples.design_20 (of_Z 20) (qc 30.0) (qc 28.0)
              eq_refl eq_refl eq_refl)
    as (p & Hp & H15 & H0 & _ & _ & Ha15 & Ha0).
  exists p. rewrite Ha15, Ha0, H15, H0.
  split; [exact Hp |]. repeat split; qc_eval.
Defined.

(** C5, as stated, fails on its worked example: for 20 cells of height
    6.6 with gap 1.0 and end gaps 5.0 and 5.0 the code computes a base
    length of 161.0 mm and a perimeter of 462.0 mm, not 151.0 and 442.0. *)
Lemma base_length_example_is_161 :
  @CostSummary.base_length_mm PlainText.plain_text Examples.design_20 20
  = Ok (qc 161.0)
  /\ fst <$> @Home._compute_base_length_m PlainText.plain_text
               Examples.design_20 20 = Ok (qc 161.0)
  /\ CostSummary.perimeter_length_mm (qc 161.0) = qc 462.0
  /\ qc 161.0 <> qc 151.0
  /\ qc 462.0 <> qc 442.0.
Proof.
  split; [run | split; [run | split; [qc_eval | split]]];
    intros Heq; apply (f_equal this) in Heq; vm_compute in Heq;
    discriminate.
Qed.

(** A run of C5 (amended) on the example design. *)
Lemma base_length_and_perimeter_witness :
  @CostSummary.base_length_mm PlainText.plain_text Examples.design_20 20
  = Ok (qc 161.0)
  /\ CostSummary.perimeter_length_mm (qc 161.0) = qc 462.0.
Proof.
  destruct (@base_length_and_perimeter PlainText.plain_text
              Examples.design_20 20 (qc 6.6) (qc 1.0) (qc 5.0) (qc 5.0)
              eq_refl eq_refl eq_refl eq_refl)
    as (Hb & _ & _ & Hex).
  destruct (Hex eq_refl eq_refl eq_refl eq_refl eq_refl) as [H161 H462].
  rewrite H161 in Hb, H462. split; [exact Hb | exact H462].
Defined.

(** ** Weld counts *)

(** C1 (the code run on the claim).  For every cell count the Cost
    Summary page and the scenario material-requirements table count
    [2*(num_cells-1)*4] top-tab welds, 8 negative-end welds, 4
    positive-end welds and [num_cells*4] bypass-diode-attach welds; the
    Weld Heads page agrees on the first three and counts [num_cells*2]
    bypass-diode-attach welds.  For 20 cells the pages give 80, 80 and
    40. *)
Theorem ag_weld_breakdown_by_page :
  (forall num_cells arrays_to_build : Z,
     let s := CostSummary.ag_weld_counts num_cells in
     let h := Home.weld_requirements_table num_cells arrays_to_build in
     let w := CostWeldHeads.weld_counts_per_array num_cells in
     (CostSummary.top_tab_welds s = 2 * (num_cells - 1) * 4
      /\ CostSummary.neg_end_welds s = 8
      /\ CostSummary.pos_end_welds s = 4
      /\ CostSummary.bypass_array_welds s = num_cells * 4)
     /\ (Home.top_tab_welds h = 2 * (num_cells - 1) * 4
         /\ Home.neg_end_welds h = 8
         /\ Home.pos_end_welds h = 4
         /\ Home.bypass_array_welds h = num_cells * 4)
     /\ (CostWeldHeads.top_tab_welds w = 2 * (num_cells - 1) * 4
         /\ CostWeldHeads.negative_end_welds w = 8
         /\ CostWeldHeads.positive_end_welds w = 4
         /\ CostWeldHeads.bypass_diode_welds w = num_cells * 2))%Z
  /\ CostSummary.bypass_array_welds (CostSummary.ag_weld_counts 20) = 80%Z
  /\ Home.bypass_array_welds (Home.weld_requirements_table 20 1) = 80%Z
  /\ CostWeldHeads.bypass_diode_welds
       (CostWeldHeads.weld_counts_per_array 20) = 40%Z
  /\ CostSummary.total_welds (CostSummary.ag_weld_counts 20) = 244%Z
  /\ CostWeldHeads.ag_welds_per_array
       (CostWeldHeads.weld_counts_per_array 20) = 204%Z.
Proof.
  split; [| repeat split].
  intros num_cells arrays_to_build. cbn. repeat split.
Qed.

(** ** Bypass diodes *)

(** C6.  With at least one cell and a yield fraction in (0, 1], the
    bypass-diode arithmetic of the Diodes page and of the Cost Summary page
    gives silver cost [2 * tab_length * silver_cost_per_mm], effective cost
    [(diode_price + silver_cost + one Al weld + one Au weld) / yield] and
    total [effective_cost * num_cells]; a 0.10 GBP diode, 5 mm tabs, silver
    at 0.00005 per mm, welds at 0.001 each, yield 80% and 20 cells give a
    total of 2.5625. *)
Theorem bypass_diode_cost (diode_price tab_length silver_cost_per_mm
    weld_al weld_au y : Qc) (num_cells : Z) :
  (1 <= num_cells)%Z -> 0 < y -> y <= 1 ->
  let silver_cost := 2 * tab_length * silver_cost_per_mm in
  let effective_cost := (diode_price + silver_cost + weld_al + weld_au) / y in
  (exists b,
     CostDiodes.bypass_diodes diode_price silver_cost_per_mm weld_al weld_au
       tab_length y num_cells = Ok b
     /\ CostDiodes.silver_cost_per_bypass_diode b = silver_cost
     /\ CostDiodes.effective_cost_per_bypass_diode b = effective_cost
     /\ CostDiodes.total_bypass_cost b = effective_cost * of_Z num_cells)
  /\ (exists b,
        CostSummary.bypass_diodes diode_price silver_cost_per_mm weld_al
          weld_au tab_length y num_cells = Ok b
        /\ CostSummary.silver_cost_bypass b = silver_cost
        /\ CostSummary.eff_cost_bypass b = effective_cost
        /\ CostSummary.total_bypass_cost b = effective_cost * of_Z num_cells)
  /\ CostDiodes.total_bypass_cost
       <$> CostDiodes.bypass_diodes (qc 0.10) (qc 0.00005) (qc 0.001)
             (qc 0.001) (qc 5) (qc 0.8) 20
     = Ok (qc 2.5625)
  /\ CostSummary.total_bypass_cost
       <$> CostSummary.bypass_diodes (qc 0.10) (qc 0.00005) (qc 0.001)
             (qc 0.001) (qc 5) (qc 0.8) 20
     = Ok (qc 2.5625).
Proof.
  intros _ Hy _ silver_cost effective_cost.
  assert (Hy0 : y <> 0) by (intros ->; exact (Qclt_not_eq _ _ Hy eq_refl)).
  split; [| split; [| split]].
  - unfold CostDiodes.bypass_diodes.
    rewrite (bool_decide_eq_true_2 (0 < y)) by done.
    rewrite pdiv_pos by done. cbn [mbind res_bind].
    eexists. split; [reflexivity |].
    cbn [CostDiodes.silver_cost_per_bypass_diode
         CostDiodes.effective_cost_per_bypass_diode
         CostDiodes.total_bypass_cost].
    unfold effective_cost, silver_cost.
    repeat split; try ring; field; done.
  - unfold CostSummary.bypass_diodes.
    rewrite (bool_decide_eq_true_2 (0 < y)) by done.
    rewrite pdiv_pos by done. cbn [mbind res_bind].
    eexists. split; [reflexivity |].
    cbn [CostSummary.silver_cost_bypass CostSummary.eff_cost_bypass
         CostSummary.total_bypass_cost].
    unfold effective_cost, silver_cost.
    repeat split; try ring; field; done.
  - run.
  - run.
Qed.

(** A run of C6: a 0.25 GBP diode, 4 mm tabs, silver at 0.0001 per mm,
    welds at 0.002 and 0.003, yield 50%, 10 cells. *)
Lemma bypass_diode_cost_witness :
  exists b,
    CostDiodes.bypass_diodes (qc 0.25) (qc 0.0001) (qc 0.002) (qc 0.003)
      (qc 4) (qc 0.5) 10 = Ok b
    /\ CostDiodes.total_bypass_cost b = qc 5.116.
Proof.
  assert (H1 : (1 <= 10)%Z) by lia.
  assert (H2 : 0 < qc 0.5) by reflexivity.
  assert (H3 : qc 0.5 <= 1) by (vm_compute; discriminate).
  destruct (bypass_diode_cost (qc 0.25) (qc 4) (qc 0.0001) (qc 0.002)
              (qc 0.003) (qc 0.5) 10 H1 H2 H3)
    as [[b (Hb & _ & _ & Ht)] _].
  exists b. split; [exact Hb |]. rewrite Ht. qc_eval.
Defined.

(** ** The copies of [get_weld_cost_per_weld] *)

Section Weld_cost_copies.
Context `{PyText}.

(** C10 (the code run on the claim).  On a weld-head record that omits the
    currency field, the copies of [get_weld_cost_per_weld] disagree: the
    Diodes and Weld Heads pages read the record as USD, the Cost Summary
    page reads it as GBP.  With only [unit_cost_gbp] = 50 and 1000 welds
    the first two return 0 and the third 0.05; with only [unit_cost_usd]
    = 50 at a rate of 0.8 the first two return 0.04 and the third 0.  On a
    GBP record whose [unit_cost_gbp] is blank the Weld Heads page's copy
    raises [TypeError] where the other two return 0. *)
Theorem weld_cost_copies_disagree :
  (CostDiodes.get_weld_cost_per_weld Examples.weld_head_gbp_no_currency
     (qc 0.8) = Ok 0
   /\ CostWeldHeads.get_weld_cost_per_weld
        (Some Examples.weld_head_gbp_no_currency) (qc 0.8) = Ok 0
   /\ CostSummary.get_weld_cost_per_weld Examples.weld_head_gbp_no_currency
        (qc 0.8) = Ok (qc 0.05))
  /\ (CostDiodes.get_weld_cost_per_weld Examples.weld_head_usd_no_currency
        (qc 0.8) = Ok (qc 0.04)
      /\ CostWeldHeads.get_weld_cost_per_weld
           (Some Examples.weld_head_usd_no_currency) (qc 0.8) = Ok (qc 0.04)
      /\ CostSummary.get_weld_cost_per_weld
           Examples.weld_head_usd_no_currency (qc 0.8) = Ok 0)
  /\ (CostDiodes.get_weld_cost_per_weld Examples.weld_head_blank_cost
        (qc 0.8) = Ok 0
      /\ CostWeldHeads.get_weld_cost_per_weld
           (Some Examples.weld_head_blank_cost) (qc 0.8) = Raise TypeError
      /\ CostSummary.get_weld_cost_per_weld Examples.weld_head_blank_cost
           (qc 0.8) = Ok 0).
Proof.
  repeat split; run.
Qed.

End Weld_cost_copies.

(** ** Labour aggregation *)

Lemma fold_rates_sum (ps : list LabourModel.OperatorProfile) (h a : Qc) :
  fold_left (fun acc op => acc + LabourModel.hourly_rate op * h) ps a
  = a + h * Spec.Qc_sum (LabourModel.hourly_rate <$> ps).
Proof.
  revert a. unfold Spec.Qc_sum.
  induction ps as [| p ps IH]; intros a; cbn [fold_left fmap list_fmap foldr].
  - ring.
  - rewrite IH. ring.
Qed.

Lemma step_cost_of_sum (ps : list LabourModel.OperatorProfile) (h : Qc) :
  LabourModel.step_cost_of ps h
  = h * Spec.Qc_sum (LabourModel.hourly_rate <$> ps).
Proof. unfold LabourModel.step_cost_of. rewrite fold_rates_sum. ring. Qed.

(** A positive yield fraction is used as it is. *)
Lemma effective_yield_of_positive (y : Qc) :
  0 < y -> Spec.effective_yield y = y.
Proof.
  intros Hy. unfold Spec.effective_yield.
  destruct (decide (y <= 0)) as [Hle | Hle]; [| done].
  by apply Qclt_not_le in Hy.
Qed.

(** The clamp in the code is the effective yield. *)
Lemma clamp_effective_yield (y : Qc) (a b : Qc) :
  a / (if bool_decide (y <= 0) then qc 1.0 else y) * b
  = a / Spec.effective_yield y * b.
Proof.
  unfold Spec.effective_yield.
  destruct (decide (y <= 0)) as [Hy | Hy].
  - rewrite bool_decide_eq_true_2 by done. reflexivity.
  - rewrite bool_decide_eq_false_2 by done. reflexivity.
Qed.

Lemma clamp_nonzero (y : Qc) :
  (if bool_decide (y <= 0) then qc 1.0 else y) <> 0.
Proof.
  destruct (decide (y <= 0)) as [Hy | Hy].
  - rewrite bool_decide_eq_true_2 by done. discriminate.
  - rewrite bool_decide_eq_false_2 by done. intros ->. apply Hy. discriminate.
Qed.

Lemma qty_map_quantity (source : string) (cps spa byp blk : Z) (q : Qc) :
  Spec.quantity_for_source source cps spa byp blk = Some q ->
  forall a b,
    default (qc 0.0) (LabourModel.qty_map cps spa byp blk !! source) / a * b
    = q / a * b.
Proof.
  unfold Spec.quantity_for_source, LabourModel.qty_map. intros Hq a b.
  repeat case_decide; simplify_eq; simplify_map_eq; reflexivity.
Qed.

(** Going through usable operators raises nothing and visits slots
    only. *)
Lemma iterate_usable (step : LabourModel.process_step) :
  Spec.usable_operators step = true ->
  LabourModel.iterate (LabourModel.operators_field step)
  = Ok (default [] (LabourModel.operators step))
  /\ forallb Spec.is_slot (default [] (LabourModel.operators step)) = true.
Proof.
  unfold Spec.usable_operators, LabourModel.operators.
  destruct (LabourModel.operators_field step) as [| v | slots | d];
    cbn [LabourModel.iterate default forallb].
  - done.
  - destruct v; try discriminate. intros ->%bool_decide_eq_true. done.
  - done.
  - intros ->%bool_decide_eq_true. by rewrite map_to_list_empty.
Qed.

(** The profile the loop appends for a slot is the one its operator id
    names. *)
Lemma assigned_profile_named
    (operator_profiles : gmap string LabourModel.OperatorProfile)
    (op : pydict) :
  option_list (LabourModel.assigned_profile operator_profiles op)
  = match op !! "operator_id"%string with
    | Some (PStr operator_id) =>
        if decide (operator_id = ""%string) then []
        else option_list (operator_profiles !! operator_id)
    | _ => []
    end.
Proof.
  unfold LabourModel.assigned_profile, get.
  destruct (op !! "operator_id"%string) as [[| b | z | q | s] |];
    cbn [default from_option truthy id]; try reflexivity.
  - by destruct b.
  - by destruct (z =? 0)%Z.
  - by destruct (bool_decide (q = 0)).
  - destruct (decide (s = ""%string)) as [-> | Hs]; [reflexivity |].
    by rewrite bool_decide_eq_false_2.
Qed.

Lemma assign_slots
    (operator_profiles : gmap string LabourModel.OperatorProfile)
    (ops : list LabourModel.operator_entry)
    (assigned_profiles : list LabourModel.OperatorProfile) :
  forallb Spec.is_slot ops = true ->
  LabourModel.assign operator_profiles ops assigned_profiles
  = Ok (assigned_profiles
        ++ (ops ≫= fun entry =>
              match entry with
              | LabourModel.Slot slot =>
                  option_list
                    (LabourModel.assigned_profile operator_profiles slot)
              | LabourModel.Entry _ => []
              end)).
Proof.
  revert assigned_profiles.
  induction ops as [| [op | v] rest IH]; intros assigned_profiles;
    cbn [forallb Spec.is_slot LabourModel.assign mbind list_bind andb].
  - by rewrite app_nil_r.
  - intros Hrest. rewrite (IH _ Hrest).
    destruct (LabourModel.assigned_profile operator_profiles op);
      cbn [option_list app]; [by rewrite <- app_assoc | reflexivity].
  - discriminate.
Qed.

(** On usable operators the loop assigns the operators the steps name. *)
Lemma assign_usable
    (operator_profiles : gmap string LabourModel.OperatorProfile)
    (step : LabourModel.process_step) :
  Spec.usable_operators step = true ->
  LabourModel.assigned_profiles operator_profiles
    (LabourModel.operators_field step)
  = Ok (Spec.assigned operator_profiles step).
Proof.
  intros Huse. unfold LabourModel.assigned_profiles.
  destruct (iterate_usable step Huse) as [-> Hslots].
  cbn [mbind res_bind]. rewrite (assign_slots _ _ _ Hslots).
  cbn [app]. f_equal. unfold Spec.assigned.
  induction (default [] (LabourModel.operators step)) as [| [op | v] rest IH];
    cbn [mbind list_bind forallb andb] in *; [reflexivity | |].
  - rewrite assigned_profile_named. f_equal. by apply IH.
  - discriminate.
Qed.

Section Labour.
Context `{PyText}.

Lemma labour_step_ok (operator_profiles : gmap string LabourModel.OperatorProfile)
    (cps spa byp blk : Z) (step : LabourModel.process_step) (t setup y : Qc) :
  Spec.step_numbers step t setup y ->
  Spec.usable_operators step = true ->
  exists r,
    LabourModel.labour_step (LabourModel.qty_map cps spa byp blk)
      operator_profiles step = Ok r
    /\ Spec.step_result_ok operator_profiles cps spa byp blk step r.
Proof.
  intros (Ht & Hs & Hy) Huse.
  unfold LabourModel.labour_step. rewrite Ht, Hs, Hy. cbn [mbind res_bind].
  fold (Spec.step_basis step). fold (Spec.step_source step).
  rewrite pdiv_nonzero by apply clamp_nonzero.
  pose proof (assign_usable operator_profiles step Huse) as Hassign.
  assert (Hspec : forall r,
    LabourModel.operator_hours r = LabourModel.total_step_seconds r / qc 3600.0 ->
    LabourModel.cost r
    = LabourModel.step_cost_of (LabourModel.assigned_operators r)
        (LabourModel.operator_hours r) ->
    LabourModel.assigned_operators r = Spec.assigned operator_profiles step ->
    (Spec.step_basis step = "per_unit"%string ->
     LabourModel.total_step_seconds r
     = default (qc 0.0) (LabourModel.qty_map cps spa byp blk !! Spec.step_source step)
       / (if bool_decide (y <= 0) then qc 1.0 else y) * t + setup) ->
    (Spec.step_basis step = "per_array"%string ->
     LabourModel.total_step_seconds r = t + setup) ->
    (Spec.step_basis step <> "per_unit"%string ->
     Spec.step_basis step <> "per_array"%string ->
     LabourModel.total_step_seconds r = qc 0.0) ->
    Spec.step_result_ok operator_profiles cps spa byp blk step r).
  { intros r Hh Hc Ha Hpu Hpa Hother t' s' y' (Ht' & Hs' & Hy').
    rewrite Ht in Ht'. rewrite Hs in Hs'. rewrite Hy in Hy'.
    injection Ht' as <-. injection Hs' as <-. injection Hy' as <-.
    assert (Hcost : LabourModel.cost r
      = LabourModel.total_step_seconds r / qc 3600
        * Spec.Qc_sum (LabourModel.hourly_rate <$> LabourModel.assigned_operators r)).
    { rewrite Hc, step_cost_of_sum, Hh. reflexivity. }
    split; [| split; [| split; [| split; [| split]]]].
    - intros Hb q Hq. rewrite (Hpu Hb), clamp_effective_yield.
      by rewrite (qty_map_quantity _ _ _ _ _ _ Hq).
    - exact Hpa.
    - intros H1 H2. specialize (Hother H1 H2).
      assert (E0 : qc 0.0 = 0) by qc_eval.
      assert (E1 : 0 / qc 3600.0 = 0) by qc_eval.
      assert (E2 : 0 / qc 3600 = 0) by qc_eval.
      rewrite Hcost, Hh, Hother, E0, E1, E2.
      repeat split; ring.
    - rewrite Hh. reflexivity.
    - exact Ha.
    - exact Hcost. }
  destruct (decide (Spec.step_basis step = "per_array"%string)) as [Hb | Hb].
  - cbn [mbind res_bind]. rewrite Hassign. cbn [mbind res_bind].
    eexists. split; [reflexivity |].
    apply Hspec; cbn; try reflexivity; try done.
    intros Hb'. rewrite Hb in Hb'. discriminate.
  - destruct (decide (Spec.step_basis step = "per_unit"%string)) as [Hu | Hu].
    + cbn [mbind res_bind]. rewrite Hassign. cbn [mbind res_bind].
      eexists. split; [reflexivity |].
      apply Hspec; cbn; try reflexivity; try done.
    + cbn [mbind res_bind]. rewrite Hassign. cbn [mbind res_bind].
      eexists. split; [reflexivity |].
      apply Hspec; cbn; try reflexivity; try done.
Qed.

End Labour.

Section Labour_total.
Context `{PyText}.

Lemma labour_loop_ok
    (operator_profiles : gmap string LabourModel.OperatorProfile)
    (cps spa byp blk : Z) (process_steps : list LabourModel.process_step) :
  Forall Spec.costable process_steps ->
  forall results total_cost total_hours,
  exists rs,
    LabourModel.labour_loop (LabourModel.qty_map cps spa byp blk)
      operator_profiles process_steps results total_cost total_hours
    = Ok {| LabourModel.steps := results ++ rs;
            LabourModel.total_cost :=
              total_cost + Spec.Qc_sum (LabourModel.cost <$> rs);
            LabourModel.total_hours :=
              total_hours + Spec.Qc_sum (LabourModel.operator_hours <$> rs) |}
    /\ Forall2 (Spec.step_result_ok operator_profiles cps spa byp blk)
         process_steps rs.
Proof.
  induction 1 as [| step rest ((t & setup & y & Hnum) & _ & Huse) _ IH];
    intros results total_cost total_hours.
  - exists []. split; [| constructor].
    cbn [LabourModel.labour_loop fmap list_fmap Spec.Qc_sum foldr].
    rewrite app_nil_r. f_equal. f_equal; ring.
  - destruct (labour_step_ok operator_profiles cps spa byp blk step t setup y
                Hnum Huse) as (r & Hr & Hok).
    cbn [LabourModel.labour_loop]. rewrite Hr. cbn [mbind res_bind].
    destruct (IH (results ++ [r]) (total_cost + LabourModel.cost r)
                (total_hours + LabourModel.operator_hours r))
      as (rs & Hrs & Hall).
    exists (r :: rs). split; [| by constructor].
    rewrite Hrs. rewrite <- app_assoc.
    cbn [app fmap list_fmap Spec.Qc_sum foldr].
    f_equal. f_equal; unfold Spec.Qc_sum; ring.
Qed.

(** C8 (amended).  For every list of process steps whose timing fields
    are numbers that [float()] converts and whose operators can be gone
    through slot by slot, and for counts within the range of a float,
    [calculate_labour] returns one result per step, in order, where a
    [per_unit] step takes [(quantity_for_source / y) * time_per_unit_s +
    setup_time_s_per_array] seconds, [y] being the yield fraction, or 1
    when the yield fraction is not positive (the quantity drawn from the
    step's quantity source among array, cells, strings, bypass_diodes,
    blocking_diodes), a [per_array] step takes [time_per_unit_s +
    setup_time_s_per_array] seconds, a step of any other basis contributes
    zero seconds, hours and cost without an error, each step's cost is
    [(total seconds / 3600)] times the sum of the hourly rates of its
    assigned operators, who are the profiles that the operator ids of its
    slots name, and the total hours and total cost are the sums over the
    steps. *)
Theorem labour_aggregation
    (process_steps : list LabourModel.process_step)
    (operator_profiles : gmap string LabourModel.OperatorProfile)
    (cells_per_string strings_per_array bypass_diodes_per_array
     blocking_diodes_per_array : Z) :
  Forall Spec.costable process_steps ->
  Spec.counts_in_range cells_per_string strings_per_array
    bypass_diodes_per_array blocking_diodes_per_array = true ->
  exists rs,
    LabourModel.calculate_labour process_steps operator_profiles
      cells_per_string strings_per_array bypass_diodes_per_array
      blocking_diodes_per_array
    = Ok {| LabourModel.steps := rs;
            LabourModel.total_cost := Spec.Qc_sum (LabourModel.cost <$> rs);
            LabourModel.total_hours :=
              Spec.Qc_sum (LabourModel.operator_hours <$> rs) |}
    /\ Forall2
         (Spec.step_result_ok operator_profiles cells_per_string
            strings_per_array bypass_diodes_per_array
            blocking_diodes_per_array)
         process_steps rs.
Proof.
  intros Hsteps _.
  destruct (labour_loop_ok operator_profiles cells_per_string
              strings_per_array bypass_diodes_per_array
              blocking_diodes_per_array process_steps Hsteps [] 0 0)
    as (rs & Hrs & Hall).
  exists rs. split; [| exact Hall].
  unfold LabourModel.calculate_labour. rewrite Hrs.
  cbn [app]. f_equal. f_equal; ring.
Qed.

End Labour_total.

(** A run of C8 (amended) on the example process: tabbing per cell at
    yield 0.8 by one assigned operator, lamination per array by two, and
    a step of basis [cell] that is skipped. *)
Lemma labour_aggregation_witness :
  exists rs,
    @LabourModel.calculate_labour PlainText.plain_text
      Examples.process_steps Examples.operator_profiles 20 4 80 2
    = Ok {| LabourModel.steps := rs;
            LabourModel.total_cost := Spec.Qc_sum (LabourModel.cost <$> rs);
            LabourModel.total_hours :=
              Spec.Qc_sum (LabourModel.operator_hours <$> rs) |}
    /\ Forall2
         (@Spec.step_result_ok PlainText.plain_text
            Examples.operator_profiles 20 4 80 2)
         Examples.process_steps rs.
Proof.
  apply (@labour_aggregation PlainText.plain_text); [| reflexivity].
  repeat constructor.
  - exists (qc 30.0), (qc 120.0), (qc 0.8). repeat split; reflexivity.
  - exists (of_Z 600), 0, (qc 1.0). repeat split; reflexivity.
  - exists (qc 45.0), 0, (of_Z 0). repeat split; reflexivity.
Defined.

(** C8, as stated, fails in two ways.  A [per_unit] step with a yield
    fraction that is not positive does not divide by it: rework of 80
    cells at 30 s with 120 s of setup and a yield fraction of -0.8 takes
    80 / 1 * 30 + 120 = 2520 s, not 80 / (-0.8) * 30 + 120 = -2880 s.
    And a step of another basis is not always skipped without an error:
    the timing fields are converted before the basis is looked at, so an
    inspection of basis [cell] whose time is still text raises
    [ValueError]. *)
Lemma labour_formula_counterexample :
  (Spec.step_basis (H := PlainText.plain_text) Examples.step_rework
   = "per_unit"%string
   /\ Spec.step_numbers (H := PlainText.plain_text) Examples.step_rework
        (qc 30) (qc 120) (qc (-0.8))
   /\ Spec.quantity_for_source
        (Spec.step_source (H := PlainText.plain_text) Examples.step_rework)
        20 4 80 2 = Some (qc 80)
   /\ (fun l => LabourModel.total_step_seconds <$> LabourModel.steps l)
      <$> @LabourModel.calculate_labour PlainText.plain_text
            [Examples.step_rework] Examples.operator_profiles 20 4 80 2
      = Ok [qc 2520]
   /\ qc 80 / qc (-0.8) * qc 30 + qc 120 = qc (-2880)
   /\ qc 2520 <> qc (-2880))
  /\ (Spec.step_basis (H := PlainText.plain_text) Examples.step_inspection
      = "cell"%string
      /\ @LabourModel.calculate_labour PlainText.plain_text
           [Examples.step_inspection] Examples.operator_profiles 20 4 80 2
         = Raise ValueError).
Proof.
  repeat apply conj;
    first [ reflexivity | run | qc_eval | discriminate ].
Qed.

(** The figures of that run: 3120 s and 15.60 for tabbing, 600 s and 7.00
    for lamination, nothing for the skipped step; 22.60 in total. *)
Example labour_example_figures :
  (fun l => (LabourModel.total_step_seconds <$> LabourModel.steps l,
             LabourModel.cost <$> LabourModel.steps l,
             LabourModel.total_cost l))
  <$> @LabourModel.calculate_labour PlainText.plain_text
        Examples.process_steps Examples.operator_profiles 20 4 80 2
  = Ok ([qc 3120; qc 600; 0], [qc 15.6; qc 7; 0], qc 22.6).
Proof. run. Qed.

(** ** Yield fractions that are not positive *)

Lemma get_or_with_yield_other (v : pyval) (step : LabourModel.process_step)
    (k : string) (dflt : pyval) :
  k <> "yield_fraction"%string ->
  get_or (LabourModel.fields (Spec.with_yield v step)) k dflt
  = get_or (LabourModel.fields step) k dflt.
Proof.
  intros Hk. unfold get_or, Spec.with_yield. cbn [LabourModel.fields].
  by rewrite lookup_insert_ne.
Qed.

Lemma get_or_with_yield (v : pyval) (step : LabourModel.process_step)
    (dflt : pyval) :
  get_or (LabourModel.fields (Spec.with_yield v step)) "yield_fraction" dflt
  = v.
Proof.
  unfold get_or, Spec.with_yield. cbn [LabourModel.fields].
  by rewrite lookup_insert_eq.
Qed.

Section Yield.
Context `{PyText}.

(** A step whose yield fraction is not positive is costed as the same
    step with yield fraction 1. *)
Lemma labour_step_yield_clamped (qty_map : gmap string Qc)
    (operator_profiles : gmap string LabourModel.OperatorProfile)
    (step : LabourModel.process_step) (v v1 : pyval) (y : Qc) :
  py_float v = Ok y -> y <= 0 -> py_float v1 = Ok 1 ->
  LabourModel.labour_step qty_map operator_profiles (Spec.with_yield v step)
  = LabourModel.labour_step qty_map operator_profiles
      (Spec.with_yield v1 step).
Proof.
  intros Hv Hy Hv1. unfold LabourModel.labour_step.
  rewrite !get_or_with_yield, Hv, Hv1.
  rewrite !get_or_with_yield_other by discriminate.
  destruct (py_float (get_or (LabourModel.fields step) "time_per_unit_s" _));
    cbn [mbind res_bind]; [| reflexivity].
  destruct (py_float
              (get_or (LabourModel.fields step) "setup_time_s_per_array" _));
    cbn [mbind res_bind]; [| reflexivity].
  rewrite (bool_decide_eq_true_2 (y <= 0)) by done.
  rewrite (bool_decide_eq_false_2 (1 <= 0))
    by (intros Hc; apply Hc; reflexivity).
  assert (E : qc 1.0 = 1) by qc_eval. rewrite E.
  reflexivity.
Qed.

Lemma labour_loop_yield_clamped (qty_map : gmap string Qc)
    (operator_profiles : gmap string LabourModel.OperatorProfile)
    (pre post : list LabourModel.process_step)
    (step : LabourModel.process_step) (v v1 : pyval) (y : Qc) :
  py_float v = Ok y -> y <= 0 -> py_float v1 = Ok 1 ->
  forall results total_cost total_hours,
    LabourModel.labour_loop qty_map operator_profiles
      (pre ++ Spec.with_yield v step :: post) results total_cost total_hours
    = LabourModel.labour_loop qty_map operator_profiles
        (pre ++ Spec.with_yield v1 step :: post) results total_cost
        total_hours.
Proof.
  intros Hv Hy Hv1.
  induction pre as [| s pre IH]; intros results total_cost total_hours;
    cbn [app LabourModel.labour_loop].
  - by rewrite (labour_step_yield_clamped _ _ _ v v1 y).
  - destruct (LabourModel.labour_step qty_map operator_profiles s);
      cbn [mbind res_bind]; [apply IH | reflexivity].
Qed.

Lemma bypass_diodes_no_yield (price cpm al au tab y : Qc) (n : Z) :
  y <= 0 ->
  (exists b,
     CostDiodes.bypass_diodes price cpm al au tab y n = Ok b
     /\ CostDiodes.effective_cost_per_bypass_diode b = 0
     /\ CostDiodes.total_bypass_cost b = 0)
  /\ (exists b,
        CostSummary.bypass_diodes price cpm al au tab y n = Ok b
        /\ CostSummary.eff_cost_bypass b = 0
        /\ CostSummary.total_bypass_cost b = 0).
Proof.
  intros Hy.
  assert (Hn : ~ 0 < y) by (by apply Qcle_not_lt).
  unfold CostDiodes.bypass_diodes, CostSummary.bypass_diodes.
  rewrite !(bool_decide_eq_false_2 (0 < y)) by done.
  cbn [mbind res_bind].
  split; eexists; (split; [reflexivity |]); cbn; split; try reflexivity; ring.
Qed.

Lemma blocking_diodes_no_yield (price cpm bl len1 len2 y : Qc) :
  y <= 0 ->
  (exists b,
     CostDiodes.blocking_diodes price cpm bl len1 len2 y = Ok b
     /\ CostDiodes.effective_cost_per_blocking_diode b = 0
     /\ CostDiodes.total_blocking_cost b = 0)
  /\ CostSummary.blocking_diodes price cpm bl len1 len2 y = Ok 0.
Proof.
  intros Hy.
  assert (Hn : ~ 0 < y) by (by apply Qcle_not_lt).
  unfold CostDiodes.blocking_diodes, CostSummary.blocking_diodes.
  rewrite !(bool_decide_eq_false_2 (0 < y)) by done.
  cbn [mbind res_bind].
  split.
  - eexists. split; [reflexivity |]. cbn. split; [reflexivity | ring].
  - f_equal; try ring.
Qed.

(** The diode arithmetic returns for every yield: its only division is
    behind the test [yield > 0]. *)
Lemma diode_arithmetic_returns (price cpm w1 w2 len y : Qc) (n : Z) :
  raises (CostDiodes.bypass_diodes price cpm w1 w2 len y n) = false
  /\ raises (CostSummary.bypass_diodes price cpm w1 w2 len y n) = false
  /\ raises (CostDiodes.blocking_diodes price cpm w1 len w2 y) = false
  /\ raises (CostSummary.blocking_diodes price cpm w1 len w2 y) = false.
Proof.
  unfold CostDiodes.bypass_diodes, CostSummary.bypass_diodes,
    CostDiodes.blocking_diodes, CostSummary.blocking_diodes.
  destruct (decide (0 < y)) as [Hy | Hy].
  - rewrite !(bool_decide_eq_true_2 (0 < y)) by done.
    rewrite !pdiv_pos by done. repeat split.
  - rewrite !(bool_decide_eq_false_2 (0 < y)) by done. repeat split.
Qed.

(** C2 (amended).  In the labour aggregation a yield fraction that is not
    positive is replaced by 1 before use: a step with such a yield gives
    exactly the output of the same step with yield 1, and the aggregation
    returns (no exception, no division by zero) whenever the timing fields
    of every step are numbers that [float()] converts, its operators can
    be gone through slot by slot and the counts are within the range of a
    float.  In the bypass-diode and blocking-diode calculations of the
    Diodes page and of the Cost Summary page a yield that is not positive
    is not replaced: the effective cost, and with it the total, is zero,
    and from resolved unit costs and a cell count within the range of a
    float these calculations return for every yield. *)
Theorem nonpositive_yield
    (operator_profiles : gmap string LabourModel.OperatorProfile)
    (cps spa byp blk : Z) (pre post : list LabourModel.process_step)
    (step : LabourModel.process_step) (v v1 : pyval) (y : Qc)
    (price cpm w1 w2 len : Qc) (n : Z) :
  py_float v = Ok y -> Spec.floatable v = true -> y <= 0 ->
  py_float v1 = Ok 1 -> Spec.float_range n = true ->
  LabourModel.calculate_labour (pre ++ Spec.with_yield v step :: post)
    operator_profiles cps spa byp blk
  = LabourModel.calculate_labour (pre ++ Spec.with_yield v1 step :: post)
      operator_profiles cps spa byp blk
  /\ (Forall Spec.costable (pre ++ Spec.with_yield v step :: post) ->
      Spec.counts_in_range cps spa byp blk = true ->
      raises (LabourModel.calculate_labour
                (pre ++ Spec.with_yield v step :: post)
                operator_profiles cps spa byp blk) = false)
  /\ (exists b,
        CostDiodes.bypass_diodes price cpm w1 w2 len y n = Ok b
        /\ CostDiodes.effective_cost_per_bypass_diode b = 0
        /\ CostDiodes.total_bypass_cost b = 0)
  /\ (exists b,
        CostSummary.bypass_diodes price cpm w1 w2 len y n = Ok b
        /\ CostSummary.eff_cost_bypass b = 0
        /\ CostSummary.total_bypass_cost b = 0)
  /\ (exists b,
        CostDiodes.blocking_diodes price cpm w1 len w2 y = Ok b
        /\ CostDiodes.effective_cost_per_blocking_diode b = 0
        /\ CostDiodes.total_blocking_cost b = 0)
  /\ CostSummary.blocking_diodes price cpm w1 len w2 y = Ok 0
  /\ (forall y' : Qc,
        raises (CostDiodes.bypass_diodes price cpm w1 w2 len y' n) = false
        /\ raises (CostSummary.bypass_diodes price cpm w1 w2 len y' n) = false
        /\ raises (CostDiodes.blocking_diodes price cpm w1 len w2 y') = false
        /\ raises (CostSummary.blocking_diodes price cpm w1 len w2 y')
           = false).
Proof.
  intros Hv _ Hy Hv1 _.
  destruct (bypass_diodes_no_yield price cpm w1 w2 len y n Hy) as [Hb1 Hb2].
  destruct (blocking_diodes_no_yield price cpm w1 len w2 y Hy) as [Hk1 Hk2].
  split; [| split; [| repeat split; try assumption]].
  - unfold LabourModel.calculate_labour.
    by apply (labour_loop_yield_clamped _ _ _ _ _ v v1 y).
  - intros Hsteps _.
    destruct (labour_loop_ok operator_profiles cps spa byp blk _ Hsteps
                [] 0 0) as (rs & Hrs & _).
    unfold LabourModel.calculate_labour. by rewrite Hrs.
  - apply (diode_arithmetic_returns price cpm w1 w2 len _ n).
  - apply (diode_arithmetic_returns price cpm w1 w2 len _ n).
  - apply (diode_arithmetic_returns price cpm w1 w2 len _ n).
  - apply (diode_arithmetic_returns price cpm w1 w2 len _ n).
Qed.

End Yield.

(** C2, as stated, fails on the diode calculations: with the unit costs of
    the bypass example and 20 cells, yield 0 gives a total of 0 where
    yield 1 gives 2.05, on the Diodes page and on the Cost Summary page
    alike. *)
Lemma diode_yield_zero_is_not_yield_one :
  CostDiodes.total_bypass_cost
    <$> CostDiodes.bypass_diodes (qc 0.10) (qc 0.00005) (qc 0.001)
          (qc 0.001) (qc 5) 0 20 = Ok 0
  /\ CostDiodes.total_bypass_cost
       <$> CostDiodes.bypass_diodes (qc 0.10) (qc 0.00005) (qc 0.001)
             (qc 0.001) (qc 5) 1 20 = Ok (qc 2.05)
  /\ CostDiodes.bypass_diodes (qc 0.10) (qc 0.00005) (qc 0.001) (qc 0.001)
       (qc 5) 0 20
     <> CostDiodes.bypass_diodes (qc 0.10) (qc 0.00005) (qc 0.001)
          (qc 0.001) (qc 5) 1 20
  /\ CostSummary.bypass_diodes (qc 0.10) (qc 0.00005) (qc 0.001) (qc 0.001)
       (qc 5) 0 20
     <> CostSummary.bypass_diodes (qc 0.10) (qc 0.00005) (qc 0.001)
          (qc 0.001) (qc 5) 1 20
  /\ CostSummary.blocking_diodes (qc 0.10) (qc 0.00005) (qc 0.001) (qc 10)
       (qc 12) 0
     <> CostSummary.blocking_diodes (qc 0.10) (qc 0.00005) (qc 0.001) (qc 10)
          (qc 12) 1.
Proof.
  split; [run | split; [run |]].
  split; [| split].
  - intros Heq.
    apply (f_equal (fmap (fun b => this (CostDiodes.total_bypass_cost b))))
      in Heq.
    vm_compute in Heq. discriminate.
  - intros Heq.
    apply (f_equal (fmap (fun b => this (CostSummary.total_bypass_cost b))))
      in Heq.
    vm_compute in Heq. discriminate.
  - intros Heq. apply (f_equal (fmap this)) in Heq.
    vm_compute in Heq. discriminate.
Qed.

(** A run of C2 (amended): tabbing, a per-unit step over the 80 cells,
    with its yield fraction set to 0 is costed as with yield fraction 1,
    and the process it is part of is costed without an exception. *)
Lemma nonpositive_yield_witness :
  @LabourModel.calculate_labour PlainText.plain_text
    ([Examples.step_lamination]
     ++ Spec.with_yield (PInt 0) Examples.step_tabbing
     :: [Examples.step_cell_test])
    Examples.operator_profiles 20 4 80 2
  = @LabourModel.calculate_labour PlainText.plain_text
      ([Examples.step_lamination]
       ++ Spec.with_yield (PInt 1) Examples.step_tabbing
       :: [Examples.step_cell_test])
      Examples.operator_profiles 20 4 80 2
  /\ raises
       (@LabourModel.calculate_labour PlainText.plain_text
          ([Examples.step_lamination]
           ++ Spec.with_yield (PInt 0) Examples.step_tabbing
           :: [Examples.step_cell_test])
          Examples.operator_profiles 20 4 80 2) = false.
Proof.
  assert (H0 : @py_float PlainText.plain_text (PInt 0) = Ok (of_Z 0))
    by reflexivity.
  assert (Hle : of_Z 0 <= 0) by (vm_compute; discriminate).
  assert (H1 : @py_float PlainText.plain_text (PInt 1) = Ok 1)
    by reflexivity.
  assert (Hsteps : Forall (@Spec.costable PlainText.plain_text)
                     ([Examples.step_lamination]
                      ++ Spec.with_yield (PInt 0) Examples.step_tabbing
                      :: [Examples.step_cell_test])).
  { repeat constructor.
    - exists (of_Z 600), 0, (qc 1.0). repeat split; reflexivity.
    - exists (qc 30.0), (qc 120.0), (of_Z 0). repeat split; reflexivity.
    - exists (qc 45.0), 0, (of_Z 0). repeat split; reflexivity. }
  destruct (@nonpositive_yield PlainText.plain_text
              Examples.operator_profiles 20 4 80 2 [Examples.step_lamination]
              [Examples.step_cell_test] Examples.step_tabbing (PInt 0)
              (PInt 1) (of_Z 0) (qc 0.10) (qc 0.00005) (qc 0.001) (qc 0.001)
              (qc 5) 20 H0 eq_refl Hle H1 eq_refl)
    as (Hsame & Hreturns & _).
  split; [exact Hsame | exact (Hreturns Hsteps eq_refl)].
Defined.

(** The figures of that run: with a yield fraction of 0, as with 1,
    tabbing takes 80 / 1 * 30 + 120 = 2520 s. *)
Example nonpositive_yield_figures :
  (fun l => LabourModel.total_step_seconds <$> LabourModel.steps l)
  <$> @LabourModel.calculate_labour PlainText.plain_text
        ([Examples.step_lamination]
         ++ Spec.with_yield (PInt 0) Examples.step_tabbing
         :: [Examples.step_cell_test])
        Examples.operator_profiles 20 4 80 2
  = Ok [qc 600; qc 2520; 0].
Proof. run. Qed.

(** ** Unit-cost resolvers *)

Lemma pdiv_not_le (a n : Qc) : ~ n <= 0 -> pdiv a n = Ok (a / n).
Proof. intros Hn. apply pdiv_pos. by apply Qcnot_le_lt. Qed.


Section Resolvers.
Context `{PyText}.

Lemma py_float_raises (v : pyval) (e : exn) :
  py_float v = Raise e -> type_or_value_error e = true.
Proof. destruct v; cbn; repeat case_match; intros; simplify_eq; done. Qed.

(** A field read with a default is the field itself unless it is
    missing, when it is the default. *)
Lemma get_or_cases (item : pydict) (k : string) (dflt : pyval) :
  get_or item k dflt = get item k
  \/ (get item k = PNone /\ get_or item k dflt = dflt).
Proof. unfold get_or, get. destruct (item !! k); cbn; auto. Qed.







(** *** Two shapes that recur in the resolvers *)







(** *** Diode unit price *)


(** *** Weld cost per weld (Diodes page and Cost Summary page) *)




(** *** Silver cost per mm *)



(** *** Lamination and tape cost per metre *)


(** *** Kapton cost per disk and epoxy cost per mL *)








(** *** Foam cost per piece *)


(** *** Generic unit cost (frame, board, box) *)



(** *** Where the copies of the weld resolver agree

    On a record that states its currency, and whose unit cost in that
    currency is either missing or a number, the three copies of
    [get_weld_cost_per_weld] return the same cost. *)

Lemma stated_currency (item : pydict) (s dflt : string) :
  get item "currency" = PStr s -> s <> ""%string ->
  or_upper (get_or item "currency" (PStr dflt)) dflt = Ok (upper s).
Proof.
  unfold get, get_or, or_upper. intros Hc Hs.
  destruct (item !! "currency") as [v |]; cbn in *; [| done].
  subst v. cbn. by rewrite bool_decide_eq_false_2.
Qed.

Lemma weld_cost_copies_agree (item : pydict) (rate : Qc) (s : string) :
  get item "currency" = PStr s -> s <> ""%string ->
  let k := if decide (upper s = "USD"%string) then "unit_cost_usd"%string
           else "unit_cost_gbp"%string in
  (item !! k = None \/ exists q, py_float (get item k) = Ok q) ->
  CostDiodes.get_weld_cost_per_weld item rate
  = CostSummary.get_weld_cost_per_weld item rate
  /\ CostWeldHeads.get_weld_cost_per_weld (Some item) rate
     = CostSummary.get_weld_cost_per_weld item rate.
Proof.
  intros Hc Hs k Hk.
  unfold CostDiodes.get_weld_cost_per_weld,
    CostSummary.get_weld_cost_per_weld, CostWeldHeads.get_weld_cost_per_weld.
  rewrite !(stated_currency item s) by done.
  cbn [mbind res_bind]. split; [reflexivity |].
  destruct (py_float (get_or item "num_welds" (PInt 0)))
    as [n | err] eqn:Hn; cbn [mbind res_bind try_then].
  2: { by rewrite (py_float_raises _ _ Hn). }
  case_bool_decide as Hpos; [done |].
  subst k. destruct (decide (upper s = "USD"%string)) as [Hu | Hu].
  - change (get_or item "unit_cost_usd" PNone)
      with (get item "unit_cost_usd") in *.
    cbn zeta.
    destruct (is_none (get item "unit_cost_usd")) eqn:Hnone; [done |].
    destruct Hk as [Hk | [q Hq]].
    + unfold get in Hnone. by rewrite Hk in Hnone.
    + rewrite Hq. reflexivity.
  - change (get_or item "unit_cost_gbp" PNone)
      with (get item "unit_cost_gbp") in *.
    cbn zeta.
    destruct Hk as [Hk | [q Hq]].
    + unfold get, get_or. rewrite Hk. cbn.
      rewrite pdiv_not_le by done. f_equal.
      unfold Qcdiv. change (of_Z 0) with 0. ring.
    + assert (Hsame : get_or item "unit_cost_gbp" (PInt 0)
                      = get item "unit_cost_gbp").
      { destruct (get_or_cases item "unit_cost_gbp" (PInt 0))
          as [E | [E _]]; [done |].
        rewrite E in Hq. discriminate. }
      rewrite Hsame, Hq.
      destruct (get item "unit_cost_gbp"); try discriminate; reflexivity.
Qed.

(** *** Weld cost per weld (Weld Heads page) *)




End Resolvers.



(** ** Absent catalog roles *)

Section Roles.
Context `{PyText}.

Lemma list_find_none (mat_id : string) (items : list pydict) :
  Spec.no_item_with_id mat_id items ->
  List.find
    (fun item =>
       bool_decide (py_str (get_or item "id" (PStr "")) = mat_id))
    items = None.
Proof.
  induction 1 as [| item items Hne _ IH]; cbn [List.find]; [done |].
  by rewrite bool_decide_eq_false_2.
Qed.

Lemma find_none_by_page (mat_id : string) (items : list pydict) :
  Spec.no_item_with_id mat_id items ->
  CostWeldHeads.find_material_by_id items (PStr mat_id) = None
  /\ CostDiodes.find_material_by_id items (PStr mat_id) = None
  /\ CostSummary.find_material_by_id items (PStr mat_id) = None.
Proof.
  intros Hno.
  unfold CostSummary.find_material_by_id, CostDiodes.find_material_by_id,
    CostWeldHeads.find_material_by_id.
  cbn [py_str]. rewrite (list_find_none _ _ Hno).
  by destruct (negb (truthy (PStr mat_id))).
Qed.

Lemma no_item_in_empty (mat_id : string) (items : list pydict) :
  items = [] -> Spec.no_item_with_id mat_id items.
Proof. intros ->. constructor. Qed.

(** When no foam is 3 mm thick the loop leaves the 3 mm foam as it was;
    likewise for 25 mm. *)
Lemma select_foams_without_3mm (foams : list pydict)
    (foam_3mm foam_25mm : option pydict) :
  Spec.no_foam_at (qc 3.0) foams ->
  exists foam_25mm',
    CostPackaging.select_foams foams foam_3mm foam_25mm
    = Ok (foam_3mm, foam_25mm').
Proof.
  intros Hno. revert foam_25mm.
  induction Hno as [| f foams (th & Hth & Hfar) _ IH]; intros foam_25mm;
    cbn [CostPackaging.select_foams].
  - by eexists.
  - rewrite Hth. cbn [mbind res_bind].
    rewrite bool_decide_eq_false_2 by done.
    case_bool_decide; apply IH.
Qed.

Lemma select_foams_without_25mm (foams : list pydict)
    (foam_3mm foam_25mm : option pydict) :
  Spec.no_foam_at (qc 25.0) foams ->
  exists foam_3mm',
    CostPackaging.select_foams foams foam_3mm foam_25mm
    = Ok (foam_3mm', foam_25mm).
Proof.
  intros Hno. revert foam_3mm.
  induction Hno as [| f foams (th & Hth & Hfar) _ IH]; intros foam_3mm;
    cbn [CostPackaging.select_foams].
  - by eexists.
  - rewrite Hth. cbn [mbind res_bind].
    case_bool_decide; [apply IH |].
    rewrite bool_decide_eq_false_2 by done. apply IH.
Qed.

Lemma nonempty_nil {A} (l : list A) : nonempty l = true -> l <> [].
Proof. by destruct l. Qed.

(** The Packaging page on an absent role. *)
Lemma packaging_page_reports (s : session) (rate : Qc)
    (designs : list pydict) (materials : materials_db) (design : pydict)
    (p : ArrayDesigns.power) (n : Z) (ui : CostPackaging.packaging_choice) :
  Spec.costing_ready s designs design p n ->
  Spec.packaging_role_absent materials ->
  Spec.reports_error (CostPackaging.render s rate designs materials ui).
Proof.
  intros ((sel & Hs & Hd) & Hp & _) Habs.
  unfold Spec.reports_error, CostPackaging.render.
  rewrite Hs, Hd. cbn [mbind res_bind].
  unfold Spec.packaging_role_absent in Habs. cbn zeta in *.
  set (items := category materials "Packaging") in *.
  destruct (nonempty items); cbn [negb]; [| by eexists].
  rewrite Hp. cbn [mbind res_bind].
  destruct (nonempty (CostPackaging.of_type items "frame")) eqn:Hfr;
    cbn [negb]; [| by eexists].
  destruct (nonempty (CostPackaging.of_type items "shipping board")) eqn:Hbo;
    cbn [negb]; [| by eexists].
  destruct (nonempty (CostPackaging.of_type items "foam")) eqn:Hfo;
    cbn [negb]; [| by eexists].
  destruct (nonempty (CostPackaging.of_type items "box")) eqn:Hbx;
    cbn [negb]; [| by eexists].
  apply nonempty_nil in Hfr, Hbo, Hfo, Hbx.
  destruct Habs as [Ha | [Ha | [Ha | [Ha | [H3 | H25]]]]]; try done.
  - destruct (select_foams_without_3mm _ None None H3) as [f25 ->].
    cbn [mbind res_bind]. by eexists.
  - destruct (select_foams_without_25mm _ None None H25) as [f3 ->].
    cbn [mbind res_bind]. destruct f3; by eexists.
Qed.

(** The Weld Heads page without the Ag head. *)
Lemma weld_heads_page_reports (s : session) (rate : Qc)
    (designs : list pydict) (materials : materials_db) (design : pydict)
    (p : ArrayDesigns.power) (n : Z) :
  Spec.costing_ready s designs design p n ->
  Spec.ag_head_absent materials ->
  Spec.reports_error (CostWeldHeads.render s rate designs materials).
Proof.
  intros ((sel & Hs & Hd) & _) Habs.
  unfold Spec.reports_error, CostWeldHeads.render.
  rewrite Hs, Hd. cbn [mbind res_bind]. cbn zeta.
  destruct (nonempty (category materials "Weld heads")); cbn [negb];
    [| by eexists].
  destruct (find_none_by_page _ _ Habs) as (-> & _). by eexists.
Qed.

(** The Diodes page on an absent role. *)
Lemma diodes_page_reports (s : session) (rate : Qc)
    (designs : list pydict) (materials : materials_db) (design : pydict)
    (p : ArrayDesigns.power) (n : Z) (ui : CostDiodes.diodes_choice) :
  Spec.costing_ready s designs design p n ->
  Spec.diode_role_absent materials ->
  Spec.reports_error (CostDiodes.render s rate designs materials ui).
Proof.
  intros ((sel & Hs & Hd) & Hp & Hn & Hpos) Habs.
  unfold Spec.reports_error, CostDiodes.render.
  rewrite Hs, Hd. cbn [mbind res_bind]. rewrite Hp. cbn [mbind res_bind].
  rewrite Hn. cbn [mbind res_bind].
  rewrite bool_decide_eq_false_2 by lia. cbn zeta.
  destruct (nonempty (category materials "Diodes")) eqn:Hdi; cbn [negb];
    [| by eexists].
  destruct (nonempty (category materials "Silver Ribbon")) eqn:Hsi;
    cbn [negb]; [| by eexists].
  destruct (nonempty (category materials "Weld heads")) eqn:Hwe;
    cbn [negb]; [| by eexists].
  apply nonempty_nil in Hdi, Hsi.
  destruct Habs as [Ha | [Ha | [Ha | [Ha | Ha]]]]; try done;
    destruct (find_none_by_page _ _ Ha) as (_ & -> & _);
    repeat case_match; by eexists.
Qed.

(** The Cost Summary page costs a category whose role is absent at zero
    and reports nothing. *)
Lemma summary_packaging_zero (s : session) (materials : materials_db)
    (rate : Qc) :
  Spec.packaging_role_absent materials ->
  CostSummary.packaging_section s materials rate = Ok 0.
Proof.
  intros Habs. unfold CostSummary.packaging_section.
  unfold Spec.packaging_role_absent in Habs. cbn zeta in *.
  set (items := category materials "Packaging") in *.
  destruct (nonempty items); [| done].
  destruct (nonempty (CostPackaging.of_type items "frame")) eqn:Hfr;
    cbn [andb]; [| done].
  destruct (nonempty (CostPackaging.of_type items "shipping board")) eqn:Hbo;
    cbn [andb]; [| done].
  destruct (nonempty (CostPackaging.of_type items "foam")) eqn:Hfo;
    cbn [andb]; [| done].
  destruct (nonempty (CostPackaging.of_type items "box")) eqn:Hbx;
    cbn [andb]; [| done].
  apply nonempty_nil in Hfr, Hbo, Hfo, Hbx.
  destruct Habs as [Ha | [Ha | [Ha | [Ha | [H3 | H25]]]]]; try done.
  - destruct (select_foams_without_3mm _ None None H3) as [f25 ->].
    reflexivity.
  - destruct (select_foams_without_25mm _ None None H25) as [f3 ->].
    cbn [mbind res_bind]. by destruct f3.
Qed.

Lemma summary_weld_heads_zero (materials : materials_db) (n : Z)
    (rate : Qc) :
  Spec.ag_head_absent materials ->
  CostSummary.weld_heads_section materials n rate = Ok 0.
Proof.
  intros Habs. unfold CostSummary.weld_heads_section. cbn zeta.
  destruct (find_none_by_page _ _ Habs) as (_ & _ & ->).
  by destruct (nonempty (category materials "Weld heads")).
Qed.

Lemma summary_diodes_zero (s : session) (design : pydict)
    (materials : materials_db) (n : Z) (rate : Qc) :
  Spec.diode_role_absent materials ->
  CostSummary.diodes_section s design materials n rate = Ok 0.
Proof.
  intros Habs. unfold CostSummary.diodes_section. cbn zeta.
  destruct (nonempty (category materials "Diodes")) eqn:Hdi;
    cbn [andb]; [| done].
  destruct (nonempty (category materials "Weld heads")); [| done].
  apply nonempty_nil in Hdi.
  destruct Habs as [Ha | [Ha | [Ha | [Ha | Ha]]]]; try done.
  - rewrite Ha. cbn [nonempty].
    destruct (CostSummary.find_material_by_id _ (PStr "Weld_Head_Al"));
      [| done].
    destruct (CostSummary.find_material_by_id _ (PStr "Weld_Head_Au"));
      [| done].
    destruct (CostSummary.find_material_by_id _ (PStr "Weld_Head_BL"));
      [| done].
    by rewrite andb_false_r.
  - destruct (find_none_by_page _ _ Ha) as (_ & _ & ->). done.
  - destruct (find_none_by_page _ _ Ha) as (_ & _ & ->).
    by repeat case_match.
  - destruct (find_none_by_page _ _ Ha) as (_ & _ & ->).
    by repeat case_match.
Qed.

Lemma add_row_ok (array_power : Qc) (name : string) (cost : Qc) :
  CostSummary.add_row array_power name cost
  = Ok (Spec.summary_row array_power name cost).
Proof.
  unfold CostSummary.add_row, Spec.summary_row.
  destruct (decide (0 < array_power)) as [Hp | Hp].
  - rewrite bool_decide_eq_true_2 by done. by rewrite pdiv_pos.
  - by rewrite bool_decide_eq_false_2.
Qed.

(** The summary table carries the figure of each category section. *)
Lemma summary_rows (s : session) (rate : Qc) (designs : list pydict)
    (materials : materials_db) (design : pydict) (p : ArrayDesigns.power)
    (n : Z) (base : Qc) (c1 c2 c3 c4 c5 c6 c7 : Qc) :
  Spec.costing_ready s designs design p n ->
  CostSummary.base_length_mm design n = Ok base ->
  CostSummary.silver_section s design materials n rate = Ok c1 ->
  CostSummary.diodes_section s design materials n rate = Ok c2 ->
  CostSummary.weld_heads_section materials n rate = Ok c3 ->
  CostSummary.lamination_section s materials base rate = Ok c4 ->
  CostSummary.tapes_section s materials base rate = Ok c5 ->
  CostSummary.misc_section s materials n rate = Ok c6 ->
  CostSummary.packaging_section s materials rate = Ok c7 ->
  let array_power :=
    ArrayDesigns.array_power_for (illumination_of s) p in
  exists su,
    CostSummary.render s rate designs materials = Ok (Shown su)
    /\ CostSummary.rows su
       = [ Spec.summary_row array_power "Silver" c1;
           Spec.summary_row array_power "Diodes" c2;
           Spec.summary_row array_power "Weld heads" c3;
           Spec.summary_row array_power "Lamination" c4;
           Spec.summary_row array_power "Tapes" c5;
           Spec.summary_row array_power "Misc" c6;
           Spec.summary_row array_power "Packaging" c7 ].
Proof.
  intros ((sel & Hs & Hd) & Hp & Hn & Hpos) Hb H1 H2 H3 H4 H5 H6 H7 ap.
  unfold CostSummary.render.
  rewrite Hs, Hd. cbn [mbind res_bind]. rewrite Hp. cbn [mbind res_bind].
  rewrite Hn. cbn [mbind res_bind].
  rewrite bool_decide_eq_false_2 by lia.
  rewrite Hb. cbn [mbind res_bind].
  rewrite H1, H2, H3. cbn [mbind res_bind].
  rewrite H4, H5, H6, H7. cbn [mbind res_bind].
  rewrite !add_row_ok. cbn [mbind res_bind].
  fold ap.
  destruct (bool_decide (0 < ap)) eqn:Hap.
  - apply bool_decide_eq_true_1 in Hap. rewrite pdiv_pos by done.
    cbn [mbind res_bind]. eexists. split; reflexivity.
  - cbn [mbind res_bind]. eexists. split; reflexivity.
Qed.

(** C9 (amended).  In the setting where a design is selected and found,
    its power is computed and it has at least one cell: when a packaging
    role is absent (no frame, shipping board, foam or box item, no
    packaging item at all, no foam at 3.0 mm or at 25.0 mm within 1e-3)
    the Packaging page stops with an error message; when the Ag weld head
    is absent the Weld Heads page stops with an error message; when there
    is no diode item, no silver item or one of the Al, Au, BL weld heads is
    missing the Diodes page stops with an error message.  The Cost Summary
    page reports none of these: it costs the category at zero, and its
    table carries that zero next to the figure of every other category,
    which is computed as it would be otherwise. *)
Theorem absent_role_by_page (s : session) (rate : Qc)
    (designs : list pydict) (materials : materials_db) (design : pydict)
    (p : ArrayDesigns.power) (n : Z) :
  Spec.costing_ready s designs design p n ->
  (Spec.packaging_role_absent materials ->
   (forall ui,
      Spec.reports_error (CostPackaging.render s rate designs materials ui))
   /\ CostSummary.packaging_section s materials rate = Ok 0)
  /\ (Spec.ag_head_absent materials ->
      Spec.reports_error (CostWeldHeads.render s rate designs materials)
      /\ CostSummary.weld_heads_section materials n rate = Ok 0)
  /\ (Spec.diode_role_absent materials ->
      (forall ui,
         Spec.reports_error (CostDiodes.render s rate designs materials ui))
      /\ CostSummary.diodes_section s design materials n rate = Ok 0)
  /\ (forall base c1 c2 c3 c4 c5 c6 c7,
        CostSummary.base_length_mm design n = Ok base ->
        CostSummary.silver_section s design materials n rate = Ok c1 ->
        CostSummary.diodes_section s design materials n rate = Ok c2 ->
        CostSummary.weld_heads_section materials n rate = Ok c3 ->
        CostSummary.lamination_section s materials base rate = Ok c4 ->
        CostSummary.tapes_section s materials base rate = Ok c5 ->
        CostSummary.misc_section s materials n rate = Ok c6 ->
        CostSummary.packaging_section s materials rate = Ok c7 ->
        let array_power :=
          ArrayDesigns.array_power_for (illumination_of s) p in
        exists su,
          CostSummary.render s rate designs materials = Ok (Shown su)
          /\ CostSummary.rows su
             = [ Spec.summary_row array_power "Silver" c1;
                 Spec.summary_row array_power "Diodes" c2;
                 Spec.summary_row array_power "Weld heads" c3;
                 Spec.summary_row array_power "Lamination" c4;
                 Spec.summary_row array_power "Tapes" c5;
                 Spec.summary_row array_power "Misc" c6;
                 Spec.summary_row array_power "Packaging" c7 ]).
Proof.
  intros Hready. split; [| split; [| split]].
  - intros Habs. split.
    + intros ui. by apply (packaging_page_reports _ _ _ _ design p n).
    + by apply summary_packaging_zero.
  - intros Habs. split.
    + by apply (weld_heads_page_reports _ _ _ _ design p n).
    + by apply summary_weld_heads_zero.
  - intros Habs. split.
    + intros ui. by apply (diodes_page_reports _ _ _ _ design p n).
    + by apply summary_diodes_zero.
  - intros base c1 c2 c3 c4 c5 c6 c7. by apply summary_rows.
Qed.

End Roles.

Lemma example_ready :
  @Spec.costing_ready PlainText.plain_text Examples.session_20
    [Examples.design_20] Examples.design_20 Examples.power_20 20.
Proof.
  split; [| split; [| split]].
  - exists (PStr "MAT-20"). split; reflexivity.
  - run.
  - reflexivity.
  - lia.
Qed.

Lemma example_lacks_25mm_foam :
  @Spec.packaging_role_absent PlainText.plain_text
    (Examples.materials Examples.packaging_without_25mm_foam).
Proof.
  unfold Spec.packaging_role_absent. cbn zeta. do 5 right.
  assert (Hfoams :
    @CostPackaging.of_type PlainText.plain_text
      (category (Examples.materials Examples.packaging_without_25mm_foam)
         "Packaging") "foam"
    = [Examples.foam "F3" (qc 3.0)]) by (vm_compute; reflexivity).
  rewrite Hfoams. repeat constructor.
  exists (qc 3.0). split; [reflexivity |].
  vm_compute. discriminate.
Qed.

(** C9, as stated, fails on the Cost Summary page: with no 25 mm foam in
    the catalog it reports no error; it returns its table, with a
    packaging cost of zero in it. *)
Lemma summary_is_silent_about_missing_foam :
  @Spec.packaging_role_absent PlainText.plain_text
    (Examples.materials Examples.packaging_without_25mm_foam)
  /\ (exists su,
        @CostSummary.render PlainText.plain_text Examples.session_20
          Examples.exchange_rate [Examples.design_20]
          (Examples.materials Examples.packaging_without_25mm_foam)
        = Ok (Shown su)
        /\ last (CostSummary.rows su)
           = Some {| CostSummary.Category := "Packaging";
                     CostSummary.Cost_per_array := 0;
                     CostSummary.Cost_per_W := 0 |})
  /\ ~ Spec.reports_error
         (@CostSummary.render PlainText.plain_text Examples.session_20
            Examples.exchange_rate [Examples.design_20]
            (Examples.materials Examples.packaging_without_25mm_foam)).
Proof.
  split; [exact example_lacks_25mm_foam |].
  assert (Hlast :
    (fun pg => match pg with
               | Shown su => last (CostSummary.rows su)
               | Stop _ _ => None
               end)
    <$> @CostSummary.render PlainText.plain_text Examples.session_20
          Examples.exchange_rate [Examples.design_20]
          (Examples.materials Examples.packaging_without_25mm_foam)
    = Ok (Some {| CostSummary.Category := "Packaging";
                  CostSummary.Cost_per_array := 0;
                  CostSummary.Cost_per_W := 0 |})) by run.
  destruct (@CostSummary.render PlainText.plain_text Examples.session_20
              Examples.exchange_rate [Examples.design_20]
              (Examples.materials Examples.packaging_without_25mm_foam))
    as [[l msg | su] | e]; cbn in Hlast; try discriminate.
  split.
  - exists su. split; [reflexivity | by injection Hlast].
  - intros [msg Hmsg]. discriminate.
Qed.

(** A run of C9 (amended) on the catalog without 25 mm foam: the Packaging
    page stops with an error, the Cost Summary costs packaging at zero. *)
Lemma absent_role_by_page_witness :
  Spec.reports_error
    (@CostPackaging.render PlainText.plain_text Examples.session_20
       Examples.exchange_rate [Examples.design_20]
       (Examples.materials Examples.packaging_without_25mm_foam)
       Examples.packaging_first_choices)
  /\ @CostSummary.packaging_section PlainText.plain_text Examples.session_20
       (Examples.materials Examples.packaging_without_25mm_foam)
       Examples.exchange_rate = Ok 0.
Proof.
  destruct (@absent_role_by_page PlainText.plain_text Examples.session_20
              Examples.exchange_rate [Examples.design_20]
              (Examples.materials Examples.packaging_without_25mm_foam)
              Examples.design_20 Examples.power_20 20 example_ready)
    as (Hpack & _).
  destruct (Hpack example_lacks_25mm_foam) as [Hpage Hsummary].
  split; [apply Hpage | exact Hsummary].
Defined.

(** * Further properties *)

(** ** Order on the rationals of the model *)

Lemma Qc_eq_this (a b : Qc) : a = b <-> (this a == this b)%Q.
Proof. split; [by intros -> | apply Qc_is_canon]. Qed.

(** Statements about [Qc] as statements about [Q], where [lra] works. *)
Ltac qc_to_q :=
  unfold qc, of_Z in *;
  repeat match goal with
  | H : @eq Qc _ _ |- _ => apply Qc_eq_this in H
  | H : ~ @eq Qc _ _ |- _ => rewrite Qc_eq_this in H
  end;
  try match goal with
  | |- @eq Qc _ _ => apply Qc_eq_this
  | |- ~ @eq Qc _ _ => rewrite Qc_eq_this
  end;
  unfold Qclt, Qcle, Qcdiv, Qcminus, Qcinv, Qcopp, Qcplus, Qcmult in *;
  cbn [this Q2Qc] in *;
  rewrite ?Qred_correct in *.

(** The inverse of a numeral is a numeral. *)
Ltac q_consts :=
  repeat match goal with
  | |- context [Qinv ?c] =>
      let v := eval vm_compute in (Qinv c) in
      lazymatch v with Qmake _ _ => change (Qinv c) with v end
  | H : context [Qinv ?c] |- _ =>
      let v := eval vm_compute in (Qinv c) in
      lazymatch v with Qmake _ _ => change (Qinv c) with v in H end
  end.

Ltac qc_lra := qc_to_q; q_consts; lra.

Lemma Qc_mult_pos (a b : Qc) : 0 < a -> 0 < b -> 0 < a * b.
Proof. intros. qc_to_q. by apply Qmult_lt_0_compat. Qed.

Lemma Qc_mult_nonneg (a b : Qc) : 0 <= a -> 0 <= b -> 0 <= a * b.
Proof. intros. qc_to_q. by apply Qmult_le_0_compat. Qed.

Lemma Qc_inv_pos (a : Qc) : 0 < a -> 0 < / a.
Proof. intros. qc_to_q. by apply Qinv_lt_0_compat. Qed.

Lemma Qc_div_pos (a b : Qc) : 0 < a -> 0 < b -> 0 < a / b.
Proof. intros. apply Qc_mult_pos; [done | by apply Qc_inv_pos]. Qed.

Lemma Qc_div_nonneg (a b : Qc) : 0 <= a -> 0 < b -> 0 <= a / b.
Proof.
  intros. apply Qc_mult_nonneg; [done |].
  by apply Qclt_le_weak, Qc_inv_pos.
Qed.

Lemma of_Z_nonneg (z : Z) : (0 <= z)%Z -> 0 <= of_Z z.
Proof. intros. qc_to_q. unfold Qle. cbn. lia. Qed.

Lemma of_Z_pos (z : Z) : (0 < z)%Z -> 0 < of_Z z.
Proof. intros. qc_to_q. unfold Qlt. cbn. lia. Qed.

Lemma of_Z_le (a b : Z) : (a <= b)%Z <-> of_Z a <= of_Z b.
Proof. qc_to_q. by rewrite <- Zle_Qle. Qed.

Lemma of_Z_lt (a b : Z) : (a < b)%Z <-> of_Z a < of_Z b.
Proof. qc_to_q. by rewrite <- Zlt_Qlt. Qed.

(** [a / b] against a bound, for a positive divisor. *)
Lemma Qc_div_le_iff (a b c : Qc) : 0 < b -> (a / b <= c <-> a <= c * b).
Proof.
  intros Hb. qc_to_q. split; intros Hle.
  - apply (Qmult_le_r _ _ (/ b)); [by apply Qinv_lt_0_compat |].
    rewrite <- Qmult_assoc, Qmult_inv_r, Qmult_1_r by lra. exact Hle.
  - apply (Qmult_le_r _ _ (/ b)) in Hle; [| by apply Qinv_lt_0_compat].
    rewrite <- (Qmult_assoc c), Qmult_inv_r, Qmult_1_r in Hle by lra.
    exact Hle.
Qed.

Lemma Qc_le_div_iff (a b c : Qc) : 0 < b -> (c <= a / b <-> c * b <= a).
Proof.
  intros Hb. qc_to_q. split; intros Hle.
  - apply (Qmult_le_r _ _ (/ b)); [by apply Qinv_lt_0_compat |].
    rewrite <- Qmult_assoc, Qmult_inv_r, Qmult_1_r by lra. exact Hle.
  - apply (Qmult_le_r _ _ (/ b)) in Hle; [| by apply Qinv_lt_0_compat].
    rewrite <- (Qmult_assoc c), Qmult_inv_r, Qmult_1_r in Hle by lra.
    exact Hle.
Qed.

Lemma Qc_div_lt_iff (a b c : Qc) : 0 < b -> (a / b < c <-> a < c * b).
Proof.
  intros Hb. qc_to_q. split; intros Hlt.
  - apply (Qmult_lt_r _ _ (/ b)); [by apply Qinv_lt_0_compat |].
    rewrite <- Qmult_assoc, Qmult_inv_r, Qmult_1_r by lra. exact Hlt.
  - apply (Qmult_lt_r _ _ (/ b)) in Hlt; [| by apply Qinv_lt_0_compat].
    rewrite <- (Qmult_assoc c), Qmult_inv_r, Qmult_1_r in Hlt by lra.
    exact Hlt.
Qed.

Lemma Qc_lt_div_iff (a b c : Qc) : 0 < b -> (c < a / b <-> c * b < a).
Proof.
  intros Hb. qc_to_q. split; intros Hlt.
  - apply (Qmult_lt_r _ _ (/ b)); [by apply Qinv_lt_0_compat |].
    rewrite <- Qmult_assoc, Qmult_inv_r, Qmult_1_r by lra. exact Hlt.
  - apply (Qmult_lt_r _ _ (/ b)) in Hlt; [| by apply Qinv_lt_0_compat].
    rewrite <- (Qmult_assoc c), Qmult_inv_r, Qmult_1_r in Hlt by lra.
    exact Hlt.
Qed.

(** ** The process file: schema upgrade *)

Lemma fill_in_eq (k : string) (v : pyval) (m : pydict) (u : bool) :
  ProcessFile.fill_in k v (m, u)
  = (m ∪ {[ k := v ]}, u || negb (has_key m k)).
Proof.
  unfold ProcessFile.fill_in, has_key. cbn [fst].
  destruct (m !! k) as [x |] eqn:Hk.
  - rewrite bool_decide_eq_true_2 by eauto. cbn [negb]. rewrite orb_false_r.
    f_equal. apply map_eq. intros i. rewrite lookup_union.
    destruct (decide (i = k)) as [-> | Hne].
    + rewrite Hk, lookup_singleton_eq. reflexivity.
    + rewrite lookup_singleton_ne by done. by destruct (m !! i).
  - rewrite bool_decide_eq_false_2 by (intros [? ?]; congruence).
    cbn [negb]. rewrite orb_true_r. f_equal.
    by apply insert_union_singleton_r.
Qed.

Lemma has_key_union_other (m : pydict) (k k' : string) (v : pyval) :
  k <> k' -> has_key (m ∪ {[ k := v ]}) k' = has_key m k'.
Proof.
  intros Hne. unfold has_key. apply bool_decide_ext.
  rewrite lookup_union, lookup_singleton_ne by done.
  by destruct (m !! k').
Qed.

Lemma has_key_is_Some (m : pydict) (k : string) :
  has_key m k = true <-> is_Some (m !! k).
Proof. unfold has_key. apply bool_decide_eq_true. Qed.

(** The loop body on the fields: the defaults are filled in underneath
    what is there, and the flag is set when one was missing. *)
Lemma upgrade_fields_eq (step : pydict) (upgraded : bool) :
  ProcessFile.upgrade_fields step upgraded
  = (step ∪ ProcessFile.schema_defaults,
     upgraded
     || negb (forallb (has_key step)
                [ "timing_basis"; "quantity_source"; "yield_fraction";
                  "entry_mode"; "batch_units"; "batch_seconds";
                  "time_per_unit_s"; "setup_time_s_per_array" ]%string)).
Proof.
  unfold ProcessFile.upgrade_fields.
  rewrite !fill_in_eq.
  rewrite !has_key_union_other by discriminate.
  f_equal.
  - rewrite <- !(assoc_L (∪)). f_equal.
  - cbn [forallb].
    destruct upgraded, (has_key step "timing_basis"),
      (has_key step "quantity_source"), (has_key step "yield_fraction"),
      (has_key step "entry_mode"), (has_key step "batch_units"),
      (has_key step "batch_seconds"), (has_key step "time_per_unit_s"),
      (has_key step "setup_time_s_per_array"); reflexivity.
Qed.

Lemma schema_defaults_keys (k : string) :
  is_Some (ProcessFile.schema_defaults !! k)
  <-> k ∈ [ "timing_basis"; "quantity_source"; "yield_fraction";
            "entry_mode"; "batch_units"; "batch_seconds";
            "time_per_unit_s"; "setup_time_s_per_array" ]%string.
Proof.
  split.
  - intros [v Hv]. apply elem_of_list_to_map_2 in Hv.
    apply (list_elem_of_fmap_2 fst) in Hv. exact Hv.
  - intros Hk. repeat (apply elem_of_cons in Hk as [-> | Hk]; [by eexists |]).
    by apply elem_of_nil in Hk.
Qed.

Lemma upgrade_fields_flag (step : pydict) (upgraded : bool) :
  (ProcessFile.upgrade_fields step upgraded).2 = false
  <-> upgraded = false
      /\ forall k, is_Some (ProcessFile.schema_defaults !! k) ->
           is_Some (step !! k).
Proof.
  rewrite upgrade_fields_eq. cbn [snd].
  rewrite orb_false_iff, negb_false_iff, forallb_forall.
  split; intros [Hu Hall]; (split; [exact Hu |]).
  - intros k Hk. apply has_key_is_Some, Hall.
    apply schema_defaults_keys in Hk. by apply list_elem_of_In.
  - intros k Hk. apply has_key_is_Some, Hall, schema_defaults_keys.
    by apply list_elem_of_In.
Qed.

Lemma upgrade_operators_flag (ops : ProcessFile.operators_value) :
  (ProcessFile.upgrade_operators ops).2 = false
  <-> exists slots, ops = ProcessFile.Slots slots.
Proof.
  destruct ops as [| v | slots | d]; cbn.
  - split; [discriminate | by intros [? ?]].
  - destruct (ProcessFile.int_value v); cbn;
      (split; [discriminate | by intros [? ?]]).
  - split; [by eexists | done].
  - split; [discriminate | by intros [? ?]].
Qed.

(** One turn of the loop, as a function of the stored step. *)
Lemma upgrade_steps_cons (step : ProcessFile.stored_step)
    (rest : list ProcessFile.stored_step) (upgraded : bool) :
  ProcessFile.upgrade_steps (step :: rest) upgraded
  = let this_step :=
      {| LabourModel.fields :=
           ProcessFile.stored_fields step ∪ ProcessFile.schema_defaults;
         LabourModel.operators_field :=
           ProcessFile.Slots
             (ProcessFile.upgrade_operators
                (ProcessFile.stored_operators step)).1 |} in
    let upgraded :=
      (ProcessFile.upgrade_fields (ProcessFile.stored_fields step)
         (upgraded
          || (ProcessFile.upgrade_operators
                (ProcessFile.stored_operators step)).2)).2 in
    (this_step :: (ProcessFile.upgrade_steps rest upgraded).1,
     (ProcessFile.upgrade_steps rest upgraded).2).
Proof.
  cbn [ProcessFile.upgrade_steps]. cbn zeta.
  destruct (ProcessFile.upgrade_operators (ProcessFile.stored_operators step))
    as [slots touched].
  rewrite !upgrade_fields_eq. cbn [fst snd].
  by destruct (ProcessFile.upgrade_steps rest _).
Qed.

Lemma upgrade_steps_flag (raw : list ProcessFile.stored_step)
    (upgraded : bool) :
  (ProcessFile.upgrade_steps raw upgraded).2 = false
  <-> upgraded = false /\ Forall ProcessFile.up_to_date raw.
Proof.
  revert upgraded. induction raw as [| step rest IH]; intros upgraded.
  - cbn. split; [by intros -> | by intros [-> _]].
  - rewrite upgrade_steps_cons. cbn [snd].
    rewrite IH, upgrade_fields_flag, orb_false_iff, upgrade_operators_flag,
      Forall_cons.
    unfold ProcessFile.up_to_date. tauto.
Qed.

Lemma upgrade_steps_result (raw : list ProcessFile.stored_step)
    (upgraded : bool) :
  (ProcessFile.upgrade_steps raw upgraded).1
  = (fun step =>
       {| LabourModel.fields :=
            ProcessFile.stored_fields step ∪ ProcessFile.schema_defaults;
          LabourModel.operators_field :=
            ProcessFile.Slots
              (ProcessFile.upgrade_operators
                 (ProcessFile.stored_operators step)).1 |}) <$> raw.
Proof.
  revert upgraded. induction raw as [| step rest IH]; intros upgraded.
  - reflexivity.
  - rewrite upgrade_steps_cons. cbn [fst fmap list_fmap].
    f_equal. apply IH.
Qed.

Lemma load_process_steps_eq (raw : list ProcessFile.stored_step) :
  ProcessFile.load_process_steps raw
  = {| ProcessFile.steps := (ProcessFile.upgrade_steps raw false).1;
       ProcessFile.saved :=
         if (ProcessFile.upgrade_steps raw false).2
         then Some (ProcessFile.upgrade_steps raw false).1 else None |}.
Proof.
  unfold ProcessFile.load_process_steps.
  by destruct (ProcessFile.upgrade_steps raw false).
Qed.

(** X1.  [load_process_steps] returns one step per stored step, in order.
    The fields of a loaded step are the stored fields with the eight
    defaults of the upgraded schema filled in underneath: a value that is
    there is never overwritten.  Its operators are a list: the stored list
    when there is one, [n] empty slots for the old integer count [n] (none
    for a count of zero or below), and the empty list when the key is
    absent. *)
Theorem load_process_steps_fills_in (raw : list ProcessFile.stored_step) :
  Forall2
    (fun stored loaded =>
       LabourModel.fields loaded
       = ProcessFile.stored_fields stored ∪ ProcessFile.schema_defaults
       /\ exists slots,
            LabourModel.operators loaded = Some slots
            /\ (forall l, ProcessFile.stored_operators stored
                          = ProcessFile.Slots l -> slots = l)
            /\ (forall n, ProcessFile.stored_operators stored
                          = ProcessFile.Scalar (PInt n) ->
                  slots = replicate (Z.to_nat n) ProcessFile.empty_slot)
            /\ (ProcessFile.stored_operators stored = ProcessFile.Absent ->
                slots = []))
    raw (ProcessFile.steps (ProcessFile.load_process_steps raw)).
Proof.
  rewrite load_process_steps_eq. cbn [ProcessFile.steps].
  rewrite upgrade_steps_result.
  apply Forall2_fmap_r, Forall_Forall2_diag, Forall_forall.
  intros step _. unfold LabourModel.operators.
  cbn [LabourModel.fields LabourModel.operators_field].
  split; [reflexivity |]. eexists. split; [reflexivity |].
  split; [| split].
  - by intros l ->.
  - intros n ->. cbn. destruct (Z.eqb_spec n 0) as [-> | Hn]; reflexivity.
  - by intros ->.
Qed.

Lemma union_defaults_present (f : pydict) (k : string) :
  is_Some (ProcessFile.schema_defaults !! k) ->
  is_Some ((f ∪ ProcessFile.schema_defaults) !! k).
Proof.
  intros [v Hv]. exists (default v (f !! k)).
  rewrite lookup_union, Hv. by destruct (f !! k).
Qed.

Lemma union_defaults_absorb (f : pydict) :
  (forall k, is_Some (ProcessFile.schema_defaults !! k) -> is_Some (f !! k)) ->
  f ∪ ProcessFile.schema_defaults = f.
Proof.
  intros Hall. apply map_eq. intros k. rewrite lookup_union.
  destruct (f !! k) as [x |] eqn:Hf.
  - by destruct (ProcessFile.schema_defaults !! k).
  - destruct (ProcessFile.schema_defaults !! k) as [d |] eqn:Hd; [| done].
    destruct (Hall k) as [y Hy]; [by eexists | congruence].
Qed.

(** X2.  [load_process_steps] hands the steps to [save_process_steps]
    exactly when some stored step is not up to date (its operators are
    not a list, or one of the eight schema fields is missing); what it
    saves is what it returns; when nothing is saved the steps are returned
    as they were stored; and loading the returned steps again returns the
    same steps and saves nothing. *)
Theorem load_process_steps_idempotent (raw : list ProcessFile.stored_step) :
  let first := ProcessFile.load_process_steps raw in
  (ProcessFile.saved first = None <-> Forall ProcessFile.up_to_date raw)
  /\ (ProcessFile.saved first = None
      \/ ProcessFile.saved first = Some (ProcessFile.steps first))
  /\ (ProcessFile.saved first = None ->
      ProcessFile.stored <$> ProcessFile.steps first = raw)
  /\ ProcessFile.load_process_steps
       (ProcessFile.stored <$> ProcessFile.steps first)
     = {| ProcessFile.steps := ProcessFile.steps first;
          ProcessFile.saved := None |}.
Proof.
  cbn zeta. rewrite !load_process_steps_eq.
  cbn [ProcessFile.steps ProcessFile.saved].
  assert (Hflag := upgrade_steps_flag raw false).
  split; [| split; [| split]].
  - destruct (ProcessFile.upgrade_steps raw false).2.
    + split; [discriminate |]. intros Hall.
      discriminate (proj2 Hflag (conj eq_refl Hall)).
    + split; [| done]. intros _. by apply Hflag.
  - destruct (ProcessFile.upgrade_steps raw false).2; [by right | by left].
  - destruct (ProcessFile.upgrade_steps raw false).2; [discriminate |].
    intros _. destruct (proj1 Hflag eq_refl) as [_ Hall]. clear Hflag.
    rewrite upgrade_steps_result, <- list_fmap_compose.
    induction Hall as [| step rest Hstep _ IH]; [reflexivity |].
    cbn [fmap list_fmap compose]. f_equal; [| exact IH].
    destruct step as [f ops]. destruct Hstep as [[slots Hs] Hpresent].
    cbn [ProcessFile.stored_fields ProcessFile.stored_operators] in *.
    subst ops. unfold ProcessFile.stored.
    cbn [LabourModel.fields LabourModel.operators_field
         ProcessFile.upgrade_operators fst].
    by rewrite union_defaults_absorb.
  - assert (Hall : Forall ProcessFile.up_to_date
                     (ProcessFile.stored
                        <$> (ProcessFile.upgrade_steps raw false).1)).
    { rewrite upgrade_steps_result.
      apply Forall_fmap, Forall_fmap, Forall_forall.
      intros step _. split; [by eexists |].
      intros k. apply union_defaults_present. }
    rewrite (proj2 (upgrade_steps_flag _ false) (conj eq_refl Hall)).
    f_equal. rewrite upgrade_steps_result.
    rewrite <- list_fmap_compose.
    rewrite upgrade_steps_result, <- list_fmap_compose.
    apply list_fmap_ext. intros i step _. cbn [compose].
    unfold ProcessFile.stored.
    cbn [LabourModel.fields LabourModel.operators_field
         ProcessFile.stored_fields ProcessFile.stored_operators
         ProcessFile.upgrade_operators fst].
    rewrite union_defaults_absorb; [reflexivity |].
    intros k. apply union_defaults_present.
Qed.

(** ** The labour aggregation on loaded steps *)

Section Loaded_steps.
Context `{PyText}.

Lemma get_or_defaults (f : pydict) (k : string) (d : pyval) :
  default d (ProcessFile.schema_defaults !! k) = d ->
  get_or (f ∪ ProcessFile.schema_defaults) k d = get_or f k d.
Proof.
  unfold get_or. rewrite lookup_union.
  destruct (f !! k), (ProcessFile.schema_defaults !! k); cbn; congruence.
Qed.

(** [calculate_labour] reads the fields of a loaded step as it reads the
    stored ones: the defaults that the loader fills in are the defaults
    that the aggregation assumes. *)
Lemma labour_step_loaded_fields (qty_map : gmap string Qc)
    (operator_profiles : gmap string LabourModel.OperatorProfile)
    (step_fields : pydict) (ops : LabourModel.operators_value) :
  LabourModel.labour_step qty_map operator_profiles
    {| LabourModel.fields := step_fields ∪ ProcessFile.schema_defaults;
       LabourModel.operators_field := ops |}
  = LabourModel.labour_step qty_map operator_profiles
      {| LabourModel.fields := step_fields;
         LabourModel.operators_field := ops |}.
Proof.
  unfold LabourModel.labour_step.
  cbn [LabourModel.fields LabourModel.operators_field].
  rewrite (get_or_defaults _ "timing_basis") by reflexivity.
  rewrite (get_or_defaults _ "quantity_source") by reflexivity.
  rewrite (get_or_defaults _ "time_per_unit_s") by run.
  rewrite (get_or_defaults _ "setup_time_s_per_array") by run.
  rewrite (get_or_defaults _ "yield_fraction") by run.
  rewrite (get_or_defaults _ "id") by reflexivity.
  rewrite (get_or_defaults _ "name") by reflexivity.
  rewrite (get_or_defaults _ "notes") by reflexivity.
  reflexivity.
Qed.

(** A step is costed by its fields and by the operators assigned from
    what it holds under [operators]. *)
Lemma labour_step_operators (qty_map : gmap string Qc)
    (operator_profiles : gmap string LabourModel.OperatorProfile)
    (step_fields : pydict) (ops ops' : LabourModel.operators_value) :
  LabourModel.assigned_profiles operator_profiles ops
  = LabourModel.assigned_profiles operator_profiles ops' ->
  LabourModel.labour_step qty_map operator_profiles
    {| LabourModel.fields := step_fields;
       LabourModel.operators_field := ops |}
  = LabourModel.labour_step qty_map operator_profiles
      {| LabourModel.fields := step_fields;
         LabourModel.operators_field := ops' |}.
Proof.
  intros Hsame. unfold LabourModel.labour_step.
  cbn [LabourModel.fields LabourModel.operators_field].
  by rewrite Hsame.
Qed.

(** The step as [load_process_steps] returns it. *)
Lemma labour_step_loaded (qty_map : gmap string Qc)
    (operator_profiles : gmap string LabourModel.OperatorProfile)
    (step : LabourModel.process_step) :
  LabourModel.assigned_profiles operator_profiles
    (ProcessFile.Slots
       (ProcessFile.upgrade_operators
          (LabourModel.operators_field step)).1)
  = LabourModel.assigned_profiles operator_profiles
      (LabourModel.operators_field step) ->
  LabourModel.labour_step qty_map operator_profiles
    {| LabourModel.fields :=
         LabourModel.fields step ∪ ProcessFile.schema_defaults;
       LabourModel.operators_field :=
         ProcessFile.Slots
           (ProcessFile.upgrade_operators
              (LabourModel.operators_field step)).1 |}
  = LabourModel.labour_step qty_map operator_profiles step.
Proof.
  intros Hsame. rewrite labour_step_loaded_fields.
  rewrite (labour_step_operators _ _ _ _ _ Hsame). by destruct step.
Qed.

(** Operators that are absent or a list are assigned from as they are. *)
Lemma assigned_profiles_listed
    (operator_profiles : gmap string LabourModel.OperatorProfile)
    (ops : LabourModel.operators_value) :
  ops = ProcessFile.Absent \/ (exists slots, ops = ProcessFile.Slots slots) ->
  LabourModel.assigned_profiles operator_profiles
    (ProcessFile.Slots (ProcessFile.upgrade_operators ops).1)
  = LabourModel.assigned_profiles operator_profiles ops.
Proof. by intros [-> | [slots ->]]. Qed.

(** Operators that could be gone through are, when loaded, the same
    assigned operators. *)
Lemma assigned_profiles_loaded
    (operator_profiles : gmap string LabourModel.OperatorProfile)
    (ops : LabourModel.operators_value)
    (assigned : list LabourModel.OperatorProfile) :
  LabourModel.assigned_profiles operator_profiles ops = Ok assigned ->
  LabourModel.assigned_profiles operator_profiles
    (ProcessFile.Slots (ProcessFile.upgrade_operators ops).1)
  = LabourModel.assigned_profiles operator_profiles ops.
Proof.
  destruct ops as [| v | slots | d]; [done | | done |].
  - destruct v as [| b | z | q | s]; try discriminate.
    destruct s as [| c s]; [done | discriminate].
  - unfold LabourModel.assigned_profiles.
    cbn [LabourModel.iterate mbind res_bind].
    destruct (map_to_list d) as [| [k v] rest] eqn:Hd; [| discriminate].
    intros _. reflexivity.
Qed.

(** What one step gives is what the loop started from. *)
Lemma labour_step_assigned (qty_map : gmap string Qc)
    (operator_profiles : gmap string LabourModel.OperatorProfile)
    (step : LabourModel.process_step) (r : LabourModel.LabourStepResult) :
  LabourModel.labour_step qty_map operator_profiles step = Ok r ->
  LabourModel.assigned_profiles operator_profiles
    (LabourModel.operators_field step)
  = Ok (LabourModel.assigned_operators r).
Proof.
  unfold LabourModel.labour_step.
  destruct (py_float (get_or (LabourModel.fields step) "time_per_unit_s" _))
    as [t |]; cbn [mbind res_bind]; [| discriminate].
  destruct (py_float (get_or (LabourModel.fields step)
                        "setup_time_s_per_array" _))
    as [setup |]; cbn [mbind res_bind]; [| discriminate].
  destruct (py_float (get_or (LabourModel.fields step) "yield_fraction" _))
    as [y |]; cbn [mbind res_bind]; [| discriminate].
  rewrite pdiv_nonzero by apply clamp_nonzero.
  destruct (LabourModel.assigned_profiles operator_profiles _)
    as [assigned |];
    repeat case_decide; cbn [mbind res_bind]; try discriminate;
    by intros [= <-].
Qed.

Lemma labour_loop_loaded (qty_map : gmap string Qc)
    (operator_profiles : gmap string LabourModel.OperatorProfile)
    (steps : list LabourModel.process_step)
    (results : list LabourModel.LabourStepResult)
    (total_cost total_hours : Qc) :
  Forall
    (fun step =>
       LabourModel.operators_field step = ProcessFile.Absent
       \/ exists slots,
            LabourModel.operators_field step = ProcessFile.Slots slots)
    steps ->
  LabourModel.labour_loop qty_map operator_profiles
    ((fun step =>
        {| LabourModel.fields :=
             LabourModel.fields step ∪ ProcessFile.schema_defaults;
           LabourModel.operators_field :=
             ProcessFile.Slots
               (ProcessFile.upgrade_operators
                  (LabourModel.operators_field step)).1 |}) <$> steps)
    results total_cost total_hours
  = LabourModel.labour_loop qty_map operator_profiles steps results
      total_cost total_hours.
Proof.
  intros Hlisted. revert results total_cost total_hours.
  induction Hlisted as [| step rest Hstep _ IH];
    intros results total_cost total_hours; [reflexivity |].
  cbn [fmap list_fmap LabourModel.labour_loop].
  rewrite labour_step_loaded by (by apply assigned_profiles_listed).
  destruct (LabourModel.labour_step qty_map operator_profiles step);
    cbn [mbind res_bind]; [apply IH | reflexivity].
Qed.

Lemma labour_loop_repaired (qty_map : gmap string Qc)
    (operator_profiles : gmap string LabourModel.OperatorProfile)
    (steps : list LabourModel.process_step)
    (results : list LabourModel.LabourStepResult)
    (total_cost total_hours : Qc) (l : LabourModel.labour) :
  LabourModel.labour_loop qty_map operator_profiles steps results
    total_cost total_hours = Ok l ->
  LabourModel.labour_loop qty_map operator_profiles
    ((fun step =>
        {| LabourModel.fields :=
             LabourModel.fields step ∪ ProcessFile.schema_defaults;
           LabourModel.operators_field :=
             ProcessFile.Slots
               (ProcessFile.upgrade_operators
                  (LabourModel.operators_field step)).1 |}) <$> steps)
    results total_cost total_hours
  = Ok l.
Proof.
  revert results total_cost total_hours.
  induction steps as [| step rest IH]; intros results total_cost total_hours;
    [done |].
  cbn [fmap list_fmap LabourModel.labour_loop].
  destruct (LabourModel.labour_step qty_map operator_profiles step)
    as [r |] eqn:Hr; cbn [mbind res_bind]; [| discriminate].
  rewrite labour_step_loaded, Hr
    by (eapply assigned_profiles_loaded, labour_step_assigned, Hr).
  cbn [mbind res_bind]. apply IH.
Qed.

Lemma reloaded_steps (process_steps : list LabourModel.process_step) :
  ProcessFile.steps
    (ProcessFile.load_process_steps (ProcessFile.stored <$> process_steps))
  = (fun step =>
       {| LabourModel.fields :=
            LabourModel.fields step ∪ ProcessFile.schema_defaults;
          LabourModel.operators_field :=
            ProcessFile.Slots
              (ProcessFile.upgrade_operators
                 (LabourModel.operators_field step)).1 |}) <$> process_steps.
Proof.
  rewrite load_process_steps_eq. cbn [ProcessFile.steps].
  by rewrite upgrade_steps_result, <- list_fmap_compose.
Qed.

(** What a run of the loop returns, read backwards. *)
Lemma labour_loop_inv (qty_map : gmap string Qc)
    (operator_profiles : gmap string LabourModel.OperatorProfile)
    (steps : list LabourModel.process_step)
    (results : list LabourModel.LabourStepResult)
    (total_cost total_hours : Qc) (l : LabourModel.labour) :
  LabourModel.labour_loop qty_map operator_profiles steps results total_cost
    total_hours = Ok l ->
  exists rs,
    Forall2
      (fun step r =>
         LabourModel.labour_step qty_map operator_profiles step = Ok r)
      steps rs
    /\ LabourModel.steps l = results ++ rs
    /\ LabourModel.total_cost l
       = total_cost + Spec.Qc_sum (LabourModel.cost <$> rs)
    /\ LabourModel.total_hours l
       = total_hours + Spec.Qc_sum (LabourModel.operator_hours <$> rs).
Proof.
  revert results total_cost total_hours.
  induction steps as [| step rest IH]; intros results total_cost total_hours.
  - cbn [LabourModel.labour_loop]. intros [= <-]. exists [].
    cbn [LabourModel.steps LabourModel.total_cost LabourModel.total_hours
         fmap list_fmap Spec.Qc_sum foldr].
    rewrite app_nil_r. repeat split; [constructor | ring | ring].
  - cbn [LabourModel.labour_loop].
    destruct (LabourModel.labour_step qty_map operator_profiles step)
      as [r | e] eqn:Hr; cbn [mbind res_bind]; [| discriminate].
    intros Hl. destruct (IH _ _ _ Hl) as (rs & Hall & Hs & Hc & Hh).
    exists (r :: rs). split; [by constructor |].
    rewrite Hs, Hc, Hh, <- app_assoc.
    cbn [app fmap list_fmap Spec.Qc_sum foldr].
    repeat split; unfold Spec.Qc_sum; ring.
Qed.

Lemma labour_step_numbers (qty_map : gmap string Qc)
    (operator_profiles : gmap string LabourModel.OperatorProfile)
    (step : LabourModel.process_step) (r : LabourModel.LabourStepResult) :
  LabourModel.labour_step qty_map operator_profiles step = Ok r ->
  exists t setup y, Spec.step_numbers step t setup y.
Proof.
  unfold LabourModel.labour_step, Spec.step_numbers.
  destruct (py_float (get_or (LabourModel.fields step) "time_per_unit_s" _))
    as [t |]; [| discriminate].
  destruct (py_float (get_or (LabourModel.fields step)
                        "setup_time_s_per_array" _))
    as [setup |]; [| discriminate].
  destruct (py_float (get_or (LabourModel.fields step) "yield_fraction" _))
    as [y |]; [| discriminate].
  intros _. by exists t, setup, y.
Qed.

Lemma assign_returns
    (operator_profiles : gmap string LabourModel.OperatorProfile)
    (ops : list LabourModel.operator_entry)
    (assigned_profiles assigned : list LabourModel.OperatorProfile) :
  LabourModel.assign operator_profiles ops assigned_profiles = Ok assigned ->
  forallb Spec.is_slot ops = true.
Proof.
  revert assigned_profiles.
  induction ops as [| [op | v] rest IH]; intros assigned_profiles;
    cbn [LabourModel.assign forallb Spec.is_slot andb];
    [done | apply IH | discriminate].
Qed.

Lemma assign_raises
    (operator_profiles : gmap string LabourModel.OperatorProfile)
    (ops : list LabourModel.operator_entry)
    (assigned_profiles : list LabourModel.OperatorProfile) (e : exn) :
  LabourModel.assign operator_profiles ops assigned_profiles = Raise e ->
  e = AttributeError.
Proof.
  revert assigned_profiles.
  induction ops as [| [op | v] rest IH]; intros assigned_profiles;
    cbn [LabourModel.assign]; [discriminate | apply IH | by intros [= <-]].
Qed.

(** The operators of a step are assigned from exactly when they can be
    gone through slot by slot. *)
Lemma assigned_profiles_returns
    (operator_profiles : gmap string LabourModel.OperatorProfile)
    (step : LabourModel.process_step) :
  (exists assigned,
     LabourModel.assigned_profiles operator_profiles
       (LabourModel.operators_field step) = Ok assigned)
  <-> Spec.usable_operators step = true.
Proof.
  split; [| intros Huse; rewrite (assign_usable _ _ Huse); by eexists].
  intros [assigned Hassigned]. revert Hassigned.
  unfold LabourModel.assigned_profiles, Spec.usable_operators.
  destruct (LabourModel.operators_field step) as [| v | slots | d];
    cbn [LabourModel.iterate mbind res_bind].
  - done.
  - destruct v as [| b | z | q | s]; try discriminate.
    destruct s as [| c s]; [done | discriminate].
  - apply assign_returns.
  - destruct (map_to_list d) as [| [k v] rest] eqn:Hd; [| discriminate].
    apply map_to_list_empty_iff in Hd as ->. by rewrite bool_decide_eq_true.
Qed.

Lemma assigned_profiles_raises
    (operator_profiles : gmap string LabourModel.OperatorProfile)
    (ops : LabourModel.operators_value) (e : exn) :
  LabourModel.assigned_profiles operator_profiles ops = Raise e ->
  e = TypeError \/ e = AttributeError.
Proof.
  unfold LabourModel.assigned_profiles.
  destruct (LabourModel.iterate ops) as [entries | e'] eqn:Hiter;
    cbn [mbind res_bind].
  - intros He. right. by eapply assign_raises.
  - intros [= <-]. left.
    destruct ops as [| v | slots | d]; try discriminate.
    destruct v; try discriminate; by injection Hiter as <-.
Qed.

(** Operators that are a number, a boolean or [None] cannot be gone
    through. *)
Lemma assigned_profiles_scalar
    (operator_profiles : gmap string LabourModel.OperatorProfile)
    (v : pyval) :
  (forall s, v <> PStr s) ->
  LabourModel.assigned_profiles operator_profiles (ProcessFile.Scalar v)
  = Raise TypeError.
Proof. intros Hv. destruct v; try reflexivity. by destruct (Hv s). Qed.

Lemma labour_step_returns (qty_map : gmap string Qc)
    (operator_profiles : gmap string LabourModel.OperatorProfile)
    (step : LabourModel.process_step) (r : LabourModel.LabourStepResult) :
  LabourModel.labour_step qty_map operator_profiles step = Ok r ->
  (exists t setup y, Spec.step_numbers step t setup y)
  /\ Spec.usable_operators step = true.
Proof.
  intros Hr. split; [by eapply labour_step_numbers |].
  apply (assigned_profiles_returns operator_profiles).
  eexists. by eapply labour_step_assigned.
Qed.

(** What a step raises on operators that cannot be assigned from, once
    its timing fields have been converted. *)
Lemma labour_step_unassignable (qty_map : gmap string Qc)
    (operator_profiles : gmap string LabourModel.OperatorProfile)
    (step : LabourModel.process_step) (t setup y : Qc) (e : exn) :
  Spec.step_numbers step t setup y ->
  LabourModel.assigned_profiles operator_profiles
    (LabourModel.operators_field step) = Raise e ->
  LabourModel.labour_step qty_map operator_profiles step = Raise e.
Proof.
  intros (Ht & Hs & Hy) He. unfold LabourModel.labour_step.
  rewrite Ht, Hs, Hy, He. cbn [mbind res_bind].
  rewrite pdiv_nonzero by apply clamp_nonzero.
  repeat case_decide; reflexivity.
Qed.

Lemma labour_step_raises (qty_map : gmap string Qc)
    (operator_profiles : gmap string LabourModel.OperatorProfile)
    (step : LabourModel.process_step) (e : exn) :
  LabourModel.labour_step qty_map operator_profiles step = Raise e ->
  e = TypeError \/ e = ValueError \/ e = AttributeError.
Proof.
  assert (Hconv : forall v e', py_float v = Raise e' ->
            e' = TypeError \/ e' = ValueError \/ e' = AttributeError).
  { intros v e' He'. apply py_float_raises in He'.
    destruct e'; try discriminate; auto. }
  unfold LabourModel.labour_step.
  destruct (py_float (get_or (LabourModel.fields step) "time_per_unit_s" _))
    as [t |] eqn:Ht; cbn [mbind res_bind];
    [| intros [= <-]; by eapply Hconv].
  destruct (py_float (get_or (LabourModel.fields step)
                        "setup_time_s_per_array" _))
    as [setup |] eqn:Hs; cbn [mbind res_bind];
    [| intros [= <-]; by eapply Hconv].
  destruct (py_float (get_or (LabourModel.fields step) "yield_fraction" _))
    as [y |] eqn:Hy; cbn [mbind res_bind];
    [| intros [= <-]; by eapply Hconv].
  rewrite pdiv_nonzero by apply clamp_nonzero.
  destruct (LabourModel.assigned_profiles operator_profiles _)
    as [assigned | e'] eqn:Hassigned;
    repeat case_decide; cbn [mbind res_bind]; try discriminate;
    intros [= <-];
    apply assigned_profiles_raises in Hassigned as [-> | ->]; auto.
Qed.

Lemma labour_loop_raises (qty_map : gmap string Qc)
    (operator_profiles : gmap string LabourModel.OperatorProfile)
    (steps : list LabourModel.process_step)
    (results : list LabourModel.LabourStepResult)
    (total_cost total_hours : Qc) (e : exn) :
  LabourModel.labour_loop qty_map operator_profiles steps results total_cost
    total_hours = Raise e ->
  e = TypeError \/ e = ValueError \/ e = AttributeError.
Proof.
  revert results total_cost total_hours.
  induction steps as [| step rest IH]; intros results total_cost total_hours;
    cbn [LabourModel.labour_loop]; [discriminate |].
  destruct (LabourModel.labour_step qty_map operator_profiles step)
    as [r | e'] eqn:Hr; cbn [mbind res_bind].
  - apply IH.
  - intros [= <-]. by apply labour_step_raises in Hr.
Qed.

(** X3.  Loading process steps through [load_process_steps] only repairs
    what [calculate_labour] computes from them.  A result that
    [calculate_labour] returns from the steps as stored, it returns from
    the loaded steps too.  From steps whose operators are absent or a
    list it computes the same before and after loading: the same step
    results and totals, or the same exception, whatever fields the stored
    steps lack.  And a step of the old schema, whose operators are a
    count, a boolean or [None], with timing fields that [float()]
    converts and counts within the range of a float: as stored it raises
    [TypeError], once loaded it is costed. *)
Theorem calculate_labour_after_reload
    (operator_profiles : gmap string LabourModel.OperatorProfile)
    (cells_per_string strings_per_array bypass_diodes_per_array
     blocking_diodes_per_array : Z) :
  let labour_of steps :=
    LabourModel.calculate_labour steps operator_profiles cells_per_string
      strings_per_array bypass_diodes_per_array blocking_diodes_per_array in
  let reloaded steps :=
    ProcessFile.steps
      (ProcessFile.load_process_steps (ProcessFile.stored <$> steps)) in
  (forall process_steps l,
     labour_of process_steps = Ok l ->
     labour_of (reloaded process_steps) = Ok l)
  /\ (forall process_steps,
        Forall
          (fun step =>
             LabourModel.operators_field step = ProcessFile.Absent
             \/ exists slots,
                  LabourModel.operators_field step = ProcessFile.Slots slots)
          process_steps ->
        labour_of (reloaded process_steps) = labour_of process_steps)
  /\ (forall step v,
        LabourModel.operators_field step = ProcessFile.Scalar v ->
        (forall s, v <> PStr s) ->
        (exists t setup y, Spec.step_numbers step t setup y) ->
        Spec.step_in_range step = true ->
        Spec.counts_in_range cells_per_string strings_per_array
          bypass_diodes_per_array blocking_diodes_per_array = true ->
        labour_of [step] = Raise TypeError
        /\ exists l, labour_of (reloaded [step]) = Ok l).
Proof.
  cbn zeta. unfold LabourModel.calculate_labour.
  split; [| split].
  - intros process_steps l Hl. rewrite reloaded_steps.
    by apply labour_loop_repaired.
  - intros process_steps Hlisted. rewrite reloaded_steps.
    by apply labour_loop_loaded.
  - intros step v Hops Hv (t & setup & y & Hnum) Hrange _. split.
    + cbn [LabourModel.labour_loop].
      rewrite (labour_step_unassignable _ _ _ _ _ _ TypeError Hnum);
        [reflexivity |].
      rewrite Hops. by apply assigned_profiles_scalar.
    + rewrite reloaded_steps. cbn [fmap list_fmap].
      destruct (labour_loop_ok operator_profiles cells_per_string
                  strings_per_array bypass_diodes_per_array
                  blocking_diodes_per_array
                  [ {| LabourModel.fields :=
                         LabourModel.fields step
                         ∪ ProcessFile.schema_defaults;
                       LabourModel.operators_field :=
                         ProcessFile.Slots
                           (ProcessFile.upgrade_operators
                              (LabourModel.operators_field step)).1 |} ])
        with (results := @nil LabourModel.LabourStepResult)
             (total_cost := 0) (total_hours := 0)
        as (rs & Hrs & _); [| by eexists].
      constructor; [| constructor].
      destruct Hnum as (Ht & Hs & Hy).
      split; [| split].
      * exists t, setup, y. unfold Spec.step_numbers.
        cbn [LabourModel.fields].
        rewrite (get_or_defaults _ "time_per_unit_s") by run.
        rewrite (get_or_defaults _ "setup_time_s_per_array") by run.
        rewrite (get_or_defaults _ "yield_fraction") by run.
        done.
      * unfold Spec.step_in_range. cbn [LabourModel.fields].
        rewrite (get_or_defaults _ "time_per_unit_s") by run.
        rewrite (get_or_defaults _ "setup_time_s_per_array") by run.
        rewrite (get_or_defaults _ "yield_fraction") by run.
        exact Hrange.
      * unfold Spec.usable_operators.
        cbn [LabourModel.operators_field]. rewrite Hops.
        cbn [ProcessFile.upgrade_operators].
        destruct (ProcessFile.int_value v) as [n |]; cbn [fst];
          [| reflexivity].
        destruct (n =? 0)%Z; [reflexivity |].
        induction (Z.to_nat n) as [| k IH]; [reflexivity | exact IH].
Qed.

(** X6.  With no integer beyond the range of a float among the timing
    fields and the counts, [calculate_labour] returns exactly when, for
    every step, the three timing fields ([time_per_unit_s],
    [setup_time_s_per_array], [yield_fraction], each with its default
    when missing) convert to [float] and the operators can be gone
    through slot by slot (no operators, a list of mappings, an empty text
    or an empty mapping); it then returns one result per step.  Otherwise
    it raises [TypeError], [ValueError] or [AttributeError] and returns
    no partial result; it raises nothing else, in particular never
    [ZeroDivisionError]. *)
Theorem calculate_labour_returns_or_raises
    (process_steps : list LabourModel.process_step)
    (operator_profiles : gmap string LabourModel.OperatorProfile)
    (cells_per_string strings_per_array bypass_diodes_per_array
     blocking_diodes_per_array : Z) :
  Forall (fun step => Spec.step_in_range step = true) process_steps ->
  Spec.counts_in_range cells_per_string strings_per_array
    bypass_diodes_per_array blocking_diodes_per_array = true ->
  let outcome :=
    LabourModel.calculate_labour process_steps operator_profiles
      cells_per_string strings_per_array bypass_diodes_per_array
      blocking_diodes_per_array in
  ((exists l, outcome = Ok l) <-> Forall Spec.costable process_steps)
  /\ (forall l, outcome = Ok l ->
        length (LabourModel.steps l) = length process_steps)
  /\ (forall e, outcome = Raise e ->
        e = TypeError \/ e = ValueError \/ e = AttributeError).
Proof.
  intros Hrange _. cbn zeta. unfold LabourModel.calculate_labour.
  split; [split |]; [| | split].
  - intros [l Hl]. apply labour_loop_inv in Hl as (rs & Hall & _).
    revert Hrange.
    induction Hall as [| step r rest rs Hr _ IH]; intros Hrange;
      constructor.
    + apply labour_step_returns in Hr as [Hnum Huse].
      apply Forall_cons in Hrange as [Hstep _]. done.
    + apply IH. by apply Forall_cons in Hrange as [_ Hrest].
  - intros Hall.
    destruct (labour_loop_ok operator_profiles cells_per_string
                strings_per_array bypass_diodes_per_array
                blocking_diodes_per_array process_steps Hall [] 0 0)
      as (rs & Hrs & _).
    eauto.
  - intros l Hl. apply labour_loop_inv in Hl as (rs & Hall & Hs & _).
    rewrite Hs. cbn [app]. symmetry. by eapply Forall2_length.
  - intros e He. by apply labour_loop_raises in He.
Qed.

(** The accumulators only carry what the earlier steps gave. *)
Lemma labour_loop_shift (qty_map : gmap string Qc)
    (operator_profiles : gmap string LabourModel.OperatorProfile)
    (steps : list LabourModel.process_step)
    (results : list LabourModel.LabourStepResult)
    (total_cost total_hours : Qc) :
  LabourModel.labour_loop qty_map operator_profiles steps results total_cost
    total_hours
  = l ← LabourModel.labour_loop qty_map operator_profiles steps [] 0 0;
    Ok {| LabourModel.steps := results ++ LabourModel.steps l;
          LabourModel.total_cost := total_cost + LabourModel.total_cost l;
          LabourModel.total_hours := total_hours + LabourModel.total_hours l |}.
Proof.
  revert results total_cost total_hours.
  induction steps as [| step rest IH]; intros results total_cost total_hours.
  - cbn [LabourModel.labour_loop mbind res_bind LabourModel.steps
         LabourModel.total_cost LabourModel.total_hours].
    rewrite app_nil_r. f_equal. f_equal; ring.
  - cbn [LabourModel.labour_loop].
    destruct (LabourModel.labour_step qty_map operator_profiles step)
      as [r | e]; cbn [mbind res_bind]; [| reflexivity].
    rewrite (IH (results ++ [r])), (IH ([] ++ [r])).
    destruct (LabourModel.labour_loop qty_map operator_profiles rest [] 0 0)
      as [l | e]; cbn [mbind res_bind]; [| reflexivity].
    cbn [LabourModel.steps LabourModel.total_cost LabourModel.total_hours].
    rewrite <- app_assoc. cbn [app]. f_equal. f_equal; ring.
Qed.

Lemma labour_loop_app (qty_map : gmap string Qc)
    (operator_profiles : gmap string LabourModel.OperatorProfile)
    (first second : list LabourModel.process_step)
    (results : list LabourModel.LabourStepResult)
    (total_cost total_hours : Qc) :
  LabourModel.labour_loop qty_map operator_profiles (first ++ second) results
    total_cost total_hours
  = l ← LabourModel.labour_loop qty_map operator_profiles first results
          total_cost total_hours;
    LabourModel.labour_loop qty_map operator_profiles second
      (LabourModel.steps l) (LabourModel.total_cost l)
      (LabourModel.total_hours l).
Proof.
  revert results total_cost total_hours.
  induction first as [| step rest IH]; intros results total_cost total_hours;
    [reflexivity |].
  cbn [app LabourModel.labour_loop].
  destruct (LabourModel.labour_step qty_map operator_profiles step)
    as [r | e]; cbn [mbind res_bind]; [apply IH | reflexivity].
Qed.

(** X5.  The labour of a process given in two parts is the labour of the
    parts put together: the step results of the first part followed by
    those of the second, the costs added and the hours added; and when a
    part raises, the whole raises the same exception, the first part's
    first. *)
Theorem calculate_labour_app
    (first second : list LabourModel.process_step)
    (operator_profiles : gmap string LabourModel.OperatorProfile)
    (cells_per_string strings_per_array bypass_diodes_per_array
     blocking_diodes_per_array : Z) :
  let labour_of steps :=
    LabourModel.calculate_labour steps operator_profiles cells_per_string
      strings_per_array bypass_diodes_per_array blocking_diodes_per_array in
  labour_of (first ++ second)
  = l1 ← labour_of first;
    l2 ← labour_of second;
    Ok {| LabourModel.steps := LabourModel.steps l1 ++ LabourModel.steps l2;
          LabourModel.total_cost :=
            LabourModel.total_cost l1 + LabourModel.total_cost l2;
          LabourModel.total_hours :=
            LabourModel.total_hours l1 + LabourModel.total_hours l2 |}.
Proof.
  cbn zeta. unfold LabourModel.calculate_labour.
  rewrite labour_loop_app.
  destruct (LabourModel.labour_loop _ operator_profiles first [] 0 0)
    as [l1 | e]; cbn [mbind res_bind]; [| reflexivity].
  apply labour_loop_shift.
Qed.

End Loaded_steps.

(** A run of X3: bonding, stored by the old schema with a count of two
    operators, raises [TypeError] as stored and is costed once loaded. *)
Lemma calculate_labour_after_reload_witness :
  @LabourModel.calculate_labour PlainText.plain_text [Examples.step_bonding]
    Examples.operator_profiles 20 4 80 2 = Raise TypeError
  /\ exists l,
       @LabourModel.calculate_labour PlainText.plain_text
         (ProcessFile.steps
            (ProcessFile.load_process_steps
               (ProcessFile.stored <$> [Examples.step_bonding])))
         Examples.operator_profiles 20 4 80 2 = Ok l.
Proof.
  refine (proj2 (proj2 (@calculate_labour_after_reload PlainText.plain_text
                          Examples.operator_profiles 20 4 80 2))
            Examples.step_bonding (PInt 2) eq_refl _ _ eq_refl eq_refl).
  - discriminate.
  - exists (of_Z 600), 0, 1. repeat split; reflexivity.
Defined.

(** A run of X6: the example process, whose steps can all be costed,
    gives three results. *)
Lemma calculate_labour_returns_or_raises_witness :
  exists l,
    @LabourModel.calculate_labour PlainText.plain_text Examples.process_steps
      Examples.operator_profiles 20 4 80 2 = Ok l
    /\ length (LabourModel.steps l) = 3%nat.
Proof.
  assert (Hrange : Forall (fun step => Spec.step_in_range step = true)
                     Examples.process_steps) by (repeat constructor).
  destruct (@calculate_labour_returns_or_raises PlainText.plain_text
              Examples.process_steps Examples.operator_profiles 20 4 80 2
              Hrange eq_refl) as (Hiff & Hlength & _).
  destruct (proj2 Hiff) as [l Hl].
  { repeat constructor.
    - exists (qc 30.0), (qc 120.0), (qc 0.8). repeat split; reflexivity.
    - exists (of_Z 600), 0, (qc 1.0). repeat split; reflexivity.
    - exists (qc 45.0), 0, (of_Z 0). repeat split; reflexivity. }
  exists l. split; [exact Hl | exact (Hlength l Hl)].
Defined.

Section Operator_counts.
Context `{PyText}.

Lemma empty_slots_unassigned
    (operator_profiles : gmap string LabourModel.OperatorProfile) (n : nat)
    (assigned_profiles : list LabourModel.OperatorProfile) :
  LabourModel.assign operator_profiles (replicate n ProcessFile.empty_slot)
    assigned_profiles = Ok assigned_profiles.
Proof. induction n as [| n IH]; [reflexivity | exact IH]. Qed.

Lemma count_slots_unassigned
    (operator_profiles : gmap string LabourModel.OperatorProfile) (n : Z) :
  LabourModel.assigned_profiles operator_profiles
    (ProcessFile.Slots
       (ProcessFile.upgrade_operators (ProcessFile.Scalar (PInt n))).1)
  = Ok [].
Proof.
  unfold LabourModel.assigned_profiles.
  cbn [ProcessFile.upgrade_operators ProcessFile.int_value fst
       LabourModel.iterate mbind res_bind].
  destruct (n =? 0)%Z; [reflexivity | apply empty_slots_unassigned].
Qed.

Lemma unassigned_step_is_free (qty_map : gmap string Qc)
    (operator_profiles : gmap string LabourModel.OperatorProfile)
    (step : LabourModel.process_step) (r : LabourModel.LabourStepResult) :
  LabourModel.assigned_profiles operator_profiles
    (LabourModel.operators_field step) = Ok [] ->
  LabourModel.labour_step qty_map operator_profiles step = Ok r ->
  LabourModel.assigned_operators r = [] /\ LabourModel.cost r = 0.
Proof.
  intros Hnone. unfold LabourModel.labour_step.
  destruct (py_float (get_or (LabourModel.fields step) "time_per_unit_s" _))
    as [t |]; cbn [mbind res_bind]; [| discriminate].
  destruct (py_float (get_or (LabourModel.fields step)
                        "setup_time_s_per_array" _))
    as [setup |]; cbn [mbind res_bind]; [| discriminate].
  destruct (py_float (get_or (LabourModel.fields step) "yield_fraction" _))
    as [y |]; cbn [mbind res_bind]; [| discriminate].
  rewrite pdiv_nonzero by apply clamp_nonzero. rewrite Hnone.
  repeat case_decide; cbn [mbind res_bind];
    intros [= <-]; by cbn.
Qed.

(** X4.  A process file of the old schema, whose steps store the number
    of operators, loads into steps with that many empty slots.
    [calculate_labour] assigns no operator to such steps: each costs
    nothing, and the total cost is zero whatever the operator profiles,
    while the hours are still added up. *)
Theorem operator_counts_cost_nothing (raw : list ProcessFile.stored_step)
    (operator_profiles : gmap string LabourModel.OperatorProfile)
    (cells_per_string strings_per_array bypass_diodes_per_array
     blocking_diodes_per_array : Z) (l : LabourModel.labour) :
  Forall
    (fun step =>
       exists n, ProcessFile.stored_operators step
                 = ProcessFile.Scalar (PInt n))
    raw ->
  LabourModel.calculate_labour
    (ProcessFile.steps (ProcessFile.load_process_steps raw))
    operator_profiles cells_per_string strings_per_array
    bypass_diodes_per_array blocking_diodes_per_array = Ok l ->
  length (LabourModel.steps l) = length raw
  /\ Forall
       (fun r =>
          LabourModel.assigned_operators r = [] /\ LabourModel.cost r = 0)
       (LabourModel.steps l)
  /\ LabourModel.total_cost l = 0
  /\ LabourModel.total_hours l
     = Spec.Qc_sum (LabourModel.operator_hours <$> LabourModel.steps l).
Proof.
  intros Hraw. rewrite load_process_steps_eq. cbn [ProcessFile.steps].
  rewrite upgrade_steps_result. unfold LabourModel.calculate_labour.
  intros Hl. apply labour_loop_inv in Hl as (rs & Hall & Hs & Hc & Hh).
  cbn [app] in Hs. rewrite Hs, Hc, Hh.
  apply Forall2_fmap_l in Hall.
  assert (Hfree : Forall
            (fun r => LabourModel.assigned_operators r = []
                      /\ LabourModel.cost r = 0) rs).
  { clear Hs Hc Hh. induction Hall as [| step r rest rs Hr _ IH];
      [constructor |].
    apply Forall_cons in Hraw as [[n Hn] Hrest].
    constructor; [| by apply IH].
    eapply unassigned_step_is_free; [| exact Hr].
    cbn [LabourModel.operators_field]. rewrite Hn.
    apply count_slots_unassigned. }
  split; [symmetry; by eapply Forall2_length |].
  split; [exact Hfree |]. split; [| ring].
  rewrite Qcplus_0_l. clear -Hfree.
  induction Hfree as [| r rs [_ Hr] _ IH]; [reflexivity |].
  cbn [fmap list_fmap Spec.Qc_sum foldr]. rewrite Hr.
  unfold Spec.Qc_sum in IH. rewrite IH. ring.
Qed.

End Operator_counts.

(** A run of X4: lamination, 600 s per array, stored with a count of two
    operators and no other field. *)
Lemma operator_counts_cost_nothing_witness :
  exists l,
    @LabourModel.calculate_labour PlainText.plain_text
      (ProcessFile.steps
         (ProcessFile.load_process_steps
            [ {| ProcessFile.stored_fields :=
                   {[ "time_per_unit_s"%string := PInt 600 ]};
                 ProcessFile.stored_operators :=
                   ProcessFile.Scalar (PInt 2) |} ]))
      Examples.operator_profiles 20 4 80 2 = Ok l
    /\ LabourModel.total_cost l = 0
    /\ LabourModel.total_hours l
       = Spec.Qc_sum (LabourModel.operator_hours <$> LabourModel.steps l).
Proof.
  destruct (@LabourModel.calculate_labour PlainText.plain_text _ _ _ _ _ _)
    as [l | e] eqn:Hl; [| vm_compute in Hl; discriminate].
  exists l. split; [reflexivity |].
  refine (proj2 (proj2 (@operator_counts_cost_nothing PlainText.plain_text
                          _ _ _ _ _ _ l _ Hl))).
  repeat constructor. by exists 2%Z.
Defined.

(** ** The Home page's labour snapshot *)

Section Home_labour.
Context `{PyText}.

Lemma get_or_present (m : pydict) (k : string) (d d' : pyval) :
  is_Some (m !! k) -> get_or m k d = get_or m k d'.
Proof. unfold get_or. by intros [v ->]. Qed.

(** X7.  No step of a loaded process file is counted by both labour
    calculators: a step to which [calculate_labour] gives seconds (its
    timing basis is [per_array] or [per_unit]) is skipped by the loop of
    [_compute_labour_per_array], which counts the bases [cell] and [array]
    only and leaves its running totals as they are. *)
Theorem loaded_step_counted_once (raw : list ProcessFile.stored_step)
    (qty_map : gmap string Qc)
    (operator_profiles : gmap string LabourModel.OperatorProfile) :
  Forall
    (fun step =>
       forall r totals,
         LabourModel.labour_step qty_map operator_profiles step = Ok r ->
         LabourModel.total_step_seconds r <> 0 ->
         HomeLabour.count_step operator_profiles totals step = Ok totals)
    (ProcessFile.steps (ProcessFile.load_process_steps raw)).
Proof.
  rewrite load_process_steps_eq. cbn [ProcessFile.steps].
  rewrite upgrade_steps_result. apply Forall_fmap, Forall_forall.
  intros stored_step _ r [time cost]. cbn [compose].
  unfold LabourModel.labour_step, HomeLabour.count_step.
  cbn [LabourModel.fields LabourModel.operators_field].
  rewrite (get_or_present _ "timing_basis" (PStr "cell") (PStr "per_array"))
    by (apply union_defaults_present; by eexists).
  destruct (py_float (get_or _ "time_per_unit_s" _))
    as [t |]; cbn [mbind res_bind]; [| discriminate].
  destruct (py_float (get_or _ "setup_time_s_per_array" _))
    as [setup |]; cbn [mbind res_bind]; [| discriminate].
  destruct (py_float (get_or _ "yield_fraction" _))
    as [y |]; cbn [mbind res_bind]; [| discriminate].
  rewrite pdiv_nonzero by apply clamp_nonzero.
  destruct (decide (_ = "per_array"%string)) as [-> | Hpa].
  { intros _ _. reflexivity. }
  destruct (decide (_ = "per_unit"%string)) as [-> | Hpu].
  { intros _ _. reflexivity. }
  cbn [mbind res_bind].
  destruct (LabourModel.assigned_profiles _ _) as [assigned |];
    cbn [mbind res_bind]; [| discriminate].
  intros [= <-]. cbn [LabourModel.total_step_seconds].
  intros Hne. destruct Hne. qc_eval.
Qed.

Lemma count_step_nonnegative
    (operators : gmap string LabourModel.OperatorProfile)
    (step : LabourModel.process_step) (time cost time' cost' : Qc) :
  0 <= time -> 0 <= cost ->
  HomeLabour.count_step operators (time, cost) step = Ok (time', cost') ->
  0 <= time' /\ 0 <= cost'.
Proof.
  intros Ht Hc. unfold HomeLabour.count_step.
  destruct (negb _); [by intros [= <- <-] |].
  destruct (py_float _) as [t |]; cbn [mbind res_bind]; [| discriminate].
  destruct (decide (t <= 0)) as [Hle | Hpos].
  { rewrite bool_decide_eq_true_2 by done. by intros [= <- <-]. }
  rewrite bool_decide_eq_false_2 by done. apply Qcnot_le_lt in Hpos.
  destruct (HomeLabour.op_ids step) as [op_ids |]; cbn [mbind res_bind];
    [| discriminate].
  intros [= <- <-]. split; [qc_lra |].
  destruct (decide (0 < HomeLabour.total_hourly_rate operators op_ids))
    as [Hr | Hr].
  - rewrite bool_decide_eq_true_2 by done.
    assert (Hprod : 0 < t * HomeLabour.total_hourly_rate operators op_ids)
      by (by apply Qc_mult_pos).
    revert Hprod. generalize (t * HomeLabour.total_hourly_rate operators
                                    op_ids).
    intros p Hp. qc_lra.
  - by rewrite bool_decide_eq_false_2 by done.
Qed.

Lemma count_steps_nonnegative
    (operators : gmap string LabourModel.OperatorProfile)
    (steps : list LabourModel.process_step) (time cost time' cost' : Qc) :
  0 <= time -> 0 <= cost ->
  HomeLabour.count_steps operators steps (time, cost) = Ok (time', cost') ->
  0 <= time' /\ 0 <= cost'.
Proof.
  revert time cost. induction steps as [| step rest IH]; intros time cost Ht Hc.
  - by intros [= <- <-].
  - cbn [HomeLabour.count_steps].
    destruct (HomeLabour.count_step operators (time, cost) step)
      as [[time1 cost1] |] eqn:Hstep; cbn [mbind res_bind]; [| discriminate].
    destruct (count_step_nonnegative _ _ _ _ _ _ Ht Hc Hstep) as [Ht1 Hc1].
    by apply IH.
Qed.

(** X8.  Whatever the process file and the operator profiles hold,
    [_compute_labour_per_array] never returns a negative labour time or a
    negative labour cost per array; it returns zero for both when the
    design has no cells or when loading the files raised. *)
Theorem labour_per_array_nonnegative (num_cells : Z)
    (files : res (list LabourModel.process_step
                  * gmap string LabourModel.OperatorProfile))
    (labour_time_per_array_s labour_cost_per_array : Qc) :
  HomeLabour._compute_labour_per_array num_cells files
  = Ok (labour_time_per_array_s, labour_cost_per_array) ->
  0 <= labour_time_per_array_s
  /\ 0 <= labour_cost_per_array
  /\ ((num_cells <= 0)%Z \/ raises files = true ->
      labour_time_per_array_s = 0 /\ labour_cost_per_array = 0).
Proof.
  unfold HomeLabour._compute_labour_per_array.
  assert (E0 : qc 0.0 = 0) by qc_eval.
  destruct (decide (num_cells <= 0)%Z) as [Hn | Hn].
  { rewrite bool_decide_eq_true_2 by done. rewrite E0.
    intros [= <- <-]. repeat split; discriminate. }
  rewrite bool_decide_eq_false_2 by done.
  destruct files as [[steps operators] | e].
  - destruct (HomeLabour.count_steps operators steps _)
      as [[time cost] |] eqn:Hcount; cbn [mbind res_bind]; [| discriminate].
    rewrite E0 in Hcount.
    apply count_steps_nonnegative in Hcount as [Ht Hc]; [| discriminate ..].
    intros [= <- <-].
    assert (Hcells : 0 <= of_Z num_cells) by (apply of_Z_nonneg; lia).
    split; [by apply Qc_mult_nonneg |].
    split; [by apply Qc_mult_nonneg |].
    intros [Hle | Hraise]; [contradiction | discriminate].
  - rewrite E0. intros [= <- <-]. repeat split; discriminate.
Qed.

End Home_labour.

(** A run of X8 on the example process for a design of 20 cells: only the
    cell test, of basis [cell], is counted. *)
Lemma labour_per_array_nonnegative_witness :
  exists labour_time_per_array_s labour_cost_per_array,
    @HomeLabour._compute_labour_per_array PlainText.plain_text 20
      (Ok (Examples.process_steps, Examples.operator_profiles))
    = Ok (labour_time_per_array_s, labour_cost_per_array)
    /\ 0 <= labour_time_per_array_s
    /\ 0 <= labour_cost_per_array.
Proof.
  destruct (@HomeLabour._compute_labour_per_array PlainText.plain_text _ _)
    as [[time cost] | e] eqn:Hrun; [| vm_compute in Hrun; discriminate].
  exists time, cost. split; [reflexivity |].
  destruct (@labour_per_array_nonnegative PlainText.plain_text _ _ _ _ Hrun)
    as (Ht & Hc & _).
  split; [exact Ht | exact Hc].
Defined.

(** The figures of that run: 45 s per cell, 900 s and 6.00 per array. *)
Example labour_per_array_example :
  @HomeLabour._compute_labour_per_array PlainText.plain_text 20
    (Ok (Examples.process_steps, Examples.operator_profiles))
  = Ok (qc 900, qc 6).
Proof. run. Qed.

(** ** The Home page's order scenarios *)

Lemma ceil_ge (x : Qc) : x <= of_Z (ceil x).
Proof. destruct (ceil_bounds x) as [_ Hle]. by qc_to_q. Qed.

Lemma ceil_gt (x : Qc) : of_Z (ceil x - 1) < x.
Proof. destruct (ceil_bounds x) as [Hlt _]. by qc_to_q. Qed.

Lemma ceil_pos (x : Qc) : 0 < x -> (0 < ceil x)%Z.
Proof.
  intros Hx. apply of_Z_lt. eapply Qclt_le_trans; [| apply ceil_ge].
  assert (E : of_Z 0 = 0) by qc_eval. by rewrite E.
Qed.

Lemma of_Z_minus_1 (z : Z) : of_Z (z - 1) = of_Z z - 1.
Proof. qc_to_q. unfold Qeq. cbn. lia. Qed.

Lemma Qc_mult_le_self (b y : Qc) : 0 <= b -> y <= 1 -> b * y <= b.
Proof. intros. qc_to_q. nra. Qed.

Lemma this_of_Z (z : Z) : this (of_Z z) = inject_Z z.
Proof.
  unfold of_Z. cbn [this Q2Qc]. apply Qred_identity. cbn. apply Z.gcd_1_r.
Qed.

Lemma trunc_of_Z (z : Z) : trunc (of_Z z) = z.
Proof. unfold trunc. rewrite this_of_Z. cbn. apply Z.quot_1_r. Qed.

(** [int(x)] of a number that is not negative is its floor. *)
Lemma trunc_nonneg (x : Qc) :
  0 <= x -> (0 <= trunc x)%Z /\ of_Z (trunc x) <= x /\ x < of_Z (trunc x + 1).
Proof.
  intros Hx. assert (Hn : (0 <= Qnum (this x))%Z).
  { clear -Hx. qc_to_q. unfold Qle in Hx. cbn in Hx. lia. }
  assert (Hfloor : trunc x = Qfloor (this x)).
  { unfold trunc, Qfloor. destruct (this x) as [n d]. cbn in *.
    by apply Z.quot_div_nonneg. }
  rewrite Hfloor. split; [| split].
  - rewrite <- Hfloor. unfold trunc. apply Z.quot_pos; [exact Hn | lia].
  - unfold Qcle. rewrite this_of_Z. apply Qfloor_le.
  - unfold Qclt. rewrite this_of_Z. apply Qlt_floor.
Qed.

Lemma of_Z_mult (a b : Z) : of_Z (a * b) = of_Z a * of_Z b.
Proof. qc_to_q. by rewrite inject_Z_mult. Qed.

(** Boxes for [n] arrays at [p] arrays per box. *)
Lemma boxes_for (n p : Z) :
  (0 < p)%Z ->
  let boxes := ceil (of_Z n / of_Z p) in
  (n <= boxes * p)%Z /\ ((boxes - 1) * p < n)%Z.
Proof.
  intros Hp boxes. assert (Hp' : 0 < of_Z p) by (by apply of_Z_pos).
  split.
  - apply of_Z_le. rewrite of_Z_mult.
    apply Qc_div_le_iff; [done | apply ceil_ge].
  - apply of_Z_lt. rewrite of_Z_mult.
    apply Qc_lt_div_iff; [done | apply ceil_gt].
Qed.

Section Packaging_quantities.
Context `{PyText}.

(** X11.  When the scenario's packaging table is shown for a number of
    arrays to build and a positive number of arrays per box: one frame
    and one shipping board per array; the boxes hold all the arrays and
    one box fewer would not; two pieces of 25 mm foam per box and one
    piece of 3 mm foam less than arrays per box; and the items named in
    the rows are a frame, a shipping board and a box of the catalog. *)
Theorem packaging_quantities_suffice (s : session) (materials : materials_db)
    (arrays_to_build : Z) (rows : HomeOrders.pack_rows) :
  let per_box :=
    arrays_per_box (default default_packaging_state (cost_packaging_state s)) in
  HomeOrders.packaging_requirements s materials arrays_to_build
  = Ok (Shown rows) ->
  (0 < per_box)%Z ->
  let boxes := (HomeOrders.boxes_needed rows).2 in
  (HomeOrders.frames_needed rows).2 = arrays_to_build
  /\ (HomeOrders.boards_needed rows).2 = arrays_to_build
  /\ (arrays_to_build <= boxes * per_box)%Z
  /\ ((boxes - 1) * per_box < arrays_to_build)%Z
  /\ (HomeOrders.foam_25_total rows).2 = (boxes * 2)%Z
  /\ (HomeOrders.foam_3_total rows).2 = (boxes * (per_box - 1))%Z
  /\ (HomeOrders.frames_needed rows).1
     ∈ CostPackaging.of_type (category materials "Packaging") "frame"
  /\ (HomeOrders.boards_needed rows).1
     ∈ CostPackaging.of_type (category materials "Packaging")
         "shipping board"
  /\ (HomeOrders.boxes_needed rows).1
     ∈ CostPackaging.of_type (category materials "Packaging") "box".
Proof.
  intros per_box Hrows Hper. revert Hrows.
  unfold HomeOrders.packaging_requirements.
  destruct (nonempty (category materials "Packaging")); [| discriminate].
  destruct (nonempty _ && nonempty _ && nonempty _ && nonempty _);
    [| discriminate].
  destruct (CostPackaging.select_foams _ None None)
    as [[[foam_3mm |] [foam_25mm |]] |]; cbn [mbind res_bind];
    try discriminate.
  destruct (dict_truthy foam_3mm && dict_truthy foam_25mm); [| discriminate].
  fold per_box.
  destruct (clamped (CostPackaging.of_type _ "frame") _)
    as [frame_item |] eqn:Hframe; cbn [mbind res_bind]; [| discriminate].
  destruct (clamped (CostPackaging.of_type _ "shipping board") _)
    as [board_item |] eqn:Hboard; cbn [mbind res_bind]; [| discriminate].
  destruct (clamped (CostPackaging.of_type _ "box") _)
    as [box_item |] eqn:Hbox; cbn [mbind res_bind]; [| discriminate].
  rewrite (bool_decide_eq_true_2 _ Hper).
  rewrite pdiv_pos by (by apply of_Z_pos).
  cbn [fmap res_fmap mbind res_bind]. intros [= <-].
  cbn [HomeOrders.frames_needed HomeOrders.boards_needed
       HomeOrders.boxes_needed HomeOrders.foam_25_total
       HomeOrders.foam_3_total fst snd].
  destruct (boxes_for arrays_to_build per_box Hper) as [Hfit Hnext].
  assert (Hin : forall (items : list pydict) (i : nat) (item : pydict),
            clamped items i = Ok item -> item ∈ items).
  { intros items i item. unfold clamped, index.
    destruct (items !! _) as [x |] eqn:Hx; [| discriminate].
    intros [= <-]. by eapply list_elem_of_lookup_2. }
  repeat split; try done; try (by eapply Hin).
  f_equal. lia.
Qed.

End Packaging_quantities.

(** A run of X11: 23 arrays at 4 per box need 6 boxes, 12 pieces of 25 mm
    foam and 18 of 3 mm foam. *)
Lemma packaging_quantities_suffice_witness :
  exists rows,
    @HomeOrders.packaging_requirements PlainText.plain_text
      Examples.session_20 (Examples.materials Examples.packaging_complete) 23
    = Ok (Shown rows)
    /\ (HomeOrders.boxes_needed rows).2 = 6%Z
    /\ (HomeOrders.foam_25_total rows).2 = 12%Z
    /\ (HomeOrders.foam_3_total rows).2 = 18%Z.
Proof.
  destruct (@HomeOrders.packaging_requirements PlainText.plain_text _ _ _)
    as [[lvl msg | rows] | e] eqn:Hrows;
    [vm_compute in Hrows; discriminate | | vm_compute in Hrows; discriminate].
  exists rows. split; [reflexivity |].
  assert (Hper : (0 < 4)%Z) by reflexivity.
  destruct (@packaging_quantities_suffice PlainText.plain_text _ _ _ rows
              Hrows Hper)
    as (_ & _ & Hfit & Hnext & H25 & H3 & _).
  cbn [Examples.session_20 cost_packaging_state default
       default_packaging_state arrays_per_box] in *.
  rewrite H25, H3. assert ((HomeOrders.boxes_needed rows).2 = 6%Z) by lia.
  repeat split; [done | lia | lia].
Defined.

(** ** The Cost Summary page against the category pages *)

Section Summary.
Context `{PyText}.

(** What the summary shows, read backwards: a design was selected and
    found, it has cells, every category section returned, and the table
    carries their figures. *)
Lemma summary_render_inv (s : session) (rate : Qc) (designs : list pydict)
    (materials : materials_db) (su : CostSummary.summary) :
  CostSummary.render s rate designs materials = Ok (Shown su) ->
  exists design p n base c1 c2 c3 c4 c5 c6 c7,
    Spec.costing_ready s designs design p n
    /\ CostSummary.base_length_mm design n = Ok base
    /\ CostSummary.silver_section s design materials n rate = Ok c1
    /\ CostSummary.diodes_section s design materials n rate = Ok c2
    /\ CostSummary.weld_heads_section materials n rate = Ok c3
    /\ CostSummary.lamination_section s materials base rate = Ok c4
    /\ CostSummary.tapes_section s materials base rate = Ok c5
    /\ CostSummary.misc_section s materials n rate = Ok c6
    /\ CostSummary.packaging_section s materials rate = Ok c7
    /\ let array_power :=
         ArrayDesigns.array_power_for (illumination_of s) p in
       CostSummary.rows su
       = [ Spec.summary_row array_power "Silver" c1;
           Spec.summary_row array_power "Diodes" c2;
           Spec.summary_row array_power "Weld heads" c3;
           Spec.summary_row array_power "Lamination" c4;
           Spec.summary_row array_power "Tapes" c5;
           Spec.summary_row array_power "Misc" c6;
           Spec.summary_row array_power "Packaging" c7 ]
       /\ CostSummary.total_cost su
          = CostSummary.column_sum (CostSummary.rows su)
       /\ CostSummary.total_cost_per_w su
          = if decide (0 < array_power)
            then CostSummary.total_cost su / array_power else 0.
Proof.
  unfold CostSummary.render.
  destruct (selected_array_design s) as [sel |] eqn:Hsel; [| discriminate].
  destruct (find_design designs sel) as [[design |] |] eqn:Hd;
    cbn [mbind res_bind]; [| discriminate ..].
  destruct (ArrayDesigns.compute_power_for_design design) as [p |] eqn:Hp;
    cbn [mbind res_bind]; [| discriminate].
  destruct (py_int _) as [n |] eqn:Hn; cbn [mbind res_bind]; [| discriminate].
  case_bool_decide as Hpos; [discriminate |].
  destruct (CostSummary.base_length_mm design n) as [base |] eqn:Hb;
    cbn [mbind res_bind]; [| discriminate].
  destruct (CostSummary.silver_section _ _ _ _ _) as [c1 |] eqn:H1;
    cbn [mbind res_bind]; [| discriminate].
  destruct (CostSummary.diodes_section _ _ _ _ _) as [c2 |] eqn:H2;
    cbn [mbind res_bind]; [| discriminate].
  destruct (CostSummary.weld_heads_section _ _ _) as [c3 |] eqn:H3;
    cbn [mbind res_bind]; [| discriminate].
  destruct (CostSummary.lamination_section _ _ _ _) as [c4 |] eqn:H4;
    cbn [mbind res_bind]; [| discriminate].
  destruct (CostSummary.tapes_section _ _ _ _) as [c5 |] eqn:H5;
    cbn [mbind res_bind]; [| discriminate].
  destruct (CostSummary.misc_section _ _ _ _) as [c6 |] eqn:H6;
    cbn [mbind res_bind]; [| discriminate].
  destruct (CostSummary.packaging_section _ _ _) as [c7 |] eqn:H7;
    cbn [mbind res_bind]; [| discriminate].
  rewrite !add_row_ok. cbn [mbind res_bind].
  set (ap := ArrayDesigns.array_power_for (illumination_of s) p).
  intros Hsu.
  exists design, p, n, base, c1, c2, c3, c4, c5, c6, c7.
  split; [repeat split; eauto; lia |].
  do 8 (split; [first [eassumption | reflexivity] |]).
  destruct (decide (0 < ap)) as [Hap | Hap].
  - rewrite bool_decide_eq_true_2 in Hsu by done.
    rewrite pdiv_pos in Hsu by done. cbn [mbind res_bind] in Hsu.
    injection Hsu as <-.
    cbn [CostSummary.rows CostSummary.total_cost CostSummary.total_cost_per_w].
    subst ap. by destruct (decide _).
  - rewrite bool_decide_eq_false_2 in Hsu by done.
    cbn [mbind res_bind] in Hsu. injection Hsu as <-.
    cbn [CostSummary.rows CostSummary.total_cost CostSummary.total_cost_per_w].
    subst ap. by destruct (decide _).
Qed.

Lemma column_sum_from (rs : list CostSummary.row) (start : Qc) :
  fold_left (fun acc r => acc + CostSummary.Cost_per_array r) rs start
  = start + Spec.Qc_sum (CostSummary.Cost_per_array <$> rs).
Proof.
  revert start. unfold Spec.Qc_sum.
  induction rs as [| r rs IH]; intros start;
    cbn [fold_left fmap list_fmap foldr]; [ring |].
  rewrite IH. ring.
Qed.

(** X12.  Whenever the Cost Summary page shows its table, the table has
    the seven category rows in the order Silver, Diodes, Weld heads,
    Lamination, Tapes, Misc, Packaging; the total cost per array is the
    sum of the rows' costs; and the total cost per watt is the sum of the
    rows' costs per watt, which are all zero when the array power is not
    positive. *)
Theorem summary_totals_consistent (s : session) (rate : Qc)
    (designs : list pydict) (materials : materials_db)
    (su : CostSummary.summary) :
  CostSummary.render s rate designs materials = Ok (Shown su) ->
  CostSummary.Category <$> CostSummary.rows su
  = [ "Silver"; "Diodes"; "Weld heads"; "Lamination"; "Tapes"; "Misc";
      "Packaging" ]%string
  /\ CostSummary.total_cost su
     = Spec.Qc_sum (CostSummary.Cost_per_array <$> CostSummary.rows su)
  /\ CostSummary.total_cost_per_w su
     = Spec.Qc_sum (CostSummary.Cost_per_W <$> CostSummary.rows su).
Proof.
  intros Hsu.
  destruct (summary_render_inv _ _ _ _ _ Hsu)
    as (design & p & n & base & c1 & c2 & c3 & c4 & c5 & c6 & c7 & _ & _ & _
        & _ & _ & _ & _ & _ & _ & Hrows & Htotal & Hper_w).
  rewrite Hper_w, Htotal. unfold CostSummary.column_sum.
  rewrite column_sum_from, Hrows.
  set (ap := ArrayDesigns.array_power_for (illumination_of s) p).
  split; [reflexivity |]. split; [ring |].
  unfold Spec.summary_row, Spec.Qc_sum.
  cbn [fmap list_fmap foldr CostSummary.Cost_per_array CostSummary.Cost_per_W].
  destruct (decide (0 < ap)); unfold Qcdiv; ring.
Qed.

End Summary.

(** A run of the summary on the example design and catalogue, before any
    cost page has stored a selection: seven rows, and totals that are the
    sums of the rows. *)
Lemma summary_totals_consistent_witness :
  exists su,
    @CostSummary.render PlainText.plain_text Examples.session_20
      Examples.exchange_rate [Examples.design_20]
      (Examples.materials Examples.packaging_complete) = Ok (Shown su)
    /\ length (CostSummary.rows su) = 7%nat
    /\ CostSummary.total_cost su
       = Spec.Qc_sum (CostSummary.Cost_per_array <$> CostSummary.rows su)
    /\ CostSummary.total_cost_per_w su
       = Spec.Qc_sum (CostSummary.Cost_per_W <$> CostSummary.rows su).
Proof.
  destruct (@CostSummary.render PlainText.plain_text _ _ _ _)
    as [[lvl msg | su] | e] eqn:Hsu;
    [vm_compute in Hsu; discriminate | | vm_compute in Hsu; discriminate].
  exists su. split; [reflexivity |].
  destruct (@summary_totals_consistent PlainText.plain_text _ _ _ _ su Hsu)
    as (Hnames & Htotal & Hper_w).
  split; [| by split].
  apply (f_equal length) in Hnames. by rewrite length_fmap in Hnames.
Defined.

(** ** A category page and its row of the Cost Summary *)

Lemma clamped_index {A} (items : list A) (i : nat) (x : A) :
  index items i = Ok x -> clamped items i = Ok x.
Proof.
  unfold clamped, index.
  destruct (items !! i) as [y |] eqn:Hy; [| discriminate].
  intros [= ->]. apply lookup_lt_Some in Hy as Hlt.
  replace (i `min` (length items - 1))%nat with i by lia. by rewrite Hy.
Qed.

Lemma qc_zero : qc 0.0 = 0.
Proof. qc_eval. Qed.

Lemma find_some_holds {A} (f : A -> bool) (l : list A) (x : A) :
  List.find f l = Some x -> f x = true /\ x ∈ l.
Proof.
  intros Hfind. apply find_some in Hfind as [Hin Hf].
  split; [exact Hf | by apply list_elem_of_In].
Qed.

Lemma find_design_in (designs : list pydict) (selected : pyval)
    (design : pydict) :
  find_design designs selected = Ok (Some design) -> design ∈ designs.
Proof.
  induction designs as [| d rest IH]; cbn [find_design]; [discriminate |].
  destruct (item d "name") as [name |]; cbn [mbind res_bind];
    [| discriminate].
  destruct (py_eq name selected).
  - intros [= ->]. apply list_elem_of_here.
  - intros Hrest. apply list_elem_of_further, IH, Hrest.
Qed.

Section Pages.
Context `{PyText}.

(** A record with a field that reads as some text other than the empty
    one is not the empty record. *)
Lemma dict_truthy_field (it : pydict) (k s : string) :
  py_str (get_or it k (PStr "")) = s -> s <> ""%string ->
  dict_truthy it = true.
Proof.
  intros Hs Hne. unfold dict_truthy.
  rewrite bool_decide_eq_false_2; [done |].
  intros ->. apply Hne. rewrite <- Hs. reflexivity.
Qed.

Lemma lower_nonempty (s t : string) :
  lower s = t -> t <> ""%string -> s <> ""%string.
Proof. intros <- Hne ->. by apply Hne. Qed.

Lemma of_type_truthy (items : list pydict) (t : string) (it : pydict) :
  t <> ""%string -> it ∈ CostPackaging.of_type items t ->
  dict_truthy it = true.
Proof.
  intros Ht Hin. unfold CostPackaging.of_type in Hin.
  apply list_elem_of_In, filter_In in Hin as [_ Hty].
  apply bool_decide_eq_true_1 in Hty.
  eapply dict_truthy_field; [reflexivity |].
  by eapply lower_nonempty.
Qed.

Lemma kapton_truthy (misc_items : list pydict) (it : pydict) :
  CostSummary.find_kapton misc_items = Some it -> dict_truthy it = true.
Proof.
  intros Hfind. apply find_some_holds in Hfind as [Hf _].
  apply orb_true_iff in Hf as [Hid | Hty];
    apply bool_decide_eq_true_1 in Hid || apply bool_decide_eq_true_1 in Hty.
  - by eapply dict_truthy_field.
  - eapply dict_truthy_field; [reflexivity |]. by eapply lower_nonempty.
Qed.

(** The row of the summary table for a cost and the page's cost per
    watt. *)
Lemma summary_row_per_watt (array_power cost : Qc) (name : string)
    (per_watt : option Qc) :
  (if bool_decide (0 < array_power)
   then Some <$> pdiv cost array_power else Ok None) = Ok per_watt ->
  Spec.summary_row array_power name cost
  = {| CostSummary.Category := name;
       CostSummary.Cost_per_array := cost;
       CostSummary.Cost_per_W := default 0 per_watt |}.
Proof.
  unfold Spec.summary_row. destruct (decide (0 < array_power)) as [Hp | Hp].
  - rewrite bool_decide_eq_true_2, pdiv_pos by done. by intros [= <-].
  - rewrite bool_decide_eq_false_2 by done. by intros [= <-].
Qed.

Lemma per_watt_returns (array_power cost : Qc) :
  exists per_watt,
    (if bool_decide (0 < array_power)
     then Some <$> pdiv cost array_power else Ok None) = Ok per_watt.
Proof.
  destruct (decide (0 < array_power)) as [Hp | Hp].
  - rewrite bool_decide_eq_true_2, pdiv_pos by done. by eexists.
  - rewrite bool_decide_eq_false_2 by done. by eexists.
Qed.

(** The Misc section of the summary, computed from the selections the
    Misc page left, is the page's total. *)
Lemma misc_section_after_page (s : session) (rate : Qc)
    (designs : list pydict) (materials : materials_db)
    (ui : CostMiscPage.misc_choice) (figs : CostMiscPage.misc_figures)
    (design : pydict) (p : ArrayDesigns.power) (n : Z) :
  Spec.costing_ready s designs design p n ->
  CostMiscPage.render s rate designs materials ui = Ok (Shown figs) ->
  CostSummary.misc_section (Session.with_misc s (CostMiscPage.state figs))
    materials n rate
  = Ok (CostMiscPage.total_misc_cost figs)
  /\ (if bool_decide (0 < ArrayDesigns.array_power_for (illumination_of s) p)
      then Some <$> pdiv (CostMiscPage.total_misc_cost figs)
                      (ArrayDesigns.array_power_for (illumination_of s) p)
      else Ok None) = Ok (CostMiscPage.cost_per_watt figs).
Proof.
  intros ((sel & Hsel & Hd) & Hp & Hn & Hpos).
  unfold CostMiscPage.render, CostSummary.misc_section.
  rewrite Hsel, Hd. cbn [mbind res_bind].
  destruct (nonempty (category materials "Misc")) eqn:Hitems;
    cbn [negb]; [| discriminate].
  rewrite Hp, Hn. cbn [mbind res_bind].
  rewrite bool_decide_eq_false_2 by lia.
  cbn [Session.with_misc cost_misc_state default].
  change (CostMiscPage.find_kapton (category materials "Misc"))
    with (CostSummary.find_kapton (category materials "Misc")).
  unfold CostSummary.get_kapton_cost_per_disk,
    CostSummary.get_epoxy_cost_per_ml.
  set (ap := ArrayDesigns.array_power_for (illumination_of s) p).
  destruct (CostSummary.find_kapton _) as [kapton_item |] eqn:Hk.
  - rewrite (kapton_truthy _ _ Hk).
    destruct (CostMisc.get_kapton_cost_per_disk kapton_item rate)
      as [cost_per_disk |]; cbn [mbind res_bind]; [| discriminate].
    destruct (nonempty (CostPackaging.of_type _ "epoxy")); cbn [negb].
    + destruct (index _ (CostMiscPage.chosen_epoxy ui))
        as [epoxy_item |] eqn:Hidx; cbn [mbind res_bind]; [| discriminate].
      destruct (CostMisc.get_epoxy_cost_per_ml epoxy_item rate)
        as [cost_per_ml |] eqn:Hml; cbn [mbind res_bind]; [| discriminate].
      destruct (per_watt_returns ap
                  (cost_per_disk * of_Z n
                   + cost_per_ml
                     * (CostMiscPage.chosen_epoxy_per_diode_ml ui * 2)))
        as [per_watt Hw].
      rewrite Hw. cbn [mbind res_bind]. intros [= <-].
      cbn [CostMiscPage.state CostMiscPage.total_misc_cost
           CostMiscPage.cost_per_watt epoxy_index epoxy_per_diode_ml id].
      rewrite (clamped_index _ _ _ Hidx). cbn [mbind res_bind].
      rewrite Hml. cbn [mbind res_bind]. by split.
    + cbn [mbind res_bind].
      destruct (per_watt_returns ap (cost_per_disk * of_Z n + qc 0.0))
        as [per_watt Hw].
      rewrite Hw. cbn [mbind res_bind]. intros [= <-].
      cbn [CostMiscPage.total_misc_cost CostMiscPage.cost_per_watt].
      split; [| done]. by rewrite qc_zero.
  - cbn [mbind res_bind].
    destruct (nonempty (CostPackaging.of_type _ "epoxy")); cbn [negb].
    + destruct (index _ (CostMiscPage.chosen_epoxy ui))
        as [epoxy_item |] eqn:Hidx; cbn [mbind res_bind]; [| discriminate].
      destruct (CostMisc.get_epoxy_cost_per_ml epoxy_item rate)
        as [cost_per_ml |] eqn:Hml; cbn [mbind res_bind]; [| discriminate].
      destruct (per_watt_returns ap
                  (qc 0.0
                   + cost_per_ml
                     * (CostMiscPage.chosen_epoxy_per_diode_ml ui * 2)))
        as [per_watt Hw].
      rewrite Hw. cbn [mbind res_bind]. intros [= <-].
      cbn [CostMiscPage.state CostMiscPage.total_misc_cost
           CostMiscPage.cost_per_watt epoxy_index epoxy_per_diode_ml id].
      rewrite (clamped_index _ _ _ Hidx). cbn [mbind res_bind].
      rewrite Hml. cbn [mbind res_bind]. split; [| done].
      by rewrite qc_zero.
    + cbn [mbind res_bind].
      destruct (per_watt_returns ap (qc 0.0 + qc 0.0)) as [per_watt Hw].
      rewrite Hw. cbn [mbind res_bind]. intros [= <-].
      cbn [CostMiscPage.total_misc_cost CostMiscPage.cost_per_watt].
      split; [| done]. by rewrite qc_zero.
Qed.

(** X13.  When the Misc page has shown its total and the Cost Summary
    page is shown next, with the selections the Misc page left in the
    session, the Misc row of the summary carries the Misc page's total
    cost per array and its cost per watt. *)
Theorem misc_page_matches_summary (s : session) (rate : Qc)
    (designs : list pydict) (materials : materials_db)
    (ui : CostMiscPage.misc_choice) (figs : CostMiscPage.misc_figures)
    (su : CostSummary.summary) :
  CostMiscPage.render s rate designs materials ui = Ok (Shown figs) ->
  CostSummary.render (Session.with_misc s (CostMiscPage.state figs)) rate
    designs materials = Ok (Shown su) ->
  CostSummary.rows su !! 5%nat
  = Some {| CostSummary.Category := "Misc";
            CostSummary.Cost_per_array := CostMiscPage.total_misc_cost figs;
            CostSummary.Cost_per_W :=
              default 0 (CostMiscPage.cost_per_watt figs) |}.
Proof.
  intros Hpage Hsu.
  destruct (summary_render_inv _ _ _ _ _ Hsu)
    as (design & p & n & base & c1 & c2 & c3 & c4 & c5 & c6 & c7
        & Hready & _ & _ & _ & _ & _ & _ & Hmisc & _ & Hrows & _).
  rewrite Hrows. cbn [lookup list_lookup]. f_equal.
  change (illumination_of (Session.with_misc s (CostMiscPage.state figs)))
    with (illumination_of s).
  assert (Hready' : Spec.costing_ready s designs design p n) by exact Hready.
  destruct (misc_section_after_page _ _ _ _ _ _ _ _ _ Hready' Hpage)
    as [Hsection Hwatt].
  rewrite Hsection in Hmisc. injection Hmisc as <-.
  by apply summary_row_per_watt.
Qed.


Lemma py_max_cells (n : Z) : py_max (of_Z n - 1) 0 = of_Z (Z.max (n - 1) 0).
Proof.
  unfold py_max. rewrite <- of_Z_minus_1. change (Q2Qc 0) with (of_Z 0).
  destruct (decide (of_Z (n - 1) < of_Z 0)) as [Hlt | Hge].
  - apply of_Z_lt in Hlt. f_equal. lia.
  - f_equal. assert (~ (n - 1 < 0)%Z) by (intros Hlt; by apply of_Z_lt in Hlt).
    lia.
Qed.

Lemma item_get_or (d : pydict) (k : string) (v dflt : pyval) :
  item d k = Ok v -> get_or d k dflt = v.
Proof.
  unfold item, get_or. destruct (d !! k); [| discriminate]. by intros [= ->].
Qed.

(** The Tapes section of the summary, computed from the selections the
    Tapes page left, is the page's total. *)
Lemma tapes_section_after_page (s : session) (rate : Qc)
    (designs : list pydict) (materials : materials_db)
    (ui : CostTapesPage.tapes_choice) (figs : CostTapesPage.tapes_figures)
    (design : pydict) (p : ArrayDesigns.power) (n : Z) (base : Qc) :
  Spec.costing_ready s designs design p n ->
  design !! "num_cells" = Some (PInt n) ->
  CostSummary.base_length_mm design n = Ok base ->
  CostTapesPage.render s rate designs materials ui = Ok (Shown figs) ->
  CostSummary.tapes_section (Session.with_tapes s (CostTapesPage.state figs))
    materials base rate
  = Ok (CostTapesPage.total_tape_cost figs)
  /\ CostTapesPage.base_length_mm figs = base
  /\ (if bool_decide (0 < ArrayDesigns.array_power_for (illumination_of s) p)
      then Some <$> pdiv (CostTapesPage.total_tape_cost figs)
                      (ArrayDesigns.array_power_for (illumination_of s) p)
      else Ok None) = Ok (CostTapesPage.cost_per_watt figs).
Proof.
  intros ((sel & Hsel & Hd) & Hp & Hn & Hpos) Hcells.
  unfold CostTapesPage.render, CostSummary.tapes_section,
    CostSummary.base_length_mm.
  rewrite Hsel, Hd. cbn [mbind res_bind].
  destruct (nonempty (category materials "Tapes")) eqn:Hitems;
    cbn [negb]; [| discriminate].
  rewrite Hp. cbn [mbind res_bind].
  assert (Hitem : item design "num_cells" = Ok (PInt n))
    by (unfold item; by rewrite Hcells).
  rewrite Hitem. cbn [mbind res_bind py_float].
  destruct (item design "cell_height_mm") as [v1 |] eqn:H1;
    cbn [mbind res_bind]; [| discriminate].
  rewrite (item_get_or _ _ _ (PFloat 0) H1).
  destruct (py_float v1) as [cell_h |]; cbn [mbind res_bind];
    [| discriminate].
  destruct (item design "gap_between_cells_mm") as [v2 |] eqn:H2;
    cbn [mbind res_bind]; [| discriminate].
  rewrite (item_get_or _ _ _ (PFloat 0) H2).
  destruct (py_float v2) as [gap |]; cbn [mbind res_bind]; [| discriminate].
  destruct (item design "positive_end_gap_mm") as [v3 |] eqn:H3;
    cbn [mbind res_bind]; [| discriminate].
  rewrite (item_get_or _ _ _ (PFloat 0) H3).
  destruct (py_float v3) as [pos_gap |]; cbn [mbind res_bind];
    [| discriminate].
  destruct (item design "negative_end_gap_mm") as [v4 |] eqn:H4;
    cbn [mbind res_bind]; [| discriminate].
  rewrite (item_get_or _ _ _ (PFloat 0) H4).
  destruct (py_float v4) as [neg_gap |]; cbn [mbind res_bind];
    [| discriminate].
  rewrite py_max_cells. intros [= <-].
  set (base := cell_h * of_Z n + gap * of_Z (Z.max (n - 1) 0)
               + pos_gap + neg_gap).
  set (ap := ArrayDesigns.array_power_for (illumination_of s) p).
  unfold CostSummary.get_tape_cost_per_m, CostSummary.perimeter_length_mm.
  cbn [Session.with_tapes cost_tapes_state default id].
  destruct (index _ (CostTapesPage.chosen_perimeter_tape ui))
    as [perim_item |] eqn:Hperim; cbn [mbind res_bind]; [| discriminate].
  destruct (CostTapes.get_tape_cost_per_m perim_item rate)
    as [cost_per_m_perim |] eqn:Hcp; cbn [mbind res_bind]; [| discriminate].
  destruct (index _ (CostTapesPage.chosen_other_tape ui))
    as [other_item |] eqn:Hother; cbn [mbind res_bind]; [| discriminate].
  destruct (CostTapes.get_tape_cost_per_m other_item rate)
    as [cost_per_m_other |] eqn:Hco; cbn [mbind res_bind]; [| discriminate].
  match goal with
  | |- context [pdiv ?c ap] => destruct (per_watt_returns ap c) as [per_watt Hw]
  end.
  rewrite Hw. cbn [mbind res_bind]. intros [= <-].
  cbn [CostTapesPage.state CostTapesPage.total_tape_cost
       CostTapesPage.cost_per_watt CostTapesPage.base_length_mm
       perimeter_tape_idx other_tape_idx other_length_mm].
  rewrite (clamped_index _ _ _ Hperim). cbn [mbind res_bind].
  rewrite Hcp. cbn [mbind res_bind].
  rewrite (clamped_index _ _ _ Hother). cbn [mbind res_bind].
  rewrite Hco. cbn [mbind res_bind]. by repeat split.
Qed.

(** X14.  For a design that records its number of cells as an integer:
    when the Tapes page has shown its total and the Cost Summary page is
    shown next, with the selections the Tapes page left in the session,
    the Tapes row of the summary carries the Tapes page's total cost per
    array and its cost per watt. *)
Theorem tapes_page_matches_summary (s : session) (rate : Qc)
    (designs : list pydict) (materials : materials_db)
    (ui : CostTapesPage.tapes_choice) (figs : CostTapesPage.tapes_figures)
    (su : CostSummary.summary) :
  Forall (fun design => exists n, design !! "num_cells" = Some (PInt n))
    designs ->
  CostTapesPage.render s rate designs materials ui = Ok (Shown figs) ->
  CostSummary.render (Session.with_tapes s (CostTapesPage.state figs)) rate
    designs materials = Ok (Shown su) ->
  CostSummary.rows su !! 4%nat
  = Some {| CostSummary.Category := "Tapes";
            CostSummary.Cost_per_array := CostTapesPage.total_tape_cost figs;
            CostSummary.Cost_per_W :=
              default 0 (CostTapesPage.cost_per_watt figs) |}.
Proof.
  intros Hcells Hpage Hsu.
  destruct (summary_render_inv _ _ _ _ _ Hsu)
    as (design & p & n & base & c1 & c2 & c3 & c4 & c5 & c6 & c7
        & Hready & Hbase & _ & _ & _ & _ & Htapes & _ & _ & Hrows & _).
  rewrite Hrows. cbn [lookup list_lookup]. f_equal.
  change (illumination_of (Session.with_tapes s (CostTapesPage.state figs)))
    with (illumination_of s).
  assert (Hready' : Spec.costing_ready s designs design p n) by exact Hready.
  assert (Hn : design !! "num_cells" = Some (PInt n)).
  { destruct Hready' as ((sel & _ & Hd) & _ & Hn & _).
    apply find_design_in in Hd.
    rewrite Forall_forall in Hcells. destruct (Hcells _ Hd) as [m Hm].
    unfold get_or in Hn. rewrite Hm in Hn. cbn in Hn. by injection Hn as ->. }
  destruct (tapes_section_after_page _ _ _ _ _ _ _ _ _ _ Hready' Hn Hbase
              Hpage) as (Hsection & _ & Hwatt).
  rewrite Hsection in Htapes. injection Htapes as <-.
  by apply summary_row_per_watt.
Qed.


(** One layer of the Lamination page, read backwards. *)
Lemma layer_inv (lam_items : list pydict) (rate base : Qc)
    (ui : CostLaminationPage.lamination_choice) (st st' : lamination_state)
    (i : nat) (lf : CostLaminationPage.layer_figures) :
  CostLaminationPage.layer lam_items rate base ui st i = Ok (lf, st') ->
  layer_indices st'
  = <[i := CostLaminationPage.chosen_layer ui i]> (layer_indices st)
  /\ layer_waste_mm st'
     = <[i := CostLaminationPage.chosen_waste_mm ui i]> (layer_waste_mm st)
  /\ liner_index st' = liner_index st
  /\ (i < length (layer_indices st))%nat
  /\ (i < length (layer_waste_mm st))%nat
  /\ exists layer_item cost_per_m,
       index lam_items (CostLaminationPage.chosen_layer ui i) = Ok layer_item
       /\ CostLamination.get_lamination_cost_per_m layer_item rate
          = Ok cost_per_m
       /\ CostLaminationPage.cost_layer lf
          = cost_per_m
            * ((base + CostLaminationPage.chosen_waste_mm ui i) / qc 1000.0).
Proof.
  unfold CostLaminationPage.layer.
  destruct (index (layer_indices st) i) as [current |] eqn:Hcur;
    cbn [mbind res_bind]; [| discriminate].
  destruct (index lam_items _) as [layer_item |] eqn:Hitem;
    cbn [mbind res_bind]; [| discriminate].
  cbn [layer_waste_mm layer_indices liner_index].
  destruct (index (layer_waste_mm st) i) as [waste |] eqn:Hwaste;
    cbn [mbind res_bind]; [| discriminate].
  destruct (if bool_decide _ then _ else _) as [pct |];
    cbn [mbind res_bind]; [| discriminate].
  destruct (CostLamination.get_lamination_cost_per_m layer_item rate)
    as [cost_per_m |] eqn:Hcost; cbn [mbind res_bind]; [| discriminate].
  intros [= <- <-].
  cbn [layer_waste_mm layer_indices liner_index
       CostLaminationPage.cost_layer].
  unfold index in Hcur, Hwaste.
  destruct (layer_indices st !! i) eqn:Hi; [| discriminate].
  destruct (layer_waste_mm st !! i) eqn:Hw; [| discriminate].
  apply lookup_lt_Some in Hi, Hw.
  repeat split; try done. by exists layer_item, cost_per_m.
Qed.

(** The summary's cost of a stack layer whose selection is in the
    session. *)
Lemma stack_layer_cost_of (lam_items : list pydict) (st : lamination_state)
    (base rate : Qc) (i sel : nat) (waste : Qc) (layer_item : pydict)
    (cost_per_m : Qc) :
  layer_indices st !! i = Some sel ->
  layer_waste_mm st !! i = Some waste ->
  index lam_items sel = Ok layer_item ->
  CostLamination.get_lamination_cost_per_m layer_item rate = Ok cost_per_m ->
  CostSummary.stack_layer_cost lam_items st base rate i
  = Ok (cost_per_m * ((base + waste) / qc 1000.0)).
Proof.
  intros Hsel Hwaste Hitem Hcost. unfold CostSummary.stack_layer_cost, index.
  rewrite Hsel, Hwaste. cbn [mbind res_bind].
  rewrite (clamped_index _ _ _ Hitem). cbn [mbind res_bind].
  unfold CostSummary.get_lamination_cost_per_m. rewrite Hcost. reflexivity.
Qed.

(** The Lamination section of the summary, computed from the selections
    the Lamination page left, is the page's total. *)
Lemma lamination_section_after_page (s : session) (rate : Qc)
    (designs : list pydict) (materials : materials_db)
    (ui : CostLaminationPage.lamination_choice)
    (figs : CostLaminationPage.lamination_figures)
    (design : pydict) (p : ArrayDesigns.power) (n : Z) (base : Qc) :
  Spec.costing_ready s designs design p n ->
  design !! "num_cells" = Some (PInt n) ->
  CostSummary.base_length_mm design n = Ok base ->
  CostLaminationPage.render s rate designs materials ui = Ok (Shown figs) ->
  CostSummary.lamination_section
    (Session.with_lamination s (CostLaminationPage.state figs))
    materials base rate
  = Ok (CostLaminationPage.total_lam_cost figs)
  /\ CostLaminationPage.base_length_mm figs = base
  /\ (if bool_decide (0 < ArrayDesigns.array_power_for (illumination_of s) p)
      then Some <$> pdiv (CostLaminationPage.total_lam_cost figs)
                      (ArrayDesigns.array_power_for (illumination_of s) p)
      else Ok None) = Ok (CostLaminationPage.cost_per_watt figs).
Proof.
  intros ((sel & Hsel & Hd) & Hp & Hn & Hpos) Hcells.
  unfold CostLaminationPage.render, CostSummary.lamination_section,
    CostSummary.base_length_mm.
  rewrite Hsel, Hd. cbn [mbind res_bind].
  destruct (nonempty (category materials "Lamination")) eqn:Hitems;
    cbn [negb]; [| discriminate].
  rewrite Hp. cbn [mbind res_bind].
  assert (Hnum : get_or design "num_cells" (PInt 0) = PInt n)
    by (unfold get_or; by rewrite Hcells).
  rewrite Hnum. cbn [mbind res_bind py_float].
  destruct (py_float (get_or design "cell_height_mm" _)) as [cell_h |];
    cbn [mbind res_bind]; [| discriminate].
  destruct (py_float (get_or design "gap_between_cells_mm" _)) as [gap |];
    cbn [mbind res_bind]; [| discriminate].
  destruct (py_float (get_or design "positive_end_gap_mm" _)) as [pos_gap |];
    cbn [mbind res_bind]; [| discriminate].
  destruct (py_float (get_or design "negative_end_gap_mm" _)) as [neg_gap |];
    cbn [mbind res_bind]; [| discriminate].
  rewrite py_max_cells. intros [= <-].
  rewrite bool_decide_eq_false_2
    by (apply Qclt_not_le, of_Z_pos; lia).
  set (base := cell_h * of_Z n + gap * of_Z (Z.max (n - 1) 0)
               + pos_gap + neg_gap).
  set (ap := ArrayDesigns.array_power_for (illumination_of s) p).
  set (lam_items := category materials "Lamination").
  set (st0 := default default_lamination_state (cost_lamination_state s)).
  destruct (CostLaminationPage.layer lam_items rate base ui st0 0)
    as [[layer_0 st1] |] eqn:H0; cbn [mbind res_bind]; [| discriminate].
  destruct (CostLaminationPage.layer lam_items rate base ui st1 1)
    as [[layer_1 st2] |] eqn:H1; cbn [mbind res_bind]; [| discriminate].
  destruct (CostLaminationPage.layer lam_items rate base ui st2 2)
    as [[layer_2 st3] |] eqn:H2; cbn [mbind res_bind]; [| discriminate].
  destruct (index lam_items (CostLaminationPage.chosen_liner ui))
    as [liner_item |] eqn:Hliner; cbn [mbind res_bind]; [| discriminate].
  destruct (CostLamination.get_lamination_cost_per_m liner_item rate)
    as [liner_cost_per_m |] eqn:Hlc; cbn [mbind res_bind]; [| discriminate].
  match goal with
  | |- context [pdiv ?c ap] => destruct (per_watt_returns ap c) as [per_watt Hw]
  end.
  rewrite Hw. cbn [mbind res_bind]. intros [= <-].
  cbn [CostLaminationPage.state CostLaminationPage.total_lam_cost
       CostLaminationPage.cost_per_watt CostLaminationPage.base_length_mm
       Session.with_lamination cost_lamination_state default id].
  apply layer_inv in H0
    as (Hi1 & Hw1 & _ & Hlen0 & Hwlen0 & item0 & cpm0 & Hit0 & Hc0 & Hl0).
  apply layer_inv in H1
    as (Hi2 & Hw2 & _ & Hlen1 & Hwlen1 & item1 & cpm1 & Hit1 & Hc1 & Hl1).
  apply layer_inv in H2
    as (Hi3 & Hw3 & _ & Hlen2 & Hwlen2 & item2 & cpm2 & Hit2 & Hc2 & Hl2).
  set (final := {| layer_indices := layer_indices st3 |}).
  assert (Hsel_of : forall i, (i < 3)%nat ->
            layer_indices final !! i
            = Some (CostLaminationPage.chosen_layer ui i)).
  { intros i Hi. cbn [final layer_indices]. rewrite Hi3, Hi2, Hi1.
    rewrite Hi2, Hi1, !length_insert in Hlen2.
    destruct i as [| [| [| i]]]; [| | | lia].
    - rewrite !list_lookup_insert_ne by done.
      by rewrite list_lookup_insert_eq by lia.
    - rewrite list_lookup_insert_ne by done.
      by rewrite list_lookup_insert_eq by (rewrite length_insert; lia).
    - by rewrite list_lookup_insert_eq by (rewrite !length_insert; lia). }
  assert (Hwaste_of : forall i, (i < 3)%nat ->
            layer_waste_mm final !! i
            = Some (CostLaminationPage.chosen_waste_mm ui i)).
  { intros i Hi. cbn [final layer_waste_mm]. rewrite Hw3, Hw2, Hw1.
    rewrite Hw2, Hw1, !length_insert in Hwlen2.
    destruct i as [| [| [| i]]]; [| | | lia].
    - rewrite !list_lookup_insert_ne by done.
      by rewrite list_lookup_insert_eq by lia.
    - rewrite list_lookup_insert_ne by done.
      by rewrite list_lookup_insert_eq by (rewrite length_insert; lia).
    - by rewrite list_lookup_insert_eq by (rewrite !length_insert; lia). }
  rewrite (stack_layer_cost_of _ final _ _ 0 _ _ _ _
             (Hsel_of 0%nat ltac:(lia)) (Hwaste_of 0%nat ltac:(lia)) Hit0 Hc0).
  rewrite (stack_layer_cost_of _ final _ _ 1 _ _ _ _
             (Hsel_of 1%nat ltac:(lia)) (Hwaste_of 1%nat ltac:(lia)) Hit1 Hc1).
  rewrite (stack_layer_cost_of _ final _ _ 2 _ _ _ _
             (Hsel_of 2%nat ltac:(lia)) (Hwaste_of 2%nat ltac:(lia)) Hit2 Hc2).
  cbn [mbind res_bind final liner_index].
  rewrite (clamped_index _ _ _ Hliner). cbn [mbind res_bind].
  unfold CostSummary.get_lamination_cost_per_m. rewrite Hlc.
  cbn [mbind res_bind].
  split; [by rewrite Hl0, Hl1, Hl2 | split; [reflexivity | exact Hw]].
Qed.

(** X15.  For a design that records its number of cells as an integer:
    when the Lamination page has shown its total and the Cost Summary page
    is shown next, with the selections the Lamination page left in the
    session, the Lamination row of the summary carries the Lamination
    page's total cost per array and its cost per watt. *)
Theorem lamination_page_matches_summary (s : session) (rate : Qc)
    (designs : list pydict) (materials : materials_db)
    (ui : CostLaminationPage.lamination_choice)
    (figs : CostLaminationPage.lamination_figures)
    (su : CostSummary.summary) :
  Forall (fun design => exists n, design !! "num_cells" = Some (PInt n))
    designs ->
  CostLaminationPage.render s rate designs materials ui = Ok (Shown figs) ->
  CostSummary.render
    (Session.with_lamination s (CostLaminationPage.state figs)) rate
    designs materials = Ok (Shown su) ->
  CostSummary.rows su !! 3%nat
  = Some {| CostSummary.Category := "Lamination";
            CostSummary.Cost_per_array :=
              CostLaminationPage.total_lam_cost figs;
            CostSummary.Cost_per_W :=
              default 0 (CostLaminationPage.cost_per_watt figs) |}.
Proof.
  intros Hcells Hpage Hsu.
  destruct (summary_render_inv _ _ _ _ _ Hsu)
    as (design & p & n & base & c1 & c2 & c3 & c4 & c5 & c6 & c7
        & Hready & Hbase & _ & _ & _ & Hlam & _ & _ & _ & Hrows & _).
  rewrite Hrows. cbn [lookup list_lookup]. f_equal.
  change (illumination_of
            (Session.with_lamination s (CostLaminationPage.state figs)))
    with (illumination_of s).
  assert (Hready' : Spec.costing_ready s designs design p n) by exact Hready.
  assert (Hn : design !! "num_cells" = Some (PInt n)).
  { destruct Hready' as ((sel & _ & Hd) & _ & Hn & _).
    apply find_design_in in Hd.
    rewrite Forall_forall in Hcells. destruct (Hcells _ Hd) as [m Hm].
    unfold get_or in Hn. rewrite Hm in Hn. cbn in Hn. by injection Hn as ->. }
  destruct (lamination_section_after_page _ _ _ _ _ _ _ _ _ _ Hready' Hn
              Hbase Hpage) as (Hsection & _ & Hwatt).
  rewrite Hsection in Hlam. injection Hlam as <-.
  by apply summary_row_per_watt.
Qed.

(** The two foams the packaging loop keeps are items of the list it
    went through. *)
Lemma select_foams_from (foams : list pydict) (a b x y : option pydict) :
  CostPackaging.select_foams foams a b = Ok (x, y) ->
  (forall f, x = Some f -> a = Some f \/ f ∈ foams)
  /\ (forall f, y = Some f -> b = Some f \/ f ∈ foams).
Proof.
  revert a b. induction foams as [| f rest IH]; intros a b;
    cbn [CostPackaging.select_foams].
  - intros [= <- <-]. split; intros g Hg; by left.
  - destruct (CostPackaging.foam_thickness f) as [th |];
      cbn [mbind res_bind]; [| discriminate].
    assert (Hstep : forall a' b',
              (a' = a \/ a' = Some f) -> (b' = b \/ b' = Some f) ->
              CostPackaging.select_foams rest a' b' = Ok (x, y) ->
              (forall g, x = Some g -> a = Some g \/ g ∈ f :: rest)
              /\ (forall g, y = Some g -> b = Some g \/ g ∈ f :: rest)).
    { intros a' b' Ha Hb Hrest. apply IH in Hrest as [Hx Hy].
      split; intros g Hg.
      - destruct (Hx g Hg) as [Hin | Hin];
          [| right; by apply list_elem_of_further].
        destruct Ha as [-> | ->]; [by left |].
        right. injection Hin as <-. apply list_elem_of_here.
      - destruct (Hy g Hg) as [Hin | Hin];
          [| right; by apply list_elem_of_further].
        destruct Hb as [-> | ->]; [by left |].
        right. injection Hin as <-. apply list_elem_of_here. }
    repeat case_bool_decide; apply Hstep; auto.
Qed.

(** The Packaging section of the summary, computed from the selections
    the Packaging page left, is the page's total. *)
Lemma packaging_section_after_page (s : session) (rate : Qc)
    (designs : list pydict) (materials : materials_db)
    (ui : CostPackaging.packaging_choice)
    (figs : CostPackaging.packaging_figures)
    (design : pydict) (p : ArrayDesigns.power) (n : Z) :
  Spec.costing_ready s designs design p n ->
  CostPackaging.render s rate designs materials ui = Ok (Shown figs) ->
  CostSummary.packaging_section
    (Session.with_packaging s (Session.after_cost_packaging ui))
    materials rate
  = Ok (CostPackaging.total_packaging_per_array figs)
  /\ (if bool_decide (0 < ArrayDesigns.array_power_for (illumination_of s) p)
      then Some <$> pdiv (CostPackaging.total_packaging_per_array figs)
                      (ArrayDesigns.array_power_for (illumination_of s) p)
      else Ok None) = Ok (CostPackaging.cost_per_watt figs).
Proof.
  intros ((sel & Hsel & Hd) & Hp & Hn & Hpos).
  unfold CostPackaging.render, CostSummary.packaging_section.
  rewrite Hsel, Hd. cbn [mbind res_bind].
  destruct (nonempty (category materials "Packaging")) eqn:Hitems;
    cbn [negb]; [| discriminate].
  rewrite Hp. cbn [mbind res_bind].
  set (items := category materials "Packaging").
  destruct (nonempty (CostPackaging.of_type items "frame"));
    cbn [negb andb]; [| discriminate].
  destruct (nonempty (CostPackaging.of_type items "shipping board"));
    cbn [negb andb]; [| discriminate].
  destruct (nonempty (CostPackaging.of_type items "foam"));
    cbn [negb andb]; [| discriminate].
  destruct (nonempty (CostPackaging.of_type items "box"));
    cbn [negb andb]; [| discriminate].
  destruct (CostPackaging.select_foams _ None None)
    as [[[foam_3mm |] [foam_25mm |]] |] eqn:Hfoams;
    cbn [mbind res_bind]; [| discriminate ..].
  apply select_foams_from in Hfoams as [H3 H25].
  destruct (H3 _ eq_refl) as [? | H3in]; [discriminate |].
  destruct (H25 _ eq_refl) as [? | H25in]; [discriminate |].
  assert (Hfoam : "foam"%string <> ""%string) by discriminate.
  rewrite (of_type_truthy _ _ _ Hfoam H3in),
    (of_type_truthy _ _ _ Hfoam H25in).
  cbn [andb Session.with_packaging Session.after_cost_packaging
       cost_packaging_state default frame_idx board_idx box_idx
       arrays_per_box].
  destruct (index _ (CostPackaging.chosen_frame ui)) as [frame_item |]
    eqn:Hframe; cbn [mbind res_bind]; [| discriminate].
  destruct (CostPackaging.get_unit_cost_gbp frame_item rate)
    as [frame_cost |] eqn:Hfc; cbn [mbind res_bind]; [| discriminate].
  destruct (index _ (CostPackaging.chosen_board ui)) as [board_item |]
    eqn:Hboard; cbn [mbind res_bind]; [| discriminate].
  destruct (CostPackaging.get_unit_cost_gbp board_item rate)
    as [board_cost |] eqn:Hbc; cbn [mbind res_bind]; [| discriminate].
  destruct (index _ (CostPackaging.chosen_box ui)) as [box_item |]
    eqn:Hbox; cbn [mbind res_bind]; [| discriminate].
  destruct (CostPackaging.get_unit_cost_gbp box_item rate)
    as [box_cost |] eqn:Hxc; cbn [mbind res_bind]; [| discriminate].
  destruct (CostPackaging.get_foam_cost_per_piece foam_25mm rate)
    as [foam_25_cost |] eqn:H25c; cbn [mbind res_bind]; [| discriminate].
  destruct (CostPackaging.get_foam_cost_per_piece foam_3mm rate)
    as [foam_3_cost |] eqn:H3c; cbn [mbind res_bind]; [| discriminate].
  destruct (pdiv _ (of_Z (CostPackaging.chosen_arrays_per_box ui)))
    as [shared |] eqn:Hshared; cbn [mbind res_bind]; [| discriminate].
  match goal with
  | |- context [pdiv ?c (ArrayDesigns.array_power_for ?i p)] =>
      destruct (per_watt_returns (ArrayDesigns.array_power_for i p) c)
        as [per_watt Hw]
  end.
  rewrite Hw. cbn [mbind res_bind]. intros [= <-].
  cbn [CostPackaging.total_packaging_per_array CostPackaging.cost_per_watt
       Session.after_cost_packaging id frame_idx board_idx box_idx
       arrays_per_box].
  rewrite (clamped_index _ _ _ Hframe), (clamped_index _ _ _ Hboard),
    (clamped_index _ _ _ Hbox). cbn [mbind res_bind].
  unfold CostSummary.get_unit_cost_gbp, CostSummary.get_foam_cost_per_piece.
  rewrite Hfc, Hbc, Hxc, H25c, H3c. cbn [mbind res_bind].
  rewrite Hshared. by split.
Qed.

(** X16.  When the Packaging page has shown its total and the Cost
    Summary page is shown next, with the selections the Packaging page
    left in the session, the Packaging row of the summary carries the
    Packaging page's total cost per array and its cost per watt. *)
Theorem packaging_page_matches_summary (s : session) (rate : Qc)
    (designs : list pydict) (materials : materials_db)
    (ui : CostPackaging.packaging_choice)
    (figs : CostPackaging.packaging_figures) (su : CostSummary.summary) :
  CostPackaging.render s rate designs materials ui = Ok (Shown figs) ->
  CostSummary.render
    (Session.with_packaging s (Session.after_cost_packaging ui)) rate
    designs materials = Ok (Shown su) ->
  CostSummary.rows su !! 6%nat
  = Some {| CostSummary.Category := "Packaging";
            CostSummary.Cost_per_array :=
              CostPackaging.total_packaging_per_array figs;
            CostSummary.Cost_per_W :=
              default 0 (CostPackaging.cost_per_watt figs) |}.
Proof.
  intros Hpage Hsu.
  destruct (summary_render_inv _ _ _ _ _ Hsu)
    as (design & p & n & base & c1 & c2 & c3 & c4 & c5 & c6 & c7
        & Hready & _ & _ & _ & _ & _ & _ & _ & Hpack & Hrows & _).
  rewrite Hrows. cbn [lookup list_lookup]. f_equal.
  change (illumination_of
            (Session.with_packaging s (Session.after_cost_packaging ui)))
    with (illumination_of s).
  assert (Hready' : Spec.costing_ready s designs design p n) by exact Hready.
  destruct (packaging_section_after_page _ _ _ _ _ _ _ _ _ Hready' Hpage)
    as (Hsection & Hwatt).
  rewrite Hsection in Hpack. injection Hpack as <-.
  by apply summary_row_per_watt.
Qed.

(** A weld head that states its currency costs the same per weld on
    the Diodes page and on the summary. *)
Lemma weld_cost_page_summary (weld_item : pydict) (rate : Qc) (c : string) :
  get weld_item "currency" = PStr c -> c <> ""%string ->
  CostSummary.get_weld_cost_per_weld weld_item rate
  = CostDiodes.get_weld_cost_per_weld weld_item rate.
Proof.
  intros Hc Hne.
  unfold CostDiodes.get_weld_cost_per_weld,
    CostSummary.get_weld_cost_per_weld.
  by rewrite !(stated_currency weld_item c).
Qed.

(** A material found by an id that is text is not the empty record. *)
Lemma found_by_text_truthy (items : list pydict) (t : string) (it : pydict) :
  CostDiodes.find_material_by_id items (PStr t) = Some it ->
  it ∈ items /\ dict_truthy it = true.
Proof.
  unfold CostDiodes.find_material_by_id. cbn [truthy].
  case_bool_decide as Ht; cbn [negb]; [discriminate |].
  intros Hfind. apply find_some_holds in Hfind as [Hid Hin].
  split; [exact Hin |]. apply bool_decide_eq_true_1 in Hid.
  by eapply dict_truthy_field.
Qed.

(** The bypass and blocking arithmetic of the summary is that of the
    Diodes page. *)
Lemma bypass_diodes_copies (price per_mm al au len yield : Qc) (n : Z) :
  CostSummary.total_bypass_cost
  <$> CostSummary.bypass_diodes price per_mm al au len yield n
  = CostDiodes.total_bypass_cost
    <$> CostDiodes.bypass_diodes price per_mm al au len yield n.
Proof.
  unfold CostSummary.bypass_diodes, CostDiodes.bypass_diodes.
  by destruct (if bool_decide (0 < yield) then _ else _).
Qed.

Lemma blocking_diodes_copies (price per_mm bl len1 len2 yield : Qc) :
  CostSummary.blocking_diodes price per_mm bl len1 len2 yield
  = CostDiodes.total_blocking_cost
    <$> CostDiodes.blocking_diodes price per_mm bl len1 len2 yield.
Proof.
  unfold CostSummary.blocking_diodes, CostDiodes.blocking_diodes.
  by destruct (if bool_decide (0 < yield) then _ else _).
Qed.

(** The Diodes section of the summary, computed from the selections the
    Diodes page left, is the page's total. *)
Lemma diodes_section_after_page (s : session) (rate : Qc)
    (designs : list pydict) (materials : materials_db)
    (ui : CostDiodes.diodes_choice) (figs : CostDiodes.diodes_figures)
    (design : pydict) (p : ArrayDesigns.power) (n : Z) (t : string) :
  Forall (fun weld_item =>
            exists c, get weld_item "currency" = PStr c /\ c <> ""%string)
    (category materials "Weld heads") ->
  get_or design "blocking_tab_silver_id" (PStr "") = PStr t ->
  Spec.costing_ready s designs design p n ->
  CostDiodes.render s rate designs materials ui = Ok (Shown figs) ->
  CostSummary.diodes_section
    (Session.with_diodes s (Session.after_cost_diodes ui))
    design materials n rate
  = Ok (CostDiodes.total_diode_cost figs)
  /\ (if bool_decide (0 < ArrayDesigns.array_power_for (illumination_of s) p)
      then Some <$> pdiv (CostDiodes.total_diode_cost figs)
                      (ArrayDesigns.array_power_for (illumination_of s) p)
      else Ok None) = Ok (CostDiodes.cost_per_watt figs).
Proof.
  intros Hheads Hid ((sel & Hsel & Hd) & Hp & Hn & Hpos).
  unfold CostDiodes.render, CostSummary.diodes_section.
  rewrite Hsel, Hd. cbn [mbind res_bind]. rewrite Hp, Hn.
  cbn [mbind res_bind]. rewrite bool_decide_eq_false_2 by lia.
  destruct (nonempty (category materials "Diodes"));
    cbn [negb andb]; [| discriminate].
  destruct (nonempty (category materials "Silver Ribbon"));
    cbn [negb andb]; [| discriminate].
  destruct (nonempty (category materials "Weld heads"));
    cbn [negb andb]; [| discriminate].
  unfold CostSummary.find_material_by_id.
  destruct (CostDiodes.find_material_by_id _ (PStr "Weld_Head_Al"))
    as [al |] eqn:Hal; [| discriminate].
  destruct (CostDiodes.find_material_by_id _ (PStr "Weld_Head_Au"))
    as [au |] eqn:Hau; [| discriminate].
  destruct (CostDiodes.find_material_by_id _ (PStr "Weld_Head_BL"))
    as [bl |] eqn:Hbl; [| discriminate].
  apply found_by_text_truthy in Hal as [Hal_in Hal], Hau as [Hau_in Hau],
    Hbl as [Hbl_in Hbl].
  rewrite Hal, Hau, Hbl. cbn [andb].
  rewrite Forall_forall in Hheads.
  destruct (Hheads _ Hal_in) as (c_al & Hc_al & Hne_al).
  destruct (Hheads _ Hau_in) as (c_au & Hc_au & Hne_au).
  destruct (Hheads _ Hbl_in) as (c_bl & Hc_bl & Hne_bl).
  rewrite (weld_cost_page_summary al rate c_al Hc_al Hne_al),
    (weld_cost_page_summary au rate c_au Hc_au Hne_au),
    (weld_cost_page_summary bl rate c_bl Hc_bl Hne_bl).
  destruct (CostDiodes.get_weld_cost_per_weld al rate) as [cost_al |];
    cbn [mbind res_bind]; [| discriminate].
  destruct (CostDiodes.get_weld_cost_per_weld au rate) as [cost_au |];
    cbn [mbind res_bind]; [| discriminate].
  destruct (CostDiodes.get_weld_cost_per_weld bl rate) as [cost_bl |];
    cbn [mbind res_bind]; [| discriminate].
  cbn [Session.with_diodes Session.after_cost_diodes cost_diodes_state
       default id bypass_diode_index bypass_silver_index
       bypass_tab_length_mm bypass_tab_width_mm bypass_yield_percent
       blocking_diode_index blocking_yield_percent].
  destruct (index _ (CostDiodes.chosen_bypass_diode ui))
    as [bypass_diode_item |] eqn:Hbd; cbn [mbind res_bind]; [| discriminate].
  rewrite (clamped_index _ _ _ Hbd). cbn [mbind res_bind].
  unfold CostSummary.get_diode_price_gbp, CostSummary.get_silver_cost_per_mm.
  destruct (CostDiodes.get_diode_price_gbp bypass_diode_item rate)
    as [price_bypass |]; cbn [mbind res_bind]; [| discriminate].
  destruct (index _ (CostDiodes.chosen_bypass_silver ui))
    as [bypass_silver_item |] eqn:Hbs; cbn [mbind res_bind]; [| discriminate].
  rewrite (clamped_index _ _ _ Hbs). cbn [mbind res_bind].
  destruct (CostDiodes.get_silver_cost_per_mm bypass_silver_item rate _)
    as [per_mm_bypass |]; cbn [mbind res_bind]; [| discriminate].
  pose proof (bypass_diodes_copies price_bypass per_mm_bypass cost_al cost_au
                (CostDiodes.chosen_tab_length_mm ui)
                (of_Z (CostDiodes.chosen_bypass_yield_percent ui) / qc 100.0)
                n) as Hbypass.
  destruct (CostDiodes.bypass_diodes _ _ _ _ _ _ _) as [bypass |];
    destruct (CostSummary.bypass_diodes _ _ _ _ _ _ _) as [bypass' |];
    cbn [fmap res_fmap] in Hbypass; try discriminate.
  injection Hbypass as Hbypass. cbn [mbind res_bind].
  destruct (index _ (CostDiodes.chosen_blocking_diode ui))
    as [blocking_diode_item |] eqn:Hkd; cbn [mbind res_bind]; [| discriminate].
  rewrite (clamped_index _ _ _ Hkd). cbn [mbind res_bind].
  destruct (CostDiodes.get_diode_price_gbp blocking_diode_item rate)
    as [price_blocking |]; cbn [mbind res_bind]; [| discriminate].
  destruct (py_float (get_or design "blocking_tab_width_mm" _)) as [width |];
    cbn [mbind res_bind]; [| discriminate].
  destruct (py_float (get_or design "blocking_tab_length1_mm" _)) as [len1 |];
    cbn [mbind res_bind]; [| discriminate].
  destruct (py_float (get_or design "blocking_tab_length2_mm" _)) as [len2 |];
    cbn [mbind res_bind]; [| discriminate].
  rewrite Hid.
  destruct (CostDiodes.find_material_by_id _ (PStr t))
    as [blocking_silver_item |] eqn:Hks; [| discriminate].
  apply found_by_text_truthy in Hks as [_ Hks]. rewrite Hks.
  destruct (CostDiodes.get_silver_cost_per_mm blocking_silver_item rate _)
    as [per_mm_block |]; cbn [mbind res_bind]; [| discriminate].
  rewrite blocking_diodes_copies.
  destruct (CostDiodes.blocking_diodes _ _ _ _ _ _) as [blocking |];
    cbn [mbind res_bind fmap res_fmap]; [| discriminate].
  match goal with
  | |- context [pdiv ?c (ArrayDesigns.array_power_for ?i p)] =>
      destruct (per_watt_returns (ArrayDesigns.array_power_for i p) c)
        as [per_watt Hw]
  end.
  rewrite Hw. cbn [mbind res_bind]. intros [= <-].
  cbn [CostDiodes.total_diode_cost CostDiodes.cost_per_watt].
  rewrite Hbypass. by split.
Qed.

(** X17.  For a catalogue whose weld heads all state their currency and
    designs whose blocking-tab silver id is text: when the Diodes page has
    shown its total and the Cost Summary page is shown next, with the
    selections the Diodes page left in the session, the Diodes row of the
    summary carries the Diodes page's total cost per array and its cost
    per watt. *)
Theorem diodes_page_matches_summary (s : session) (rate : Qc)
    (designs : list pydict) (materials : materials_db)
    (ui : CostDiodes.diodes_choice) (figs : CostDiodes.diodes_figures)
    (su : CostSummary.summary) :
  Forall (fun weld_item =>
            exists c, get weld_item "currency" = PStr c /\ c <> ""%string)
    (category materials "Weld heads") ->
  Forall (fun design =>
            exists t, get_or design "blocking_tab_silver_id" (PStr "") = PStr t)
    designs ->
  CostDiodes.render s rate designs materials ui = Ok (Shown figs) ->
  CostSummary.render
    (Session.with_diodes s (Session.after_cost_diodes ui)) rate
    designs materials = Ok (Shown su) ->
  CostSummary.rows su !! 1%nat
  = Some {| CostSummary.Category := "Diodes";
            CostSummary.Cost_per_array := CostDiodes.total_diode_cost figs;
            CostSummary.Cost_per_W :=
              default 0 (CostDiodes.cost_per_watt figs) |}.
Proof.
  intros Hheads Hids Hpage Hsu.
  destruct (summary_render_inv _ _ _ _ _ Hsu)
    as (design & p & n & base & c1 & c2 & c3 & c4 & c5 & c6 & c7
        & Hready & _ & _ & Hdiodes & _ & _ & _ & _ & _ & Hrows & _).
  rewrite Hrows. cbn [lookup list_lookup]. f_equal.
  change (illumination_of
            (Session.with_diodes s (Session.after_cost_diodes ui)))
    with (illumination_of s).
  assert (Hready' : Spec.costing_ready s designs design p n) by exact Hready.
  assert (Hid : exists t,
            get_or design "blocking_tab_silver_id" (PStr "") = PStr t).
  { destruct Hready' as ((sel & _ & Hd) & _).
    apply find_design_in in Hd. rewrite Forall_forall in Hids. by apply Hids. }
  destruct Hid as [t Hid].
  destruct (diodes_section_after_page _ _ _ _ _ _ _ _ _ t Hheads Hid Hready'
              Hpage) as (Hsection & Hwatt).
  rewrite Hsection in Hdiodes. injection Hdiodes as <-.
  by apply summary_row_per_watt.
Qed.

End Pages.

(** Runs of the page agreements on the example design and catalogue. *)

Lemma misc_page_matches_summary_witness :
  let ui := {| CostMiscPage.chosen_epoxy := 0;
               CostMiscPage.chosen_epoxy_per_diode_ml := qc 0.05 |} in
  exists figs su,
    @CostMiscPage.render PlainText.plain_text Examples.session_20
      Examples.exchange_rate [Examples.design_20]
      (Examples.materials Examples.packaging_complete) ui = Ok (Shown figs)
    /\ @CostSummary.render PlainText.plain_text
         (Session.with_misc Examples.session_20 (CostMiscPage.state figs))
         Examples.exchange_rate [Examples.design_20]
         (Examples.materials Examples.packaging_complete) = Ok (Shown su)
    /\ CostSummary.Cost_per_array <$> CostSummary.rows su !! 5%nat
       = Some (CostMiscPage.total_misc_cost figs).
Proof.
  intros ui.
  destruct (@CostMiscPage.render PlainText.plain_text _ _ _ _ ui)
    as [[lvl msg | figs] | e] eqn:Hpage;
    [vm_compute in Hpage; discriminate | | vm_compute in Hpage; discriminate].
  assert (Hfigs := Hpage). vm_compute in Hfigs. injection Hfigs as Hfigs.
  destruct (@CostSummary.render PlainText.plain_text
              (Session.with_misc Examples.session_20
                 (CostMiscPage.state figs)) Examples.exchange_rate
              [Examples.design_20]
              (Examples.materials Examples.packaging_complete))
    as [[lvl msg | su] | e] eqn:Hsu;
    [rewrite <- Hfigs in Hsu; vm_compute in Hsu; discriminate | |
     rewrite <- Hfigs in Hsu; vm_compute in Hsu; discriminate].
  exists figs, su. split; [reflexivity |].
  split; [first [reflexivity | exact Hsu] |].
  by rewrite (@misc_page_matches_summary PlainText.plain_text _ _ _ _ ui figs
                su Hpage Hsu).
Defined.

Lemma tapes_page_matches_summary_witness :
  let ui := {| CostTapesPage.chosen_perimeter_tape := 0;
               CostTapesPage.chosen_other_tape := 0;
               CostTapesPage.chosen_other_length_mm := qc 250.0 |} in
  exists figs su,
    @CostTapesPage.render PlainText.plain_text Examples.session_20
      Examples.exchange_rate [Examples.design_20]
      (Examples.materials Examples.packaging_complete) ui = Ok (Shown figs)
    /\ @CostSummary.render PlainText.plain_text
         (Session.with_tapes Examples.session_20 (CostTapesPage.state figs))
         Examples.exchange_rate [Examples.design_20]
         (Examples.materials Examples.packaging_complete) = Ok (Shown su)
    /\ CostSummary.Cost_per_array <$> CostSummary.rows su !! 4%nat
       = Some (CostTapesPage.total_tape_cost figs).
Proof.
  intros ui.
  destruct (@CostTapesPage.render PlainText.plain_text _ _ _ _ ui)
    as [[lvl msg | figs] | e] eqn:Hpage;
    [vm_compute in Hpage; discriminate | | vm_compute in Hpage; discriminate].
  assert (Hfigs := Hpage). vm_compute in Hfigs. injection Hfigs as Hfigs.
  destruct (@CostSummary.render PlainText.plain_text
              (Session.with_tapes Examples.session_20
                 (CostTapesPage.state figs)) Examples.exchange_rate
              [Examples.design_20]
              (Examples.materials Examples.packaging_complete))
    as [[lvl msg | su] | e] eqn:Hsu;
    [rewrite <- Hfigs in Hsu; vm_compute in Hsu; discriminate | |
     rewrite <- Hfigs in Hsu; vm_compute in Hsu; discriminate].
  exists figs, su. split; [reflexivity |].
  split; [first [reflexivity | exact Hsu] |].
  assert (Hcells : Forall (fun design : pydict =>
                     exists n, design !! "num_cells" = Some (PInt n))
                     [Examples.design_20])
    by (repeat constructor; by exists 20%Z).
  by rewrite (@tapes_page_matches_summary PlainText.plain_text _ _ _ _ ui figs
                su Hcells Hpage Hsu).
Defined.

Lemma lamination_page_matches_summary_witness :
  let ui := {| CostLaminationPage.chosen_layer := fun _ => 0%nat;
               CostLaminationPage.chosen_waste_mm := fun _ => qc 20.0;
               CostLaminationPage.chosen_liner := 0 |} in
  exists figs su,
    @CostLaminationPage.render PlainText.plain_text Examples.session_20
      Examples.exchange_rate [Examples.design_20]
      (Examples.materials Examples.packaging_complete) ui = Ok (Shown figs)
    /\ @CostSummary.render PlainText.plain_text
         (Session.with_lamination Examples.session_20
            (CostLaminationPage.state figs))
         Examples.exchange_rate [Examples.design_20]
         (Examples.materials Examples.packaging_complete) = Ok (Shown su)
    /\ CostSummary.Cost_per_array <$> CostSummary.rows su !! 3%nat
       = Some (CostLaminationPage.total_lam_cost figs).
Proof.
  intros ui.
  destruct (@CostLaminationPage.render PlainText.plain_text _ _ _ _ ui)
    as [[lvl msg | figs] | e] eqn:Hpage;
    [vm_compute in Hpage; discriminate | | vm_compute in Hpage; discriminate].
  assert (Hfigs := Hpage). vm_compute in Hfigs. injection Hfigs as Hfigs.
  destruct (@CostSummary.render PlainText.plain_text
              (Session.with_lamination Examples.session_20
                 (CostLaminationPage.state figs)) Examples.exchange_rate
              [Examples.design_20]
              (Examples.materials Examples.packaging_complete))
    as [[lvl msg | su] | e] eqn:Hsu;
    [rewrite <- Hfigs in Hsu; vm_compute in Hsu; discriminate | |
     rewrite <- Hfigs in Hsu; vm_compute in Hsu; discriminate].
  exists figs, su. split; [reflexivity |].
  split; [first [reflexivity | exact Hsu] |].
  assert (Hcells : Forall (fun design : pydict =>
                     exists n, design !! "num_cells" = Some (PInt n))
                     [Examples.design_20])
    by (repeat constructor; by exists 20%Z).
  by rewrite (@lamination_page_matches_summary PlainText.plain_text _ _ _ _
                ui figs su Hcells Hpage Hsu).
Defined.

Lemma packaging_page_matches_summary_witness :
  exists figs su,
    @CostPackaging.render PlainText.plain_text Examples.session_20
      Examples.exchange_rate [Examples.design_20]
      (Examples.materials Examples.packaging_complete)
      Examples.packaging_first_choices = Ok (Shown figs)
    /\ @CostSummary.render PlainText.plain_text
         (Session.with_packaging Examples.session_20
            (Session.after_cost_packaging Examples.packaging_first_choices))
         Examples.exchange_rate [Examples.design_20]
         (Examples.materials Examples.packaging_complete) = Ok (Shown su)
    /\ CostSummary.Cost_per_array <$> CostSummary.rows su !! 6%nat
       = Some (CostPackaging.total_packaging_per_array figs).
Proof.
  destruct (@CostPackaging.render PlainText.plain_text _ _ _ _ _)
    as [[lvl msg | figs] | e] eqn:Hpage;
    [vm_compute in Hpage; discriminate | | vm_compute in Hpage; discriminate].
  destruct (@CostSummary.render PlainText.plain_text _ _ _ _)
    as [[lvl msg | su] | e] eqn:Hsu;
    [vm_compute in Hsu; discriminate | | vm_compute in Hsu; discriminate].
  exists figs, su. split; [reflexivity |].
  split; [first [reflexivity | exact Hsu] |].
  by rewrite (@packaging_page_matches_summary PlainText.plain_text _ _ _ _ _
                figs su Hpage Hsu).
Defined.

Lemma diodes_page_matches_summary_witness :
  let ui := {| CostDiodes.chosen_bypass_diode := 0;
               CostDiodes.chosen_bypass_silver := 0;
               CostDiodes.chosen_tab_length_mm := qc 8.0;
               CostDiodes.chosen_tab_width_mm := qc 2.0;
               CostDiodes.chosen_bypass_yield_percent := 90;
               CostDiodes.chosen_blocking_diode := 0;
               CostDiodes.chosen_blocking_yield_percent := 95 |} in
  exists figs su,
    @CostDiodes.render PlainText.plain_text Examples.session_20
      Examples.exchange_rate [Examples.design_20]
      (Examples.materials Examples.packaging_complete) ui = Ok (Shown figs)
    /\ @CostSummary.render PlainText.plain_text
         (Session.with_diodes Examples.session_20
            (Session.after_cost_diodes ui))
         Examples.exchange_rate [Examples.design_20]
         (Examples.materials Examples.packaging_complete) = Ok (Shown su)
    /\ CostSummary.Cost_per_array <$> CostSummary.rows su !! 1%nat
       = Some (CostDiodes.total_diode_cost figs).
Proof.
  intros ui.
  destruct (@CostDiodes.render PlainText.plain_text _ _ _ _ ui)
    as [[lvl msg | figs] | e] eqn:Hpage;
    [vm_compute in Hpage; discriminate | | vm_compute in Hpage; discriminate].
  destruct (@CostSummary.render PlainText.plain_text _ _ _ _)
    as [[lvl msg | su] | e] eqn:Hsu;
    [vm_compute in Hsu; discriminate | | vm_compute in Hsu; discriminate].
  exists figs, su. split; [reflexivity |].
  split; [first [reflexivity | exact Hsu] |].
  assert (Hheads : Forall (fun weld_item : pydict =>
                     exists c, get weld_item "currency" = PStr c
                               /\ c <> ""%string)
                     (category (Examples.materials Examples.packaging_complete)
                        "Weld heads")).
  { vm_compute. repeat constructor;
      (eexists; split; [reflexivity | discriminate]). }
  assert (Hids : Forall (fun design : pydict =>
                    exists t, get_or design "blocking_tab_silver_id" (PStr "")
                              = PStr t) [Examples.design_20])
    by (repeat constructor; by exists "Ag_2mm"%string).
  by rewrite (@diodes_page_matches_summary PlainText.plain_text _ _ _ _ ui
                figs su Hheads Hids Hpage Hsu).
Defined.

(** ** The silver selection of the array-design forms *)

Section Silver_selection.
Context `{PyText}.

(** The first item a boolean test accepts, with its position. *)
Lemma find_list_find {A} (P : A -> Prop) `{!forall x, Decision (P x)}
    (l : list A) :
  List.find (fun x => bool_decide (P x)) l = snd <$> list_find P l.
Proof.
  induction l as [| x l IH]; cbn [List.find list_find]; [done |].
  destruct (decide (P x)) as [HP | HP].
  - by rewrite bool_decide_eq_true_2.
  - rewrite bool_decide_eq_false_2 by done. rewrite IH.
    by destruct (list_find P l) as [[i y] |].
Qed.

(** X19.  [_find_silver_index_by_id] returns a position of the list
    whenever the list is not empty; when the cost pages' lookup
    [find_material_by_id] finds an item for the same id, the item at the
    returned position is that item; when no item has the id, the position
    is 0. *)
Theorem silver_index_agrees_with_lookup (silver_items : list pydict)
    (silver_id : pyval) :
  let i := ArrayDesignsPage._find_silver_index_by_id silver_items silver_id in
  (silver_items <> [] -> (i < length silver_items)%nat)
  /\ (forall it,
        CostDiodes.find_material_by_id silver_items silver_id = Some it ->
        silver_items !! i = Some it)
  /\ (Forall (fun item =>
                py_str (get_or item "id" (PStr "")) <> py_str silver_id)
        silver_items -> i = 0%nat).
Proof.
  unfold ArrayDesignsPage._find_silver_index_by_id,
    CostDiodes.find_material_by_id.
  rewrite find_list_find.
  destruct silver_items as [| first rest]; cbn [nonempty negb].
  - split; [done |]. split; [| done].
    intros it. by destruct (negb (truthy silver_id)).
  - set (items := first :: rest).
    destruct (list_find _ items) as [[j found] |] eqn:Hfind.
    + apply list_find_Some in Hfind as (Hj & Hid & _).
      split; [intros _; by eapply lookup_lt_Some |]. split.
      * intros it. destruct (negb (truthy silver_id)); [done |].
        cbn. by intros [= <-].
      * intros Hnone. rewrite Forall_forall in Hnone.
        destruct (Hnone found); [by eapply list_elem_of_lookup_2 | done].
    + split; [intros _; cbn; lia |]. split; [| done].
      intros it. by destruct (negb (truthy silver_id)).
Qed.

(** X20.  In a Silver Ribbon list whose ids read differently from one
    another, selecting an item by position in a design form and storing
    its id is undone by [_find_silver_index_by_id]: the stored id leads
    back to the same position, and, when the id is not empty, the cost
    pages' lookup by that id finds the selected item. *)
Theorem silver_selection_round_trip (silver_items : list pydict) (i : nat)
    (selected : pydict) :
  NoDup ((fun item => py_str (get_or item "id" (PStr ""))) <$> silver_items) ->
  silver_items !! i = Some selected ->
  let stored_id := get_or selected "id" (PStr "") in
  ArrayDesignsPage._find_silver_index_by_id silver_items stored_id = i
  /\ (truthy stored_id = true ->
      CostDiodes.find_material_by_id silver_items stored_id = Some selected).
Proof.
  intros Hids Hi stored_id.
  assert (Hfind :
    list_find
      (fun item => py_str (get_or item "id" (PStr "")) = py_str stored_id)
      silver_items = Some (i, selected)).
  { apply list_find_Some. split; [exact Hi |]. split; [done |].
    intros j other Hj Hlt Hsame.
    assert (j = i); [| lia].
    eapply NoDup_lookup; [exact Hids | |].
    - rewrite list_lookup_fmap, Hj. reflexivity.
    - rewrite list_lookup_fmap, Hi. cbn. by rewrite Hsame. }
  unfold ArrayDesignsPage._find_silver_index_by_id,
    CostDiodes.find_material_by_id.
  rewrite find_list_find, Hfind.
  destruct silver_items; [done |]. cbn [nonempty negb].
  split; [done |]. by intros ->.
Qed.

End Silver_selection.

(** A run of X20 on a list of two ribbons: the second one is found again
    by its id. *)
Lemma silver_selection_round_trip_witness :
  let silver_items := [Examples.silver_2mm; Examples.silver_negative_price] in
  @ArrayDesignsPage._find_silver_index_by_id PlainText.plain_text
    silver_items (PStr "Ag_neg") = 1%nat
  /\ @CostDiodes.find_material_by_id PlainText.plain_text silver_items
       (PStr "Ag_neg") = Some Examples.silver_negative_price.
Proof.
  intros silver_items.
  assert (Hids : NoDup
            ((fun item =>
                @py_str PlainText.plain_text (get_or item "id" (PStr "")))
             <$> silver_items)).
  { vm_compute. apply NoDup_cons. split; [| apply NoDup_singleton].
    intros Hin. apply list_elem_of_singleton in Hin. discriminate. }
  assert (Hi : silver_items !! 1%nat = Some Examples.silver_negative_price)
    by reflexivity.
  destruct (@silver_selection_round_trip PlainText.plain_text silver_items 1
              Examples.silver_negative_price Hids Hi) as [Hindex Hlookup].
  split; [exact Hindex |]. by apply Hlookup.
Defined.

(** ** Items added through the Materials forms, as the cost pages cost
    them *)

Section Materials_forms.
Context `{PyText}.
Variable strip : string -> string.

Lemma or_upper_text (c : Materials.currency_option) (dflt : string) :
  or_upper (PStr (Materials.currency_name c)) dflt
  = Ok (Materials.currency_name c).
Proof. by destruct c. Qed.

Lemma or_lower_text (u : Materials.length_unit_option) (dflt : string) :
  or_lower (PStr (Materials.length_unit_text u)) dflt
  = Ok (Materials.length_unit_text u).
Proof. by destruct u. Qed.

Lemma with_notes_lookup (notes k : string) (item : pydict) :
  k <> "notes"%string ->
  Materials.with_notes strip notes item !! k = item !! k.
Proof.
  intros Hk. unfold Materials.with_notes. case_bool_decide; [done |].
  by rewrite lookup_insert_ne.
Qed.

Lemma not_le_lt (a : Qc) : ~ a <= 0 -> 0 < a.
Proof. apply Qcnot_le_lt. Qed.

Lemma lt_not_le (a : Qc) : 0 < a -> ~ a <= 0.
Proof. apply Qclt_not_le. Qed.

Lemma in_gbp_pos (currency : Materials.currency_option) (cost rate : Qc) :
  0 < cost -> 0 < rate -> 0 < Materials.in_gbp currency cost rate.
Proof. intros. destruct currency; [by apply Qc_mult_pos | done]. Qed.

(** Reading a field of a record whose entry is known. *)
Lemma get_or_lookup (item : pydict) (k : string) (v dflt : pyval) :
  item !! k = Some v -> get_or item k dflt = v.
Proof. unfold get_or. by intros ->. Qed.

Lemma get_or_missing (item : pydict) (k : string) (dflt : pyval) :
  item !! k = None -> get_or item k dflt = dflt.
Proof. unfold get_or. by intros ->. Qed.

Lemma get_lookup (item : pydict) (k : string) (v : pyval) :
  item !! k = Some v -> get item k = v.
Proof. unfold get. by intros ->. Qed.

Lemma get_missing (item : pydict) (k : string) :
  item !! k = None -> get item k = PNone.
Proof. unfold get. by intros ->. Qed.

(** What the weld-head form saves. *)
Lemma add_weld_head_saved (new_id new_name : string) (unit_price : Qc)
    (currency : Materials.currency_option) (num_welds : Z)
    (new_notes : string) (item : pydict) :
  Materials.add_weld_head strip new_id new_name unit_price currency num_welds
    new_notes = Materials.Saved item ->
  0 < unit_price /\ (0 < num_welds)%Z
  /\ item !! "num_welds" = Some (PInt num_welds)
  /\ item !! "currency" = Some (PStr (Materials.currency_name currency))
  /\ item !! "unit_cost_usd"
     = (if currency is Materials.USD then Some (PFloat unit_price) else None)
  /\ item !! "unit_cost_gbp"
     = (if currency is Materials.GBP then Some (PFloat unit_price) else None).
Proof.
  unfold Materials.add_weld_head.
  repeat case_bool_decide; try discriminate. intros [= <-].
  split; [by apply not_le_lt |]. split; [lia |].
  rewrite !with_notes_lookup by discriminate.
  destruct currency; repeat split; vm_compute; reflexivity.
Qed.


(** X21.  A weld head added through the Weld heads form costs, per weld,
    its unit price in pounds divided by its number of welds: the Materials
    page shows this figure, and the Diodes page, the Weld heads page and
    the Cost Summary page all cost a weld at it; the figure is
    positive. *)
Theorem added_weld_head_cost (new_id new_name : string) (unit_price : Qc)
    (currency : Materials.currency_option) (num_welds : Z)
    (new_notes : string) (item : pydict) (rate : Qc) :
  0 < rate ->
  Materials.add_weld_head strip new_id new_name unit_price currency num_welds
    new_notes = Materials.Saved item ->
  let cost := Materials.in_gbp currency unit_price rate / of_Z num_welds in
  0 < cost
  /\ Materials.compute_cost_per_weld_gbp item rate = Ok cost
  /\ CostDiodes.get_weld_cost_per_weld item rate = Ok cost
  /\ CostWeldHeads.get_weld_cost_per_weld (Some item) rate = Ok cost
  /\ CostSummary.get_weld_cost_per_weld item rate = Ok cost.
Proof.
  intros Hrate Hsaved cost.
  apply add_weld_head_saved in Hsaved
    as (Hprice & Hwelds & Hn & Hcur & Husd & Hgbp).
  assert (Hcount : 0 < of_Z num_welds) by (by apply of_Z_pos).
  assert (Hpounds : 0 < Materials.in_gbp currency unit_price rate)
    by (by apply in_gbp_pos).
  split; [by apply Qc_div_pos |].
  unfold Materials.compute_cost_per_weld_gbp,
    CostDiodes.get_weld_cost_per_weld, CostWeldHeads.get_weld_cost_per_weld,
    CostSummary.get_weld_cost_per_weld.
  rewrite !(get_or_lookup _ _ _ _ Hn), !(get_or_lookup _ _ _ _ Hcur),
    !or_upper_text.
  cbn [py_float mbind res_bind try_then].
  rewrite !(bool_decide_eq_false_2 (of_Z num_welds <= 0))
    by (by apply lt_not_le).
  destruct currency; cbn [Materials.currency_name Materials.in_gbp] in *.
  - rewrite !(get_or_lookup _ _ _ _ Husd), !decide_True by done.
    cbn [is_none py_float mbind res_bind try_then].
    rewrite (bool_decide_eq_false_2 (unit_price * rate <= 0))
      by (by apply lt_not_le).
    by rewrite !pdiv_pos.
  - rewrite !(get_or_lookup _ _ _ _ Hgbp), !decide_False by done.
    cbn [is_none py_float mbind res_bind try_then].
    rewrite (bool_decide_eq_false_2 (unit_price <= 0))
      by (by apply lt_not_le).
    by rewrite !pdiv_pos.
Qed.


(** What the diode form saves. *)
Lemma add_diode_saved (new_id new_name : string) (unit_price : Qc)
    (currency : Materials.currency_option) (new_notes : string)
    (item : pydict) :
  Materials.add_diode strip new_id new_name unit_price currency new_notes
  = Materials.Saved item ->
  0 < unit_price
  /\ item !! "currency" = Some (PStr (Materials.currency_name currency))
  /\ item !! "unit_cost_usd"
     = Some (if currency is Materials.USD then PFloat unit_price else PNone)
  /\ item !! "unit_cost_gbp"
     = Some (if currency is Materials.GBP then PFloat unit_price else PNone).
Proof.
  unfold Materials.add_diode.
  do 3 (case_bool_decide; [discriminate |]). intros [= <-].
  split; [by apply not_le_lt |].
  rewrite !with_notes_lookup by discriminate.
  destruct currency; repeat split; vm_compute; reflexivity.
Qed.

(** X22.  A diode added through the Diodes form is priced by the cost
    pages at its unit price in pounds: the price entered when the currency
    is GBP, the price times the exchange rate when it is USD. *)
Theorem added_diode_price (new_id new_name : string) (unit_price : Qc)
    (currency : Materials.currency_option) (new_notes : string)
    (item : pydict) (rate : Qc) :
  Materials.add_diode strip new_id new_name unit_price currency new_notes
  = Materials.Saved item ->
  CostDiodes.get_diode_price_gbp item rate
  = Ok (Materials.in_gbp currency unit_price rate)
  /\ CostSummary.get_diode_price_gbp item rate
     = Ok (Materials.in_gbp currency unit_price rate).
Proof.
  intros Hsaved.
  apply add_diode_saved in Hsaved as (Hprice & Hcur & Husd & Hgbp).
  unfold CostSummary.get_diode_price_gbp, CostDiodes.get_diode_price_gbp.
  rewrite !(get_or_lookup _ _ _ _ Hcur), !or_upper_text.
  cbn [mbind res_bind].
  destruct currency; cbn [Materials.currency_name Materials.in_gbp] in *.
  - by rewrite !(get_or_lookup _ _ _ _ Husd), !decide_True by done.
  - by rewrite !(get_or_lookup _ _ _ _ Hgbp), !decide_False by done.
Qed.

(** The length in metres of a roll entered in a unit of the forms. *)
Lemma roll_length_pos (unit : Materials.length_unit_option) (length : Qc) :
  0 < length ->
  0 < (if unit is Materials.Feet then length * qc 0.3048 else length).
Proof. intros. destruct unit; [done | by apply Qc_mult_pos]. Qed.

(** What the lamination form saves. *)
Lemma add_lamination_saved (new_id new_name : string) (roll_length_value : Qc)
    (roll_length_unit : Materials.length_unit_option) (roll_cost : Qc)
    (roll_currency : Materials.currency_option) (new_notes : string)
    (item : pydict) :
  Materials.add_lamination strip new_id new_name roll_length_value
    roll_length_unit roll_cost roll_currency new_notes
  = Materials.Saved item ->
  0 < roll_length_value /\ 0 < roll_cost
  /\ item !! "roll_length_value" = Some (PFloat roll_length_value)
  /\ item !! "roll_length_unit"
     = Some (PStr (Materials.length_unit_text roll_length_unit))
  /\ item !! "roll_currency"
     = Some (PStr (Materials.currency_name roll_currency))
  /\ item !! "roll_cost_usd"
     = (if roll_currency is Materials.USD then Some (PFloat roll_cost)
        else None)
  /\ item !! "roll_cost_gbp"
     = (if roll_currency is Materials.GBP then Some (PFloat roll_cost)
        else None).
Proof.
  unfold Materials.add_lamination.
  repeat case_bool_decide; try discriminate. intros [= <-].
  split; [by apply not_le_lt |]. split; [by apply not_le_lt |].
  rewrite !with_notes_lookup by discriminate.
  destruct roll_currency; repeat split; vm_compute; reflexivity.
Qed.

(** What the tape form saves. *)
Lemma add_tape_saved (new_id new_name : string)
    (width_mm roll_length_value : Qc)
    (roll_length_unit : Materials.length_unit_option) (roll_cost : Qc)
    (roll_currency : Materials.currency_option) (new_notes : string)
    (item : pydict) :
  Materials.add_tape strip new_id new_name width_mm roll_length_value
    roll_length_unit roll_cost roll_currency new_notes
  = Materials.Saved item ->
  0 < roll_length_value /\ 0 < roll_cost
  /\ item !! "roll_length_value" = Some (PFloat roll_length_value)
  /\ item !! "roll_length_unit"
     = Some (PStr (Materials.length_unit_text roll_length_unit))
  /\ item !! "roll_currency"
     = Some (PStr (Materials.currency_name roll_currency))
  /\ item !! "roll_cost_usd"
     = (if roll_currency is Materials.USD then Some (PFloat roll_cost)
        else None)
  /\ item !! "roll_cost_gbp"
     = (if roll_currency is Materials.GBP then Some (PFloat roll_cost)
        else None).
Proof.
  unfold Materials.add_tape.
  repeat case_bool_decide; try discriminate. intros [= <-].
  split; [by apply not_le_lt |]. split; [by apply not_le_lt |].
  rewrite !with_notes_lookup by discriminate.
  destruct roll_currency; repeat split; vm_compute; reflexivity.
Qed.

Lemma metres_not_feet :
  bool_decide ("m"%string ∈ ["ft"; "foot"; "feet"]%string) = false.
Proof. vm_compute. reflexivity. Qed.

Lemma feet_are_feet :
  bool_decide ("ft"%string ∈ ["ft"; "foot"; "feet"]%string) = true.
Proof. vm_compute. reflexivity. Qed.

(** A roll with the fields the lamination and tape forms save, as the
    Materials pages and the cost pages cost a metre of it. *)
Lemma roll_cost_per_m (item : pydict) (rate length cost : Qc)
    (unit : Materials.length_unit_option)
    (currency : Materials.currency_option) :
  0 < rate -> 0 < length -> 0 < cost ->
  item !! "roll_length_value" = Some (PFloat length) ->
  item !! "roll_length_unit" = Some (PStr (Materials.length_unit_text unit)) ->
  item !! "roll_currency" = Some (PStr (Materials.currency_name currency)) ->
  item !! "roll_cost_usd"
  = (if currency is Materials.USD then Some (PFloat cost) else None) ->
  item !! "roll_cost_gbp"
  = (if currency is Materials.GBP then Some (PFloat cost) else None) ->
  let per_m :=
    Materials.in_gbp currency cost rate
    / (if unit is Materials.Feet then length * qc 0.3048 else length) in
  0 < per_m
  /\ Materials.compute_cost_per_m_gbp item rate = Ok per_m
  /\ CostLamination.get_lamination_cost_per_m item rate = Ok per_m
  /\ CostTapes.get_tape_cost_per_m item rate = Ok per_m.
Proof.
  intros Hrate Hlength Hcost Hlen Hunit Hcur Husd Hgbp per_m.
  assert (Hm := roll_length_pos unit length Hlength).
  assert (Hpounds : 0 < Materials.in_gbp currency cost rate)
    by (by apply in_gbp_pos).
  split; [by apply Qc_div_pos |].
  unfold Materials.compute_cost_per_m_gbp,
    CostLamination.get_lamination_cost_per_m, CostTapes.get_tape_cost_per_m.
  rewrite !(get_or_lookup _ _ _ _ Hlen), !(get_or_lookup _ _ _ _ Hunit),
    !(get_or_lookup _ _ _ _ Hcur), !or_upper_text, !or_lower_text.
  cbn [py_float mbind res_bind try_then].
  rewrite !(bool_decide_eq_false_2 (length <= 0)) by (by apply lt_not_le).
  subst per_m.
  destruct unit; cbn [Materials.length_unit_text] in *.
  - rewrite !decide_False by done.
    rewrite !metres_not_feet.
    rewrite !(bool_decide_eq_false_2 (length <= 0)) by (by apply lt_not_le).
    destruct currency; cbn [Materials.currency_name Materials.in_gbp] in *.
    + rewrite !(get_or_lookup _ _ _ _ Husd), !(get_or_missing _ _ _ Hgbp),
        !decide_True by done.
      cbn [is_none negb py_float mbind res_bind try_then try_except].
      rewrite (bool_decide_eq_false_2 (cost * rate <= 0))
        by (by apply lt_not_le).
      by rewrite !pdiv_pos.
    + rewrite !(get_or_lookup _ _ _ _ Hgbp), !(get_or_missing _ _ _ Husd),
        !decide_False by done.
      cbn [is_none negb py_float mbind res_bind try_then try_except].
      rewrite (bool_decide_eq_false_2 (cost <= 0)) by (by apply lt_not_le).
      by rewrite !pdiv_pos.
  - rewrite !decide_True by done.
    rewrite !feet_are_feet.
    unfold Materials.FT_TO_M.
    rewrite !(bool_decide_eq_false_2 (length * qc 0.3048 <= 0))
      by (by apply lt_not_le).
    destruct currency; cbn [Materials.currency_name Materials.in_gbp] in *.
    + rewrite !(get_or_lookup _ _ _ _ Husd), !(get_or_missing _ _ _ Hgbp),
        !decide_True by done.
      cbn [is_none negb py_float mbind res_bind try_then try_except].
      rewrite (bool_decide_eq_false_2 (cost * rate <= 0))
        by (by apply lt_not_le).
      by rewrite !pdiv_pos.
    + rewrite !(get_or_lookup _ _ _ _ Hgbp), !(get_or_missing _ _ _ Husd),
        !decide_False by done.
      cbn [is_none negb py_float mbind res_bind try_then try_except].
      rewrite (bool_decide_eq_false_2 (cost <= 0)) by (by apply lt_not_le).
      by rewrite !pdiv_pos.
Qed.

(** X23.  A lamination roll added through the Lamination form costs, per
    metre, its roll cost in pounds divided by its length in metres (a
    length in feet times 0.3048): the Materials page shows this figure and
    the Lamination cost page and the Cost Summary page cost a metre at
    it; the figure is positive. *)
Theorem added_lamination_cost (new_id new_name : string)
    (roll_length_value : Qc)
    (roll_length_unit : Materials.length_unit_option) (roll_cost : Qc)
    (roll_currency : Materials.currency_option) (new_notes : string)
    (item : pydict) (rate : Qc) :
  0 < rate ->
  Materials.add_lamination strip new_id new_name roll_length_value
    roll_length_unit roll_cost roll_currency new_notes
  = Materials.Saved item ->
  let per_m :=
    Materials.in_gbp roll_currency roll_cost rate
    / (if roll_length_unit is Materials.Feet
       then roll_length_value * qc 0.3048 else roll_length_value) in
  0 < per_m
  /\ Materials.compute_cost_per_m_gbp item rate = Ok per_m
  /\ CostLamination.get_lamination_cost_per_m item rate = Ok per_m
  /\ CostSummary.get_lamination_cost_per_m item rate = Ok per_m.
Proof.
  intros Hrate Hsaved.
  apply add_lamination_saved in Hsaved
    as (Hlength & Hcost & Hlen & Hunit & Hcur & Husd & Hgbp).
  destruct (roll_cost_per_m item rate roll_length_value roll_cost
              roll_length_unit roll_currency Hrate Hlength Hcost Hlen Hunit
              Hcur Husd Hgbp) as (Hpos & Hshown & Hlam & _).
  by repeat split.
Qed.

(** X24.  A tape added through the Tapes form costs, per metre, its roll
    cost in pounds divided by its length in metres (a length in feet times
    0.3048): the Materials page shows this figure and the Tapes cost page
    and the Cost Summary page cost a metre at it; the figure is
    positive. *)
Theorem added_tape_cost (new_id new_name : string)
    (width_mm roll_length_value : Qc)
    (roll_length_unit : Materials.length_unit_option) (roll_cost : Qc)
    (roll_currency : Materials.currency_option) (new_notes : string)
    (item : pydict) (rate : Qc) :
  0 < rate ->
  Materials.add_tape strip new_id new_name width_mm roll_length_value
    roll_length_unit roll_cost roll_currency new_notes
  = Materials.Saved item ->
  let per_m :=
    Materials.in_gbp roll_currency roll_cost rate
    / (if roll_length_unit is Materials.Feet
       then roll_length_value * qc 0.3048 else roll_length_value) in
  0 < per_m
  /\ Materials.compute_cost_per_m_gbp item rate = Ok per_m
  /\ CostTapes.get_tape_cost_per_m item rate = Ok per_m
  /\ CostSummary.get_tape_cost_per_m item rate = Ok per_m.
Proof.
  intros Hrate Hsaved.
  apply add_tape_saved in Hsaved
    as (Hlength & Hcost & Hlen & Hunit & Hcur & Husd & Hgbp).
  destruct (roll_cost_per_m item rate roll_length_value roll_cost
              roll_length_unit roll_currency Hrate Hlength Hcost Hlen Hunit
              Hcur Husd Hgbp) as (Hpos & Hshown & _ & Htape).
  by repeat split.
Qed.


(** What the epoxy form saves. *)
Lemma add_epoxy_saved (new_id new_name : string) (total_cost : Qc)
    (currency : Materials.currency_option) (volume_ml : Qc) (notes : string)
    (item : pydict) :
  Materials.add_epoxy strip new_id new_name total_cost currency volume_ml
    notes = Materials.Saved item ->
  0 < total_cost /\ 0 < volume_ml
  /\ item !! "cost_per_ml_gbp" = None
  /\ item !! "volume_ml" = Some (PFloat volume_ml)
  /\ item !! "currency" = Some (PStr (Materials.currency_name currency))
  /\ item !! "total_cost_usd"
     = (if currency is Materials.USD then Some (PFloat total_cost) else None)
  /\ item !! "total_cost_gbp"
     = (if currency is Materials.GBP then Some (PFloat total_cost) else None).
Proof.
  unfold Materials.add_epoxy.
  repeat case_bool_decide; try discriminate. intros [= <-].
  split; [by apply not_le_lt |]. split; [by apply not_le_lt |].
  rewrite !with_notes_lookup by discriminate.
  destruct currency; repeat split; vm_compute; reflexivity.
Qed.

Lemma truthy_positive (q : Qc) : 0 < q -> truthy (PFloat q) = true.
Proof.
  intros Hq. cbn. rewrite bool_decide_eq_false_2; [done |].
  intros ->. by destruct (Qclt_not_eq _ _ Hq).
Qed.

Lemma truthy_positive_int (z : Z) : (0 < z)%Z -> truthy (PInt z) = true.
Proof. intros Hz. cbn. destruct (Z.eqb_spec z 0); [lia | done]. Qed.

Lemma has_key_missing (item : pydict) (k : string) :
  item !! k = None -> has_key item k = false.
Proof.
  intros Hk. unfold has_key. rewrite bool_decide_eq_false_2; [done |].
  rewrite Hk. by intros [? ?].
Qed.

(** X25.  An epoxy added through the Misc form costs, per millilitre, its
    total cost in pounds divided by its volume: the Materials page shows
    this figure and the Misc cost page and the Cost Summary page cost a
    millilitre at it; the figure is positive. *)
Theorem added_epoxy_cost (new_id new_name : string) (total_cost : Qc)
    (currency : Materials.currency_option) (volume_ml : Qc) (notes : string)
    (item : pydict) (rate : Qc) :
  0 < rate ->
  Materials.add_epoxy strip new_id new_name total_cost currency volume_ml
    notes = Materials.Saved item ->
  let per_ml := Materials.in_gbp currency total_cost rate / volume_ml in
  0 < per_ml
  /\ Materials.compute_epoxy_cost_per_ml_gbp item rate = Ok per_ml
  /\ CostMisc.get_epoxy_cost_per_ml item rate = Ok per_ml
  /\ CostSummary.get_epoxy_cost_per_ml item rate = Ok per_ml.
Proof.
  intros Hrate Hsaved per_ml.
  apply add_epoxy_saved in Hsaved
    as (Hcost & Hvolume & Hpre & Hvol & Hcur & Husd & Hgbp).
  assert (Hpounds : 0 < Materials.in_gbp currency total_cost rate)
    by (by apply in_gbp_pos).
  split; [by apply Qc_div_pos |].
  unfold Materials.compute_epoxy_cost_per_ml_gbp,
    CostSummary.get_epoxy_cost_per_ml, CostMisc.get_epoxy_cost_per_ml,
    CostMisc.precomputed.
  rewrite (has_key_missing _ _ Hpre).
  rewrite !(get_or_lookup _ _ _ _ Hvol), !(get_or_lookup _ _ _ _ Hcur),
    !or_upper_text, (truthy_positive _ Hvolume).
  cbn [negb py_float mbind res_bind try_then].
  rewrite !(bool_decide_eq_false_2 (volume_ml <= 0)) by (by apply lt_not_le).
  subst per_ml.
  destruct currency; cbn [Materials.currency_name Materials.in_gbp] in *.
  - rewrite !(get_or_lookup _ _ _ _ Husd), !(get_or_missing _ _ _ Hgbp),
      !decide_True, !bool_decide_eq_true_2 by done.
    cbn [is_none negb andb py_float mbind res_bind try_then try_except].
    rewrite (bool_decide_eq_false_2 (total_cost * rate <= 0))
      by (by apply lt_not_le).
    by rewrite !pdiv_pos.
  - rewrite !(get_or_lookup _ _ _ _ Hgbp), !decide_False by done.
    cbn [is_none negb andb py_float mbind res_bind try_then try_except].
    rewrite (bool_decide_eq_false_2 (total_cost <= 0))
      by (by apply lt_not_le).
    by rewrite !pdiv_pos.
Qed.

(** What the Kapton form saves. *)
Lemma add_kapton_saved (new_id new_name : string) (roll_cost : Qc)
    (currency : Materials.currency_option) (disks_per_roll : Z)
    (notes : string) (item : pydict) :
  Materials.add_kapton strip new_id new_name roll_cost currency
    disks_per_roll notes = Materials.Saved item ->
  0 < roll_cost /\ (0 < disks_per_roll)%Z
  /\ item !! "cost_per_disk_gbp" = None
  /\ item !! "total_cost_gbp" = None
  /\ item !! "disks_per_roll" = Some (PInt disks_per_roll)
  /\ item !! "currency" = Some (PStr (Materials.currency_name currency))
  /\ item !! "roll_cost_usd"
     = (if currency is Materials.USD then Some (PFloat roll_cost) else None)
  /\ item !! "roll_cost_gbp"
     = (if currency is Materials.GBP then Some (PFloat roll_cost) else None).
Proof.
  unfold Materials.add_kapton.
  repeat case_bool_decide; try discriminate. intros [= <-].
  split; [by apply not_le_lt |]. split; [lia |].
  rewrite !with_notes_lookup by discriminate.
  destruct currency; repeat split; vm_compute; reflexivity.
Qed.

(** X26.  A Kapton roll added through the Misc form is shown on the
    Materials page at its roll cost in pounds divided by its disks per
    roll, a positive figure.  Entered in USD, the Misc cost page and the
    Cost Summary page cost a disk at the same figure; entered in GBP, they
    cost a disk at zero, since they do not read the field the form
    stores the cost in. *)
Theorem added_kapton_cost (new_id new_name : string) (roll_cost : Qc)
    (currency : Materials.currency_option) (disks_per_roll : Z)
    (notes : string) (item : pydict) (rate : Qc) :
  0 < rate ->
  Materials.add_kapton strip new_id new_name roll_cost currency
    disks_per_roll notes = Materials.Saved item ->
  let per_disk :=
    Materials.in_gbp currency roll_cost rate / of_Z disks_per_roll in
  let costed :=
    if currency is Materials.USD then per_disk else 0 in
  0 < per_disk
  /\ Materials.compute_kapton_cost_per_disk_gbp item rate = Ok per_disk
  /\ CostMisc.get_kapton_cost_per_disk item rate = Ok costed
  /\ CostSummary.get_kapton_cost_per_disk item rate = Ok costed.
Proof.
  intros Hrate Hsaved per_disk costed.
  apply add_kapton_saved in Hsaved
    as (Hcost & Hdisks & Hpre & Htotal & Hn & Hcur & Husd & Hgbp).
  assert (Hcount : 0 < of_Z disks_per_roll) by (by apply of_Z_pos).
  assert (Hpounds : 0 < Materials.in_gbp currency roll_cost rate)
    by (by apply in_gbp_pos).
  split; [by apply Qc_div_pos |].
  unfold Materials.compute_kapton_cost_per_disk_gbp,
    CostSummary.get_kapton_cost_per_disk, CostMisc.get_kapton_cost_per_disk,
    CostMisc.precomputed.
  rewrite (has_key_missing _ _ Hpre).
  rewrite !(get_or_lookup _ _ _ _ Hn), !(get_or_lookup _ _ _ _ Hcur),
    !(get_or_missing _ _ _ Htotal), !or_upper_text,
    (truthy_positive_int _ Hdisks).
  cbn [negb is_none py_float mbind res_bind try_then].
  rewrite !(bool_decide_eq_false_2 (of_Z disks_per_roll <= 0))
    by (by apply lt_not_le).
  subst per_disk costed.
  destruct currency; cbn [Materials.currency_name Materials.in_gbp] in *.
  - rewrite !(get_or_lookup _ _ _ _ Husd),
      !decide_True, !bool_decide_eq_true_2 by done.
    cbn [is_none negb andb py_float mbind res_bind try_then try_except].
    rewrite (bool_decide_eq_false_2 (roll_cost * rate <= 0))
      by (by apply lt_not_le).
    by rewrite !pdiv_pos.
  - rewrite !(get_or_lookup _ _ _ _ Hgbp), !(get_or_missing _ _ _ Husd),
      !decide_False, !bool_decide_eq_false_2 by done.
    cbn [is_none negb andb py_float mbind res_bind try_then try_except].
    rewrite (bool_decide_eq_false_2 (roll_cost <= 0))
      by (by apply lt_not_le).
    by rewrite !pdiv_pos.
Qed.


(** A packaging record with a type, a currency and its unit cost stored
    under the currency's key, as the Materials page and the cost pages
    price it and as the Packaging page files it. *)
Lemma unit_priced_cost (item : pydict) (type : string) (unit_price rate : Qc)
    (currency : Materials.currency_option) :
  item !! "type" = Some (PStr type) ->
  item !! "currency" = Some (PStr (Materials.currency_name currency)) ->
  item !! "unit_cost_usd"
  = (if currency is Materials.USD then Some (PFloat unit_price) else None) ->
  item !! "unit_cost_gbp"
  = (if currency is Materials.GBP then Some (PFloat unit_price) else None) ->
  let price := Materials.in_gbp currency unit_price rate in
  Materials._get_unit_price_gbp item rate = Ok price
  /\ CostPackaging.get_unit_cost_gbp item rate = Ok price
  /\ CostSummary.get_unit_cost_gbp item rate = Ok price
  /\ CostPackaging.of_type [item] (lower type) = [item].
Proof.
  intros Htype Hcur Husd Hgbp price.
  unfold Materials._get_unit_price_gbp, CostSummary.get_unit_cost_gbp,
    CostPackaging.get_unit_cost_gbp, CostPackaging.of_type.
  cbn [List.filter].
  rewrite !(get_or_lookup _ _ _ _ Hcur), !(get_or_lookup _ _ _ _ Htype),
    !or_upper_text.
  cbn [mbind res_bind List.filter py_str].
  rewrite (bool_decide_eq_true_2 (lower type = lower type)) by done.
  subst price.
  destruct currency; cbn [Materials.currency_name Materials.in_gbp] in *.
  - rewrite !(get_or_lookup _ _ _ _ Husd), !(get_lookup _ _ _ Husd),
      (has_key_missing _ _ Hgbp), !decide_True, !bool_decide_eq_true_2
      by done.
    assert (Hkey : has_key item "unit_cost_usd" = true).
    { unfold has_key. rewrite bool_decide_eq_true_2; [done |].
      rewrite Husd. by eexists. }
    rewrite Hkey. by cbn.
  - rewrite !(get_or_lookup _ _ _ _ Hgbp), !(get_lookup _ _ _ Hgbp),
      !decide_False by done.
    assert (Hkey : has_key item "unit_cost_gbp" = true).
    { unfold has_key. rewrite bool_decide_eq_true_2; [done |].
      rewrite Hgbp. by eexists. }
    rewrite Hkey. by cbn.
Qed.

(** X27.  A frame, a shipping board or a box added through its Packaging
    form is priced by the Materials page, the Packaging cost page and the
    Cost Summary page at its unit price in pounds, and the Packaging page
    files it under the role of its form: frame, shipping board or box. *)
Theorem added_packaging_unit_cost (new_id new_name : string)
    (diameter_mm unit_price : Qc) (currency : Materials.currency_option)
    (notes : string) (item : pydict) (role : string) (rate : Qc) :
  (Materials.add_frame strip new_id new_name unit_price currency notes
   = Materials.Saved item /\ role = "frame"%string)
  \/ (Materials.add_board strip new_id new_name unit_price currency notes
      = Materials.Saved item /\ role = "shipping board"%string)
  \/ (Materials.add_box strip new_id new_name diameter_mm unit_price currency
        notes = Materials.Saved item /\ role = "box"%string) ->
  let price := Materials.in_gbp currency unit_price rate in
  Materials._get_unit_price_gbp item rate = Ok price
  /\ CostPackaging.get_unit_cost_gbp item rate = Ok price
  /\ CostSummary.get_unit_cost_gbp item rate = Ok price
  /\ CostPackaging.of_type [item] role = [item].
Proof.
  intros [[Hsaved ->] | [[Hsaved ->] | [Hsaved ->]]].
  - apply (unit_priced_cost item "Frame" unit_price rate currency);
      revert Hsaved; unfold Materials.add_frame;
      repeat case_bool_decide; try discriminate; intros [= <-];
      rewrite !with_notes_lookup by discriminate;
      destruct currency; vm_compute; reflexivity.
  - apply (unit_priced_cost item "Shipping board" unit_price rate currency);
      revert Hsaved; unfold Materials.add_board;
      repeat case_bool_decide; try discriminate; intros [= <-];
      rewrite !with_notes_lookup by discriminate;
      destruct currency; vm_compute; reflexivity.
  - apply (unit_priced_cost item "Box" unit_price rate currency);
      revert Hsaved; unfold Materials.add_box;
      repeat case_bool_decide; try discriminate; intros [= <-];
      rewrite !with_notes_lookup by discriminate;
      destruct currency; vm_compute; reflexivity.
Qed.

(** What the foam form saves. *)
Lemma add_foam_saved (new_id new_name : string) (thickness_mm : Qc)
    (num_pieces : Z) (total_cost : Qc) (currency : Materials.currency_option)
    (notes : string) (item : pydict) :
  Materials.add_foam strip new_id new_name thickness_mm num_pieces total_cost
    currency notes = Materials.Saved item ->
  0 < total_cost /\ (0 < num_pieces)%Z
  /\ item !! "type" = Some (PStr "Foam")
  /\ item !! "thickness_mm" = Some (PFloat thickness_mm)
  /\ item !! "num_pieces" = Some (PInt num_pieces)
  /\ item !! "currency" = Some (PStr (Materials.currency_name currency))
  /\ item !! "total_cost_usd"
     = (if currency is Materials.USD then Some (PFloat total_cost) else None)
  /\ item !! "total_cost_gbp"
     = (if currency is Materials.GBP then Some (PFloat total_cost) else None).
Proof.
  unfold Materials.add_foam.
  repeat case_bool_decide; try discriminate. intros [= <-].
  split; [by apply not_le_lt |]. split; [lia |].
  rewrite !with_notes_lookup by discriminate.
  destruct currency; repeat split; vm_compute; reflexivity.
Qed.

(** X28.  A foam added through the Packaging form costs, per piece, its
    total cost in pounds divided by its number of pieces: the Materials
    page shows this figure and the Packaging cost page and the Cost
    Summary page cost a piece at it; the figure is positive.  The
    Packaging page files the item as a foam and reads its thickness as
    entered. *)
Theorem added_foam_cost (new_id new_name : string) (thickness_mm : Qc)
    (num_pieces : Z) (total_cost : Qc) (currency : Materials.currency_option)
    (notes : string) (item : pydict) (rate : Qc) :
  0 < rate ->
  Materials.add_foam strip new_id new_name thickness_mm num_pieces total_cost
    currency notes = Materials.Saved item ->
  let per_piece :=
    Materials.in_gbp currency total_cost rate / of_Z num_pieces in
  0 < per_piece
  /\ Materials._get_foam_cost_per_piece_gbp item rate = Ok per_piece
  /\ CostPackaging.get_foam_cost_per_piece item rate = Ok per_piece
  /\ CostSummary.get_foam_cost_per_piece item rate = Ok per_piece
  /\ CostPackaging.of_type [item] "foam" = [item]
  /\ CostPackaging.foam_thickness item = Ok thickness_mm.
Proof.
  intros Hrate Hsaved per_piece.
  apply add_foam_saved in Hsaved
    as (Hcost & Hpieces & Htype & Hth & Hn & Hcur & Husd & Hgbp).
  assert (Hcount : 0 < of_Z num_pieces) by (by apply of_Z_pos).
  assert (Hpounds : 0 < Materials.in_gbp currency total_cost rate)
    by (by apply in_gbp_pos).
  split; [by apply Qc_div_pos |].
  unfold Materials._get_foam_cost_per_piece_gbp,
    CostSummary.get_foam_cost_per_piece, CostPackaging.get_foam_cost_per_piece,
    CostPackaging.of_type, CostPackaging.foam_thickness.
  cbn [List.filter].
  rewrite !(get_or_lookup _ _ _ _ Hn), !(get_or_lookup _ _ _ _ Hcur),
    !(get_or_lookup _ _ _ _ Htype), !(get_or_lookup _ _ _ _ Hth),
    !or_upper_text, (truthy_positive_int _ Hpieces).
  cbn [negb py_float py_str mbind res_bind try_then try_except List.filter].
  rewrite !(bool_decide_eq_false_2 (of_Z num_pieces <= 0))
    by (by apply lt_not_le).
  rewrite (bool_decide_eq_true_2 (lower "Foam" = "foam"%string)) by done.
  subst per_piece.
  destruct currency; cbn [Materials.currency_name Materials.in_gbp] in *.
  - rewrite !(get_or_lookup _ _ _ _ Husd), !(get_or_missing _ _ _ Hgbp),
      !decide_True, !bool_decide_eq_true_2 by done.
    cbn [is_none negb andb py_float mbind res_bind try_then try_except].
    rewrite (bool_decide_eq_false_2 (total_cost * rate <= 0))
      by (by apply lt_not_le).
    by rewrite !pdiv_pos.
  - rewrite !(get_or_lookup _ _ _ _ Hgbp), !decide_False by done.
    cbn [is_none negb andb py_float mbind res_bind try_then try_except].
    rewrite (bool_decide_eq_false_2 (total_cost <= 0))
      by (by apply lt_not_le).
    by rewrite !pdiv_pos.
Qed.

(** What the silver form saves. *)
Lemma add_silver_saved (new_id new_name : string)
    (width_mm thickness_mm density_g_cm3 price_per_g : Qc)
    (price_currency : Materials.currency_option) (new_notes : string)
    (item : pydict) :
  Materials.add_silver strip new_id new_name width_mm thickness_mm
    density_g_cm3 price_per_g price_currency new_notes
  = Materials.Saved item ->
  0 < width_mm /\ 0 < thickness_mm /\ 0 < density_g_cm3 /\ 0 < price_per_g
  /\ item !! "width_mm" = Some (PFloat width_mm)
  /\ item !! "thickness_mm" = Some (PFloat thickness_mm)
  /\ item !! "density_g_cm3" = Some (PFloat density_g_cm3)
  /\ item !! "price_per_g" = Some (PFloat price_per_g)
  /\ item !! "price_currency"
     = Some (PStr (Materials.currency_name price_currency)).
Proof.
  unfold Materials.add_silver.
  repeat case_bool_decide; cbn [orb]; try discriminate. intros [= <-].
  do 4 (split; [by apply not_le_lt |]).
  rewrite !with_notes_lookup by discriminate.
  repeat split; vm_compute; reflexivity.
Qed.

(** X29.  A silver ribbon added through the Silver Ribbon form costs, per
    millimetre, its density times its width times its thickness over 1000,
    times its price per gram in pounds: the Materials page shows this
    figure, and the Silver cost page and the Diodes page (when no other
    width is given) cost a millimetre at it; the figure is positive. *)
Theorem added_silver_cost (new_id new_name : string)
    (width_mm thickness_mm density_g_cm3 price_per_g : Qc)
    (price_currency : Materials.currency_option) (new_notes : string)
    (item : pydict) (rate : Qc) :
  0 < rate ->
  Materials.add_silver strip new_id new_name width_mm thickness_mm
    density_g_cm3 price_per_g price_currency new_notes
  = Materials.Saved item ->
  let per_mm :=
    density_g_cm3 * width_mm * thickness_mm / qc 1000
    * Materials.in_gbp price_currency price_per_g rate in
  0 < per_mm
  /\ Materials.compute_cost_per_mm_gbp item rate = Ok per_mm
  /\ CostSilver.get_silver_cost_per_mm item rate = Ok per_mm
  /\ CostDiodes.get_silver_cost_per_mm item rate None = Ok per_mm
  /\ CostSummary.get_silver_cost_per_mm item rate None = Ok per_mm.
Proof.
  intros Hrate Hsaved per_mm.
  apply add_silver_saved in Hsaved
    as (Hwidth & Hthick & Hdens & Hprice & Hw & Ht & Hd & Hp & Hcur).
  assert (Hpounds : 0 < Materials.in_gbp price_currency price_per_g rate)
    by (by apply in_gbp_pos).
  split.
  { repeat apply Qc_mult_pos; done. }
  unfold Materials.compute_cost_per_mm_gbp,
    CostSummary.get_silver_cost_per_mm, CostDiodes.get_silver_cost_per_mm,
    CostSilver.get_silver_cost_per_mm.
  rewrite !(get_or_lookup _ _ _ _ Hw), !(get_or_lookup _ _ _ _ Ht),
    !(get_or_lookup _ _ _ _ Hd), !(get_or_lookup _ _ _ _ Hp),
    !(get_or_lookup _ _ _ _ Hcur), !or_upper_text.
  cbn [py_float mbind res_bind try_then].
  rewrite !(bool_decide_eq_false_2 (width_mm <= 0)),
    !(bool_decide_eq_false_2 (thickness_mm <= 0)),
    !(bool_decide_eq_false_2 (density_g_cm3 <= 0)),
    !(bool_decide_eq_false_2 (price_per_g <= 0)) by (by apply lt_not_le).
  cbn [orb mbind res_bind].
  assert (Hshape : forall price,
    width_mm / qc 10.0 * (thickness_mm / qc 10.0) * qc 0.1 * density_g_cm3
    * price
    = density_g_cm3 * width_mm * thickness_mm / qc 1000 * price).
  { intros price. unfold Qcdiv.
    replace (/ qc 10.0) with (qc 0.1) by qc_eval.
    replace (/ qc 1000) with (qc 0.1 * qc 0.1 * qc 0.1) by qc_eval. ring. }
  assert (Hshape' : forall price,
    width_mm / qc 10 * (thickness_mm / qc 10) * qc 0.1 * density_g_cm3
    * price
    = density_g_cm3 * width_mm * thickness_mm / qc 1000 * price).
  { intros price. rewrite <- Hshape. by replace (qc 10) with (qc 10.0)
      by qc_eval. }
  replace (qc 1000.0) with (qc 1000) by qc_eval.
  subst per_mm.
  destruct price_currency;
    cbn [Materials.currency_name Materials.in_gbp] in *.
  - rewrite !decide_True by done. by rewrite Hshape, Hshape'.
  - rewrite !decide_False by done. by rewrite Hshape, Hshape'.
Qed.

End Materials_forms.

(** Runs of the form properties, with [str.strip] on ASCII text and an
    exchange rate of 0.8. *)

Lemma added_weld_head_cost_witness :
  exists item,
    Materials.add_weld_head Materials.ascii_strip " WH-7 " "Gold head"
      (qc 50) Materials.USD 1000 "" = Materials.Saved item
    /\ @CostSummary.get_weld_cost_per_weld PlainText.plain_text item (qc 0.8)
       = Ok (qc 0.04).
Proof.
  destruct (Materials.add_weld_head _ _ _ _ _ _ _) as [msg | item] eqn:Hsaved;
    [vm_compute in Hsaved; discriminate |].
  exists item. split; [reflexivity |].
  assert (Hrate : 0 < qc 0.8) by reflexivity.
  destruct (@added_weld_head_cost PlainText.plain_text Materials.ascii_strip
              _ _ _ _ _ _ item (qc 0.8) Hrate Hsaved)
    as (_ & _ & _ & _ & Hsummary).
  rewrite Hsummary. f_equal; qc_eval.
Defined.

Lemma added_diode_price_witness :
  exists item,
    Materials.add_diode Materials.ascii_strip "D9" "Schottky" (qc 0.5)
      Materials.USD " bought in bulk " = Materials.Saved item
    /\ @CostDiodes.get_diode_price_gbp PlainText.plain_text item (qc 0.8)
       = Ok (qc 0.4).
Proof.
  destruct (Materials.add_diode _ _ _ _ _ _) as [msg | item] eqn:Hsaved;
    [vm_compute in Hsaved; discriminate |].
  exists item. split; [reflexivity |].
  destruct (@added_diode_price PlainText.plain_text Materials.ascii_strip
              _ _ _ _ _ item (qc 0.8) Hsaved) as (Hpage & _).
  rewrite Hpage. f_equal; qc_eval.
Defined.

Lemma added_lamination_cost_witness :
  exists item,
    Materials.add_lamination Materials.ascii_strip "EVA-2" "EVA film"
      (qc 100) Materials.Feet (qc 381) Materials.GBP "" = Materials.Saved item
    /\ @CostLamination.get_lamination_cost_per_m PlainText.plain_text item
         (qc 0.8) = Ok (qc 12.5).
Proof.
  destruct (Materials.add_lamination _ _ _ _ _ _ _ _) as [msg | item]
    eqn:Hsaved; [vm_compute in Hsaved; discriminate |].
  exists item. split; [reflexivity |].
  assert (Hrate : 0 < qc 0.8) by reflexivity.
  destruct (@added_lamination_cost PlainText.plain_text Materials.ascii_strip
              _ _ _ _ _ _ _ item (qc 0.8) Hrate Hsaved)
    as (_ & _ & Hpage & _).
  rewrite Hpage. f_equal; qc_eval.
Defined.

Lemma added_tape_cost_witness :
  exists item,
    Materials.add_tape Materials.ascii_strip "T2" "Edge tape" (qc 10)
      (qc 50) Materials.Metres (qc 25) Materials.USD "" = Materials.Saved item
    /\ @CostTapes.get_tape_cost_per_m PlainText.plain_text item (qc 0.8)
       = Ok (qc 0.4).
Proof.
  destruct (Materials.add_tape _ _ _ _ _ _ _ _ _) as [msg | item]
    eqn:Hsaved; [vm_compute in Hsaved; discriminate |].
  exists item. split; [reflexivity |].
  assert (Hrate : 0 < qc 0.8) by reflexivity.
  destruct (@added_tape_cost PlainText.plain_text Materials.ascii_strip
              _ _ _ _ _ _ _ _ item (qc 0.8) Hrate Hsaved)
    as (_ & _ & Hpage & _).
  rewrite Hpage. f_equal; qc_eval.
Defined.

Lemma added_epoxy_cost_witness :
  exists item,
    Materials.add_epoxy Materials.ascii_strip "E2" "Clear epoxy" (qc 25)
      Materials.GBP (qc 50) "" = Materials.Saved item
    /\ @CostMisc.get_epoxy_cost_per_ml PlainText.plain_text item (qc 0.8)
       = Ok (qc 0.5).
Proof.
  destruct (Materials.add_epoxy _ _ _ _ _ _ _) as [msg | item] eqn:Hsaved;
    [vm_compute in Hsaved; discriminate |].
  exists item. split; [reflexivity |].
  assert (Hrate : 0 < qc 0.8) by reflexivity.
  destruct (@added_epoxy_cost PlainText.plain_text Materials.ascii_strip
              _ _ _ _ _ _ item (qc 0.8) Hrate Hsaved)
    as (_ & _ & Hpage & _).
  rewrite Hpage. f_equal; qc_eval.
Defined.

(** A Kapton roll of 1000 disks entered at 20.00 GBP: 0.02 per disk on
    the Materials page, nothing on the Misc cost page. *)
Lemma added_kapton_cost_witness :
  exists item,
    Materials.add_kapton Materials.ascii_strip "K2" "Kapton disks" (qc 20)
      Materials.GBP 1000 "" = Materials.Saved item
    /\ @Materials.compute_kapton_cost_per_disk_gbp PlainText.plain_text item
         (qc 0.8) = Ok (qc 0.02)
    /\ @CostMisc.get_kapton_cost_per_disk PlainText.plain_text item (qc 0.8)
       = Ok 0.
Proof.
  destruct (Materials.add_kapton _ _ _ _ _ _ _) as [msg | item] eqn:Hsaved;
    [vm_compute in Hsaved; discriminate |].
  exists item. split; [reflexivity |].
  assert (Hrate : 0 < qc 0.8) by reflexivity.
  destruct (@added_kapton_cost PlainText.plain_text Materials.ascii_strip
              _ _ _ _ _ _ item (qc 0.8) Hrate Hsaved)
    as (_ & Hshown & Hpage & _).
  rewrite Hshown, Hpage. split; [f_equal; qc_eval | reflexivity].
Defined.

Lemma added_packaging_unit_cost_witness :
  exists item,
    Materials.add_frame Materials.ascii_strip "FR2" "Carbon frame" (qc 5)
      Materials.USD "" = Materials.Saved item
    /\ @CostPackaging.get_unit_cost_gbp PlainText.plain_text item (qc 0.8)
       = Ok (qc 4)
    /\ @CostPackaging.of_type PlainText.plain_text [item] "frame" = [item].
Proof.
  destruct (Materials.add_frame _ _ _ _ _ _) as [msg | item] eqn:Hsaved;
    [vm_compute in Hsaved; discriminate |].
  exists item. split; [reflexivity |].
  destruct (@added_packaging_unit_cost PlainText.plain_text
              Materials.ascii_strip "FR2" "Carbon frame" 0 (qc 5)
              Materials.USD "" item "frame" (qc 0.8)
              (or_introl (conj Hsaved eq_refl)))
    as (_ & Hpage & _ & Hfiled).
  rewrite Hpage, Hfiled. split; [f_equal; qc_eval | reflexivity].
Defined.

Lemma added_foam_cost_witness :
  exists item,
    Materials.add_foam Materials.ascii_strip "F3b" "Thin foam" (qc 3.0) 10
      (qc 30) Materials.GBP "" = Materials.Saved item
    /\ @CostPackaging.get_foam_cost_per_piece PlainText.plain_text item
         (qc 0.8) = Ok (qc 3)
    /\ @CostPackaging.foam_thickness PlainText.plain_text item
       = Ok (qc 3.0).
Proof.
  destruct (Materials.add_foam _ _ _ _ _ _ _ _) as [msg | item] eqn:Hsaved;
    [vm_compute in Hsaved; discriminate |].
  exists item. split; [reflexivity |].
  assert (Hrate : 0 < qc 0.8) by reflexivity.
  destruct (@added_foam_cost PlainText.plain_text Materials.ascii_strip
              _ _ _ _ _ _ _ item (qc 0.8) Hrate Hsaved)
    as (_ & _ & Hpage & _ & _ & Hthickness).
  rewrite Hpage, Hthickness. split; [f_equal; qc_eval | reflexivity].
Defined.

Lemma added_silver_cost_witness :
  exists item,
    Materials.add_silver Materials.ascii_strip "Ag_3mm" "Silver 3 mm"
      (qc 3) (qc 0.05) (qc 10) (qc 1) Materials.USD "" = Materials.Saved item
    /\ @CostSilver.get_silver_cost_per_mm PlainText.plain_text item (qc 0.8)
       = Ok (qc 0.0012).
Proof.
  destruct (Materials.add_silver _ _ _ _ _ _ _ _ _) as [msg | item]
    eqn:Hsaved; [vm_compute in Hsaved; discriminate |].
  exists item. split; [reflexivity |].
  assert (Hrate : 0 < qc 0.8) by reflexivity.
  destruct (@added_silver_cost PlainText.plain_text Materials.ascii_strip
              _ _ _ _ _ _ _ _ item (qc 0.8) Hrate Hsaved)
    as (_ & _ & Hpage & _).
  rewrite Hpage. f_equal; qc_eval.
Defined.

(** ** The product's string length and the base length of the cost pages *)

Section Product_length.
Context `{PyText}.

(** X30.  For a design that carries the geometry of the product
    configuration: whenever the product has at least one cell per string,
    the base length that the Cost Summary page and the Home page compute
    for that many cells is the product's total string length, as the Cost
    overview shows it; and with a geometry that is not negative the total
    string length is never negative, whatever the number of cells. *)
Theorem string_length_is_base_length (product : Model.Product)
    (design : pydict) :
  py_float (get_or design "cell_height_mm" (PFloat 0))
  = Ok (Model.cell_height_mm product) ->
  py_float (get_or design "gap_between_cells_mm" (PFloat 0))
  = Ok (Model.gap_between_cells_mm product) ->
  py_float (get_or design "positive_end_gap_mm" (PFloat 0))
  = Ok (Model.positive_end_gap_mm product) ->
  py_float (get_or design "negative_end_gap_mm" (PFloat 0))
  = Ok (Model.negative_end_gap_mm product) ->
  let length_mm := Model.total_string_length_mm product in
  ((0 < Model.cells_per_string product)%Z ->
   CostSummary.base_length_mm design (Model.cells_per_string product)
   = Ok length_mm
   /\ Home._compute_base_length_m design (Model.cells_per_string product)
      = Ok (length_mm, length_mm / qc 1000))
  /\ (0 <= Model.cell_height_mm product ->
      0 <= Model.gap_between_cells_mm product ->
      0 <= Model.positive_end_gap_mm product ->
      0 <= Model.negative_end_gap_mm product ->
      0 <= length_mm).
Proof.
  intros Hh Hg Hp Hn length_mm. split.
  - intros Hcells.
    unfold CostSummary.base_length_mm, Home._compute_base_length_m.
    rewrite Hh, Hg, Hp, Hn. cbn [mbind res_bind].
    assert (Hlength :
      Model.cell_height_mm product * of_Z (Model.cells_per_string product)
      + Model.gap_between_cells_mm product
        * of_Z (Z.max (Model.cells_per_string product - 1) 0)
      + Model.positive_end_gap_mm product + Model.negative_end_gap_mm product
      = length_mm).
    { unfold length_mm, Model.total_string_length_mm.
      rewrite (Z.max_l (Model.cells_per_string product) 0) by lia. ring. }
    by rewrite Hlength.
  - intros Hh0 Hg0 Hp0 Hn0. unfold length_mm, Model.total_string_length_mm.
    assert (Hcells : 0 <= of_Z (Z.max (Model.cells_per_string product) 0))
      by (apply of_Z_nonneg; lia).
    assert (Hgaps :
      0 <= of_Z (Z.max (Z.max (Model.cells_per_string product) 0 - 1) 0))
      by (apply of_Z_nonneg; lia).
    pose proof (Qc_mult_nonneg _ _ Hcells Hh0) as Hcell_part.
    pose proof (Qc_mult_nonneg _ _ Hgaps Hg0) as Hgap_part.
    revert Hcell_part Hgap_part.
    generalize (of_Z (Z.max (Model.cells_per_string product) 0)
                * Model.cell_height_mm product).
    generalize (of_Z (Z.max (Z.max (Model.cells_per_string product) 0 - 1) 0)
                * Model.gap_between_cells_mm product).
    intros gap_part cell_part Hcell_part Hgap_part.
    clear Hcells Hgaps Hh Hg Hp Hn length_mm. qc_lra.
Qed.

End Product_length.

(** A run of X30: the default product and the example design have the
    same geometry; 20 cells give 161 mm. *)
Lemma string_length_is_base_length_witness :
  @CostSummary.base_length_mm PlainText.plain_text Examples.design_20 20
  = Ok (qc 161)
  /\ Model.total_string_length_mm Model.get_default_product = qc 161.
Proof.
  destruct (@string_length_is_base_length PlainText.plain_text
              Model.get_default_product Examples.design_20
              eq_refl eq_refl eq_refl eq_refl) as [Hbase _].
  destruct (Hbase eq_refl) as [Hsummary _].
  assert (Hlength :
    Model.total_string_length_mm Model.get_default_product = qc 161)
    by qc_eval.
  rewrite <- Hlength. split; [exact Hsummary | reflexivity].
Defined.
